(** * Agent deployment, test and chat scripts: a shallow embedding

    The six scripts orchestrate an agent-hosting service, a secret store,
    configuration files and a console.  Every external collaborator is an
    oracle of the [World]; a script is a computation in a small monad that
    threads the chronological log of the calls it has issued and propagates
    Python exceptions.  Effects issued before an exception is raised stay in
    the log, as they do in Python. *)

From Stdlib Require Import String Ascii List ZArith Lia Bool Arith.
Import ListNotations.
Open Scope string_scope.
Open Scope list_scope.
Set Warnings "-register-all".

(** ** Python values, exceptions and strings *)

Module Py.

(** The exception classes the scripts raise or catch by name; everything
    else the scripts only ever catch as [Exception]. *)
Inductive ExnClass :=
| ValueError | KeyError | TypeError | AttributeError | FileNotFoundError
| RuntimeError | RequestException | EOFError | OtherException.

Record Exn := mkExn { exn_class : ExnClass; exn_msg : string }.

Inductive Res (A : Type) :=
| Ok (a : A)
| Raise (e : Exn).
Arguments Ok {A} a.
Arguments Raise {A} e.

Definition ExnClass_eqb (a b : ExnClass) : bool :=
  match a, b with
  | ValueError, ValueError | KeyError, KeyError | TypeError, TypeError
  | AttributeError, AttributeError | FileNotFoundError, FileNotFoundError
  | RuntimeError, RuntimeError | RequestException, RequestException
  | EOFError, EOFError | OtherException, OtherException => true
  | _, _ => false
  end.

(** Values produced by [json.load].  Numbers are kept integral: no script
    computes with them. *)
Inductive Json :=
| JNull
| JBool (b : bool)
| JNum (n : Z)
| JStr (s : string)
| JArr (xs : list Json)
| JObj (fields : list (string * Json)).

(** [a == b] on loaded values, structurally. *)
Fixpoint Json_eqb (a b : Json) : bool :=
  match a, b with
  | JNull, JNull => true
  | JBool x, JBool y => Bool.eqb x y
  | JNum x, JNum y => (x =? y)%Z
  | JStr x, JStr y => (x =? y)%string
  | JArr xs, JArr ys =>
      (fix go (xs ys : list Json) : bool :=
         match xs, ys with
         | [], [] => true
         | x :: xs', y :: ys' => Json_eqb x y && go xs' ys'
         | _, _ => false
         end) xs ys
  | JObj fs, JObj gs =>
      (fix go (fs gs : list (string * Json)) : bool :=
         match fs, gs with
         | [], [] => true
         | (k, x) :: fs', (k', y) :: gs' =>
             (k =? k')%string && Json_eqb x y && go fs' gs'
         | _, _ => false
         end) fs gs
  | _, _ => false
  end.

Fixpoint assoc {V} (k : string) (kvs : list (string * V)) : option V :=
  match kvs with
  | [] => None
  | (k', v) :: rest => if k' =? k then Some v else assoc k rest
  end.

(** [d[key] = value] on a dict: replace in place, else append. *)
Fixpoint assoc_set {V} (k : string) (v : V) (kvs : list (string * V))
  : list (string * V) :=
  match kvs with
  | [] => [(k, v)]
  | (k', v') :: rest =>
      if k' =? k then (k, v) :: rest else (k', v') :: assoc_set k v rest
  end.

(** [d.update(other)]. *)
Definition assoc_update {V} (d other : list (string * V)) : list (string * V) :=
  fold_left (fun acc kv => assoc_set (fst kv) (snd kv) acc) other d.

(** [value[key]] with a string key. *)
Definition getitem (v : Json) (key : string) : Res Json :=
  match v with
  | JObj fields =>
      match assoc key fields with
      | Some x => Ok x
      | None => Raise (mkExn KeyError key)
      end
  | _ => Raise (mkExn TypeError "indices must be integers or not subscriptable")
  end.

(** [value.get(key, default)]. *)
Definition get_default (v : Json) (key : string) (default : Json) : Res Json :=
  match v with
  | JObj fields =>
      match assoc key fields with
      | Some x => Ok x
      | None => Ok default
      end
  | _ => Raise (mkExn AttributeError "object has no attribute 'get'")
  end.

(** The elements a [for] loop draws from a value. *)
Definition iter_json (v : Json) : Res (list Json) :=
  match v with
  | JArr xs => Ok xs
  | JObj fields => Ok (map (fun kv => JStr (fst kv)) fields)
  | JStr s => Ok (map (fun c => JStr (String c EmptyString)) (list_ascii_of_string s))
  | _ => Raise (mkExn TypeError "object is not iterable")
  end.

(** Truth value of a value in [if v:] / [if not v:]. *)
Definition truthy (v : Json) : bool :=
  match v with
  | JNull => false
  | JBool b => b
  | JNum n => negb (n =? 0)%Z
  | JStr s => negb (s =? "")
  | JArr xs => match xs with [] => false | _ => true end
  | JObj fs => match fs with [] => false | _ => true end
  end.

Definition truthy_str (s : string) : bool := negb (s =? "").

(** [s == v] for a [str] on the left. *)
Definition str_eq (s : string) (v : Json) : bool :=
  match v with
  | JStr t => s =? t
  | _ => false
  end.

(** Console lines are strings of code points below 256.  [isspace] on that
    range: TAB..CR, FS..US, SPACE, NEL and NBSP. *)
Definition isspace (c : ascii) : bool :=
  let n := nat_of_ascii c in
  (((9 <=? n) && (n <=? 13)) || ((28 <=? n) && (n <=? 32))
   || (n =? 133) || (n =? 160))%nat.

Fixpoint lstrip (s : string) : string :=
  match s with
  | EmptyString => EmptyString
  | String c rest => if isspace c then lstrip rest else s
  end.

Fixpoint rstrip (s : string) : string :=
  match s with
  | EmptyString => EmptyString
  | String c rest =>
      match rstrip rest with
      | EmptyString => if isspace c then EmptyString else String c EmptyString
      | r => String c r
      end
  end.

(** [s.strip()]. *)
Definition strip (s : string) : string := rstrip (lstrip s).

(** [c.lower()] below code point 256: A..Z and the Latin-1 capitals
    (0xC0..0xDE without the multiplication sign 0xD7) move up by 32. *)
Definition lower_char (c : ascii) : ascii :=
  let n := nat_of_ascii c in
  if (((65 <=? n) && (n <=? 90))
      || ((192 <=? n) && (n <=? 222) && negb (n =? 215)))%nat
  then ascii_of_nat (n + 32) else c.

Fixpoint lower (s : string) : string :=
  match s with
  | EmptyString => EmptyString
  | String c rest => String (lower_char c) (lower rest)
  end.

(** [x in xs] for a list of strings. *)
Definition str_in (x : string) (xs : list string) : bool :=
  existsb (String.eqb x) xs.

(** [s.startswith(prefix)]. *)
Fixpoint startswith (s prefix : string) : bool :=
  match prefix, s with
  | EmptyString, _ => true
  | String p prefix', String c s' => Ascii.eqb c p && startswith s' prefix'
  | String _ _, EmptyString => false
  end.

(** [needle in hay] for two strings. *)
Fixpoint str_contains (needle hay : string) : bool :=
  startswith hay needle
  || match hay with
     | EmptyString => false
     | String _ rest => str_contains needle rest
     end.

(** [s.split(sep)] for a separator of one character. *)
Fixpoint split (sep : ascii) (s : string) : list string :=
  match s with
  | EmptyString => [EmptyString]
  | String c rest =>
      if Ascii.eqb c sep then EmptyString :: split sep rest
      else
        match split sep rest with
        | piece :: pieces => String c piece :: pieces
        | [] => [String c EmptyString]
        end
  end.

(** [sep.join(pieces)]. *)
Fixpoint join (sep : string) (pieces : list string) : string :=
  match pieces with
  | [] => EmptyString
  | [piece] => piece
  | piece :: rest => piece ++ sep ++ join sep rest
  end.

(** [xs[-2]]. *)
Definition penultimate {A} (xs : list A) : Res A :=
  match rev xs with
  | _ :: x :: _ => Ok x
  | _ => Raise (mkExn OtherException "list index out of range")
  end.

End Py.
Export Py.


(** ** The SDK objects the scripts handle, and the world they talk to *)

Module Sdk.

Record Agent := mkAgent
  { a_id : string; a_name : string; a_model : string; a_created_at : string }.

Record Thread := mkThread { t_id : string }.

Record Message := mkMessage
  { m_id : string; m_role : string; m_text_messages : list string }.

(** [isinstance(tool_call, RequiredMcpToolCall)] separates the two classes
    of pending tool call. *)
Inductive ToolCallClass := RequiredMcpToolCall | RequiredFunctionToolCall.

Record RequiredToolCall := mkToolCall
  { tc_class : ToolCallClass; tc_id : string; tc_name : string;
    tc_arguments : string }.

Definition is_mcp_call (c : RequiredToolCall) : bool :=
  match tc_class c with RequiredMcpToolCall => true | _ => false end.

(** What [run.required_action] may hold.  The scripts tell the shapes apart
    with [isinstance(_, SubmitToolApprovalAction)],
    [hasattr(_, 'submit_tool_approval')] and
    [hasattr(_, 'submit_mcp_tool_approval')]. *)
Inductive RequiredAction :=
| SubmitToolApprovalAction (tool_calls : list RequiredToolCall)
| McpToolApprovalShape (required_mcp_tool_calls : list RequiredToolCall)
| SubmitToolOutputsAction (tool_calls : list RequiredToolCall).

Record Run := mkRun
  { r_id : string; r_status : string;
    r_required_action : option RequiredAction;
    r_last_error : option string }.

Definition Headers := list (string * string).

(** [ToolApproval(tool_call_id=..., approve=..., headers=...)]; the GitHub
    chat script passes the id as [call_id=] and no headers. *)
Record ToolApproval := mkApproval
  { ta_tool_call_id : string; ta_approve : bool; ta_headers : option Headers }.

Record McpTool := mkMcpTool
  { server_label : Json; server_url : Json; allowed_tools : Json;
    headers : Headers; approval_mode : option string }.

(** [McpTool(server_label=..., server_url=..., allowed_tools=...)]. *)
Definition new_McpTool (label url tools : Json) : McpTool :=
  mkMcpTool label url tools [] None.

(** [mcp_tool.update_headers(key, value)]. *)
Definition update_headers (key value : string) (t : McpTool) : McpTool :=
  mkMcpTool (server_label t) (server_url t) (allowed_tools t)
            (assoc_set key value (headers t)) (approval_mode t).

(** [mcp_tool.set_approval_mode(mode)]. *)
Definition set_approval_mode (mode : string) (t : McpTool) : McpTool :=
  mkMcpTool (server_label t) (server_url t) (allowed_tools t)
            (headers t) (Some mode).

(** [mcp_tool.allow_tool(tool)]: appended unless already allowed. *)
Definition allow_tool (tool : Json) (t : McpTool) : McpTool :=
  mkMcpTool (server_label t) (server_url t)
            (match allowed_tools t with
             | JArr xs =>
                 if existsb (Json_eqb tool) xs then JArr xs
                 else JArr (xs ++ [tool])
             | other => other
             end)
            (headers t) (approval_mode t).

(** A paged iterable: it yields [items] and then, when [failure] is set,
    raises while fetching the next page. *)
Record Paged (A : Type) := mkPaged { items : list A; failure : option Exn }.
Arguments mkPaged {A} items failure.
Arguments items {A} p.
Arguments failure {A} p.

Inductive SortOrder := ASCENDING | DESCENDING.

(** Every call a script issues to a collaborator, with its arguments. *)
Inductive Call :=
| CPathExists (path : string)
| CReadJson (path : string)
| CGetProjectConfig
| CGetAgentConfig (name : string)
| CLoadConfig
| CGetMcpApiKey
| CFindAgentByName (agent_name : Json)
| CGetSecret (key_vault_name secret_name : Json)
| CHttpGet (url : Json)
| CProjectClient (endpoint : Json)
| CAgentsList
| CGetAgent (agent_id : string)
| CCreateAgent (model name instructions : Json) (tool : McpTool)
| CUpdateAgent (agent_id : string) (model name instructions : Json)
    (tool : McpTool)
| CThreadsCreate
| CMessagesCreate (thread_id role : string) (content : string)
| CRunsCreate (thread_id agent_id : string) (tool : McpTool)
| CRunsGet (thread_id run_id : string)
| CRunsCancel (thread_id run_id : string)
| CSubmitToolOutputs (thread_id run_id : string)
    (tool_approvals : list ToolApproval)
| CSubmitToolApproval (thread_id run_id : string)
    (tool_approvals : list ToolApproval)
| CMessagesList (thread_id : string) (order : SortOrder) (limit : option nat).

(** The collaborators.  The helpers the test and chat scripts import from
    [config_utils], a module that is not among the sources, are oracles as
    well.  Each oracle answers from the history of calls so
    far, the call being answered last; the answer is a value or a raised
    exception.  A history determines the instant, so an oracle may change
    its answers over time as a live service does. *)
Record World := mkWorld
  { path_exists : list Call -> bool;
    read_json : list Call -> Res (list (string * Json));
      (* configuration files hold JSON objects *)
    get_project_config : list Call -> Res Json;
    get_agent_config : list Call -> Res Json;
    load_config_utils : list Call -> Res Json;
    get_mcp_api_key : list Call -> Res (option string);
    utils_find_agent_by_name : list Call -> Res (option string);
    get_secret : list Call -> Res (option string);
    http_get : list Call -> Res nat;
    project_client : list Call -> Res unit;
    agents_list : list Call -> Res (Paged Agent);
    get_agent : list Call -> Res Agent;
    create_agent : list Call -> Res Agent;
    update_agent : list Call -> Res Agent;
    threads_create : list Call -> Res Thread;
    messages_create : list Call -> Res Message;
    runs_create : list Call -> Res Run;
    runs_get : list Call -> Res Run;
    runs_cancel : list Call -> Res unit;
    runs_submit_tool_outputs : list Call -> Res unit;
    runs_submit_tool_approval : list Call -> Res unit;
    messages_list : list Call -> Res (Paged Message) }.

(** What [input()] delivers: a line, an exception such as [EOFError], or
    the operator's interrupt. *)
Inductive ConsoleEvent :=
| Line (s : string)
| InputError (e : Exn)
| Interrupt.

(** How a script ends: [sys.exit(code)], death by an uncaught
    [KeyboardInterrupt], or still blocked in [input()] when the console
    events given to the model are used up. *)
Inductive Outcome :=
| Exit (code : Z)
| Interrupted
| AwaitingInput.

(** *** Computations: call log and exceptions *)

(** What running a piece of script gives: a value, a raised exception, or
    nothing yet because a loop of the model was cut off by its bound on
    passes. *)
Inductive Result (A : Type) :=
| Returned (a : A)
| Raised (e : Exn)
| Unfinished.
Arguments Returned {A} a.
Arguments Raised {A} e.
Arguments Unfinished {A}.

Definition M (A : Type) : Type := list Call -> Result A * list Call.

Definition ret {A} (a : A) : M A := fun log => (Returned a, log).

Definition bind {A B} (m : M A) (k : A -> M B) : M B :=
  fun log =>
    match m log with
    | (Returned a, log') => k a log'
    | (Raised e, log') => (Raised e, log')
    | (Unfinished, log') => (Unfinished, log')
    end.

Definition raise {A} (e : Exn) : M A := fun log => (Raised e, log).

Definition lift {A} (r : Res A) : M A :=
  fun log =>
    match r with
    | Ok a => (Returned a, log)
    | Raise e => (Raised e, log)
    end.

(** [try: m  except <classes> as e: handler e], where [catches] tells
    which exceptions the clause names. *)
Definition try_except_when {A} (catches : Exn -> bool) (m : M A)
    (handler : Exn -> M A) : M A :=
  fun log =>
    match m log with
    | (Raised e, log') =>
        if catches e then handler e log' else (Raised e, log')
    | other => other
    end.

(** [try: m  except Exception as e: handler e]. *)
Definition try_except {A} (m : M A) (handler : Exn -> M A) : M A :=
  try_except_when (fun _ => true) m handler.

(** Issue a call: it enters the log, then the oracle answers. *)
Definition call {A} (c : Call) (oracle : list Call -> Res A) : M A :=
  fun log => let log' := log ++ [c] in lift (oracle log') log'.

Declare Scope py_scope.
Delimit Scope py_scope with py.
Notation "x <- m ;; k" := (bind m (fun x => k))
  (at level 61, m at next level, right associativity) : py_scope.
Notation "m ;; k" := (bind m (fun _ => k))
  (at level 61, right associativity) : py_scope.
Open Scope py_scope.

(** Loops.  One pass of a loop body either goes round again with a new
    state or leaves the loop with a result. *)
Inductive Ctl (St R : Type) :=
| Next (s : St)
| Leave (r : R).
Arguments Next {St R} s.
Arguments Leave {St R} r.

(** At most [fuel] passes; [Unfinished] when the loop wants another. *)
Fixpoint loop {St R} (body : St -> M (Ctl St R)) (fuel : nat) (s : St)
  : M R :=
  match fuel with
  | O => fun log => (Unfinished, log)
  | S fuel' =>
      c <- body s ;;
      match c with
      | Next s' => loop body fuel' s'
      | Leave r => ret r
      end
  end.

(** The calls a computation adds to a log. *)
Definition issued {A} (m : M A) (log : list Call) : list Call :=
  skipn (length log) (snd (m log)).

Definition is_runs_get (c : Call) : bool :=
  match c with CRunsGet _ _ => true | _ => false end.

Definition is_runs_cancel (c : Call) : bool :=
  match c with CRunsCancel _ _ => true | _ => false end.

Definition is_submission (c : Call) : bool :=
  match c with
  | CSubmitToolOutputs _ _ _ | CSubmitToolApproval _ _ _ => true
  | _ => false
  end.

Definition is_get_secret (c : Call) : bool :=
  match c with CGetSecret _ _ => true | _ => false end.

Definition is_threads_create (c : Call) : bool :=
  match c with CThreadsCreate => true | _ => false end.

(** The status fetches in a log. *)
Definition fetches (log : list Call) : nat := length (filter is_runs_get log).

(** A world in which every collaborator is out of reach: each oracle
    raises.  Concrete worlds below override the oracles they script. *)
Definition unreachable : Exn := mkExn OtherException "unreachable".

Definition offline : World :=
  mkWorld (fun _ => false) (fun _ => Raise unreachable)
          (fun _ => Raise unreachable) (fun _ => Raise unreachable)
          (fun _ => Raise unreachable) (fun _ => Raise unreachable)
          (fun _ => Raise unreachable) (fun _ => Raise unreachable)
          (fun _ => Raise unreachable) (fun _ => Raise unreachable)
          (fun _ => Raise unreachable) (fun _ => Raise unreachable)
          (fun _ => Raise unreachable) (fun _ => Raise unreachable)
          (fun _ => Raise unreachable) (fun _ => Raise unreachable)
          (fun _ => Raise unreachable) (fun _ => Raise unreachable)
          (fun _ => Raise unreachable) (fun _ => Raise unreachable)
          (fun _ => Raise unreachable) (fun _ => Raise unreachable).

Definition with_agents_list (f : list Call -> Res (Paged Agent)) (w : World)
  : World :=
  mkWorld (path_exists w) (read_json w) (get_project_config w)
          (get_agent_config w) (load_config_utils w) (get_mcp_api_key w)
          (utils_find_agent_by_name w) (get_secret w) (http_get w)
          (project_client w) f (get_agent w) (create_agent w)
          (update_agent w) (threads_create w) (messages_create w)
          (runs_create w) (runs_get w) (runs_cancel w)
          (runs_submit_tool_outputs w) (runs_submit_tool_approval w)
          (messages_list w).

(** The service accepts every cancellation and every submitted batch. *)
Definition accepting (w : World) : World :=
  mkWorld (path_exists w) (read_json w) (get_project_config w)
          (get_agent_config w) (load_config_utils w) (get_mcp_api_key w)
          (utils_find_agent_by_name w) (get_secret w) (http_get w)
          (project_client w) (agents_list w) (get_agent w) (create_agent w)
          (update_agent w) (threads_create w) (messages_create w)
          (runs_create w) (runs_get w) (fun _ => Ok tt)
          (fun _ => Ok tt) (fun _ => Ok tt)
          (messages_list w).

Definition with_runs_get (f : list Call -> Res Run) (w : World) : World :=
  mkWorld (path_exists w) (read_json w) (get_project_config w)
          (get_agent_config w) (load_config_utils w) (get_mcp_api_key w)
          (utils_find_agent_by_name w) (get_secret w) (http_get w)
          (project_client w) (agents_list w) (get_agent w) (create_agent w)
          (update_agent w) (threads_create w) (messages_create w)
          (runs_create w) f (runs_cancel w)
          (runs_submit_tool_outputs w) (runs_submit_tool_approval w)
          (messages_list w).

(** [sys.exit(main())] started on an empty log: an exception nobody caught
    ends the interpreter with status 1. *)
Definition run_script (main : M Outcome) : option Outcome * list Call :=
  match main [] with
  | (Returned o, log) => (Some o, log)
  | (Raised _, log) => (Some (Exit 1), log)
  | (Unfinished, log) => (None, log)
  end.

End Sdk.
Export Sdk.

(** ** infrastructure/agents/mcp-github-agent.py *)

Module McpGithubAgent.
Section Script.
Variable w : World.

Definition CONFIG_FILE : string := "config/config.json".

Definition load_config : M Json :=
  present <- call (CPathExists CONFIG_FILE) (fun h => Ok (path_exists w h)) ;;
  if negb present
  then raise (mkExn FileNotFoundError "Configuration file not found")
  else
    fields <- call (CReadJson CONFIG_FILE) (read_json w) ;;
    ret (JObj fields).

(** The [for agent in agents] loop with its early [return agent.id]; when
    the listing is used up it returns [None], unless fetching the next page
    raises. *)
Fixpoint scan_agents (agents : list Agent) (failure : option Exn)
    (agent_name : Json) : Res (option string) :=
  match agents with
  | [] =>
      match failure with
      | Some e => Raise e
      | None => Ok None
      end
  | agent :: rest =>
      if str_eq (a_name agent) agent_name then Ok (Some (a_id agent))
      else scan_agents rest failure agent_name
  end.

Definition find_agent_by_name (agent_name : Json) : M (option string) :=
  try_except
    (agents <- call CAgentsList (agents_list w) ;;
     lift (scan_agents (items agents) (failure agents) agent_name))
    (fun _ => ret None).

(** [if existing_agent_id:] *)
Definition found (agent_id : option string) : bool :=
  match agent_id with
  | Some s => truthy_str s
  | None => false
  end.

(** From "Initialize MCP tool" to [return 0]. *)
Definition deploy (agent_config project_config : Json)
    (existing_agent_id : option string) : M Outcome :=
  mcpServer <- lift (getitem agent_config "mcpServer") ;;
  label <- lift (getitem mcpServer "label") ;;
  mcpServer <- lift (getitem agent_config "mcpServer") ;;
  url <- lift (getitem mcpServer "url") ;;
  let mcp_tool := new_McpTool label url (JArr []) in
  tools <- lift (get_default agent_config "allowedTools" (JArr [])) ;;
  tools <- lift (iter_json tools) ;;
  let mcp_tool := fold_left (fun t tool => allow_tool tool t) tools mcp_tool in
  _ <- lift (getitem agent_config "name") ;;
  agent <-
    (if found existing_agent_id then
       model <- lift (getitem project_config "modelDeployment") ;;
       name <- lift (getitem agent_config "name") ;;
       instructions <- lift (getitem agent_config "instructions") ;;
       call (CUpdateAgent (match existing_agent_id with Some s => s | None => "" end)
                          model name instructions mcp_tool)
            (update_agent w)
     else
       model <- lift (getitem project_config "modelDeployment") ;;
       name <- lift (getitem agent_config "name") ;;
       instructions <- lift (getitem agent_config "instructions") ;;
       call (CCreateAgent model name instructions mcp_tool) (create_agent w)) ;;
  ret (Exit 0).

(** The body of [with project_client:]. *)
Definition session (console : list ConsoleEvent)
    (agent_config project_config : Json) : M Outcome :=
  _ <- lift (getitem agent_config "name") ;;
  name <- lift (getitem agent_config "name") ;;
  existing_agent_id <- find_agent_by_name name ;;
  if found existing_agent_id then
    match console with
    | [] => ret AwaitingInput
    | Interrupt :: _ => ret Interrupted
    | InputError e :: _ => raise e
    | Line answer :: _ =>
        if lower (strip answer) =? "n" then ret (Exit 0)
        else deploy agent_config project_config existing_agent_id
    end
  else deploy agent_config project_config existing_agent_id.

Definition main (console : list ConsoleEvent) : M Outcome :=
  loaded <-
    try_except
      (config <- load_config ;;
       agents <- lift (getitem config "agents") ;;
       agent_config <- lift (getitem agents "github") ;;
       project_config <- lift (getitem config "project") ;;
       ret (Some (agent_config, project_config)))
      (fun _ => ret None) ;;
  match loaded with
  | None => ret (Exit 1)
  | Some (agent_config, project_config) =>
      _ <- lift (getitem project_config "endpoint") ;;
      _ <- lift (getitem project_config "modelDeployment") ;;
      _ <- lift (getitem agent_config "name") ;;
      mcpServer <- lift (getitem agent_config "mcpServer") ;;
      _ <- lift (getitem mcpServer "url") ;;
      mcpServer <- lift (getitem agent_config "mcpServer") ;;
      _ <- lift (getitem mcpServer "label") ;;
      endpoint <- lift (getitem project_config "endpoint") ;;
      call (CProjectClient endpoint) (project_client w) ;;
      try_except (session console agent_config project_config)
                 (fun _ => ret (Exit 1))
  end.

End Script.
End McpGithubAgent.

(** ** infrastructure/agents/mcp-sql-agent.py *)

Module McpSqlAgent.
Section Script.
Variable w : World.

Definition has_key (k : string) (d : list (string * Json)) : bool :=
  match assoc k d with Some _ => true | None => false end.

(** One deployment-output file merged into [config]. *)
Definition merge_outputs (config data : list (string * Json))
  : Res (list (string * Json)) :=
  if has_key "infrastructure" data || has_key "mcp" data then
    match assoc "infrastructure" config with
    | None => Ok (assoc_set "infrastructure" (JObj (assoc_update [] data)) config)
    | Some (JObj infra) =>
        Ok (assoc_set "infrastructure" (JObj (assoc_update infra data)) config)
    | Some _ => Raise (mkExn AttributeError "object has no attribute 'update'")
    end
  else Ok (assoc_update config data).

Fixpoint merge_files (files : list string) (config : list (string * Json))
  : M (list (string * Json)) :=
  match files with
  | [] => ret config
  | file :: rest =>
      present <- call (CPathExists file) (fun h => Ok (path_exists w h)) ;;
      if present then
        data <- call (CReadJson file) (read_json w) ;;
        config' <- lift (merge_outputs config data) ;;
        merge_files rest config'
      else merge_files rest config
  end.

Definition load_config : M Json :=
  let config_file := "config/config.json" in
  present <- call (CPathExists config_file) (fun h => Ok (path_exists w h)) ;;
  if present then
    fields <- call (CReadJson config_file) (read_json w) ;;
    ret (JObj fields)
  else
    let deployment_files :=
      ["config/mcp-sql-server-deployment-outputs.json";
       "config/foundry-deployment-outputs.json"] in
    config <- merge_files deployment_files [] ;;
    match config with
    | [] => raise (mkExn FileNotFoundError "No configuration found")
    | _ => ret (JObj config)
    end.

Definition get_mcp_api_key_from_keyvault (key_vault_name secret_name : Json)
  : M (option string) :=
  try_except
    (call (CGetSecret key_vault_name secret_name) (get_secret w))
    (fun e => raise (mkExn RuntimeError
                           "Failed to retrieve API key from Key Vault")).

Fixpoint scan_agents (agents : list Agent) (failure : option Exn)
    (agent_name : Json) : Res (option string) :=
  match agents with
  | [] =>
      match failure with
      | Some e => Raise e
      | None => Ok None
      end
  | agent :: rest =>
      if str_eq (a_name agent) agent_name then Ok (Some (a_id agent))
      else scan_agents rest failure agent_name
  end.

Definition find_agent_by_name (agent_name : Json) : M (option string) :=
  try_except
    (agents <- call CAgentsList (agents_list w) ;;
     lift (scan_agents (items agents) (failure agents) agent_name))
    (fun _ => ret None).

Definition found (agent_id : option string) : bool :=
  match agent_id with
  | Some s => truthy_str s
  | None => false
  end.

(** "Get API key if required": [None] stands for the [return 1] of the
    handler, [Some api_key] for falling through with [api_key] set. *)
Definition get_api_key_if_required (config agent_config : Json)
  : M (option (option string)) :=
  mcpServer <- lift (getitem agent_config "mcpServer") ;;
  authType <- lift (getitem mcpServer "authType") ;;
  if Json_eqb authType (JStr "apiKey") then
    try_except
      (infra_config <- lift (get_default config "infrastructure" (JObj [])) ;;
       mcp_config <- lift (get_default infra_config "mcp" (JObj [])) ;;
       key_vault_config <- lift (get_default mcp_config "keyVault" (JObj [])) ;;
       key_vault_name <- lift (get_default key_vault_config "name" JNull) ;;
       secret_name <-
         lift (get_default key_vault_config "apiKeySecretName"
                           (JStr "mcp-api-key")) ;;
       if negb (truthy key_vault_name)
       then raise (mkExn ValueError "Key Vault name not found in config.json")
       else
         api_key <- get_mcp_api_key_from_keyvault key_vault_name secret_name ;;
         ret (Some api_key))
      (fun _ => ret None)
  else ret (Some None).

(** "Initialize MCP tool" and "Set API key header if required". *)
Definition init_mcp_tool (agent_config : Json) (api_key : option string)
  : M McpTool :=
  mcpServer <- lift (getitem agent_config "mcpServer") ;;
  label <- lift (getitem mcpServer "label") ;;
  mcpServer <- lift (getitem agent_config "mcpServer") ;;
  url <- lift (getitem mcpServer "url") ;;
  tools <- lift (get_default agent_config "allowedTools" (JArr [])) ;;
  let mcp_tool := new_McpTool label url tools in
  ret (match api_key with
       | Some key =>
           if truthy_str key then update_headers "X-API-Key" key mcp_tool
           else mcp_tool
       | None => mcp_tool
       end).

Definition deploy (agent_config project_config : Json)
    (api_key : option string) (existing_agent_id : option string)
  : M Outcome :=
  mcp_tool <- init_mcp_tool agent_config api_key ;;
  _ <- lift (getitem agent_config "name") ;;
  agent <-
    (if found existing_agent_id then
       model <- lift (getitem project_config "modelDeployment") ;;
       name <- lift (getitem agent_config "name") ;;
       instructions <- lift (getitem agent_config "instructions") ;;
       call (CUpdateAgent (match existing_agent_id with Some s => s | None => "" end)
                          model name instructions mcp_tool)
            (update_agent w)
     else
       model <- lift (getitem project_config "modelDeployment") ;;
       name <- lift (getitem agent_config "name") ;;
       instructions <- lift (getitem agent_config "instructions") ;;
       call (CCreateAgent model name instructions mcp_tool) (create_agent w)) ;;
  ret (Exit 0).

Definition session (console : list ConsoleEvent)
    (agent_config project_config : Json) (api_key : option string)
  : M Outcome :=
  _ <- lift (getitem agent_config "name") ;;
  name <- lift (getitem agent_config "name") ;;
  existing_agent_id <- find_agent_by_name name ;;
  if found existing_agent_id then
    match console with
    | [] => ret AwaitingInput
    | Interrupt :: _ => ret Interrupted
    | InputError e :: _ => raise e
    | Line answer :: _ =>
        if lower (strip answer) =? "n" then ret (Exit 0)
        else deploy agent_config project_config api_key existing_agent_id
    end
  else deploy agent_config project_config api_key existing_agent_id.

Definition main (console : list ConsoleEvent) : M Outcome :=
  loaded <-
    try_except
      (config <- load_config ;;
       agents <- lift (getitem config "agents") ;;
       agent_config <- lift (getitem agents "sql") ;;
       project_config <- lift (getitem config "project") ;;
       ret (Some (config, agent_config, project_config)))
      (fun _ => ret None) ;;
  match loaded with
  | None => ret (Exit 1)
  | Some (config, agent_config, project_config) =>
      _ <- lift (getitem project_config "endpoint") ;;
      _ <- lift (getitem project_config "modelDeployment") ;;
      _ <- lift (getitem agent_config "name") ;;
      mcpServer <- lift (getitem agent_config "mcpServer") ;;
      _ <- lift (getitem mcpServer "url") ;;
      mcpServer <- lift (getitem agent_config "mcpServer") ;;
      _ <- lift (getitem mcpServer "label") ;;
      key <- get_api_key_if_required config agent_config ;;
      match key with
      | None => ret (Exit 1)
      | Some api_key =>
          endpoint <- lift (getitem project_config "endpoint") ;;
          call (CProjectClient endpoint) (project_client w) ;;
          try_except (session console agent_config project_config api_key)
                     (fun _ => ret (Exit 1))
      end
  end.

End Script.
End McpSqlAgent.

(** ** test/test-github-agent.py *)

Module TestGithubAgent.

Record Scenario := mkScenario
  { s_name : string; s_query : string; s_description : string }.

Record TestResult := mkTestResult
  { scenario : string; success : bool; response : option string;
    tool_calls : list (string * string) }.

Definition TEST_SCENARIOS : list Scenario :=
  [ mkScenario "Agent Capabilities"
      "What can you do? Please describe your capabilities."
      "Test basic agent response without tool usage";
    mkScenario "Available Tools"
      "What tools do you have available? List them for me."
      "Test agent's awareness of available MCP tools";
    mkScenario "Tool Usage"
      "Please search the Azure REST API specifications for 'authentication' and summarize what you find."
      "Test actual MCP tool invocation" ].

Definition max_attempts : nat := 60.

(** The loop variables [attempt], [run] and [tool_calls_made]. *)
Definition PollState : Type := nat * Run * list (string * string).

Definition attempt_of (st : PollState) : nat := fst (fst st).
Definition run_of (st : PollState) : Run := snd (fst st).

(** [run.status == "requires_action" and
     isinstance(run.required_action, SubmitToolApprovalAction)], with
    [run.required_action.submit_tool_approval.tool_calls] when it holds. *)
Definition approval_calls (run : Run) : option (list RequiredToolCall) :=
  if r_status run =? "requires_action" then
    match r_required_action run with
    | Some (SubmitToolApprovalAction tool_calls) => Some tool_calls
    | _ => None
    end
  else None.

Section Script.
Variable w : World.

Definition check_endpoint_health (url : Json) : M (bool * option nat) :=
  try_except_when
    (fun e => ExnClass_eqb (exn_class e) RequestException)
    (status_code <- call (CHttpGet url) (http_get w) ;;
     ret (true, Some status_code))
    (fun _ => ret (false, None)).

(** One pass of [while run.status in [...]]: the test of the condition and,
    when it holds, the body up to [break] or the end of the body. *)
Definition poll_pass (thread_id : string) (mcp_tool : McpTool)
    (max_attempts : nat) (st : PollState) : M (Ctl PollState PollState) :=
  match st with
  | (attempt, run, tool_calls_made) =>
      if str_in (r_status run) ["queued"; "in_progress"; "requires_action"]
      then
        let attempt := attempt + 1 in
        run <- call (CRunsGet thread_id (r_id run)) (runs_get w) ;;
        match approval_calls run with
        | Some [] =>
            call (CRunsCancel thread_id (r_id run)) (runs_cancel w) ;;
            ret (Leave (attempt, run, tool_calls_made))
        | Some tool_calls =>
            let mcp_calls := filter is_mcp_call tool_calls in
            let tool_calls_made :=
              tool_calls_made
              ++ map (fun c => (tc_name c, tc_arguments c)) mcp_calls in
            let tool_approvals :=
              map (fun c => mkApproval (tc_id c) true (Some (headers mcp_tool)))
                  mcp_calls in
            match tool_approvals with
            | [] => ret tt
            | _ =>
                call (CSubmitToolOutputs thread_id (r_id run) tool_approvals)
                     (runs_submit_tool_outputs w)
            end ;;
            if (max_attempts <=? attempt)%nat
            then ret (Leave (attempt, run, tool_calls_made))
            else ret (Next (attempt, run, tool_calls_made))
        | None =>
            if (max_attempts <=? attempt)%nat
            then ret (Leave (attempt, run, tool_calls_made))
            else ret (Next (attempt, run, tool_calls_made))
        end
      else ret (Leave st)
  end.

(** "Wait for completion": the loop started with [attempt = 0] and
    [tool_calls_made = []]. *)
Definition wait_for_completion (fuel : nat) (thread_id : string)
    (mcp_tool : McpTool) (run : Run) : M PollState :=
  loop (poll_pass thread_id mcp_tool max_attempts) fuel (0, run, []).

(** [agent_response] after the loop over the listed messages. *)
Definition latest_assistant_text (messages : list Message) : option string :=
  fold_left
    (fun acc msg =>
       if (m_role msg =? "assistant")
          && match m_text_messages msg with [] => false | _ => true end
       then Some (last (m_text_messages msg) "")
       else acc)
    messages None.

Definition run_scenario (thread : Thread) (agent_id : string)
    (mcp_tool : McpTool) (sc : Scenario) : M TestResult :=
  message <- call (CMessagesCreate (t_id thread) "user" (s_query sc))
                  (messages_create w) ;;
  run <- call (CRunsCreate (t_id thread) agent_id mcp_tool) (runs_create w) ;;
  st <- wait_for_completion max_attempts (t_id thread) mcp_tool run ;;
  let run := run_of st in
  let tool_calls_made := snd st in
  messages <- call (CMessagesList (t_id thread) ASCENDING None)
                   (messages_list w) ;;
  match failure messages with
  | Some e => raise e
  | None => ret tt
  end ;;
  let agent_response := latest_assistant_text (items messages) in
  let success := r_status run =? "completed" in
  ret (mkTestResult (s_name sc) success agent_response tool_calls_made).

Fixpoint run_scenarios (thread : Thread) (agent_id : string)
    (mcp_tool : McpTool) (scs : list Scenario) (test_results : list TestResult)
  : M (list TestResult) :=
  match scs with
  | [] => ret test_results
  | sc :: rest =>
      r <- run_scenario thread agent_id mcp_tool sc ;;
      run_scenarios thread agent_id mcp_tool rest (test_results ++ [r])
  end.

(** "TEST SUMMARY" *)
Definition summary (test_results : list TestResult) : Outcome :=
  let successful := length (filter success test_results) in
  let total := length test_results in
  if (successful =? total)%nat then Exit 0 else Exit 1.

(** The body of [with project_client:]. *)
Definition session (agent_config : Json) : M Outcome :=
  _ <- lift (getitem agent_config "name") ;;
  name <- lift (getitem agent_config "name") ;;
  agent_id <- call (CFindAgentByName name) (utils_find_agent_by_name w) ;;
  match agent_id with
  | None => ret (Exit 1)
  | Some agent_id =>
      if negb (truthy_str agent_id) then ret (Exit 1)
      else
        agent <- call (CGetAgent agent_id) (get_agent w) ;;
        mcpServer <- lift (getitem agent_config "mcpServer") ;;
        label <- lift (getitem mcpServer "label") ;;
        mcpServer <- lift (getitem agent_config "mcpServer") ;;
        url <- lift (getitem mcpServer "url") ;;
        let mcp_tool := new_McpTool label url (JArr []) in
        thread <- call CThreadsCreate (threads_create w) ;;
        test_results <- run_scenarios thread agent_id mcp_tool TEST_SCENARIOS [] ;;
        ret (summary test_results)
  end.

Definition main : M Outcome :=
  loaded <-
    try_except
      (project_config <- call CGetProjectConfig (get_project_config w) ;;
       agent_config <- call (CGetAgentConfig "github") (get_agent_config w) ;;
       ret (Some (project_config, agent_config)))
      (fun _ => ret None) ;;
  match loaded with
  | None => ret (Exit 1)
  | Some (project_config, agent_config) =>
      _ <- lift (getitem project_config "endpoint") ;;
      _ <- lift (getitem agent_config "name") ;;
      mcpServer <- lift (getitem agent_config "mcpServer") ;;
      _ <- lift (getitem mcpServer "url") ;;
      mcpServer <- lift (getitem agent_config "mcpServer") ;;
      _ <- lift (getitem mcpServer "label") ;;
      mcpServer <- lift (getitem agent_config "mcpServer") ;;
      _ <- lift (getitem mcpServer "url") ;;
      mcpServer <- lift (getitem agent_config "mcpServer") ;;
      url <- lift (getitem mcpServer "url") ;;
      _ <- check_endpoint_health url ;;
      endpoint <- lift (getitem project_config "endpoint") ;;
      call (CProjectClient endpoint) (project_client w) ;;
      try_except (session agent_config) (fun _ => ret (Exit 1))
  end.

End Script.
End TestGithubAgent.

(** ** test/test-sql-agent.py *)

Module TestSqlAgent.

Record Scenario := mkScenario
  { s_name : string; s_query : string; s_description : string }.

Record TestResult := mkTestResult
  { scenario : string; success : bool; response : option string;
    tool_calls : list (string * string) }.

Definition TEST_SCENARIOS : list Scenario :=
  [ mkScenario "Agent Capabilities"
      "What can you do? Please describe your capabilities."
      "Test basic agent response without tool usage";
    mkScenario "List Database Tables"
      "List all tables in the database."
      "Test listing all tables using MCP tool";
    mkScenario "Describe Table Schema"
      "Describe the schema of the SalesLT.Customer table."
      "Test table schema inspection";
    mkScenario "Query Customer Data"
      "Show me the first 5 customers from the SalesLT.Customer table."
      "Test data querying capabilities" ].

Definition max_attempts : nat := 60.

Definition PollState : Type := nat * Run * list (string * string).

Definition attempt_of (st : PollState) : nat := fst (fst st).
Definition run_of (st : PollState) : Run := snd (fst st).

Definition approval_calls (run : Run) : option (list RequiredToolCall) :=
  if r_status run =? "requires_action" then
    match r_required_action run with
    | Some (SubmitToolApprovalAction tool_calls) => Some tool_calls
    | _ => None
    end
  else None.

Section Script.
Variable w : World.

(** "Get MCP API key if required": [None] stands for the [return 1] of the
    [ValueError] handler. *)
Definition get_api_key_if_required (agent_config : Json)
  : M (option (option string)) :=
  mcpServer <- lift (getitem agent_config "mcpServer") ;;
  authType <- lift (getitem mcpServer "authType") ;;
  if Json_eqb authType (JStr "apiKey") then
    try_except_when
      (fun e => ExnClass_eqb (exn_class e) ValueError)
      (api_key <- call CGetMcpApiKey (get_mcp_api_key w) ;;
       ret (Some api_key))
      (fun _ => ret None)
  else ret (Some None).

Definition poll_pass (thread_id : string) (mcp_tool : McpTool)
    (max_attempts : nat) (st : PollState) : M (Ctl PollState PollState) :=
  match st with
  | (attempt, run, tool_calls_made) =>
      if str_in (r_status run) ["queued"; "in_progress"; "requires_action"]
      then
        let attempt := attempt + 1 in
        run <- call (CRunsGet thread_id (r_id run)) (runs_get w) ;;
        match approval_calls run with
        | Some [] =>
            call (CRunsCancel thread_id (r_id run)) (runs_cancel w) ;;
            ret (Leave (attempt, run, tool_calls_made))
        | Some tool_calls =>
            let mcp_calls := filter is_mcp_call tool_calls in
            let tool_calls_made :=
              tool_calls_made
              ++ map (fun c => (tc_name c, tc_arguments c)) mcp_calls in
            let tool_approvals :=
              map (fun c => mkApproval (tc_id c) true (Some (headers mcp_tool)))
                  mcp_calls in
            match tool_approvals with
            | [] => ret tt
            | _ =>
                call (CSubmitToolOutputs thread_id (r_id run) tool_approvals)
                     (runs_submit_tool_outputs w)
            end ;;
            if (max_attempts <=? attempt)%nat
            then ret (Leave (attempt, run, tool_calls_made))
            else ret (Next (attempt, run, tool_calls_made))
        | None =>
            if (max_attempts <=? attempt)%nat
            then ret (Leave (attempt, run, tool_calls_made))
            else ret (Next (attempt, run, tool_calls_made))
        end
      else ret (Leave st)
  end.

Definition wait_for_completion (fuel : nat) (thread_id : string)
    (mcp_tool : McpTool) (run : Run) : M PollState :=
  loop (poll_pass thread_id mcp_tool max_attempts) fuel (0, run, []).

Definition latest_assistant_text (messages : list Message) : option string :=
  fold_left
    (fun acc msg =>
       if (m_role msg =? "assistant")
          && match m_text_messages msg with [] => false | _ => true end
       then Some (last (m_text_messages msg) "")
       else acc)
    messages None.

Definition run_scenario (thread : Thread) (agent_id : string)
    (mcp_tool : McpTool) (sc : Scenario) : M TestResult :=
  message <- call (CMessagesCreate (t_id thread) "user" (s_query sc))
                  (messages_create w) ;;
  run <- call (CRunsCreate (t_id thread) agent_id mcp_tool) (runs_create w) ;;
  st <- wait_for_completion max_attempts (t_id thread) mcp_tool run ;;
  let run := run_of st in
  let tool_calls_made := snd st in
  messages <- call (CMessagesList (t_id thread) ASCENDING None)
                   (messages_list w) ;;
  match failure messages with
  | Some e => raise e
  | None => ret tt
  end ;;
  let agent_response := latest_assistant_text (items messages) in
  let success := r_status run =? "completed" in
  ret (mkTestResult (s_name sc) success agent_response tool_calls_made).

Fixpoint run_scenarios (thread : Thread) (agent_id : string)
    (mcp_tool : McpTool) (scs : list Scenario) (test_results : list TestResult)
  : M (list TestResult) :=
  match scs with
  | [] => ret test_results
  | sc :: rest =>
      r <- run_scenario thread agent_id mcp_tool sc ;;
      run_scenarios thread agent_id mcp_tool rest (test_results ++ [r])
  end.

Definition summary (test_results : list TestResult) : Outcome :=
  let successful := length (filter success test_results) in
  let total := length test_results in
  if (successful =? total)%nat then Exit 0 else Exit 1.

(** "Initialize MCP tool" and "Set API key header if required". *)
Definition init_mcp_tool (agent_config : Json) (api_key : option string)
  : M McpTool :=
  mcpServer <- lift (getitem agent_config "mcpServer") ;;
  label <- lift (getitem mcpServer "label") ;;
  mcpServer <- lift (getitem agent_config "mcpServer") ;;
  url <- lift (getitem mcpServer "url") ;;
  tools <- lift (get_default agent_config "allowedTools" (JArr [])) ;;
  let mcp_tool := new_McpTool label url tools in
  ret (match api_key with
       | Some key =>
           if truthy_str key then update_headers "X-API-Key" key mcp_tool
           else mcp_tool
       | None => mcp_tool
       end).

Definition session (agent_config : Json) (api_key : option string)
  : M Outcome :=
  _ <- lift (getitem agent_config "name") ;;
  name <- lift (getitem agent_config "name") ;;
  agent_id <- call (CFindAgentByName name) (utils_find_agent_by_name w) ;;
  match agent_id with
  | None => ret (Exit 1)
  | Some agent_id =>
      if negb (truthy_str agent_id) then ret (Exit 1)
      else
        agent <- call (CGetAgent agent_id) (get_agent w) ;;
        mcp_tool <- init_mcp_tool agent_config api_key ;;
        thread <- call CThreadsCreate (threads_create w) ;;
        test_results <- run_scenarios thread agent_id mcp_tool TEST_SCENARIOS [] ;;
        ret (summary test_results)
  end.

Definition main : M Outcome :=
  loaded <-
    try_except
      (project_config <- call CGetProjectConfig (get_project_config w) ;;
       agent_config <- call (CGetAgentConfig "sql") (get_agent_config w) ;;
       ret (Some (project_config, agent_config)))
      (fun _ => ret None) ;;
  match loaded with
  | None => ret (Exit 1)
  | Some (project_config, agent_config) =>
      _ <- lift (getitem project_config "endpoint") ;;
      _ <- lift (getitem agent_config "name") ;;
      mcpServer <- lift (getitem agent_config "mcpServer") ;;
      _ <- lift (getitem mcpServer "url") ;;
      mcpServer <- lift (getitem agent_config "mcpServer") ;;
      _ <- lift (getitem mcpServer "label") ;;
      key <- get_api_key_if_required agent_config ;;
      match key with
      | None => ret (Exit 1)
      | Some api_key =>
          endpoint <- lift (getitem project_config "endpoint") ;;
          call (CProjectClient endpoint) (project_client w) ;;
          try_except (session agent_config api_key) (fun _ => ret (Exit 1))
      end
  end.

End Script.
End TestSqlAgent.

(** ** test/chat-with-github-agent.py *)

Module ChatGithubAgent.

Definition max_attempts : nat := 120.

(** The variables of the chat loop. *)
Record ChatState := mkChat { thread : Thread; message_count : nat }.

(** [project_config['endpoint'].split('/')[-2]], for what it may raise. *)
Definition endpoint_host (project_config : Json) : Res unit :=
  match getitem project_config "endpoint" with
  | Raise e => Raise e
  | Ok (JStr s) =>
      if existsb (Ascii.eqb "/"%char) (list_ascii_of_string s) then Ok tt
      else Raise (mkExn OtherException "list index out of range")
  | Ok _ => Raise (mkExn AttributeError "object has no attribute 'split'")
  end.

(** [project_config['endpoint'].split('/')[-2]], the name the banner
    shows. *)
Definition endpoint_project (project_config : Json) : Res string :=
  match getitem project_config "endpoint" with
  | Raise e => Raise e
  | Ok (JStr s) => penultimate (split "/"%char s)
  | Ok _ => Raise (mkExn AttributeError "object has no attribute 'split'")
  end.

Definition tool_indicators : list string :=
  [ "github.com/Azure/azure-rest-api-specs"; "specification/"; "blob/";
    "api-version"; "Microsoft.KeyVault"; "Microsoft.Storage";
    "Microsoft.Compute"; "routes.tsp"; "main/specification" ].

(** [analyze_tool_usage(response_text)], for a text that is [None] or a
    string of code points below 256. *)
Definition analyze_tool_usage (response_text : option string)
  : bool * list string :=
  match response_text with
  | None => (false, [])
  | Some text =>
      if negb (truthy_str text) then (false, [])
      else
        let found_indicators :=
          filter (fun indicator => str_contains (lower indicator) (lower text))
                 tool_indicators in
        ((2 <=? length found_indicators)%nat, found_indicators)
  end.

Section Script.
Variable w : World.

(** One pass of the [while True] loop of [wait_for_run_completion]. *)
Definition wait_pass (thread_id run_id : string) (max_attempts : nat)
    (attempt : nat) : M (Ctl nat (nat * Run)) :=
  let attempt := attempt + 1 in
  run <- call (CRunsGet thread_id run_id) (runs_get w) ;;
  if r_status run =? "completed" then ret (Leave (attempt, run))
  else if r_status run =? "failed" then ret (Leave (attempt, run))
  else if r_status run =? "requires_action" then
    match r_required_action run with
    | Some (McpToolApprovalShape required_calls) =>
        let tool_approvals :=
          map (fun c => mkApproval (tc_id c) true None) required_calls in
        call (CSubmitToolApproval thread_id run_id tool_approvals)
             (runs_submit_tool_approval w)
    | _ => ret tt
    end ;;
    if (max_attempts <=? attempt)%nat then ret (Leave (attempt, run))
    else ret (Next attempt)
  else if str_in (r_status run) ["cancelled"; "expired"]
  then ret (Leave (attempt, run))
  else if (max_attempts <=? attempt)%nat then ret (Leave (attempt, run))
  else ret (Next attempt).

(** The loop started with [attempt = 0]; its result is the final value of
    [attempt] and the returned [run]. *)
Definition wait_loop (fuel : nat) (thread_id run_id : string)
  : M (nat * Run) :=
  loop (wait_pass thread_id run_id max_attempts) fuel 0.

Definition wait_for_run_completion (thread_id run_id : string) : M Run :=
  r <- wait_loop max_attempts thread_id run_id ;;
  ret (snd r).

Fixpoint first_assistant_text (messages : list Message)
    (failure : option Exn) : Res (option string) :=
  match messages with
  | [] =>
      match failure with
      | Some e => Raise e
      | None => Ok None
      end
  | message :: rest =>
      if m_role message =? "assistant" then
        match m_text_messages message with
        | text :: _ => Ok (Some text)
        | [] => first_assistant_text rest failure
        end
      else first_assistant_text rest failure
  end.

Definition get_latest_response (thread_id : string) : M (option string) :=
  messages <- call (CMessagesList thread_id DESCENDING (Some 1))
                   (messages_list w) ;;
  lift (first_assistant_text (items messages) (failure messages)).

(** From [runs.create] to the end of the body of the [try]. *)
Definition answer (agent_id : string) (mcp_tool : McpTool) (thread : Thread)
  : M unit :=
  run <- call (CRunsCreate (t_id thread) agent_id mcp_tool) (runs_create w) ;;
  completed_run <- wait_for_run_completion (t_id thread) (r_id run) ;;
  if r_status completed_run =? "completed" then
    response <- get_latest_response (t_id thread) ;;
    ret tt
  else ret tt.

(** One pass of the chat loop on what [input()] delivered. *)
Definition chat_pass (agent_id : string) (mcp_tool : McpTool)
    (st : ChatState) (ev : ConsoleEvent) : M (Ctl ChatState unit) :=
  match ev with
  | Interrupt => ret (Leave tt)
  | InputError _ => ret (Next st)
  | Line raw =>
      let user_input := strip raw in
      if negb (truthy_str user_input) then ret (Next st)
      else if str_in (lower user_input) ["quit"; "exit"; "bye"]
      then ret (Leave tt)
      else if lower user_input =? "help" then ret (Next st)
      else if lower user_input =? "clear" then
        try_except
          (thread <- call CThreadsCreate (threads_create w) ;;
           ret (Next (mkChat thread 0)))
          (fun _ => ret (Next st))
      else
        try_except
          (message <- call (CMessagesCreate (t_id (thread st)) "user" user_input)
                           (messages_create w) ;;
           let st := mkChat (thread st) (message_count st + 1) in
           try_except
             (answer agent_id mcp_tool (thread st) ;; ret (Next st))
             (fun _ => ret (Next st)))
          (fun _ => ret (Next st))
  end.

(** The chat loop over the console events at hand: [true] when the loop
    was left, [false] when it is blocked in [input()]. *)
Fixpoint chat_loop (agent_id : string) (mcp_tool : McpTool)
    (console : list ConsoleEvent) (st : ChatState) : M bool :=
  match console with
  | [] => ret false
  | ev :: rest =>
      c <- chat_pass agent_id mcp_tool st ev ;;
      match c with
      | Next st' => chat_loop agent_id mcp_tool rest st'
      | Leave _ => ret true
      end
  end.

(** The body of [with project_client:]; [None] when control falls out of
    the block towards the final [return 0]. *)
Definition session (console : list ConsoleEvent) (agent_config : Json)
  : M (option Outcome) :=
  name <- lift (getitem agent_config "name") ;;
  agent_id <- call (CFindAgentByName name) (utils_find_agent_by_name w) ;;
  match agent_id with
  | None => ret (Some (Exit 1))
  | Some agent_id =>
      if negb (truthy_str agent_id) then ret (Some (Exit 1))
      else
        mcpServer <- lift (getitem agent_config "mcpServer") ;;
        label <- lift (getitem mcpServer "label") ;;
        mcpServer <- lift (getitem agent_config "mcpServer") ;;
        url <- lift (getitem mcpServer "url") ;;
        let mcp_tool := new_McpTool label url (JArr []) in
        let mcp_tool := set_approval_mode "never" mcp_tool in
        thread <- call CThreadsCreate (threads_create w) ;;
        left <- chat_loop agent_id mcp_tool console (mkChat thread 0) ;;
        if left then ret None else ret (Some AwaitingInput)
  end.

Definition main (console : list ConsoleEvent) : M Outcome :=
  loaded <-
    try_except
      (project_config <- call CGetProjectConfig (get_project_config w) ;;
       agent_config <- call (CGetAgentConfig "github") (get_agent_config w) ;;
       ret (Some (project_config, agent_config)))
      (fun _ => ret None) ;;
  match loaded with
  | None => ret (Exit 1)
  | Some (project_config, agent_config) =>
      lift (endpoint_host project_config) ;;
      _ <- lift (getitem agent_config "name") ;;
      connected <-
        try_except
          (endpoint <- lift (getitem project_config "endpoint") ;;
           call (CProjectClient endpoint) (project_client w) ;;
           ret true)
          (fun _ => ret false) ;;
      if connected then
        ended <- try_except (session console agent_config)
                            (fun _ => ret (Some (Exit 1))) ;;
        match ended with
        | Some outcome => ret outcome
        | None => ret (Exit 0)
        end
      else ret (Exit 1)
  end.

End Script.
End ChatGithubAgent.

(** ** test/chat-with-sql-agent.py *)

Module ChatSqlAgent.

Definition max_attempts : nat := 60.

Definition PollState : Type := nat * Run * list (string * string).

Definition attempt_of (st : PollState) : nat := fst (fst st).
Definition run_of (st : PollState) : Run := snd (fst st).

Definition endpoint_host (project_config : Json) : Res unit :=
  match getitem project_config "endpoint" with
  | Raise e => Raise e
  | Ok (JStr s) =>
      if existsb (Ascii.eqb "/"%char) (list_ascii_of_string s) then Ok tt
      else Raise (mkExn OtherException "list index out of range")
  | Ok _ => Raise (mkExn AttributeError "object has no attribute 'split'")
  end.

(** [run.status == "requires_action" and run.required_action] followed by
    [hasattr(run.required_action, 'submit_tool_approval')], with the
    [tool_calls] found there. *)
Definition approval_calls (run : Run) : option (list RequiredToolCall) :=
  if r_status run =? "requires_action" then
    match r_required_action run with
    | Some (SubmitToolApprovalAction tool_calls) => Some tool_calls
    | _ => None
    end
  else None.

Definition endpoint_project (project_config : Json) : Res string :=
  match getitem project_config "endpoint" with
  | Raise e => Raise e
  | Ok (JStr s) => penultimate (split "/"%char s)
  | Ok _ => Raise (mkExn AttributeError "object has no attribute 'split'")
  end.

Definition sql_indicators : list string :=
  [ "SELECT"; "FROM"; "WHERE"; "JOIN"; "INSERT"; "UPDATE"; "DELETE";
    "CREATE TABLE"; "ALTER TABLE"; "database"; "table"; "column"; "rows";
    "query"; "SQL" ].

(** [analyze_sql_response(response_text)], for a text that is [None] or a
    string of code points below 256. *)
Definition analyze_sql_response (response_text : option string)
  : list string :=
  match response_text with
  | None => []
  | Some text =>
      if negb (truthy_str text) then []
      else
        filter (fun indicator => str_contains (lower indicator) (lower text))
               sql_indicators
  end.

Section Script.
Variable w : World.

(** "Initialize MCP tool with API key from Key Vault", up to the header. *)
Definition init_mcp_tool (agent_config : Json) : M McpTool :=
  config <- call CLoadConfig (load_config_utils w) ;;
  infrastructure <- lift (getitem config "infrastructure") ;;
  mcp <- lift (getitem infrastructure "mcp") ;;
  keyVault <- lift (getitem mcp "keyVault") ;;
  key_vault_name <- lift (getitem keyVault "name") ;;
  infrastructure <- lift (getitem config "infrastructure") ;;
  mcp <- lift (getitem infrastructure "mcp") ;;
  keyVault <- lift (getitem mcp "keyVault") ;;
  secret_name <- lift (getitem keyVault "apiKeySecretName") ;;
  api_key <- call (CGetSecret key_vault_name secret_name) (get_secret w) ;;
  mcpServer <- lift (getitem agent_config "mcpServer") ;;
  label <- lift (getitem mcpServer "label") ;;
  mcpServer <- lift (getitem agent_config "mcpServer") ;;
  url <- lift (getitem mcpServer "url") ;;
  tools <- lift (get_default agent_config "allowedTools" (JArr [])) ;;
  let mcp_tool := new_McpTool label url tools in
  ret (match api_key with
       | Some key =>
           if truthy_str key then update_headers "X-API-Key" key mcp_tool
           else mcp_tool
       | None => mcp_tool
       end).

(** One pass of [while run.status in [...]]. *)
Definition poll_pass (thread_id : string) (mcp_tool : McpTool)
    (max_attempts : nat) (st : PollState) : M (Ctl PollState PollState) :=
  match st with
  | (attempt, run, tool_calls_made) =>
      if str_in (r_status run) ["queued"; "in_progress"; "requires_action"]
      then
        let attempt := attempt + 1 in
        run <- call (CRunsGet thread_id (r_id run)) (runs_get w) ;;
        match approval_calls run with
        | Some [] =>
            call (CRunsCancel thread_id (r_id run)) (runs_cancel w) ;;
            ret (Leave (attempt, run, tool_calls_made))
        | Some tool_calls =>
            let tool_calls_made :=
              tool_calls_made
              ++ map (fun c => (tc_name c, tc_arguments c))
                     (filter is_mcp_call tool_calls) in
            let tool_approvals :=
              map (fun c => mkApproval (tc_id c) true (Some (headers mcp_tool)))
                  tool_calls in
            call (CSubmitToolOutputs thread_id (r_id run) tool_approvals)
                 (runs_submit_tool_outputs w) ;;
            if (max_attempts <=? attempt)%nat
            then ret (Leave (attempt, run, tool_calls_made))
            else ret (Next (attempt, run, tool_calls_made))
        | None =>
            if (max_attempts <=? attempt)%nat
            then ret (Leave (attempt, run, tool_calls_made))
            else ret (Next (attempt, run, tool_calls_made))
        end
      else ret (Leave st)
  end.

Definition wait_for_completion (fuel : nat) (thread_id : string)
    (mcp_tool : McpTool) (run : Run) : M PollState :=
  loop (poll_pass thread_id mcp_tool max_attempts) fuel (0, run, []).

(** From [messages.create] to the end of the body of the [try]. *)
Definition answer (agent_id : string) (mcp_tool : McpTool) (thread : Thread)
    (user_input : string) : M unit :=
  message <- call (CMessagesCreate (t_id thread) "user" user_input)
                  (messages_create w) ;;
  run <- call (CRunsCreate (t_id thread) agent_id mcp_tool) (runs_create w) ;;
  st <- wait_for_completion max_attempts (t_id thread) mcp_tool run ;;
  let run := run_of st in
  if r_status run =? "completed" then
    messages <- call (CMessagesList (t_id thread) ASCENDING None)
                     (messages_list w) ;;
    match failure messages with
    | Some e => raise e
    | None => ret tt
    end
  else
    try_except
      (messages <- call (CMessagesList (t_id thread) ASCENDING None)
                        (messages_list w) ;;
       ret tt)
      (fun _ => ret tt).

(** One pass of the chat loop; the only loop variable is [thread]. *)
Definition chat_pass (agent_id : string) (mcp_tool : McpTool)
    (thread : Thread) (ev : ConsoleEvent) : M (Ctl Thread unit) :=
  match ev with
  | Interrupt => ret (Leave tt)
  | InputError _ => ret (Next thread)
  | Line raw =>
      let user_input := strip raw in
      if negb (truthy_str user_input) then ret (Next thread)
      else if str_in (lower user_input) ["quit"; "exit"; "bye"]
      then ret (Leave tt)
      else if lower user_input =? "help" then ret (Next thread)
      else if lower user_input =? "clear" then
        try_except
          (thread <- call CThreadsCreate (threads_create w) ;;
           ret (Next thread))
          (fun _ => ret (Next thread))
      else
        try_except
          (answer agent_id mcp_tool thread user_input ;; ret (Next thread))
          (fun _ => ret (Next thread))
  end.

Fixpoint chat_loop (agent_id : string) (mcp_tool : McpTool)
    (console : list ConsoleEvent) (thread : Thread) : M bool :=
  match console with
  | [] => ret false
  | ev :: rest =>
      c <- chat_pass agent_id mcp_tool thread ev ;;
      match c with
      | Next thread' => chat_loop agent_id mcp_tool rest thread'
      | Leave _ => ret true
      end
  end.

(** The body of [with project_client:]. *)
Definition session (console : list ConsoleEvent) (agent_config : Json)
  : M Outcome :=
  _ <- lift (getitem agent_config "name") ;;
  name <- lift (getitem agent_config "name") ;;
  agent_id <- call (CFindAgentByName name) (utils_find_agent_by_name w) ;;
  match agent_id with
  | None => ret (Exit 1)
  | Some agent_id =>
      if negb (truthy_str agent_id) then ret (Exit 1)
      else
        mcp_tool <- init_mcp_tool agent_config ;;
        thread <- call CThreadsCreate (threads_create w) ;;
        left <- chat_loop agent_id mcp_tool console thread ;;
        if left then ret (Exit 0) else ret AwaitingInput
  end.

Definition main (console : list ConsoleEvent) : M Outcome :=
  loaded <-
    try_except
      (project_config <- call CGetProjectConfig (get_project_config w) ;;
       agent_config <- call (CGetAgentConfig "sql") (get_agent_config w) ;;
       lift (endpoint_host project_config) ;;
       _ <- lift (getitem agent_config "name") ;;
       mcpServer <- lift (getitem agent_config "mcpServer") ;;
       _ <- lift (getitem mcpServer "url") ;;
       ret (Some (project_config, agent_config)))
      (fun _ => ret None) ;;
  match loaded with
  | None => ret (Exit 1)
  | Some (project_config, agent_config) =>
      endpoint <- lift (getitem project_config "endpoint") ;;
      call (CProjectClient endpoint) (project_client w) ;;
      try_except (session console agent_config) (fun _ => ret (Exit 1))
  end.

End Script.
End ChatSqlAgent.

(** * Properties *)

(** ** Vocabulary of the statements, and worlds to run the scripts in *)

(** The lookup as the specification words it: the id of the first listed
    agent whose name equals the requested one. *)
Definition first_agent_named (agents : list Agent) (agent_name : Json)
  : option string :=
  option_map a_id (find (fun a => str_eq (a_name a) agent_name) agents).

(** What a lookup answers to what the listing call gave it. *)
Definition lookup_answer (listed : Res (Paged Agent)) (agent_name : Json)
  : option string :=
  match listed with
  | Ok listing => first_agent_named (items listing) agent_name
  | Raise _ => None
  end.

(** A service that lists two agents, whenever asked. *)
Definition two_agents : World :=
  with_agents_list
    (fun _ => Ok (mkPaged [ mkAgent "asst_1" "github-agent" "gpt-4o" "t0";
                            mkAgent "asst_2" "sql-agent" "gpt-4o" "t1" ] None))
    offline.

(** One pass of a poll loop counts by one: a pass that fetches the status
    moves the attempt counter up by exactly one, and a pass that leaves the
    counter alone is the failing test of the loop condition, which issues
    no call at all. *)
Definition counts_by_one {St R} (pass : St -> M (Ctl St R))
    (att : St -> nat) (attR : R -> nat) : Prop :=
  forall (s : St) (log : list Call),
    match pass s log with
    | (Returned (Next s'), log') =>
        att s' = att s + 1 /\ fetches log' = fetches log + 1
    | (Returned (Leave r), log') =>
        (attR r = att s /\ log' = log)
        \/ (attR r = att s + 1 /\ fetches log' = fetches log + 1)
    | (Raised _, log') => fetches log' = fetches log + 1
    | (Unfinished, _) => False
    end.

(** A poll loop run from [log] comes to an end, by a result or by an
    exception of the service, after at most [bound] status fetches; the
    attempt counter it ends with is the number of fetches it made. *)
Definition ends_within {R} (poll : M R) (attR : R -> nat) (bound : nat)
    (log : list Call) : Prop :=
  match poll log with
  | (Returned r, log') =>
      fetches log' = fetches log + attR r /\ attR r <= bound
  | (Raised _, log') => fetches log' <= fetches log + bound
  | (Unfinished, _) => False
  end.

(** The statuses with which the hosting service ends a run. *)
Definition terminal_status (status : string) : bool :=
  str_in status ["completed"; "failed"; "cancelled"; "expired"].

(** A run that is still under way and asks nothing of the poller: queued,
    in progress, or requiring an action other than a tool approval. *)
Definition still_running (run : Run) : bool :=
  str_in (r_status run) ["queued"; "in_progress"]
  || ((r_status run =? "requires_action")
      && match r_required_action run with
         | Some (SubmitToolApprovalAction _) => false
         | Some (McpToolApprovalShape _) => false
         | _ => true
         end).

(** The service keeps answering every status fetch with a run that is
    still under way. *)
Definition never_settles (w : World) : Prop :=
  forall history : list Call,
    exists run : Run, runs_get w history = Ok run /\ still_running run = true.

(** The poll gave up: it returned at attempt [bound], after [bound] status
    fetches, a run whose status is none of the service's terminal ones. *)
Definition timed_out {R} (poll : M R) (attR : R -> nat) (runR : R -> Run)
    (bound : nat) (log : list Call) : Prop :=
  match poll log with
  | (Returned r, log') =>
      attR r = bound /\ fetches log' = fetches log + bound
      /\ terminal_status (r_status (runR r)) = false
      /\ r_status (runR r) <> "completed" /\ r_status (runR r) <> "failed"
  | _ => False
  end.

(** A service whose run stays in progress for ever. *)
Definition in_progress_run : Run := mkRun "run_1" "in_progress" None None.

Definition stuck_in_progress : World :=
  with_runs_get (fun _ => Ok in_progress_run) (accepting offline).

(** The tool calls pending in a run, whatever shape its required action
    has. *)
Definition pending_calls (run : Run) : list RequiredToolCall :=
  match r_required_action run with
  | Some (SubmitToolApprovalAction calls) => calls
  | Some (McpToolApprovalShape calls) => calls
  | Some (SubmitToolOutputsAction calls) => calls
  | None => []
  end.

(** The approval the scripts build for a pending call. *)
Definition approve_with (hdrs : option Headers) (c : RequiredToolCall)
  : ToolApproval :=
  mkApproval (tc_id c) true hdrs.

(** At most one submission: none for an empty batch of approvals. *)
Definition one_batch (submit : list ToolApproval -> Call)
    (approvals : list ToolApproval) : list Call :=
  match approvals with
  | [] => []
  | _ => [submit approvals]
  end.

(** A requires-action episode whose single pending call is a function
    call, not an MCP tool call. *)
Definition function_call_episode : Run :=
  mkRun "run_1" "requires_action"
        (Some (SubmitToolApprovalAction
                 [mkToolCall RequiredFunctionToolCall "call_1" "get_weather" "{}"]))
        None.

Definition function_call_pending : World :=
  with_runs_get (fun _ => Ok function_call_episode) (accepting offline).

Definition example_tool : McpTool :=
  new_McpTool (JStr "github") (JStr "https://mcp.example/mcp") (JArr []).

(** A requires-action episode with two pending MCP tool calls. *)
Definition two_calls_episode : Run :=
  mkRun "run_1" "requires_action"
        (Some (SubmitToolApprovalAction
                 [mkToolCall RequiredMcpToolCall "call_1" "list_tables" "{}";
                  mkToolCall RequiredMcpToolCall "call_2" "read_data" "{}"]))
        None.

Definition two_calls_pending : World :=
  with_runs_get (fun _ => Ok two_calls_episode) (accepting offline).

(** Entered in state [s], the loop fetched the status, cancelled the run
    and ended at once with [final], whatever its bound on passes; it issued
    nothing else, and it can only fail to return because the cancel call
    itself raised. *)
Definition cancels_and_leaves {St} (w : World) (pass : St -> M (Ctl St St))
    (s : St) (log : list Call) (fetch cancel : Call) (final : St) : Prop :=
  forall fuel : nat,
    issued (loop pass (S fuel) s) log = [fetch; cancel]
    /\ match fst (loop pass (S fuel) s log) with
       | Returned r => r = final
       | Raised e => runs_cancel w (log ++ [fetch; cancel]) = Raise e
       | Unfinished => False
       end.

(** A requires-action episode with no pending tool call whose required
    action is not a tool approval. *)
Definition empty_outputs_episode : Run :=
  mkRun "run_1" "requires_action" (Some (SubmitToolOutputsAction [])) None.

Definition empty_outputs_pending : World :=
  with_runs_get (fun _ => Ok empty_outputs_episode) (accepting offline).

(** A requires-action episode whose tool approval action carries no call. *)
Definition empty_approval_episode : Run :=
  mkRun "run_1" "requires_action" (Some (SubmitToolApprovalAction [])) None.

Definition empty_approval_pending : World :=
  with_runs_get (fun _ => Ok empty_approval_episode) (accepting offline).

(** The same with the shape the GitHub chat script looks for. *)
Definition empty_mcp_approval_episode : Run :=
  mkRun "run_1" "requires_action" (Some (McpToolApprovalShape [])) None.

Definition empty_mcp_approval_pending : World :=
  with_runs_get (fun _ => Ok empty_mcp_approval_episode) (accepting offline).

(** A computation run from any log only appends calls that satisfy [P],
    and a value it returns satisfies [Q]. *)
Definition yields {A} (P : Call -> Prop) (Q : A -> Prop) (m : M A) : Prop :=
  forall log : list Call,
    exists extra : list Call,
      snd (m log) = log ++ extra
      /\ Forall P extra
      /\ match fst (m log) with
         | Returned a => Q a
         | _ => True
         end.

(** The console event is the command [clear]. *)
Definition is_clear (ev : ConsoleEvent) : bool :=
  match ev with
  | Line raw => lower (strip raw) =? "clear"
  | _ => false
  end.



(** A service that hands out a new thread id at each creation, accepts
    every message, and completes every run at the first status fetch. *)
Definition thread_names : list string :=
  ["thread_1"; "thread_2"; "thread_3"; "thread_4"].

Definition lively : World :=
  mkWorld (fun _ => true) (fun _ => Raise unreachable)
          (fun _ => Raise unreachable) (fun _ => Raise unreachable)
          (fun _ => Raise unreachable) (fun _ => Raise unreachable)
          (fun _ => Raise unreachable) (fun _ => Raise unreachable)
          (fun _ => Raise unreachable) (fun _ => Ok tt)
          (fun _ => Raise unreachable) (fun _ => Raise unreachable)
          (fun _ => Raise unreachable) (fun _ => Raise unreachable)
          (fun history =>
             Ok (mkThread
                   (nth (length (filter is_threads_create history) - 1)
                        thread_names "thread_n")))
          (fun _ => Ok (mkMessage "msg_1" "user" []))
          (fun _ => Ok (mkRun "run_1" "queued" None None))
          (fun _ => Ok (mkRun "run_1" "completed" None None))
          (fun _ => Ok tt) (fun _ => Ok tt) (fun _ => Ok tt)
          (fun _ => Ok (mkPaged [mkMessage "msg_2" "assistant" ["Hello."]] None)).

(** As [yields], and moreover the computation comes to an end: it returns
    or raises, within the bounds on passes that the model gives its
    loops. *)
Definition settles {A} (P : Call -> Prop) (Q : A -> Prop) (m : M A) : Prop :=
  forall log : list Call,
    exists extra : list Call,
      snd (m log) = log ++ extra
      /\ Forall P extra
      /\ match fst (m log) with
         | Returned a => Q a
         | Raised _ => True
         | Unfinished => False
         end.

(** The secret store is not called. *)
Definition no_secret_call (c : Call) : Prop := is_get_secret c = false.


(** Provenance: what the collaborators must have answered for a script to
    get past a stage. *)
Definition config_read (w : World) : Prop :=
  (exists history a, get_project_config w history = Ok a)
  /\ (exists history a, get_agent_config w history = Ok a).

Definition file_read (w : World) : Prop :=
  exists history fields, read_json w history = Ok fields.

Definition connected (w : World) : Prop :=
  exists history, project_client w history = Ok tt.

Definition agent_found (w : World) : Prop :=
  exists history agent_id,
    utils_find_agent_by_name w history = Ok (Some agent_id)
    /\ truthy_str agent_id = true.

(** A run the service handed out, at creation or at a status fetch. *)
Definition observed (w : World) (run : Run) : Prop :=
  exists history, runs_get w history = Ok run \/ runs_create w history = Ok run.

Definition completed_seen (w : World) : Prop :=
  exists run, observed w run /\ r_status run = "completed".

(** The process of a script ends, and with one of the [allowed] outcomes. *)
Definition process_ends_as (allowed : list Outcome) (main : M Outcome) : Prop :=
  exists o, fst (run_script main) = Some o /\ In o allowed.

(** A computation that always returns a value. *)
Definition returns {A} (m : M A) : Prop :=
  forall log : list Call, exists a, fst (m log) = Returned a.

(** The agent's configuration asks for an API key:
    [agent_config["mcpServer"]["authType"] == "apiKey"]. *)
Definition wants_api_key (agent_config : Json) : bool :=
  match getitem agent_config "mcpServer" with
  | Ok mcpServer =>
      match getitem mcpServer "authType" with
      | Ok authType => Json_eqb authType (JStr "apiKey")
      | Raise _ => false
      end
  | Raise _ => false
  end.

(** The Key Vault the configuration names under
    [infrastructure.mcp.keyVault], with the secret's name, when the vault's
    name is there and not empty. *)
Definition key_vault_of (config : Json) : option (Json * Json) :=
  match get_default config "infrastructure" (JObj []) with
  | Ok infra =>
      match get_default infra "mcp" (JObj []) with
      | Ok mcp =>
          match get_default mcp "keyVault" (JObj []) with
          | Ok key_vault =>
              match get_default key_vault "name" JNull,
                    get_default key_vault "apiKeySecretName" (JStr "mcp-api-key")
              with
              | Ok name, Ok secret_name =>
                  if truthy name then Some (name, secret_name) else None
              | _, _ => None
              end
          | Raise _ => None
          end
      | Raise _ => None
      end
  | Raise _ => None
  end.

(** The headers of an MCP tool initialised with [api_key]. *)
Definition api_key_header (api_key : option string) : Headers :=
  match api_key with
  | Some key => if truthy_str key then [("X-API-Key", key)] else []
  | None => []
  end.

(** A SQL agent configured for an API key, in a configuration that names
    no Key Vault. *)
Definition sql_agent_config : Json :=
  JObj [("name", JStr "sql-agent");
        ("instructions", JStr "Answer questions about the database.");
        ("mcpServer", JObj [("url", JStr "https://sql.example/mcp");
                            ("label", JStr "mssql");
                            ("authType", JStr "apiKey")])].

Definition project_settings : Json :=
  JObj [("endpoint", JStr "https://demo.services.ai.azure.com/api/projects/demo");
        ("modelDeployment", JStr "gpt-4o")].

Definition config_without_vault : list (string * Json) :=
  [("project", project_settings);
   ("agents", JObj [("sql", sql_agent_config)])].

Definition files_without_vault : World :=
  mkWorld (fun _ => true) (fun _ => Ok config_without_vault)
          (get_project_config offline) (get_agent_config offline)
          (load_config_utils offline) (get_mcp_api_key offline)
          (utils_find_agent_by_name offline)
          (fun _ => Ok (Some "abc123")) (http_get offline)
          (fun _ => Ok tt) (agents_list offline) (get_agent offline)
          (create_agent offline) (update_agent offline)
          (threads_create offline) (messages_create offline)
          (runs_create offline) (runs_get offline) (runs_cancel offline)
          (runs_submit_tool_outputs offline)
          (runs_submit_tool_approval offline) (messages_list offline).

(** The same agent with [authType] "none". *)
Definition open_sql_agent_config : Json :=
  JObj [("name", JStr "sql-agent");
        ("instructions", JStr "Answer questions about the database.");
        ("mcpServer", JObj [("url", JStr "https://sql.example/mcp");
                            ("label", JStr "mssql");
                            ("authType", JStr "none")])].

Definition github_agent_config : Json :=
  JObj [("name", JStr "github-agent");
        ("instructions", JStr "Answer questions about the repository.");
        ("mcpServer", JObj [("url", JStr "https://gh.example/mcp");
                            ("label", JStr "github");
                            ("authType", JStr "none")]);
        ("allowedTools", JArr [JStr "search_code"; JStr "get_file_contents"])].

(** A complete configuration, with a Key Vault. *)
Definition full_config : list (string * Json) :=
  [("project", project_settings);
   ("agents", JObj [("github", github_agent_config); ("sql", sql_agent_config)]);
   ("infrastructure",
    JObj [("mcp", JObj [("keyVault",
                         JObj [("name", JStr "kv-demo");
                               ("apiKeySecretName", JStr "mcp-api-key")])])])].

(** A service in good order: the configuration loads, both agents exist,
    threads get new ids, every run completes at the first status fetch and
    the vault holds the secret abc123. *)
Definition helpful : World :=
  mkWorld (fun _ => true) (fun _ => Ok full_config)
          (fun _ => Ok project_settings)
          (fun history =>
             match last history CLoadConfig with
             | CGetAgentConfig "sql" => Ok sql_agent_config
             | _ => Ok github_agent_config
             end)
          (fun _ => Ok (JObj full_config))
          (fun _ => Ok (Some "abc123"))
          (fun _ => Ok (Some "asst_1"))
          (fun _ => Ok (Some "abc123"))
          (fun _ => Ok 200)
          (fun _ => Ok tt)
          (fun _ => Ok (mkPaged [ mkAgent "asst_1" "github-agent" "gpt-4o" "t0";
                                  mkAgent "asst_2" "sql-agent" "gpt-4o" "t1" ]
                                None))
          (fun _ => Ok (mkAgent "asst_1" "github-agent" "gpt-4o" "t0"))
          (fun _ => Ok (mkAgent "asst_3" "new-agent" "gpt-4o" "t2"))
          (fun _ => Ok (mkAgent "asst_2" "sql-agent" "gpt-4o" "t1"))
          (threads_create lively) (messages_create lively)
          (runs_create lively) (runs_get lively) (runs_cancel lively)
          (runs_submit_tool_outputs lively)
          (runs_submit_tool_approval lively) (messages_list lively).

(** The same service, except that creating a message fails: the
    connection drops. *)
Definition connection_aborted : Exn :=
  mkExn OtherException "Connection aborted".

Definition flaky : World :=
  mkWorld (path_exists helpful) (read_json helpful)
          (get_project_config helpful) (get_agent_config helpful)
          (load_config_utils helpful) (get_mcp_api_key helpful)
          (utils_find_agent_by_name helpful) (get_secret helpful)
          (http_get helpful) (project_client helpful) (agents_list helpful)
          (get_agent helpful) (create_agent helpful) (update_agent helpful)
          (threads_create helpful) (fun _ => Raise connection_aborted)
          (runs_create helpful) (runs_get helpful) (runs_cancel helpful)
          (runs_submit_tool_outputs helpful)
          (runs_submit_tool_approval helpful) (messages_list helpful).

(** What the exit code of a script tells: the process ends with code 1 or
    one of the [allowed] outcomes; any outcome other than code 1 needs
    [needed]; code 0 needs [needed_for_0] as well. *)
Definition exit_report (allowed : list Outcome) (main : M Outcome)
    (needed needed_for_0 : Prop) : Prop :=
  process_ends_as (Exit 1 :: allowed) main
  /\ (fst (run_script main) <> Some (Exit 1) -> needed)
  /\ (fst (run_script main) = Some (Exit 0) -> needed_for_0).

(** The service never answers a status fetch with a run in a terminal
    status. *)
Definition never_terminal (w : World) : Prop :=
  forall (history : list Call) (run : Run),
    runs_get w history = Ok run -> terminal_status (r_status run) = false.

(** Whenever the poll returns, the run it hands on is in no terminal
    status: neither completed nor failed in particular. *)
Definition hands_on_unsettled {R} (poll : M R) (runR : R -> Run) : Prop :=
  settles (fun _ => True)
    (fun r => terminal_status (r_status (runR r)) = false
              /\ r_status (runR r) <> "completed"
              /\ r_status (runR r) <> "failed")
    poll.

(** The service of the specification's scenario: the statuses queued, in
    progress, requires_action with two pending calls, in progress,
    completed, one per status fetch. *)
Definition completed_run : Run := mkRun "run_1" "completed" None None.

Definition scenario_statuses : list Run :=
  [ mkRun "run_1" "queued" None None; in_progress_run; two_calls_episode;
    in_progress_run; completed_run ].

Definition scenario_service : World :=
  with_runs_get
    (fun history => Ok (nth (fetches history - 1) scenario_statuses completed_run))
    (accepting offline).

(** ** Further vocabulary: files, costs and worlds *)

(** A call that probes or reads a configuration file. *)
Definition is_file_call (c : Call) : bool :=
  match c with
  | CPathExists _ | CReadJson _ => true
  | _ => false
  end.

(** The merged configuration holds nothing but, at most, the key
    "infrastructure" with a dict under it. *)
Definition only_infrastructure (config : list (string * Json)) : Prop :=
  config = [] \/ exists infra, config = [("infrastructure", JObj infra)].

(** A machine without [config.json], whose two deployment-output files
    exist and hold what [outputs] gives. *)
Definition outputs_only (outputs : list (string * Json)) : World :=
  mkWorld (fun history =>
             match last history CLoadConfig with
             | CPathExists "config/config.json" => false
             | _ => true
             end)
          (fun _ => Ok outputs)
          (get_project_config offline) (get_agent_config offline)
          (load_config_utils offline) (get_mcp_api_key offline)
          (utils_find_agent_by_name offline) (get_secret offline)
          (http_get offline) (project_client offline) (agents_list offline)
          (get_agent offline) (create_agent offline) (update_agent offline)
          (threads_create offline) (messages_create offline)
          (runs_create offline) (runs_get offline) (runs_cancel offline)
          (runs_submit_tool_outputs offline)
          (runs_submit_tool_approval offline) (messages_list offline).

(** Deployment outputs of the MCP server: the Key Vault under "mcp". *)
Definition mcp_outputs : list (string * Json) :=
  [("mcp", JObj [("keyVault", JObj [("name", JStr "kv-demo")])]);
   ("resourceGroup", JStr "rg-demo")].

(** A configuration merged so far, with an "infrastructure" section. *)
Definition merged_so_far : list (string * Json) :=
  [("project", project_settings);
   ("infrastructure", JObj [("mcp", JStr "stale"); ("sql", JStr "kept")])].

(** A call that creates or updates an agent. *)
Definition is_mutation (c : Call) : bool :=
  match c with
  | CCreateAgent _ _ _ _ | CUpdateAgent _ _ _ _ _ => true
  | _ => false
  end.

(** The operator's answer to "Update existing agent? [Y/n]" declines. *)
Definition declines (answer : string) : bool := lower (strip answer) =? "n".

(** What the deployment scripts send when they create or update the agent
    [existing_agent_id] stands for. *)
Definition deployment_call (existing_agent_id : option string)
    (model name instructions : Json) (tool : McpTool) : Call :=
  match existing_agent_id with
  | Some agent_id =>
      if truthy_str agent_id
      then CUpdateAgent agent_id model name instructions tool
      else CCreateAgent model name instructions tool
  | None => CCreateAgent model name instructions tool
  end.

(** The service's answer to a creation or an update. *)
Definition service_answer (w : World) (c : Call) (history : list Call)
  : Res Agent :=
  match c with
  | CUpdateAgent _ _ _ _ _ => update_agent w history
  | _ => create_agent w history
  end.

(** The configuration holds what every script prints before it starts:
    the project's endpoint, the agent's name and the URL and label of its
    MCP server. *)
Definition announced (agent_config project_config : Json) : Prop :=
  (exists endpoint, getitem project_config "endpoint" = Ok endpoint)
  /\ (exists name, getitem agent_config "name" = Ok name)
  /\ exists mcpServer url label,
       getitem agent_config "mcpServer" = Ok mcpServer
       /\ getitem mcpServer "url" = Ok url
       /\ getitem mcpServer "label" = Ok label.

(** [config.json] exists and holds [fields], with the SQL agent's section
    [agent_config] and the project's section [project_config], which names
    the model deployment. *)
Definition sql_config_on_file (w : World) (fields : list (string * Json))
    (agent_config project_config : Json) : Prop :=
  path_exists w [CPathExists "config/config.json"] = true
  /\ read_json w [CPathExists "config/config.json";
                  CReadJson "config/config.json"] = Ok fields
  /\ (exists agents, getitem (JObj fields) "agents" = Ok agents
                     /\ getitem agents "sql" = Ok agent_config)
  /\ getitem (JObj fields) "project" = Ok project_config
  /\ exists model, getitem project_config "modelDeployment" = Ok model.

(** The service in good order, except that the vault cannot be reached. *)
Definition vault_denied : Exn := mkExn OtherException "Forbidden".

Definition locked_vault : World :=
  mkWorld (path_exists helpful) (read_json helpful)
          (get_project_config helpful) (get_agent_config helpful)
          (load_config_utils helpful)
          (fun _ => Raise (mkExn RuntimeError "Key Vault unavailable"))
          (utils_find_agent_by_name helpful) (fun _ => Raise vault_denied)
          (http_get helpful) (project_client helpful) (agents_list helpful)
          (get_agent helpful) (create_agent helpful) (update_agent helpful)
          (threads_create helpful) (messages_create helpful)
          (runs_create helpful) (runs_get helpful) (runs_cancel helpful)
          (runs_submit_tool_outputs helpful)
          (runs_submit_tool_approval helpful) (messages_list helpful).

(** A computation adds at most [n] calls of the kind [f] to any log, and
    comes to an end. *)
Definition costs {A} (f : Call -> bool) (n : nat) (m : M A) : Prop :=
  forall log : list Call,
    length (filter f (snd (m log))) <= length (filter f log) + n
    /\ fst (m log) <> Unfinished.

(** A call that polls or cancels a run of thread [tid], or approves tool
    calls there through [submit_tool_outputs]. *)
Definition is_poll_call (tid : string) (c : Call) : Prop :=
  match c with
  | CRunsGet t _ | CRunsCancel t _ | CSubmitToolOutputs t _ _ => t = tid
  | _ => False
  end.

(** A call that works on thread [tid]: it adds a message, starts a run,
    lists the messages, or is a poll call there. *)
Definition addressed_to (tid : string) (c : Call) : Prop :=
  match c with
  | CMessagesCreate t _ _ | CRunsCreate t _ _ | CMessagesList t _ _ => t = tid
  | _ => is_poll_call tid c
  end.

(** A call that fetches the status of run [rid] of thread [tid], or
    approves tool calls of that run through [submit_tool_approval]. *)
Definition own_run_call (tid rid : string) (c : Call) : Prop :=
  match c with
  | CRunsGet t r | CSubmitToolApproval t r _ => t = tid /\ r = rid
  | _ => False
  end.

(** What a turn of the GitHub chat script may issue on thread [tid]. *)
Definition chat_github_turn_call (tid : string) (c : Call) : Prop :=
  match c with
  | CMessagesCreate t _ _ | CRunsCreate t _ _ | CMessagesList t _ _
  | CRunsGet t _ | CSubmitToolApproval t _ _ => t = tid
  | _ => False
  end.

(** The calls each script is seen to issue, by kind. *)
Definition deploy_github_call (c : Call) : bool :=
  match c with
  | CPathExists _ | CReadJson _ | CProjectClient _ | CAgentsList
  | CCreateAgent _ _ _ _ | CUpdateAgent _ _ _ _ _ => true
  | _ => false
  end.

Definition deploy_sql_call (c : Call) : bool :=
  match c with
  | CGetSecret _ _ => true
  | _ => deploy_github_call c
  end.

Definition test_github_call (c : Call) : bool :=
  match c with
  | CGetProjectConfig | CGetAgentConfig _ | CHttpGet _ | CProjectClient _
  | CFindAgentByName _ | CGetAgent _ | CThreadsCreate
  | CMessagesCreate _ _ _ | CRunsCreate _ _ _ | CRunsGet _ _
  | CRunsCancel _ _ | CSubmitToolOutputs _ _ _ | CMessagesList _ _ _ => true
  | _ => false
  end.

Definition test_sql_call (c : Call) : bool :=
  match c with
  | CGetProjectConfig | CGetAgentConfig _ | CGetMcpApiKey | CProjectClient _
  | CFindAgentByName _ | CGetAgent _ | CThreadsCreate
  | CMessagesCreate _ _ _ | CRunsCreate _ _ _ | CRunsGet _ _
  | CRunsCancel _ _ | CSubmitToolOutputs _ _ _ | CMessagesList _ _ _ => true
  | _ => false
  end.

Definition chat_github_call (c : Call) : bool :=
  match c with
  | CGetProjectConfig | CGetAgentConfig _ | CProjectClient _
  | CFindAgentByName _ | CThreadsCreate
  | CMessagesCreate _ _ _ | CRunsCreate _ _ _ | CRunsGet _ _
  | CSubmitToolApproval _ _ _ | CMessagesList _ _ _ => true
  | _ => false
  end.

Definition chat_sql_call (c : Call) : bool :=
  match c with
  | CGetProjectConfig | CGetAgentConfig _ | CLoadConfig | CGetSecret _ _
  | CProjectClient _ | CFindAgentByName _ | CThreadsCreate
  | CMessagesCreate _ _ _ | CRunsCreate _ _ _ | CRunsGet _ _
  | CRunsCancel _ _ | CSubmitToolOutputs _ _ _ | CMessagesList _ _ _ => true
  | _ => false
  end.

(** The approvals a log holds, in the order they were submitted. *)
Definition approved (log : list Call) : list ToolApproval :=
  flat_map (fun c => match c with
                     | CSubmitToolOutputs _ _ tool_approvals
                     | CSubmitToolApproval _ _ tool_approvals => tool_approvals
                     | _ => []
                     end)
           log.

(** Where a pass of a poll loop goes once the status is fetched and dealt
    with: out of the loop at [max_attempts], round again before. *)
Definition onward {St} (max_attempts attempt : nat) (st : St)
  : Result (Ctl St St) :=
  Returned (if (max_attempts <=? attempt)%nat then Leave st else Next st).

(** The answer the service gave to the last status fetch of a log. *)
Fixpoint last_fetched (w : World) (log_rev : list Call) : option (Res Run) :=
  match log_rev with
  | [] => None
  | c :: before =>
      if is_runs_get c then Some (runs_get w (rev (c :: before)))
      else last_fetched w before
  end.

(** No call of [extra] cancels a run. *)
Definition no_cancel (extra : list Call) : Prop :=
  Forall (fun c => is_runs_cancel c = false) extra.

(** The calls [extra], issued from [log] on, end with a status fetch that
    the service answered with an approval request carrying no tool call,
    and the cancellation of that run; nothing was cancelled before. *)
Definition cancelled_at_the_end (w : World) (tid : string)
    (log extra : list Call) : Prop :=
  exists before rid episode,
    extra = before ++ [CRunsGet tid rid; CRunsCancel tid (r_id episode)]
    /\ no_cancel before
    /\ runs_get w (log ++ before ++ [CRunsGet tid rid]) = Ok episode
    /\ r_status episode = "requires_action"
    /\ r_required_action episode = Some (SubmitToolApprovalAction []).

(** The same world with another answer to the health check. *)
Definition with_http_get (f : list Call -> Res nat) (w : World) : World :=
  mkWorld (path_exists w) (read_json w) (get_project_config w)
          (get_agent_config w) (load_config_utils w) (get_mcp_api_key w)
          (utils_find_agent_by_name w) (get_secret w) f
          (project_client w) (agents_list w) (get_agent w) (create_agent w)
          (update_agent w) (threads_create w) (messages_create w)
          (runs_create w) (runs_get w) (runs_cancel w)
          (runs_submit_tool_outputs w) (runs_submit_tool_approval w)
          (messages_list w).

(** An HTTP client that fails only as [requests] does, with a
    [RequestException]. *)
Definition fails_as_requests (f : list Call -> Res nat) : Prop :=
  forall history e, f history = Raise e -> exn_class e = RequestException.

(** A message the scripts read an answer from: one of the assistant with
    at least one text part. *)
Definition speaks (message : Message) : bool :=
  (m_role message =? "assistant")
  && match m_text_messages message with [] => false | _ => true end.

(** The newest such message of a thread listed in ascending order. *)
Definition newest_answer (messages : list Message) : option Message :=
  find speaks (rev messages).

(** The operator's line is one of the commands that end a chat. *)
Definition says_goodbye (raw : string) : bool :=
  str_in (lower (strip raw)) ["quit"; "exit"; "bye"].

(** A project whose endpoint has no "/" in it. *)
Definition flat_project : Json := JObj [("endpoint", JStr "localhost")].

Definition flat_endpoint : World :=
  mkWorld (path_exists helpful) (read_json helpful)
          (fun _ => Ok flat_project) (get_agent_config helpful)
          (load_config_utils helpful) (get_mcp_api_key helpful)
          (utils_find_agent_by_name helpful) (get_secret helpful)
          (http_get helpful) (project_client helpful) (agents_list helpful)
          (get_agent helpful) (create_agent helpful) (update_agent helpful)
          (threads_create helpful) (messages_create helpful)
          (runs_create helpful) (runs_get helpful) (runs_cancel helpful)
          (runs_submit_tool_outputs helpful)
          (runs_submit_tool_approval helpful) (messages_list helpful).

(** A machine whose [config.json] holds [fields], and a service out of
    reach. *)
Definition config_file_only (fields : list (string * Json)) : World :=
  mkWorld (fun _ => true) (fun _ => Ok fields)
          (get_project_config offline) (get_agent_config offline)
          (load_config_utils offline) (get_mcp_api_key offline)
          (utils_find_agent_by_name offline) (get_secret offline)
          (http_get offline) (project_client offline) (agents_list offline)
          (get_agent offline) (create_agent offline) (update_agent offline)
          (threads_create offline) (messages_create offline)
          (runs_create offline) (runs_get offline) (runs_cancel offline)
          (runs_submit_tool_outputs offline)
          (runs_submit_tool_approval offline) (messages_list offline).

(** A configuration whose project section lacks the endpoint. *)
Definition config_without_endpoint : list (string * Json) :=
  [("project", JObj [("modelDeployment", JStr "gpt-4o")]);
   ("agents", JObj [("github", github_agent_config)])].

(** What a turn of the GitHub chat loop may do to the chat state, and when
    it may end the chat. *)
Definition chat_github_turn (w : World) (st : ChatGithubAgent.ChatState)
    (ev : ConsoleEvent) (c : Ctl ChatGithubAgent.ChatState unit) : Prop :=
  match c with
  | Next st' =>
      (ChatGithubAgent.thread st' = ChatGithubAgent.thread st
       /\ (ChatGithubAgent.message_count st' = ChatGithubAgent.message_count st
           \/ ChatGithubAgent.message_count st'
              = ChatGithubAgent.message_count st + 1))
      \/ (is_clear ev = true
          /\ ChatGithubAgent.message_count st' = 0
          /\ exists history,
               threads_create w history = Ok (ChatGithubAgent.thread st'))
  | Leave _ =>
      ev = Interrupt \/ exists raw, ev = Line raw /\ says_goodbye raw = true
  end.

(** The same for the SQL chat loop, whose only state is the thread. *)
Definition chat_sql_turn (w : World) (thread : Thread) (ev : ConsoleEvent)
    (c : Ctl Thread unit) : Prop :=
  match c with
  | Next thread' =>
      thread' = thread
      \/ (is_clear ev = true
          /\ exists history, threads_create w history = Ok thread')
  | Leave _ =>
      ev = Interrupt \/ exists raw, ev = Line raw /\ says_goodbye raw = true
  end.

(** ** Vocabulary of giving up, and of what decides an exit code *)

(** The statuses on which the [while] loops of the test scripts and of the
    SQL chat script go round again. *)
Definition waiting_status (status : string) : bool :=
  str_in status ["queued"; "in_progress"; "requires_action"].

(** A run that asks for a tool approval and names no tool call. *)
Definition empty_approval_request (run : Run) : bool :=
  (r_status run =? "requires_action")
  && match r_required_action run with
     | Some (SubmitToolApprovalAction []) => true
     | _ => false
     end.

(** The service answers every status fetch with a run that is queued, in
    progress or requiring an action; the action may be a tool approval, as
    long as it names at least one call. *)
Definition keeps_waiting (w : World) : Prop :=
  forall history : list Call,
    exists run : Run,
      runs_get w history = Ok run
      /\ waiting_status (r_status run) = true
      /\ empty_approval_request run = false.

(** The service answers every status fetch, and never with a run in a
    terminal status. *)
Definition keeps_unsettled (w : World) : Prop :=
  forall history : list Call,
    exists run : Run,
      runs_get w history = Ok run /\ terminal_status (r_status run) = false.

(** The service accepts every batch of approvals. *)
Definition approvals_accepted (w : World) : Prop :=
  forall history : list Call,
    runs_submit_tool_outputs w history = Ok tt
    /\ runs_submit_tool_approval w history = Ok tt.

(** A poll that returns does so at attempt [bound], or hands on a run that
    shows the [cause] of an earlier return. *)
Definition returns_at_bound_or {R} (cause : Run -> bool) (poll : M R)
    (attR : R -> nat) (runR : R -> Run) (bound : nat) (log : list Call)
  : Prop :=
  match poll log with
  | (Returned r, _) => attR r = bound \/ cause (runR r) = true
  | _ => True
  end.

(** What makes the [while] loops return before [max_attempts]: an approval
    request without a tool call, which they cancel, or a status the loop
    condition does not list. *)
Definition cancelled_or_not_waiting (run : Run) : bool :=
  empty_approval_request run || negb (waiting_status (r_status run)).

(** What makes the wait of the GitHub chat script return before
    [max_attempts]: a terminal status. *)
Definition settled (run : Run) : bool := terminal_status (r_status run).

(** A service that asks once for the approval of two tool calls, at the
    first status fetch, and reports the run in progress ever after. *)
Definition approval_then_stuck : World :=
  with_runs_get
    (fun history =>
       Ok (if (fetches history =? 1)%nat then two_calls_episode
           else in_progress_run))
    (accepting offline).

(** A service that asks for ever for the approval of two MCP tool calls, in
    the shape the GitHub chat script looks for. *)
Definition two_mcp_calls_episode : Run :=
  mkRun "run_1" "requires_action"
        (Some (McpToolApprovalShape
                 [mkToolCall RequiredMcpToolCall "call_1" "search_code" "{}";
                  mkToolCall RequiredMcpToolCall "call_2" "get_file_contents" "{}"]))
        None.

Definition two_mcp_calls_pending : World :=
  with_runs_get (fun _ => Ok two_mcp_calls_episode) (accepting offline).

(** A console event that ends a chat: the operator's interrupt, or a line
    that reads quit, exit or bye. *)
Definition ends_chat (ev : ConsoleEvent) : bool :=
  match ev with
  | Line raw => says_goodbye raw
  | InputError _ => false
  | Interrupt => true
  end.

(** How a chat script ends once its chat loop is entered. *)
Definition chat_outcome (console : list ConsoleEvent) : Outcome :=
  if existsb ends_chat console then Exit 0 else AwaitingInput.

(** The exit code of a test script is decided by its scenarios, run from
    the log [startup]: 0 when they all return a result and every recorded
    result is a success, 1 when a recorded result is a failure or a
    scenario raises. *)
Definition decided_by_results {A} (success : A -> bool)
    (scenarios : M (list A)) (startup : list Call) (main : M Outcome)
  : Prop :=
  match scenarios startup with
  | (Returned results, log) =>
      run_script main
      = (Some (Exit (if forallb success results then 0 else 1)), log)
  | (Raised _, log) => run_script main = (Some (Exit 1), log)
  | (Unfinished, _) => False
  end.

(** The start-up of the GitHub test script goes through: the configuration
    loads and holds what the script reads from it, the health check answers
    or fails as [requests] does, the project connection is made, the agent
    is found by name and fetched, and the thread is created.  [startup] is
    the log at that point; the scenarios run with [agent_id], [mcp_tool]
    and [thread]. *)
Definition test_github_starts (w : World) (agent_id : string)
    (mcp_tool : McpTool) (thread : Thread) (startup : list Call) : Prop :=
  exists project_config agent_config endpoint name mcpServer label url agent,
    let config_calls := [CGetProjectConfig; CGetAgentConfig "github"] in
    let health_calls := config_calls ++ [CHttpGet url] in
    let client_calls := health_calls ++ [CProjectClient endpoint] in
    let lookup_calls := client_calls ++ [CFindAgentByName name] in
    let agent_calls := lookup_calls ++ [CGetAgent agent_id] in
    startup = agent_calls ++ [CThreadsCreate]
    /\ get_project_config w [CGetProjectConfig] = Ok project_config
    /\ get_agent_config w config_calls = Ok agent_config
    /\ getitem project_config "endpoint" = Ok endpoint
    /\ getitem agent_config "name" = Ok name
    /\ getitem agent_config "mcpServer" = Ok mcpServer
    /\ getitem mcpServer "label" = Ok label
    /\ getitem mcpServer "url" = Ok url
    /\ (forall e, http_get w health_calls = Raise e ->
                  exn_class e = RequestException)
    /\ project_client w client_calls = Ok tt
    /\ utils_find_agent_by_name w lookup_calls = Ok (Some agent_id)
    /\ truthy_str agent_id = true
    /\ get_agent w agent_calls = Ok agent
    /\ mcp_tool = new_McpTool label url (JArr [])
    /\ threads_create w startup = Ok thread.

(** The same for the SQL test script, which has no health check and gets
    the API key [api_key] from [get_mcp_api_key] when the agent's
    configuration asks for one. *)
Definition test_sql_starts (w : World) (agent_id : string)
    (mcp_tool : McpTool) (thread : Thread) (startup : list Call) : Prop :=
  exists project_config agent_config endpoint name mcpServer label url
         authType tools api_key agent,
    let config_calls := [CGetProjectConfig; CGetAgentConfig "sql"] in
    let key_calls :=
      config_calls
      ++ (if Json_eqb authType (JStr "apiKey") then [CGetMcpApiKey] else []) in
    let client_calls := key_calls ++ [CProjectClient endpoint] in
    let lookup_calls := client_calls ++ [CFindAgentByName name] in
    let agent_calls := lookup_calls ++ [CGetAgent agent_id] in
    let plain_tool := new_McpTool label url tools in
    startup = agent_calls ++ [CThreadsCreate]
    /\ get_project_config w [CGetProjectConfig] = Ok project_config
    /\ get_agent_config w config_calls = Ok agent_config
    /\ getitem project_config "endpoint" = Ok endpoint
    /\ getitem agent_config "name" = Ok name
    /\ getitem agent_config "mcpServer" = Ok mcpServer
    /\ getitem mcpServer "label" = Ok label
    /\ getitem mcpServer "url" = Ok url
    /\ getitem mcpServer "authType" = Ok authType
    /\ (if Json_eqb authType (JStr "apiKey")
        then get_mcp_api_key w key_calls = Ok api_key
        else api_key = None)
    /\ project_client w client_calls = Ok tt
    /\ utils_find_agent_by_name w lookup_calls = Ok (Some agent_id)
    /\ truthy_str agent_id = true
    /\ get_agent w agent_calls = Ok agent
    /\ get_default agent_config "allowedTools" (JArr []) = Ok tools
    /\ mcp_tool = match api_key with
                  | Some key =>
                      if truthy_str key
                      then update_headers "X-API-Key" key plain_tool
                      else plain_tool
                  | None => plain_tool
                  end
    /\ threads_create w startup = Ok thread.

(** The start-up of the GitHub chat script goes through, up to the thread
    the chat begins in. *)
Definition chat_github_starts (w : World) (agent_id : string)
    (mcp_tool : McpTool) (thread : Thread) (startup : list Call) : Prop :=
  exists project_config agent_config endpoint name mcpServer label url,
    let config_calls := [CGetProjectConfig; CGetAgentConfig "github"] in
    let client_calls := config_calls ++ [CProjectClient endpoint] in
    let lookup_calls := client_calls ++ [CFindAgentByName name] in
    startup = lookup_calls ++ [CThreadsCreate]
    /\ get_project_config w [CGetProjectConfig] = Ok project_config
    /\ get_agent_config w config_calls = Ok agent_config
    /\ ChatGithubAgent.endpoint_host project_config = Ok tt
    /\ getitem project_config "endpoint" = Ok endpoint
    /\ getitem agent_config "name" = Ok name
    /\ getitem agent_config "mcpServer" = Ok mcpServer
    /\ getitem mcpServer "label" = Ok label
    /\ getitem mcpServer "url" = Ok url
    /\ project_client w client_calls = Ok tt
    /\ utils_find_agent_by_name w lookup_calls = Ok (Some agent_id)
    /\ truthy_str agent_id = true
    /\ mcp_tool = set_approval_mode "never" (new_McpTool label url (JArr []))
    /\ threads_create w startup = Ok thread.

(** The same for the SQL chat script, which loads the configuration once
    more and fetches the API key from the Key Vault it names. *)
Definition chat_sql_starts (w : World) (agent_id : string)
    (mcp_tool : McpTool) (thread : Thread) (startup : list Call) : Prop :=
  exists project_config agent_config endpoint name mcpServer label url
         config infrastructure mcp keyVault key_vault_name secret_name
         tools api_key,
    let config_calls := [CGetProjectConfig; CGetAgentConfig "sql"] in
    let client_calls := config_calls ++ [CProjectClient endpoint] in
    let lookup_calls := client_calls ++ [CFindAgentByName name] in
    let load_calls := lookup_calls ++ [CLoadConfig] in
    let secret_calls :=
      load_calls ++ [CGetSecret key_vault_name secret_name] in
    let plain_tool := new_McpTool label url tools in
    startup = secret_calls ++ [CThreadsCreate]
    /\ get_project_config w [CGetProjectConfig] = Ok project_config
    /\ get_agent_config w config_calls = Ok agent_config
    /\ ChatSqlAgent.endpoint_host project_config = Ok tt
    /\ getitem project_config "endpoint" = Ok endpoint
    /\ getitem agent_config "name" = Ok name
    /\ getitem agent_config "mcpServer" = Ok mcpServer
    /\ getitem mcpServer "label" = Ok label
    /\ getitem mcpServer "url" = Ok url
    /\ project_client w client_calls = Ok tt
    /\ utils_find_agent_by_name w lookup_calls = Ok (Some agent_id)
    /\ truthy_str agent_id = true
    /\ load_config_utils w load_calls = Ok config
    /\ getitem config "infrastructure" = Ok infrastructure
    /\ getitem infrastructure "mcp" = Ok mcp
    /\ getitem mcp "keyVault" = Ok keyVault
    /\ getitem keyVault "name" = Ok key_vault_name
    /\ getitem keyVault "apiKeySecretName" = Ok secret_name
    /\ get_secret w secret_calls = Ok api_key
    /\ get_default agent_config "allowedTools" (JArr []) = Ok tools
    /\ mcp_tool = match api_key with
                  | Some key =>
                      if truthy_str key
                      then update_headers "X-API-Key" key plain_tool
                      else plain_tool
                  | None => plain_tool
                  end
    /\ threads_create w startup = Ok thread.

(** ** Reasoning about computations *)

Lemma issued_app {A} (m : M A) log extra :
  snd (m log) = log ++ extra -> issued m log = extra.
Proof.
  intros H. unfold issued. rewrite H.
  rewrite skipn_app, skipn_all, Nat.sub_diag. reflexivity.
Qed.

Lemma fetches_app log extra : fetches (log ++ extra) = fetches log + fetches extra.
Proof. unfold fetches. rewrite filter_app, length_app. reflexivity. Qed.

(** ** Agent lookup by name *)

Lemma github_scan_agents_found agents failure agent_name :
  McpGithubAgent.scan_agents agents failure agent_name
  = match first_agent_named agents agent_name, failure with
    | Some i, _ => Ok (Some i)
    | None, Some e => Raise e
    | None, None => Ok None
    end.
Proof.
  unfold first_agent_named.
  induction agents as [|a rest IH]; simpl.
  - destruct failure; reflexivity.
  - destruct (str_eq (a_name a) agent_name); [reflexivity | exact IH].
Qed.

Lemma scan_agents_same agents failure agent_name :
  McpSqlAgent.scan_agents agents failure agent_name
  = McpGithubAgent.scan_agents agents failure agent_name.
Proof.
  induction agents as [|a rest IH]; simpl; [reflexivity|].
  rewrite IH. reflexivity.
Qed.

Lemma github_find_agent_by_name_spec w agent_name log :
  McpGithubAgent.find_agent_by_name w agent_name log
  = (Returned (lookup_answer (agents_list w (log ++ [CAgentsList])) agent_name),
     log ++ [CAgentsList]).
Proof.
  unfold McpGithubAgent.find_agent_by_name, try_except, try_except_when,
    bind, call, lift, ret, lookup_answer.
  destruct (agents_list w (log ++ [CAgentsList])) as [listing|e]; simpl;
    [|reflexivity].
  rewrite github_scan_agents_found.
  destruct (first_agent_named (items listing) agent_name);
    [reflexivity|].
  destruct (failure listing); reflexivity.
Qed.

Lemma sql_find_agent_by_name_same w agent_name log :
  McpSqlAgent.find_agent_by_name w agent_name log
  = McpGithubAgent.find_agent_by_name w agent_name log.
Proof.
  unfold McpSqlAgent.find_agent_by_name, McpGithubAgent.find_agent_by_name,
    try_except, try_except_when, bind, call, lift.
  destruct (agents_list w (log ++ [CAgentsList])); simpl; [|reflexivity].
  rewrite scan_agents_same. reflexivity.
Qed.

(** C9.  In both deployment scripts [find_agent_by_name] always returns,
    after exactly one listing call: the id of the first agent whose name
    equals the requested name, [None] when no listed agent matches, and
    [None] as well when the listing raises, whatever the exception, so that
    a caller sees the same [None] for an absent agent and for a failed
    listing. *)
Theorem find_agent_by_name_total :
  forall (w : World) (agent_name : Json) (log : list Call),
    let listed := agents_list w (log ++ [CAgentsList]) in
    McpGithubAgent.find_agent_by_name w agent_name log
    = (Returned (lookup_answer listed agent_name), log ++ [CAgentsList])
    /\ McpSqlAgent.find_agent_by_name w agent_name log
       = (Returned (lookup_answer listed agent_name), log ++ [CAgentsList])
    /\ (forall e : Exn,
          lookup_answer (Raise e) agent_name
          = lookup_answer (Ok (mkPaged [] None)) agent_name)
    /\ (forall e : Exn, lookup_answer (Raise e) agent_name = None).
Proof.
  intros w agent_name log listed.
  repeat split.
  - apply github_find_agent_by_name_spec.
  - rewrite sql_find_agent_by_name_same. apply github_find_agent_by_name_spec.
Qed.

(** C8.  With the agent listing fixed from one call to the next, two
    successive lookups of the same name return the same result: the same
    agent id, or [None] both times. *)
Theorem find_agent_by_name_idempotent :
  forall (w : World) (agent_name : Json) (log : list Call),
    agents_list w ((log ++ [CAgentsList]) ++ [CAgentsList])
    = agents_list w (log ++ [CAgentsList]) ->
    (let first := McpGithubAgent.find_agent_by_name w agent_name log in
     fst (McpGithubAgent.find_agent_by_name w agent_name (snd first))
     = fst first)
    /\ (let first := McpSqlAgent.find_agent_by_name w agent_name log in
        fst (McpSqlAgent.find_agent_by_name w agent_name (snd first))
        = fst first).
Proof.
  intros w agent_name log Hfixed.
  assert (H : let first := McpGithubAgent.find_agent_by_name w agent_name log in
              fst (McpGithubAgent.find_agent_by_name w agent_name (snd first))
              = fst first).
  { cbv zeta. rewrite (github_find_agent_by_name_spec w agent_name log).
    cbn [fst snd]. rewrite github_find_agent_by_name_spec. cbn [fst].
    rewrite Hfixed. reflexivity. }
  split; [exact H|].
  cbv zeta. rewrite !sql_find_agent_by_name_same. exact H.
Qed.

Lemma find_agent_by_name_idempotent_witness :
  (let first := McpGithubAgent.find_agent_by_name two_agents (JStr "sql-agent") [] in
   fst (McpGithubAgent.find_agent_by_name two_agents (JStr "sql-agent") (snd first))
   = fst first)
  /\ (let first := McpSqlAgent.find_agent_by_name two_agents (JStr "sql-agent") [] in
      fst (McpSqlAgent.find_agent_by_name two_agents (JStr "sql-agent") (snd first))
      = fst first).
Proof.
  apply (find_agent_by_name_idempotent two_agents (JStr "sql-agent") []).
  reflexivity.
Defined.

(** ** The poll loops: counting and termination *)

Section LoopBound.
Context {St R : Type}.
Variables (pass : St -> M (Ctl St R)) (att : St -> nat) (attR : R -> nat).
Variable bound : nat.

Hypothesis pass_step :
  forall (s : St) (log : list Call),
    match pass s log with
    | (Returned (Next s'), log') =>
        att s' = att s + 1 /\ att s' < bound
        /\ fetches log' = fetches log + 1
    | (Returned (Leave r), log') =>
        (attR r = att s /\ log' = log)
        \/ (attR r = att s + 1 /\ fetches log' = fetches log + 1)
    | (Raised _, log') => fetches log' = fetches log + 1
    | (Unfinished, _) => False
    end.

Lemma pass_counts_by_one : counts_by_one pass att attR.
Proof.
  intros s log. specialize (pass_step s log).
  destruct (pass s log) as [[[s'|r]|e|] log']; intuition.
Qed.

Lemma loop_within :
  forall (fuel : nat) (s : St) (log : list Call),
    1 <= fuel -> bound <= att s + fuel ->
    match loop pass fuel s log with
    | (Returned r, log') =>
        fetches log' = fetches log + (attR r - att s)
        /\ att s <= attR r /\ attR r <= Nat.max bound (att s + 1)
    | (Raised _, log') =>
        fetches log' + att s <= fetches log + Nat.max bound (att s + 1)
    | (Unfinished, _) => False
    end.
Proof.
  induction fuel as [|fuel IH]; intros s log Hfuel Hbound; [lia|].
  simpl. unfold bind.
  pose proof (pass_step s log) as Hs.
  destruct (pass s log) as [[[s'|r]|e|] log1].
  - destruct Hs as (Hatt & Hlt & Hlog).
    assert (H1 : 1 <= fuel) by lia.
    assert (H2 : bound <= att s' + fuel) by lia.
    specialize (IH s' log1 H1 H2).
    destruct (loop pass fuel s' log1) as [[r|e|] log2]; [| |exact IH]; lia.
  - unfold ret. destruct Hs as [[Hatt Hlog]|[Hatt Hlog]]; subst; lia.
  - lia.
  - exact Hs.
Qed.

Lemma loop_ends_within :
  forall (fuel : nat) (s : St) (log : list Call),
    att s = 0 -> 1 <= bound -> bound <= fuel ->
    ends_within (loop pass fuel s) attR bound log.
Proof.
  intros fuel s log H0 H1 Hfuel. unfold ends_within.
  pose proof (loop_within fuel s log) as H.
  destruct (loop pass fuel s log) as [[r|e|] log']; [| |apply H]; lia.
Qed.

End LoopBound.

(** The shared arithmetic of a log that grew by a status fetch and other
    calls. *)
Ltac count_fetches :=
  repeat rewrite fetches_app; unfold fetches; cbn [filter is_runs_get length];
  lia.

Ltac run_pass :=
  repeat match goal with
    | |- context [match ?x with _ => _ end] =>
        lazymatch x with
        | context [match _ with _ => _ end] => fail
        | _ => destruct x eqn:?
        end
    | |- context [if ?x then _ else _] =>
        lazymatch x with
        | context [if _ then _ else _] => fail
        | _ => destruct x eqn:?
        end
    end.

Ltac finish_pass :=
  repeat match goal with
    | H : (_ <=? _)%nat = false |- _ => apply Nat.leb_gt in H
    end;
  cbn [fst snd] in *;
  first [ left; split; reflexivity
        | right; split; [lia | count_fetches]
        | repeat split; first [lia | count_fetches]
        | count_fetches ].

Lemma test_github_pass_step w thread_id mcp_tool bound (s : TestGithubAgent.PollState) log :
  match TestGithubAgent.poll_pass w thread_id mcp_tool bound s log with
  | (Returned (Next s'), log') =>
      TestGithubAgent.attempt_of s' = TestGithubAgent.attempt_of s + 1
      /\ TestGithubAgent.attempt_of s' < bound
      /\ fetches log' = fetches log + 1
  | (Returned (Leave r), log') =>
      (TestGithubAgent.attempt_of r = TestGithubAgent.attempt_of s /\ log' = log)
      \/ (TestGithubAgent.attempt_of r = TestGithubAgent.attempt_of s + 1
          /\ fetches log' = fetches log + 1)
  | (Raised _, log') => fetches log' = fetches log + 1
  | (Unfinished, _) => False
  end.
Proof.
  destruct s as [[attempt run] made].
  unfold TestGithubAgent.poll_pass, TestGithubAgent.attempt_of.
  unfold bind, call, lift, ret. cbn [fst snd].
  run_pass; finish_pass.
Qed.

Lemma test_sql_pass_step w thread_id mcp_tool bound (s : TestSqlAgent.PollState) log :
  match TestSqlAgent.poll_pass w thread_id mcp_tool bound s log with
  | (Returned (Next s'), log') =>
      TestSqlAgent.attempt_of s' = TestSqlAgent.attempt_of s + 1
      /\ TestSqlAgent.attempt_of s' < bound
      /\ fetches log' = fetches log + 1
  | (Returned (Leave r), log') =>
      (TestSqlAgent.attempt_of r = TestSqlAgent.attempt_of s /\ log' = log)
      \/ (TestSqlAgent.attempt_of r = TestSqlAgent.attempt_of s + 1
          /\ fetches log' = fetches log + 1)
  | (Raised _, log') => fetches log' = fetches log + 1
  | (Unfinished, _) => False
  end.
Proof.
  destruct s as [[attempt run] made].
  unfold TestSqlAgent.poll_pass, TestSqlAgent.attempt_of.
  unfold bind, call, lift, ret. cbn [fst snd].
  run_pass; finish_pass.
Qed.

Lemma chat_sql_pass_step w thread_id mcp_tool bound (s : ChatSqlAgent.PollState) log :
  match ChatSqlAgent.poll_pass w thread_id mcp_tool bound s log with
  | (Returned (Next s'), log') =>
      ChatSqlAgent.attempt_of s' = ChatSqlAgent.attempt_of s + 1
      /\ ChatSqlAgent.attempt_of s' < bound
      /\ fetches log' = fetches log + 1
  | (Returned (Leave r), log') =>
      (ChatSqlAgent.attempt_of r = ChatSqlAgent.attempt_of s /\ log' = log)
      \/ (ChatSqlAgent.attempt_of r = ChatSqlAgent.attempt_of s + 1
          /\ fetches log' = fetches log + 1)
  | (Raised _, log') => fetches log' = fetches log + 1
  | (Unfinished, _) => False
  end.
Proof.
  destruct s as [[attempt run] made].
  unfold ChatSqlAgent.poll_pass, ChatSqlAgent.attempt_of.
  unfold bind, call, lift, ret. cbn [fst snd].
  run_pass; finish_pass.
Qed.

Lemma chat_github_pass_step w thread_id run_id bound (attempt : nat) log :
  match ChatGithubAgent.wait_pass w thread_id run_id bound attempt log with
  | (Returned (Next attempt'), log') =>
      attempt' = attempt + 1 /\ attempt' < bound
      /\ fetches log' = fetches log + 1
  | (Returned (Leave r), log') =>
      (fst r = attempt /\ log' = log)
      \/ (fst r = attempt + 1 /\ fetches log' = fetches log + 1)
  | (Raised _, log') => fetches log' = fetches log + 1
  | (Unfinished, _) => False
  end.
Proof.
  unfold ChatGithubAgent.wait_pass.
  unfold bind, call, lift, ret.
  run_pass; finish_pass.
Qed.

(** C1.  In each of the four poll loops a pass that fetches the status
    raises the attempt counter by exactly one, and the loop, started at
    attempt 0, comes to an end after at most [max_attempts] status fetches
    whatever statuses the service reports: it never needs a pass beyond
    [max_attempts], and its final attempt counter equals the number of
    fetches it made. *)
Theorem poll_loops_count_and_terminate :
  forall (w : World) (extra : nat) (thread_id : string) (mcp_tool : McpTool)
         (run : Run) (log : list Call),
    (counts_by_one
       (TestGithubAgent.poll_pass w thread_id mcp_tool TestGithubAgent.max_attempts)
       TestGithubAgent.attempt_of TestGithubAgent.attempt_of
     /\ ends_within
          (TestGithubAgent.wait_for_completion
             w (TestGithubAgent.max_attempts + extra) thread_id mcp_tool run)
          TestGithubAgent.attempt_of TestGithubAgent.max_attempts log)
    /\ (counts_by_one
          (TestSqlAgent.poll_pass w thread_id mcp_tool TestSqlAgent.max_attempts)
          TestSqlAgent.attempt_of TestSqlAgent.attempt_of
        /\ ends_within
             (TestSqlAgent.wait_for_completion
                w (TestSqlAgent.max_attempts + extra) thread_id mcp_tool run)
             TestSqlAgent.attempt_of TestSqlAgent.max_attempts log)
    /\ (counts_by_one
          (ChatGithubAgent.wait_pass w thread_id (r_id run)
                                     ChatGithubAgent.max_attempts)
          (fun attempt => attempt) fst
        /\ ends_within
             (ChatGithubAgent.wait_loop
                w (ChatGithubAgent.max_attempts + extra) thread_id (r_id run))
             fst ChatGithubAgent.max_attempts log)
    /\ (counts_by_one
          (ChatSqlAgent.poll_pass w thread_id mcp_tool ChatSqlAgent.max_attempts)
          ChatSqlAgent.attempt_of ChatSqlAgent.attempt_of
        /\ ends_within
             (ChatSqlAgent.wait_for_completion
                w (ChatSqlAgent.max_attempts + extra) thread_id mcp_tool run)
             ChatSqlAgent.attempt_of ChatSqlAgent.max_attempts log).
Proof.
  intros w extra thread_id mcp_tool run log.
  repeat split.
  - apply (pass_counts_by_one _ _ _ TestGithubAgent.max_attempts).
    apply test_github_pass_step.
  - unfold TestGithubAgent.wait_for_completion.
    apply (loop_ends_within _ TestGithubAgent.attempt_of);
      [apply test_github_pass_step | reflexivity
      | unfold TestGithubAgent.max_attempts; lia | lia].
  - apply (pass_counts_by_one _ _ _ TestSqlAgent.max_attempts).
    apply test_sql_pass_step.
  - unfold TestSqlAgent.wait_for_completion.
    apply (loop_ends_within _ TestSqlAgent.attempt_of);
      [apply test_sql_pass_step | reflexivity
      | unfold TestSqlAgent.max_attempts; lia | lia].
  - apply (pass_counts_by_one _ _ _ ChatGithubAgent.max_attempts).
    apply chat_github_pass_step.
  - unfold ChatGithubAgent.wait_loop.
    apply (loop_ends_within _ (fun attempt : nat => attempt));
      [apply chat_github_pass_step | reflexivity
      | unfold ChatGithubAgent.max_attempts; lia | lia].
  - apply (pass_counts_by_one _ _ _ ChatSqlAgent.max_attempts).
    apply chat_sql_pass_step.
  - unfold ChatSqlAgent.wait_for_completion.
    apply (loop_ends_within _ ChatSqlAgent.attempt_of);
      [apply chat_sql_pass_step | reflexivity
      | unfold ChatSqlAgent.max_attempts; lia | lia].
Qed.

(** ** What a computation issues and returns *)

Lemma yields_ret {A} (P : Call -> Prop) (Q : A -> Prop) (a : A) :
  Q a -> yields P Q (ret a).
Proof.
  intros H log. exists []. rewrite app_nil_r. cbn. auto.
Qed.

Lemma yields_raise {A} (P : Call -> Prop) (Q : A -> Prop) (e : Exn) :
  yields P Q (raise e).
Proof.
  intros log. exists []. rewrite app_nil_r. cbn. auto.
Qed.

Lemma yields_lift {A} (P : Call -> Prop) (Q : A -> Prop) (r : Res A) :
  (forall a, r = Ok a -> Q a) -> yields P Q (lift r).
Proof.
  intros H log. exists []. rewrite app_nil_r. unfold lift.
  destruct r; cbn; auto.
Qed.

Lemma yields_call {A} (P : Call -> Prop) (Q : A -> Prop) (c : Call)
    (oracle : list Call -> Res A) :
  P c -> (forall a, Q a) -> yields P Q (call c oracle).
Proof.
  intros Hc HQ log. exists [c]. unfold call, lift.
  destruct (oracle (log ++ [c])); cbn; auto.
Qed.

Lemma yields_bind {A B} (P : Call -> Prop) (Q1 : A -> Prop) (Q : B -> Prop)
    (m : M A) (k : A -> M B) :
  yields P Q1 m -> (forall a, Q1 a -> yields P Q (k a)) ->
  yields P Q (bind m k).
Proof.
  intros Hm Hk log. unfold bind.
  destruct (Hm log) as (extra & Hlog & Hall & Hres).
  destruct (m log) as [[a|e|] log1]; cbn [fst snd] in *; subst log1.
  - destruct (Hk a Hres (log ++ extra)) as (extra2 & Hlog2 & Hall2 & Hres2).
    exists (extra ++ extra2). rewrite app_assoc.
    repeat split; [assumption | apply Forall_app; auto | assumption].
  - exists extra. cbn. auto.
  - exists extra. cbn. auto.
Qed.

Lemma yields_try {A} (P : Call -> Prop) (Q : A -> Prop)
    (catches : Exn -> bool) (m : M A) (handler : Exn -> M A) :
  yields P Q m -> (forall e, yields P Q (handler e)) ->
  yields P Q (try_except_when catches m handler).
Proof.
  intros Hm Hh log. unfold try_except_when.
  destruct (Hm log) as (extra & Hlog & Hall & Hres).
  destruct (m log) as [[a|e|] log1]; cbn [fst snd] in *; subst log1.
  - exists extra. cbn. auto.
  - destruct (catches e).
    + destruct (Hh e (log ++ extra)) as (extra2 & Hlog2 & Hall2 & Hres2).
      exists (extra ++ extra2). rewrite app_assoc.
      repeat split; [assumption | apply Forall_app; auto | assumption].
    + exists extra. cbn. auto.
  - exists extra. cbn. auto.
Qed.

Lemma yields_weaken {A} (P P' : Call -> Prop) (Q Q' : A -> Prop) (m : M A) :
  (forall c, P c -> P' c) -> (forall a, Q a -> Q' a) ->
  yields P Q m -> yields P' Q' m.
Proof.
  intros HP HQ Hm log.
  destruct (Hm log) as (extra & Hlog & Hall & Hres).
  exists extra. repeat split; [assumption | | ].
  - eapply Forall_impl; eauto.
  - destruct (fst (m log)); auto.
Qed.

Lemma yields_loop {St R} (P : Call -> Prop) (Inv : St -> Prop)
    (Q : R -> Prop) (pass : St -> M (Ctl St R)) :
  (forall s, Inv s ->
     yields P (fun c => match c with Next s' => Inv s' | Leave r => Q r end)
            (pass s)) ->
  forall (fuel : nat) (s : St), Inv s -> yields P Q (loop pass fuel s).
Proof.
  intros Hpass. induction fuel as [|fuel IH]; intros s Hs.
  - intros log. exists []. rewrite app_nil_r. cbn. auto.
  - cbn [loop]. eapply yields_bind; [apply (Hpass s Hs)|].
    intros [s'|r] Hc; [apply IH; assumption | apply yields_ret; assumption].
Qed.


(** ** Computations that come to an end *)

Lemma settles_ret {A} (P : Call -> Prop) (Q : A -> Prop) (a : A) :
  Q a -> settles P Q (ret a).
Proof.
  intros H log. exists []. rewrite app_nil_r. cbn. auto.
Qed.

Lemma settles_raise {A} (P : Call -> Prop) (Q : A -> Prop) (e : Exn) :
  settles P Q (raise e).
Proof.
  intros log. exists []. rewrite app_nil_r. cbn. auto.
Qed.

Lemma settles_lift {A} (P : Call -> Prop) (Q : A -> Prop) (r : Res A) :
  (forall a, r = Ok a -> Q a) -> settles P Q (lift r).
Proof.
  intros H log. exists []. rewrite app_nil_r. unfold lift.
  destruct r; cbn; auto.
Qed.

Lemma settles_call {A} (P : Call -> Prop) (Q : A -> Prop) (c : Call)
    (oracle : list Call -> Res A) :
  P c -> (forall history a, oracle history = Ok a -> Q a) ->
  settles P Q (call c oracle).
Proof.
  intros Hc HQ log. exists [c]. unfold call, lift.
  destruct (oracle (log ++ [c])) eqn:E; cbn; eauto.
Qed.

Lemma settles_bind {A B} (P : Call -> Prop) (Q1 : A -> Prop) (Q : B -> Prop)
    (m : M A) (k : A -> M B) :
  settles P Q1 m -> (forall a, Q1 a -> settles P Q (k a)) ->
  settles P Q (bind m k).
Proof.
  intros Hm Hk log. unfold bind.
  destruct (Hm log) as (extra & Hlog & Hall & Hres).
  destruct (m log) as [[a|e|] log1]; cbn [fst snd] in *; subst log1.
  - destruct (Hk a Hres (log ++ extra)) as (extra2 & Hlog2 & Hall2 & Hres2).
    exists (extra ++ extra2). rewrite app_assoc.
    repeat split; [assumption | apply Forall_app; auto | assumption].
  - exists extra. cbn. auto.
  - contradiction.
Qed.

Lemma settles_try {A} (P : Call -> Prop) (Q : A -> Prop)
    (catches : Exn -> bool) (m : M A) (handler : Exn -> M A) :
  settles P Q m -> (forall e, settles P Q (handler e)) ->
  settles P Q (try_except_when catches m handler).
Proof.
  intros Hm Hh log. unfold try_except_when.
  destruct (Hm log) as (extra & Hlog & Hall & Hres).
  destruct (m log) as [[a|e|] log1]; cbn [fst snd] in *; subst log1.
  - exists extra. cbn. auto.
  - destruct (catches e).
    + destruct (Hh e (log ++ extra)) as (extra2 & Hlog2 & Hall2 & Hres2).
      exists (extra ++ extra2). rewrite app_assoc.
      repeat split; [assumption | apply Forall_app; auto | assumption].
    + exists extra. cbn. auto.
  - contradiction.
Qed.

Lemma settles_weaken {A} (P P' : Call -> Prop) (Q Q' : A -> Prop) (m : M A) :
  (forall c, P c -> P' c) -> (forall a, Q a -> Q' a) ->
  settles P Q m -> settles P' Q' m.
Proof.
  intros HP HQ Hm log.
  destruct (Hm log) as (extra & Hlog & Hall & Hres).
  exists extra. repeat split; [assumption | | ].
  - eapply Forall_impl; eauto.
  - destruct (fst (m log)); auto.
Qed.

(** A loop settles when its passes do and its bound on passes is never
    reached. *)
Lemma settles_loop {St R} (P : Call -> Prop) (Inv : St -> Prop)
    (Q : R -> Prop) (pass : St -> M (Ctl St R)) (fuel : nat) (s : St) :
  (forall s, Inv s ->
     settles P (fun c => match c with Next s' => Inv s' | Leave r => Q r end)
             (pass s)) ->
  Inv s ->
  (forall log, fst (loop pass fuel s log) <> Unfinished) ->
  settles P Q (loop pass fuel s).
Proof.
  intros Hpass Hs Hfin log.
  assert (Hy : yields P Q (loop pass fuel s)).
  { apply yields_loop with (Inv := Inv); [|assumption].
    intros s0 Hs0 log0.
    destruct (Hpass s0 Hs0 log0) as (extra & Hlog & Hall & Hres).
    exists extra. repeat split; try assumption.
    destruct (fst (pass s0 log0)); auto. }
  destruct (Hy log) as (extra & Hlog & Hall & Hres).
  exists extra. repeat split; try assumption.
  specialize (Hfin log).
  destruct (fst (loop pass fuel s log)); auto.
Qed.

Lemma ends_within_finishes {R} (poll : M R) (attR : R -> nat) (bound : nat)
    (log : list Call) :
  ends_within poll attR bound log -> fst (poll log) <> Unfinished.
Proof.
  unfold ends_within. destruct (poll log) as [[r|e|] log']; cbn;
    [discriminate | discriminate | contradiction].
Qed.

Lemma returns_ret {A} (a : A) : returns (ret a).
Proof. intros log. exists a. reflexivity. Qed.

Lemma returns_bind {A B} (m : M A) (k : A -> M B) :
  returns m -> (forall a, returns (k a)) -> returns (bind m k).
Proof.
  intros Hm Hk log. unfold bind.
  destruct (Hm log) as (a & Ha).
  destruct (m log) as [r log1]. cbn in Ha. subst r. apply Hk.
Qed.

(** A handler for every exception, itself returning, makes a settling
    computation return. *)
Lemma returns_try {A} (P : Call -> Prop) (Q : A -> Prop) (m : M A)
    (handler : Exn -> M A) :
  settles P Q m -> (forall e, returns (handler e)) ->
  returns (try_except m handler).
Proof.
  intros Hm Hh log. unfold try_except, try_except_when.
  destruct (Hm log) as (extra & Hlog & Hall & Hres).
  destruct (m log) as [[a|e|] log1]; cbn [fst snd] in *.
  - exists a. reflexivity.
  - apply Hh.
  - contradiction.
Qed.

(** ** The poll loops inside the scripts *)

Ltac settle_by tac :=
  repeat first
    [ apply settles_ret; tac
    | apply settles_raise
    | apply settles_lift; intros; tac
    | apply settles_call; [tac | intros; tac]
    | eapply settles_bind with (Q1 := fun _ => True); [|intros ? _]
    | apply settles_try; [|intros ?]
    | match goal with
      | |- settles _ _ (match ?x with _ => _ end) => destruct x
      | |- settles _ _ (if ?b then _ else _) => destruct b
      end ].

Ltac settle := settle_by ltac:(cbn; auto).

Ltac known_call :=
  match goal with
  | HP : forall c, no_secret_call c -> ?P c |- ?P _ => apply HP; reflexivity
  | |- _ => exact I
  | |- _ => reflexivity
  end.

(** A call whose answer is kept track of. *)
Ltac tracked oracle :=
  eapply settles_bind with (Q1 := fun a => exists history, oracle history = Ok a);
  [ apply settles_call; [known_call | intros ? ? ?; eexists; eassumption] | ].

Ltac skip_lifts :=
  repeat (eapply settles_bind with (Q1 := fun _ => True);
          [apply settles_lift; auto | intros ? _]).

Ltac settle_known := settle_by ltac:(first [known_call | cbn; auto]).


Section Waits.
Variable w : World.
Variable P : Call -> Prop.
Hypothesis HP : forall c, no_secret_call c -> P c.
Variable Good : Run -> Prop.

(** The run a poll hands on is the run it was given or one the service
    answered a status fetch with. *)
Lemma test_github_wait_keeps thread_id mcp_tool run :
  Good run ->
  (forall history r, runs_get w history = Ok r -> Good r) ->
  settles P (fun st => Good (TestGithubAgent.run_of st))
    (TestGithubAgent.wait_for_completion w TestGithubAgent.max_attempts thread_id mcp_tool run).
Proof.
  intros Hrun Hget. unfold TestGithubAgent.wait_for_completion.
  apply settles_loop with (Inv := fun st => Good (TestGithubAgent.run_of st)).
  - intros [[attempt r] made] Hr. unfold TestGithubAgent.poll_pass. cbv zeta.
    destruct (str_in (r_status r) _); [|apply settles_ret; exact Hr].
    eapply settles_bind with (Q1 := Good);
      [apply settles_call; [known_call | exact Hget]|].
    intros r' Hr'.
    settle_by ltac:(first [exact Hr' | known_call | cbn; auto]).
  - exact Hrun.
  - intros log. apply (ends_within_finishes _ TestGithubAgent.attempt_of TestGithubAgent.max_attempts).
    apply (loop_ends_within _ TestGithubAgent.attempt_of);
      [apply test_github_pass_step | reflexivity
      | unfold TestGithubAgent.max_attempts; lia | lia].
Qed.

(** The run a poll hands on is the run it was given or one the service
    answered a status fetch with. *)
Lemma test_sql_wait_keeps thread_id mcp_tool run :
  Good run ->
  (forall history r, runs_get w history = Ok r -> Good r) ->
  settles P (fun st => Good (TestSqlAgent.run_of st))
    (TestSqlAgent.wait_for_completion w TestSqlAgent.max_attempts thread_id mcp_tool run).
Proof.
  intros Hrun Hget. unfold TestSqlAgent.wait_for_completion.
  apply settles_loop with (Inv := fun st => Good (TestSqlAgent.run_of st)).
  - intros [[attempt r] made] Hr. unfold TestSqlAgent.poll_pass. cbv zeta.
    destruct (str_in (r_status r) _); [|apply settles_ret; exact Hr].
    eapply settles_bind with (Q1 := Good);
      [apply settles_call; [known_call | exact Hget]|].
    intros r' Hr'.
    settle_by ltac:(first [exact Hr' | known_call | cbn; auto]).
  - exact Hrun.
  - intros log. apply (ends_within_finishes _ TestSqlAgent.attempt_of TestSqlAgent.max_attempts).
    apply (loop_ends_within _ TestSqlAgent.attempt_of);
      [apply test_sql_pass_step | reflexivity
      | unfold TestSqlAgent.max_attempts; lia | lia].
Qed.

(** The run a poll hands on is the run it was given or one the service
    answered a status fetch with. *)
Lemma chat_sql_wait_keeps thread_id mcp_tool run :
  Good run ->
  (forall history r, runs_get w history = Ok r -> Good r) ->
  settles P (fun st => Good (ChatSqlAgent.run_of st))
    (ChatSqlAgent.wait_for_completion w ChatSqlAgent.max_attempts thread_id mcp_tool run).
Proof.
  intros Hrun Hget. unfold ChatSqlAgent.wait_for_completion.
  apply settles_loop with (Inv := fun st => Good (ChatSqlAgent.run_of st)).
  - intros [[attempt r] made] Hr. unfold ChatSqlAgent.poll_pass. cbv zeta.
    destruct (str_in (r_status r) _); [|apply settles_ret; exact Hr].
    eapply settles_bind with (Q1 := Good);
      [apply settles_call; [known_call | exact Hget]|].
    intros r' Hr'.
    settle_by ltac:(first [exact Hr' | known_call | cbn; auto]).
  - exact Hrun.
  - intros log. apply (ends_within_finishes _ ChatSqlAgent.attempt_of ChatSqlAgent.max_attempts).
    apply (loop_ends_within _ ChatSqlAgent.attempt_of);
      [apply chat_sql_pass_step | reflexivity
      | unfold ChatSqlAgent.max_attempts; lia | lia].
Qed.

Lemma chat_github_wait_keeps thread_id run_id :
  (forall history r, runs_get w history = Ok r -> Good r) ->
  settles P (fun r : nat * Run => Good (snd r))
    (ChatGithubAgent.wait_loop w ChatGithubAgent.max_attempts thread_id run_id).
Proof.
  intros Hget. unfold ChatGithubAgent.wait_loop.
  apply settles_loop with (Inv := fun _ => True).
  - intros attempt _. unfold ChatGithubAgent.wait_pass. cbv zeta.
    eapply settles_bind with (Q1 := Good);
      [apply settles_call; [known_call | exact Hget]|].
    intros r' Hr'.
    settle_by ltac:(first [exact Hr' | known_call | cbn; auto]).
  - exact I.
  - intros log.
    apply (ends_within_finishes _ fst ChatGithubAgent.max_attempts).
    apply (loop_ends_within _ (fun attempt : nat => attempt));
      [apply chat_github_pass_step | reflexivity
      | unfold ChatGithubAgent.max_attempts; lia | lia].
Qed.

End Waits.

(** ** Giving up after [max_attempts] *)

Section TimeoutLoop.
Context {St R : Type}.
Variables (pass : St -> M (Ctl St R)) (att : St -> nat) (attR : R -> nat).
Variable bound : nat.
Variables (Inv : St -> Prop) (Post : R -> Prop).

Hypothesis steady :
  forall (s : St) (log : list Call),
    Inv s ->
    exists log',
      fetches log' = fetches log + 1
      /\ ((att s + 1 < bound
           /\ exists s', pass s log = (Returned (Next s'), log')
                         /\ att s' = att s + 1 /\ Inv s')
          \/ (bound <= att s + 1
              /\ exists r, pass s log = (Returned (Leave r), log')
                           /\ attR r = att s + 1 /\ Post r)).

Lemma loop_runs_out :
  forall (n extra : nat) (s : St) (log : list Call),
    Inv s -> att s + n = bound -> 1 <= n ->
    exists r log',
      loop pass (n + extra) s log = (Returned r, log')
      /\ attR r = bound /\ fetches log' = fetches log + n /\ Post r.
Proof.
  induction n as [|n IH]; intros extra s log Hinv Hatt Hn; [lia|].
  destruct (steady s log Hinv) as (log1 & Hlog1 & Hcase).
  cbn [Nat.add loop]. unfold bind.
  destruct Hcase as [(Hlt & s' & Hpass & Hs' & Hinv')|(Hge & r & Hpass & Hr & Hpost)];
    rewrite Hpass.
  - destruct (IH extra s' log1 Hinv') as (r & log2 & Hloop & Hr & Hlog2 & Hpost);
      [lia | lia |].
    exists r, log2. repeat split; try assumption. lia.
  - exists r, log1. unfold ret. repeat split; try assumption; lia.
Qed.

End TimeoutLoop.

Lemma still_running_in_loop run :
  still_running run = true ->
  str_in (r_status run) ["queued"; "in_progress"; "requires_action"] = true.
Proof.
  unfold still_running, str_in. cbn [existsb].
  destruct (r_status run =? "queued"), (r_status run =? "in_progress"),
    (r_status run =? "requires_action"); cbn; intros H;
    try reflexivity; try discriminate.
Qed.

Lemma still_running_not_terminal run :
  still_running run = true ->
  terminal_status (r_status run) = false
  /\ r_status run <> "completed" /\ r_status run <> "failed".
Proof.
  intros H.
  assert (Hcases : r_status run = "queued" \/ r_status run = "in_progress"
                   \/ r_status run = "requires_action").
  { unfold still_running, str_in in H. cbn [existsb] in H.
    destruct (String.eqb_spec (r_status run) "queued"); [auto|].
    destruct (String.eqb_spec (r_status run) "in_progress"); [auto|].
    destruct (String.eqb_spec (r_status run) "requires_action"); [auto|].
    discriminate. }
  destruct Hcases as [E|[E|E]]; rewrite E;
    (split; [reflexivity | split; discriminate]).
Qed.

Lemma still_running_no_approval run :
  still_running run = true ->
  TestGithubAgent.approval_calls run = None
  /\ TestSqlAgent.approval_calls run = None
  /\ ChatSqlAgent.approval_calls run = None.
Proof.
  unfold still_running, str_in, TestGithubAgent.approval_calls,
    TestSqlAgent.approval_calls, ChatSqlAgent.approval_calls.
  cbn [existsb].
  destruct (String.eqb_spec (r_status run) "requires_action") as [E|E].
  - rewrite E. cbn.
    destruct (r_required_action run) as [[c|c|c]|]; cbn; intros H;
      try discriminate; repeat split.
  - intros _. repeat split.
Qed.

Lemma still_running_cases run :
  still_running run = true ->
  r_status run = "queued" \/ r_status run = "in_progress"
  \/ (r_status run = "requires_action"
      /\ forall calls, r_required_action run <> Some (McpToolApprovalShape calls)).
Proof.
  unfold still_running, str_in. cbn [existsb].
  destruct (String.eqb_spec (r_status run) "queued"); [auto|].
  destruct (String.eqb_spec (r_status run) "in_progress"); [auto|].
  destruct (String.eqb_spec (r_status run) "requires_action"); [|discriminate].
  cbn. intros H. right. right. split; [assumption|].
  intros calls E. rewrite E in H. discriminate.
Qed.

Section NeverSettles.
Variable w : World.
Hypothesis waiting : never_settles w.

Lemma test_github_steady thread_id mcp_tool bound (s : TestGithubAgent.PollState) log :
  still_running (TestGithubAgent.run_of s) = true ->
  exists log',
    fetches log' = fetches log + 1
    /\ ((TestGithubAgent.attempt_of s + 1 < bound
         /\ exists s', TestGithubAgent.poll_pass w thread_id mcp_tool bound s log
                       = (Returned (Next s'), log')
                       /\ TestGithubAgent.attempt_of s' = TestGithubAgent.attempt_of s + 1
                       /\ still_running (TestGithubAgent.run_of s') = true)
        \/ (bound <= TestGithubAgent.attempt_of s + 1
            /\ exists r, TestGithubAgent.poll_pass w thread_id mcp_tool bound s log
                         = (Returned (Leave r), log')
                         /\ TestGithubAgent.attempt_of r = TestGithubAgent.attempt_of s + 1
                         /\ still_running (TestGithubAgent.run_of r) = true)).
Proof.
  destruct s as [[attempt run] made].
  unfold TestGithubAgent.run_of, TestGithubAgent.attempt_of. cbn [fst snd].
  intros Hrun.
  exists (log ++ [CRunsGet thread_id (r_id run)]).
  split; [count_fetches|].
  unfold TestGithubAgent.poll_pass. rewrite (still_running_in_loop _ Hrun).
  unfold bind, call, lift.
  destruct (waiting (log ++ [CRunsGet thread_id (r_id run)])) as (r & Hget & Hr).
  rewrite Hget.
  destruct (still_running_no_approval _ Hr) as (-> & _ & _).
  destruct (Nat.leb_spec bound (attempt + 1)).
  - right. split; [assumption|]. eexists. unfold ret. repeat split. exact Hr.
  - left. split; [assumption|]. eexists. unfold ret. repeat split. exact Hr.
Qed.

Lemma test_sql_steady thread_id mcp_tool bound (s : TestSqlAgent.PollState) log :
  still_running (TestSqlAgent.run_of s) = true ->
  exists log',
    fetches log' = fetches log + 1
    /\ ((TestSqlAgent.attempt_of s + 1 < bound
         /\ exists s', TestSqlAgent.poll_pass w thread_id mcp_tool bound s log
                       = (Returned (Next s'), log')
                       /\ TestSqlAgent.attempt_of s' = TestSqlAgent.attempt_of s + 1
                       /\ still_running (TestSqlAgent.run_of s') = true)
        \/ (bound <= TestSqlAgent.attempt_of s + 1
            /\ exists r, TestSqlAgent.poll_pass w thread_id mcp_tool bound s log
                         = (Returned (Leave r), log')
                         /\ TestSqlAgent.attempt_of r = TestSqlAgent.attempt_of s + 1
                         /\ still_running (TestSqlAgent.run_of r) = true)).
Proof.
  destruct s as [[attempt run] made].
  unfold TestSqlAgent.run_of, TestSqlAgent.attempt_of. cbn [fst snd].
  intros Hrun.
  exists (log ++ [CRunsGet thread_id (r_id run)]).
  split; [count_fetches|].
  unfold TestSqlAgent.poll_pass. rewrite (still_running_in_loop _ Hrun).
  unfold bind, call, lift.
  destruct (waiting (log ++ [CRunsGet thread_id (r_id run)])) as (r & Hget & Hr).
  rewrite Hget.
  destruct (still_running_no_approval _ Hr) as (_ & -> & _).
  destruct (Nat.leb_spec bound (attempt + 1)).
  - right. split; [assumption|]. eexists. unfold ret. repeat split. exact Hr.
  - left. split; [assumption|]. eexists. unfold ret. repeat split. exact Hr.
Qed.

Lemma chat_sql_steady thread_id mcp_tool bound (s : ChatSqlAgent.PollState) log :
  still_running (ChatSqlAgent.run_of s) = true ->
  exists log',
    fetches log' = fetches log + 1
    /\ ((ChatSqlAgent.attempt_of s + 1 < bound
         /\ exists s', ChatSqlAgent.poll_pass w thread_id mcp_tool bound s log
                       = (Returned (Next s'), log')
                       /\ ChatSqlAgent.attempt_of s' = ChatSqlAgent.attempt_of s + 1
                       /\ still_running (ChatSqlAgent.run_of s') = true)
        \/ (bound <= ChatSqlAgent.attempt_of s + 1
            /\ exists r, ChatSqlAgent.poll_pass w thread_id mcp_tool bound s log
                         = (Returned (Leave r), log')
                         /\ ChatSqlAgent.attempt_of r = ChatSqlAgent.attempt_of s + 1
                         /\ still_running (ChatSqlAgent.run_of r) = true)).
Proof.
  destruct s as [[attempt run] made].
  unfold ChatSqlAgent.run_of, ChatSqlAgent.attempt_of. cbn [fst snd].
  intros Hrun.
  exists (log ++ [CRunsGet thread_id (r_id run)]).
  split; [count_fetches|].
  unfold ChatSqlAgent.poll_pass. rewrite (still_running_in_loop _ Hrun).
  unfold bind, call, lift.
  destruct (waiting (log ++ [CRunsGet thread_id (r_id run)])) as (r & Hget & Hr).
  rewrite Hget.
  destruct (still_running_no_approval _ Hr) as (_ & _ & ->).
  destruct (Nat.leb_spec bound (attempt + 1)).
  - right. split; [assumption|]. eexists. unfold ret. repeat split. exact Hr.
  - left. split; [assumption|]. eexists. unfold ret. repeat split. exact Hr.
Qed.

Lemma chat_github_steady thread_id run_id bound (attempt : nat) log :
  True ->
  exists log',
    fetches log' = fetches log + 1
    /\ ((attempt + 1 < bound
         /\ exists attempt',
              ChatGithubAgent.wait_pass w thread_id run_id bound attempt log
              = (Returned (Next attempt'), log')
              /\ attempt' = attempt + 1 /\ True)
        \/ (bound <= attempt + 1
            /\ exists r : nat * Run,
                 ChatGithubAgent.wait_pass w thread_id run_id bound attempt log
                 = (Returned (Leave r), log')
                 /\ fst r = attempt + 1 /\ still_running (snd r) = true)).
Proof.
  intros _.
  exists (log ++ [CRunsGet thread_id run_id]).
  split; [count_fetches|].
  unfold ChatGithubAgent.wait_pass, bind, call, lift.
  destruct (waiting (log ++ [CRunsGet thread_id run_id])) as (r & Hget & Hr).
  rewrite Hget.
  destruct (still_running_cases _ Hr) as [E|[E|[E Hshape]]]; rewrite E; cbn.
  1, 2: destruct (Nat.leb_spec bound (attempt + 1));
        [right | left]; (split; [assumption|]); eexists; unfold ret;
        repeat split; exact Hr.
  destruct (r_required_action r) as [[c|c|c]|];
    [| exfalso; apply (Hshape c); reflexivity | |];
    unfold ret; cbn;
    (destruct (Nat.leb_spec bound (attempt + 1));
     [right | left]; (split; [assumption|]); eexists;
     repeat split; exact Hr).
Qed.

End NeverSettles.

Lemma timed_out_of_run {R} (poll : M R) (attR : R -> nat) (runR : R -> Run)
    (bound : nat) (log : list Call) :
  (exists r log',
     poll log = (Returned r, log') /\ attR r = bound
     /\ fetches log' = fetches log + bound /\ still_running (runR r) = true) ->
  timed_out poll attR runR bound log.
Proof.
  intros (r & log' & Hpoll & Hatt & Hlog & Hrun).
  unfold timed_out. rewrite Hpoll.
  destruct (still_running_not_terminal _ Hrun) as (H1 & H2 & H3).
  repeat split; assumption.
Qed.

Lemma not_terminal_not_done status :
  terminal_status status = false ->
  terminal_status status = false /\ status <> "completed" /\ status <> "failed".
Proof.
  intros H. split; [exact H|].
  split; intros ->; discriminate.
Qed.

(** ** Tool approvals in a requires-action episode *)

Lemma approval_ids hdrs calls :
  map ta_tool_call_id (map (approve_with hdrs) calls) = map tc_id calls.
Proof. rewrite map_map. reflexivity. Qed.

Lemma filter_all_mcp calls :
  forallb is_mcp_call calls = true -> filter is_mcp_call calls = calls.
Proof.
  induction calls as [|c cs IH]; cbn; [reflexivity|].
  destruct (is_mcp_call c); cbn; [|discriminate].
  intros H. rewrite IH by assumption. reflexivity.
Qed.

Ltac log_shape :=
  cbn [snd one_batch map];
  repeat rewrite <- app_assoc; cbn [app]; reflexivity.

Lemma test_github_episode_log w thread_id mcp_tool bound attempt run made log
    episode calls :
  str_in (r_status run) ["queued"; "in_progress"; "requires_action"] = true ->
  runs_get w (log ++ [CRunsGet thread_id (r_id run)]) = Ok episode ->
  TestGithubAgent.approval_calls episode = Some calls ->
  calls <> [] ->
  snd (TestGithubAgent.poll_pass w thread_id mcp_tool bound (attempt, run, made) log)
  = log ++ CRunsGet thread_id (r_id run)
           :: one_batch (CSubmitToolOutputs thread_id (r_id episode))
                        (map (approve_with (Some (headers mcp_tool)))
                             (filter is_mcp_call calls)).
Proof.
  intros Hcond Hget Hcalls Hne.
  unfold TestGithubAgent.poll_pass. rewrite Hcond.
  unfold bind, call, lift. rewrite Hget, Hcalls.
  destruct calls as [|c cs]; [congruence|].
  fold (approve_with (Some (headers mcp_tool))).
  destruct (map (approve_with (Some (headers mcp_tool)))
                (filter is_mcp_call (c :: cs))) as [|a approvals].
  - unfold ret. destruct (bound <=? attempt + 1)%nat; log_shape.
  - destruct (runs_submit_tool_outputs w _);
      [destruct (bound <=? attempt + 1)%nat|]; unfold ret; log_shape.
Qed.

Lemma test_sql_episode_log w thread_id mcp_tool bound attempt run made log
    episode calls :
  str_in (r_status run) ["queued"; "in_progress"; "requires_action"] = true ->
  runs_get w (log ++ [CRunsGet thread_id (r_id run)]) = Ok episode ->
  TestSqlAgent.approval_calls episode = Some calls ->
  calls <> [] ->
  snd (TestSqlAgent.poll_pass w thread_id mcp_tool bound (attempt, run, made) log)
  = log ++ CRunsGet thread_id (r_id run)
           :: one_batch (CSubmitToolOutputs thread_id (r_id episode))
                        (map (approve_with (Some (headers mcp_tool)))
                             (filter is_mcp_call calls)).
Proof.
  intros Hcond Hget Hcalls Hne.
  unfold TestSqlAgent.poll_pass. rewrite Hcond.
  unfold bind, call, lift. rewrite Hget, Hcalls.
  destruct calls as [|c cs]; [congruence|].
  fold (approve_with (Some (headers mcp_tool))).
  destruct (map (approve_with (Some (headers mcp_tool)))
                (filter is_mcp_call (c :: cs))) as [|a approvals].
  - unfold ret. destruct (bound <=? attempt + 1)%nat; log_shape.
  - destruct (runs_submit_tool_outputs w _);
      [destruct (bound <=? attempt + 1)%nat|]; unfold ret; log_shape.
Qed.

Lemma chat_sql_episode_log w thread_id mcp_tool bound attempt run made log
    episode calls :
  str_in (r_status run) ["queued"; "in_progress"; "requires_action"] = true ->
  runs_get w (log ++ [CRunsGet thread_id (r_id run)]) = Ok episode ->
  ChatSqlAgent.approval_calls episode = Some calls ->
  calls <> [] ->
  snd (ChatSqlAgent.poll_pass w thread_id mcp_tool bound (attempt, run, made) log)
  = log ++ [CRunsGet thread_id (r_id run);
            CSubmitToolOutputs thread_id (r_id episode)
              (map (approve_with (Some (headers mcp_tool))) calls)].
Proof.
  intros Hcond Hget Hcalls Hne.
  unfold ChatSqlAgent.poll_pass. rewrite Hcond.
  unfold bind, call, lift. rewrite Hget, Hcalls.
  destruct calls as [|c cs]; [congruence|].
  fold (approve_with (Some (headers mcp_tool))).
  destruct (runs_submit_tool_outputs w _);
    [destruct (bound <=? attempt + 1)%nat|]; unfold ret; log_shape.
Qed.

Lemma chat_github_episode_log w thread_id run_id bound attempt log episode calls :
  runs_get w (log ++ [CRunsGet thread_id run_id]) = Ok episode ->
  r_status episode = "requires_action" ->
  r_required_action episode = Some (McpToolApprovalShape calls) ->
  snd (ChatGithubAgent.wait_pass w thread_id run_id bound attempt log)
  = log ++ [CRunsGet thread_id run_id;
            CSubmitToolApproval thread_id run_id
              (map (approve_with None) calls)].
Proof.
  intros Hget Hstatus Haction.
  unfold ChatGithubAgent.wait_pass.
  unfold bind, call, lift. rewrite Hget, Hstatus, Haction. cbn.
  fold (approve_with None).
  destruct (runs_submit_tool_approval w _);
    [destruct (bound <=? attempt + 1)%nat|]; unfold ret; log_shape.
Qed.

Lemma approval_calls_of episode calls :
  r_status episode = "requires_action" ->
  r_required_action episode = Some (SubmitToolApprovalAction calls) ->
  TestGithubAgent.approval_calls episode = Some calls
  /\ TestSqlAgent.approval_calls episode = Some calls
  /\ ChatSqlAgent.approval_calls episode = Some calls.
Proof.
  intros Hs Ha.
  unfold TestGithubAgent.approval_calls, TestSqlAgent.approval_calls,
    ChatSqlAgent.approval_calls.
  rewrite Hs, Ha. repeat split.
Qed.

(** C2, as the code has it.  In a requires-action episode whose approval
    action carries N >= 1 pending tool calls, a pass issues the status
    fetch and then: in the SQL chat script exactly one batch with one
    approval per pending call; in the GitHub chat script (for the action
    shape it looks for) likewise; in the two test scripts at most one
    batch, with one approval per pending call that is an MCP tool call and
    none for the others, hence all N when every pending call is an MCP
    call and no batch when none is.  Approvals carry the ids of the calls
    they answer, in order. *)
Theorem approvals_per_episode :
  forall (w : World) (thread_id : string) (mcp_tool : McpTool)
         (bound attempt : nat) (run : Run) (made : list (string * string))
         (log : list Call) (episode : Run) (calls : list RequiredToolCall),
    str_in (r_status run) ["queued"; "in_progress"; "requires_action"] = true ->
    runs_get w (log ++ [CRunsGet thread_id (r_id run)]) = Ok episode ->
    r_status episode = "requires_action" ->
    calls <> [] ->
    (r_required_action episode = Some (SubmitToolApprovalAction calls) ->
     issued (TestGithubAgent.poll_pass w thread_id mcp_tool bound
                                       (attempt, run, made)) log
     = CRunsGet thread_id (r_id run)
         :: one_batch (CSubmitToolOutputs thread_id (r_id episode))
                      (map (approve_with (Some (headers mcp_tool)))
                           (filter is_mcp_call calls))
     /\ issued (TestSqlAgent.poll_pass w thread_id mcp_tool bound
                                       (attempt, run, made)) log
        = CRunsGet thread_id (r_id run)
            :: one_batch (CSubmitToolOutputs thread_id (r_id episode))
                         (map (approve_with (Some (headers mcp_tool)))
                              (filter is_mcp_call calls))
     /\ issued (ChatSqlAgent.poll_pass w thread_id mcp_tool bound
                                       (attempt, run, made)) log
        = [CRunsGet thread_id (r_id run);
           CSubmitToolOutputs thread_id (r_id episode)
             (map (approve_with (Some (headers mcp_tool))) calls)])
    /\ (r_required_action episode = Some (McpToolApprovalShape calls) ->
        issued (ChatGithubAgent.wait_pass w thread_id (r_id run) bound attempt)
               log
        = [CRunsGet thread_id (r_id run);
           CSubmitToolApproval thread_id (r_id run)
             (map (approve_with None) calls)])
    /\ (forall hdrs cs,
          map ta_tool_call_id (map (approve_with hdrs) cs) = map tc_id cs
          /\ length (map (approve_with hdrs) cs) = length cs)
    /\ (forallb is_mcp_call calls = true -> filter is_mcp_call calls = calls).
Proof.
  intros w thread_id mcp_tool bound attempt run made log episode calls
         Hcond Hget Hstatus Hne.
  split; [|split; [|split]].
  - intros Haction.
    destruct (approval_calls_of _ _ Hstatus Haction) as (H1 & H2 & H3).
    repeat split; apply issued_app.
    + apply test_github_episode_log; assumption.
    + apply test_sql_episode_log; assumption.
    + apply chat_sql_episode_log; assumption.
  - intros Haction. apply issued_app.
    apply chat_github_episode_log with (episode := episode); assumption.
  - intros hdrs cs. split; [apply approval_ids | apply length_map].
  - apply filter_all_mcp.
Qed.

Lemma approvals_per_episode_witness :
  issued (TestGithubAgent.poll_pass two_calls_pending "thread_1" example_tool
            60 (0, in_progress_run, [])) []
  = [CRunsGet "thread_1" "run_1";
     CSubmitToolOutputs "thread_1" "run_1"
       [mkApproval "call_1" true (Some []); mkApproval "call_2" true (Some [])]]
  /\ issued (TestSqlAgent.poll_pass two_calls_pending "thread_1" example_tool
               60 (0, in_progress_run, [])) []
     = [CRunsGet "thread_1" "run_1";
        CSubmitToolOutputs "thread_1" "run_1"
          [mkApproval "call_1" true (Some []); mkApproval "call_2" true (Some [])]]
  /\ issued (ChatSqlAgent.poll_pass two_calls_pending "thread_1" example_tool
               60 (0, in_progress_run, [])) []
     = [CRunsGet "thread_1" "run_1";
        CSubmitToolOutputs "thread_1" "run_1"
          [mkApproval "call_1" true (Some []); mkApproval "call_2" true (Some [])]].
Proof.
  refine (proj1 (approvals_per_episode two_calls_pending "thread_1" example_tool
                   60 0 in_progress_run [] [] two_calls_episode
                   [mkToolCall RequiredMcpToolCall "call_1" "list_tables" "{}";
                    mkToolCall RequiredMcpToolCall "call_2" "read_data" "{}"]
                   _ _ _ _) _).
  - reflexivity.
  - reflexivity.
  - reflexivity.
  - discriminate.
  - reflexivity.
Defined.

(** C2 as stated fails on the test scripts: an episode with one pending
    tool call that is not an MCP tool call gets no approval at all; the
    pass ends after the status fetch and the loop goes round again. *)
Lemma approvals_per_episode_counterexample :
  runs_get function_call_pending ([] ++ [CRunsGet "thread_1" "run_1"])
  = Ok function_call_episode
  /\ r_status function_call_episode = "requires_action"
  /\ length (pending_calls function_call_episode) = 1
  /\ TestGithubAgent.poll_pass function_call_pending "thread_1" example_tool
       TestGithubAgent.max_attempts (0, in_progress_run, []) []
     = (Returned (Next (1, function_call_episode, [])),
        [CRunsGet "thread_1" "run_1"])
  /\ filter is_submission
       (issued (TestGithubAgent.poll_pass function_call_pending "thread_1"
                  example_tool TestGithubAgent.max_attempts
                  (0, in_progress_run, [])) [])
     = [].
Proof. repeat split. Qed.

(** ** A requires-action episode without pending tool calls *)

Lemma leaves_at_once {St} (w : World) (pass : St -> M (Ctl St St)) (s : St)
    (log : list Call) (fetch cancel : Call) (final : St) :
  pass s log
  = (match runs_cancel w (log ++ [fetch; cancel]) with
     | Ok _ => Returned (Leave final)
     | Raise e => Raised e
     end, log ++ [fetch; cancel]) ->
  cancels_and_leaves w pass s log fetch cancel final.
Proof.
  intros Hpass fuel.
  assert (Hloop :
    loop pass (S fuel) s log
    = (match runs_cancel w (log ++ [fetch; cancel]) with
       | Ok _ => Returned final
       | Raise e => Raised e
       end, log ++ [fetch; cancel])).
  { cbn [loop]. unfold bind. rewrite Hpass.
    destruct (runs_cancel w _); reflexivity. }
  split.
  - apply issued_app. rewrite Hloop. reflexivity.
  - rewrite Hloop. cbn [fst]. destruct (runs_cancel w _); reflexivity.
Qed.

Lemma test_github_empty_episode w thread_id mcp_tool bound attempt run made log
    episode :
  str_in (r_status run) ["queued"; "in_progress"; "requires_action"] = true ->
  runs_get w (log ++ [CRunsGet thread_id (r_id run)]) = Ok episode ->
  TestGithubAgent.approval_calls episode = Some [] ->
  cancels_and_leaves w
    (TestGithubAgent.poll_pass w thread_id mcp_tool bound) (attempt, run, made)
    log (CRunsGet thread_id (r_id run)) (CRunsCancel thread_id (r_id episode))
    (attempt + 1, episode, made).
Proof.
  intros Hcond Hget Hcalls. apply leaves_at_once.
  unfold TestGithubAgent.poll_pass. rewrite Hcond.
  unfold bind, call, lift. rewrite Hget, Hcalls.
  rewrite <- app_assoc. cbn [app].
  destruct (runs_cancel w _); reflexivity.
Qed.

Lemma test_sql_empty_episode w thread_id mcp_tool bound attempt run made log
    episode :
  str_in (r_status run) ["queued"; "in_progress"; "requires_action"] = true ->
  runs_get w (log ++ [CRunsGet thread_id (r_id run)]) = Ok episode ->
  TestSqlAgent.approval_calls episode = Some [] ->
  cancels_and_leaves w
    (TestSqlAgent.poll_pass w thread_id mcp_tool bound) (attempt, run, made)
    log (CRunsGet thread_id (r_id run)) (CRunsCancel thread_id (r_id episode))
    (attempt + 1, episode, made).
Proof.
  intros Hcond Hget Hcalls. apply leaves_at_once.
  unfold TestSqlAgent.poll_pass. rewrite Hcond.
  unfold bind, call, lift. rewrite Hget, Hcalls.
  rewrite <- app_assoc. cbn [app].
  destruct (runs_cancel w _); reflexivity.
Qed.

Lemma chat_sql_empty_episode w thread_id mcp_tool bound attempt run made log
    episode :
  str_in (r_status run) ["queued"; "in_progress"; "requires_action"] = true ->
  runs_get w (log ++ [CRunsGet thread_id (r_id run)]) = Ok episode ->
  ChatSqlAgent.approval_calls episode = Some [] ->
  cancels_and_leaves w
    (ChatSqlAgent.poll_pass w thread_id mcp_tool bound) (attempt, run, made)
    log (CRunsGet thread_id (r_id run)) (CRunsCancel thread_id (r_id episode))
    (attempt + 1, episode, made).
Proof.
  intros Hcond Hget Hcalls. apply leaves_at_once.
  unfold ChatSqlAgent.poll_pass. rewrite Hcond.
  unfold bind, call, lift. rewrite Hget, Hcalls.
  rewrite <- app_assoc. cbn [app].
  destruct (runs_cancel w _); reflexivity.
Qed.

(** C3, as the code has it.  When a status fetch finds the run in
    requires_action with a tool approval action that carries no tool call,
    the poll loops of the two test scripts and of the SQL chat script issue
    one cancel call for the run and end in that same pass, without another
    fetch; what they hand on is the fetched run, still in requires_action,
    not a separate anomaly value. *)
Theorem empty_approval_episode_cancelled :
  forall (w : World) (thread_id : string) (mcp_tool : McpTool)
         (bound attempt : nat) (run : Run) (made : list (string * string))
         (log : list Call) (episode : Run),
    str_in (r_status run) ["queued"; "in_progress"; "requires_action"] = true ->
    runs_get w (log ++ [CRunsGet thread_id (r_id run)]) = Ok episode ->
    r_status episode = "requires_action" ->
    r_required_action episode = Some (SubmitToolApprovalAction []) ->
    cancels_and_leaves w
      (TestGithubAgent.poll_pass w thread_id mcp_tool bound) (attempt, run, made)
      log (CRunsGet thread_id (r_id run)) (CRunsCancel thread_id (r_id episode))
      (attempt + 1, episode, made)
    /\ cancels_and_leaves w
         (TestSqlAgent.poll_pass w thread_id mcp_tool bound) (attempt, run, made)
         log (CRunsGet thread_id (r_id run)) (CRunsCancel thread_id (r_id episode))
         (attempt + 1, episode, made)
    /\ cancels_and_leaves w
         (ChatSqlAgent.poll_pass w thread_id mcp_tool bound) (attempt, run, made)
         log (CRunsGet thread_id (r_id run)) (CRunsCancel thread_id (r_id episode))
         (attempt + 1, episode, made).
Proof.
  intros w thread_id mcp_tool bound attempt run made log episode
         Hcond Hget Hstatus Haction.
  destruct (approval_calls_of _ _ Hstatus Haction) as (H1 & H2 & H3).
  split; [|split].
  - apply test_github_empty_episode; assumption.
  - apply test_sql_empty_episode; assumption.
  - apply chat_sql_empty_episode; assumption.
Qed.

Lemma empty_approval_episode_cancelled_witness :
  cancels_and_leaves empty_approval_pending
    (TestGithubAgent.poll_pass empty_approval_pending "thread_1" example_tool 60)
    (0, in_progress_run, [])
    [] (CRunsGet "thread_1" "run_1") (CRunsCancel "thread_1" "run_1")
    (0 + 1, empty_approval_episode, [])
  /\ cancels_and_leaves empty_approval_pending
       (TestSqlAgent.poll_pass empty_approval_pending "thread_1" example_tool 60)
       (0, in_progress_run, [])
       [] (CRunsGet "thread_1" "run_1") (CRunsCancel "thread_1" "run_1")
       (0 + 1, empty_approval_episode, [])
  /\ cancels_and_leaves empty_approval_pending
       (ChatSqlAgent.poll_pass empty_approval_pending "thread_1" example_tool 60)
       (0, in_progress_run, [])
       [] (CRunsGet "thread_1" "run_1") (CRunsCancel "thread_1" "run_1")
       (0 + 1, empty_approval_episode, []).
Proof.
  apply (empty_approval_episode_cancelled empty_approval_pending "thread_1"
           example_tool 60 0 in_progress_run [] [] empty_approval_episode);
    reflexivity.
Defined.

(** C3 as stated fails where the guard on the action's type does not
    hold: an episode in requires_action with no pending tool call whose
    required action is not a tool approval is not cancelled by the SQL test
    script; the pass ends after the fetch, and the whole loop goes on to
    its 60 fetches without ever cancelling. *)
Lemma empty_episode_counterexample :
  r_status empty_outputs_episode = "requires_action"
  /\ pending_calls empty_outputs_episode = []
  /\ TestSqlAgent.poll_pass empty_outputs_pending "thread_1" example_tool
       TestSqlAgent.max_attempts (0, in_progress_run, []) []
     = (Returned (Next (1, empty_outputs_episode, [])),
        [CRunsGet "thread_1" "run_1"])
  /\ fst (TestSqlAgent.wait_for_completion empty_outputs_pending
            TestSqlAgent.max_attempts "thread_1" example_tool in_progress_run [])
     = Returned (60, empty_outputs_episode, [])
  /\ filter is_runs_cancel
       (snd (TestSqlAgent.wait_for_completion empty_outputs_pending
               TestSqlAgent.max_attempts "thread_1" example_tool
               in_progress_run []))
     = []
  /\ fetches
       (snd (TestSqlAgent.wait_for_completion empty_outputs_pending
               TestSqlAgent.max_attempts "thread_1" example_tool
               in_progress_run []))
     = 60.
Proof. repeat split; vm_compute; reflexivity. Qed.

(** The GitHub chat script has no cancelling branch.  On the empty episode
    of the shape it looks for it submits an empty batch at every pass and
    polls on to its 120 fetches. *)
Lemma chat_github_empty_episode_run :
  fst (ChatGithubAgent.wait_loop empty_mcp_approval_pending
         ChatGithubAgent.max_attempts "thread_1" "run_1" [])
  = Returned (120, empty_mcp_approval_episode)
  /\ filter is_runs_cancel
       (snd (ChatGithubAgent.wait_loop empty_mcp_approval_pending
               ChatGithubAgent.max_attempts "thread_1" "run_1" []))
     = []
  /\ fetches
       (snd (ChatGithubAgent.wait_loop empty_mcp_approval_pending
               ChatGithubAgent.max_attempts "thread_1" "run_1" []))
     = 120
  /\ filter is_submission
       (snd (ChatGithubAgent.wait_loop empty_mcp_approval_pending
               ChatGithubAgent.max_attempts "thread_1" "run_1" []))
     = repeat (CSubmitToolApproval "thread_1" "run_1" []) 120.
Proof. repeat split; vm_compute; reflexivity. Qed.

(** The scenario of the specification, run through the three loops that
    look for [submit_tool_approval]: five status fetches, exactly one
    submission, of two approvals, and a final status of completed. *)
Lemma scenario_two_calls :
  TestGithubAgent.wait_for_completion scenario_service
    TestGithubAgent.max_attempts "thread_1" example_tool
    (mkRun "run_1" "queued" None None) []
  = (Returned (5, completed_run, [("list_tables", "{}"); ("read_data", "{}")]),
     [CRunsGet "thread_1" "run_1"; CRunsGet "thread_1" "run_1";
      CRunsGet "thread_1" "run_1";
      CSubmitToolOutputs "thread_1" "run_1"
        [mkApproval "call_1" true (Some []); mkApproval "call_2" true (Some [])];
      CRunsGet "thread_1" "run_1"; CRunsGet "thread_1" "run_1"])
  /\ TestSqlAgent.wait_for_completion scenario_service
       TestSqlAgent.max_attempts "thread_1" example_tool
       (mkRun "run_1" "queued" None None) []
     = TestGithubAgent.wait_for_completion scenario_service
         TestGithubAgent.max_attempts "thread_1" example_tool
         (mkRun "run_1" "queued" None None) []
  /\ ChatSqlAgent.wait_for_completion scenario_service
       ChatSqlAgent.max_attempts "thread_1" example_tool
       (mkRun "run_1" "queued" None None) []
     = TestGithubAgent.wait_for_completion scenario_service
         TestGithubAgent.max_attempts "thread_1" example_tool
         (mkRun "run_1" "queued" None None) [].
Proof. repeat split; vm_compute; reflexivity. Qed.

(** No anomaly value: after the cancellation the test script is left with
    a run in requires_action, the very status it is left with when it
    times out on an episode that keeps asking for approvals. *)
Lemma anomaly_status_same_as_timeout :
  fst (TestGithubAgent.wait_for_completion empty_approval_pending
         TestGithubAgent.max_attempts "thread_1" example_tool in_progress_run [])
  = Returned (1, empty_approval_episode, [])
  /\ option_map (fun st => (TestGithubAgent.attempt_of st,
                            r_status (TestGithubAgent.run_of st)))
       (match fst (TestGithubAgent.wait_for_completion two_calls_pending
                     TestGithubAgent.max_attempts "thread_1" example_tool
                     in_progress_run []) with
        | Returned st => Some st
        | _ => None
        end)
     = Some (60, r_status empty_approval_episode).
Proof. split; vm_compute; reflexivity. Qed.

(** ** The chat loops: blank lines and [clear] *)

(** C10.  A console line that is empty once stripped makes a pass of
    either chat loop issue no call at all (no message, no run, nothing
    else) and leave the loop variables, the thread among them, as they
    were: the loop goes straight to the next console event. *)
Theorem blank_line_does_nothing :
  forall (w : World) (agent_id : string) (mcp_tool : McpTool)
         (st : ChatGithubAgent.ChatState) (thread : Thread) (raw : string)
         (rest : list ConsoleEvent) (log : list Call),
    strip raw = "" ->
    ChatGithubAgent.chat_pass w agent_id mcp_tool st (Line raw) log
    = (Returned (Next st), log)
    /\ ChatGithubAgent.chat_loop w agent_id mcp_tool (Line raw :: rest) st log
       = ChatGithubAgent.chat_loop w agent_id mcp_tool rest st log
    /\ ChatSqlAgent.chat_pass w agent_id mcp_tool thread (Line raw) log
       = (Returned (Next thread), log)
    /\ ChatSqlAgent.chat_loop w agent_id mcp_tool (Line raw :: rest) thread log
       = ChatSqlAgent.chat_loop w agent_id mcp_tool rest thread log.
Proof.
  intros w agent_id mcp_tool st thread raw rest log Hblank.
  assert (H1 : ChatGithubAgent.chat_pass w agent_id mcp_tool st (Line raw) log
               = (Returned (Next st), log)).
  { unfold ChatGithubAgent.chat_pass. rewrite Hblank. reflexivity. }
  assert (H2 : ChatSqlAgent.chat_pass w agent_id mcp_tool thread (Line raw) log
               = (Returned (Next thread), log)).
  { unfold ChatSqlAgent.chat_pass. rewrite Hblank. reflexivity. }
  repeat split; try assumption.
  - cbn [ChatGithubAgent.chat_loop]. unfold bind. rewrite H1. reflexivity.
  - cbn [ChatSqlAgent.chat_loop]. unfold bind. rewrite H2. reflexivity.
Qed.

Lemma blank_line_does_nothing_witness :
  ChatGithubAgent.chat_pass lively "asst_1" example_tool
    (ChatGithubAgent.mkChat (mkThread "thread_1") 2) (Line "   ") []
  = (Returned (Next (ChatGithubAgent.mkChat (mkThread "thread_1") 2)), [])
  /\ ChatGithubAgent.chat_loop lively "asst_1" example_tool
       [Line "   "; Line "quit"]
       (ChatGithubAgent.mkChat (mkThread "thread_1") 2) []
     = ChatGithubAgent.chat_loop lively "asst_1" example_tool [Line "quit"]
         (ChatGithubAgent.mkChat (mkThread "thread_1") 2) []
  /\ ChatSqlAgent.chat_pass lively "asst_1" example_tool (mkThread "thread_1")
       (Line "   ") []
     = (Returned (Next (mkThread "thread_1")), [])
  /\ ChatSqlAgent.chat_loop lively "asst_1" example_tool
       [Line "   "; Line "quit"] (mkThread "thread_1") []
     = ChatSqlAgent.chat_loop lively "asst_1" example_tool [Line "quit"]
         (mkThread "thread_1") [].
Proof.
  apply (blank_line_does_nothing lively "asst_1" example_tool
           (ChatGithubAgent.mkChat (mkThread "thread_1") 2)
           (mkThread "thread_1") "   " [Line "quit"] []).
  reflexivity.
Defined.













(** ** The entry points *)

Lemma summary_exit_codes_github rs :
  TestGithubAgent.summary rs = Exit 0 \/ TestGithubAgent.summary rs = Exit 1.
Proof. unfold TestGithubAgent.summary. destruct (_ =? _)%nat; auto. Qed.

Lemma summary_exit_codes_sql rs :
  TestSqlAgent.summary rs = Exit 0 \/ TestSqlAgent.summary rs = Exit 1.
Proof. unfold TestSqlAgent.summary. destruct (_ =? _)%nat; auto. Qed.

Lemma summary_pass_github rs :
  TestGithubAgent.summary rs = Exit 0 ->
  forallb TestGithubAgent.success rs = true.
Proof.
  unfold TestGithubAgent.summary.
  destruct (Nat.eqb_spec (length (filter TestGithubAgent.success rs)) (length rs));
    [|discriminate].
  intros _. apply filter_length_forallb. assumption.
Qed.

Lemma summary_pass_sql rs :
  TestSqlAgent.summary rs = Exit 0 ->
  forallb TestSqlAgent.success rs = true.
Proof.
  unfold TestSqlAgent.summary.
  destruct (Nat.eqb_spec (length (filter TestSqlAgent.success rs)) (length rs));
    [|discriminate].
  intros _. apply filter_length_forallb. assumption.
Qed.

Section TestGithubAgentRuns.
Variable w : World.
Variable P : Call -> Prop.
Hypothesis HP : forall c, no_secret_call c -> P c.

Lemma test_github_wait_settles thread_id mcp_tool run :
  observed w run ->
  settles P (fun st => observed w (TestGithubAgent.run_of st))
    (TestGithubAgent.wait_for_completion w TestGithubAgent.max_attempts thread_id mcp_tool run).
Proof.
  intros Hrun. apply test_github_wait_keeps; [exact HP | exact Hrun |].
  intros history r E. exists history. left. exact E.
Qed.

Lemma test_github_scenario_settles thread agent_id mcp_tool sc :
  settles P
    (fun res => exists run, observed w run
                            /\ TestGithubAgent.success res = (r_status run =? "completed"))
    (TestGithubAgent.run_scenario w thread agent_id mcp_tool sc).
Proof.
  unfold TestGithubAgent.run_scenario.
  eapply settles_bind with (Q1 := fun _ => True);
    [apply settles_call; [known_call | auto]|].
  intros message _.
  eapply settles_bind with (Q1 := observed w);
    [apply settles_call;
     [known_call | intros history a E; exists history; right; exact E]|].
  intros run Hrun.
  eapply settles_bind; [apply test_github_wait_settles; exact Hrun|].
  intros st Hst. cbv zeta.
  eapply settles_bind with (Q1 := fun _ => True);
    [apply settles_call; [known_call | auto]|].
  intros messages _.
  eapply settles_bind with (Q1 := fun _ => True);
    [destruct (failure messages); [apply settles_raise | apply settles_ret; exact I]|].
  intros _ _. apply settles_ret.
  exists (TestGithubAgent.run_of st). split; [exact Hst | reflexivity].
Qed.

Lemma test_github_scenarios_settles thread agent_id mcp_tool scs :
  forall acc,
    Forall (fun res => exists run, observed w run
                                   /\ TestGithubAgent.success res = (r_status run =? "completed"))
           acc ->
    settles P
      (fun rs => Forall (fun res => exists run, observed w run
                                    /\ TestGithubAgent.success res = (r_status run =? "completed"))
                        rs
                 /\ length rs = length acc + length scs)
      (TestGithubAgent.run_scenarios w thread agent_id mcp_tool scs acc).
Proof.
  induction scs as [|sc scs IH]; intros acc Hacc; cbn [TestGithubAgent.run_scenarios].
  - apply settles_ret. split; [assumption | cbn; lia].
  - eapply settles_bind; [apply test_github_scenario_settles|].
    intros res Hres.
    eapply settles_weaken; [intros c Hc; exact Hc | | apply IH].
    + intros rs [Hrs Hlen]. split; [assumption|].
      rewrite Hlen, length_app. cbn. lia.
    + apply Forall_app. split; [assumption | constructor; [assumption | constructor]].
Qed.

Lemma test_github_summary_completed rs :
  Forall (fun res => exists run, observed w run
                                 /\ TestGithubAgent.success res = (r_status run =? "completed"))
         rs ->
  rs <> [] ->
  TestGithubAgent.summary rs = Exit 0 -> completed_seen w.
Proof.
  intros Hall Hne Hsum.
  apply summary_pass_github in Hsum.
  destruct rs as [|res rs]; [congruence|].
  cbn in Hsum. apply andb_prop in Hsum. destruct Hsum as [Hres _].
  inversion Hall as [|? ? (run & Hobs & Hsucc) _]; subst.
  exists run. split; [assumption|].
  rewrite Hres in Hsucc. symmetry in Hsucc. apply String.eqb_eq in Hsucc.
  assumption.
Qed.

Lemma test_github_session_settles agent_config :
  settles P
    (fun o => o = Exit 1
              \/ (o = Exit 0 /\ agent_found w /\ completed_seen w))
    (TestGithubAgent.session w agent_config).
Proof.
  unfold TestGithubAgent.session. skip_lifts.
  tracked (utils_find_agent_by_name w).
  intros [agent_id|] Hfound; [|apply settles_ret; auto].
  destruct (negb (truthy_str agent_id)) eqn:Htruthy; [apply settles_ret; auto|].
  apply negb_false_iff in Htruthy.
  eapply settles_bind with (Q1 := fun _ => True);
    [apply settles_call; [known_call | auto]|].
  intros agent _. skip_lifts. cbv zeta.
  eapply settles_bind with (Q1 := fun _ => True);
    [apply settles_call; [known_call | auto]|].
  intros thread _.
  eapply settles_bind;
    [apply test_github_scenarios_settles; constructor|].
  intros rs [Hrs Hlen]. apply settles_ret.
  destruct (summary_exit_codes_github rs) as [E|E]; rewrite E; [right | auto].
  split; [reflexivity|]. split.
  - destruct Hfound as (history & Hh). exists history, agent_id. auto.
  - apply (test_github_summary_completed rs Hrs); [|assumption].
    intros ->. cbn in Hlen. discriminate.
Qed.

Lemma test_github_main_settles :
  settles P
    (fun o => o = Exit 1
              \/ (o = Exit 0 /\ config_read w /\ connected w
                  /\ agent_found w /\ completed_seen w))
    (TestGithubAgent.main w).
Proof.
  unfold TestGithubAgent.main.
  eapply settles_bind
    with (Q1 := fun loaded => match loaded with
                              | Some _ => config_read w
                              | None => True
                              end).
  { apply settles_try; [|intros; apply settles_ret; exact I].
    tracked (get_project_config w). intros project_config Hp.
    tracked (get_agent_config w). intros agent_config Ha.
    apply settles_ret. split.
    - destruct Hp as (h & Hh). eauto.
    - destruct Ha as (h & Hh). eauto. }
  intros [[project_config agent_config]|] Hcfg; [|apply settles_ret; auto].
  skip_lifts.
  eapply settles_bind with (Q1 := fun _ => True).
  { unfold TestGithubAgent.check_endpoint_health. settle_known. }
  intros _ _. skip_lifts.
  tracked (project_client w). intros [] Hconn.
  apply settles_try; [|intros; apply settles_ret; auto].
  eapply settles_weaken;
    [intros c Hc; exact Hc | | apply test_github_session_settles].
  intros o [E|(E & Hf & Hc)]; [auto|].
  right. repeat split; try assumption.
  - destruct Hcfg as [H _]. exact H.
  - destruct Hcfg as [_ H]. exact H.
Qed.

End TestGithubAgentRuns.

Section TestSqlAgentRuns.
Variable w : World.
Variable P : Call -> Prop.
Hypothesis HP : forall c, no_secret_call c -> P c.

Lemma test_sql_wait_settles thread_id mcp_tool run :
  observed w run ->
  settles P (fun st => observed w (TestSqlAgent.run_of st))
    (TestSqlAgent.wait_for_completion w TestSqlAgent.max_attempts thread_id mcp_tool run).
Proof.
  intros Hrun. apply test_sql_wait_keeps; [exact HP | exact Hrun |].
  intros history r E. exists history. left. exact E.
Qed.

Lemma test_sql_scenario_settles thread agent_id mcp_tool sc :
  settles P
    (fun res => exists run, observed w run
                            /\ TestSqlAgent.success res = (r_status run =? "completed"))
    (TestSqlAgent.run_scenario w thread agent_id mcp_tool sc).
Proof.
  unfold TestSqlAgent.run_scenario.
  eapply settles_bind with (Q1 := fun _ => True);
    [apply settles_call; [known_call | auto]|].
  intros message _.
  eapply settles_bind with (Q1 := observed w);
    [apply settles_call;
     [known_call | intros history a E; exists history; right; exact E]|].
  intros run Hrun.
  eapply settles_bind; [apply test_sql_wait_settles; exact Hrun|].
  intros st Hst. cbv zeta.
  eapply settles_bind with (Q1 := fun _ => True);
    [apply settles_call; [known_call | auto]|].
  intros messages _.
  eapply settles_bind with (Q1 := fun _ => True);
    [destruct (failure messages); [apply settles_raise | apply settles_ret; exact I]|].
  intros _ _. apply settles_ret.
  exists (TestSqlAgent.run_of st). split; [exact Hst | reflexivity].
Qed.

Lemma test_sql_scenarios_settles thread agent_id mcp_tool scs :
  forall acc,
    Forall (fun res => exists run, observed w run
                                   /\ TestSqlAgent.success res = (r_status run =? "completed"))
           acc ->
    settles P
      (fun rs => Forall (fun res => exists run, observed w run
                                    /\ TestSqlAgent.success res = (r_status run =? "completed"))
                        rs
                 /\ length rs = length acc + length scs)
      (TestSqlAgent.run_scenarios w thread agent_id mcp_tool scs acc).
Proof.
  induction scs as [|sc scs IH]; intros acc Hacc; cbn [TestSqlAgent.run_scenarios].
  - apply settles_ret. split; [assumption | cbn; lia].
  - eapply settles_bind; [apply test_sql_scenario_settles|].
    intros res Hres.
    eapply settles_weaken; [intros c Hc; exact Hc | | apply IH].
    + intros rs [Hrs Hlen]. split; [assumption|].
      rewrite Hlen, length_app. cbn. lia.
    + apply Forall_app. split; [assumption | constructor; [assumption | constructor]].
Qed.

Lemma test_sql_summary_completed rs :
  Forall (fun res => exists run, observed w run
                                 /\ TestSqlAgent.success res = (r_status run =? "completed"))
         rs ->
  rs <> [] ->
  TestSqlAgent.summary rs = Exit 0 -> completed_seen w.
Proof.
  intros Hall Hne Hsum.
  apply summary_pass_sql in Hsum.
  destruct rs as [|res rs]; [congruence|].
  cbn in Hsum. apply andb_prop in Hsum. destruct Hsum as [Hres _].
  inversion Hall as [|? ? (run & Hobs & Hsucc) _]; subst.
  exists run. split; [assumption|].
  rewrite Hres in Hsucc. symmetry in Hsucc. apply String.eqb_eq in Hsucc.
  assumption.
Qed.

Lemma test_sql_session_settles agent_config api_key :
  settles P
    (fun o => o = Exit 1
              \/ (o = Exit 0 /\ agent_found w /\ completed_seen w))
    (TestSqlAgent.session w agent_config api_key).
Proof.
  unfold TestSqlAgent.session. skip_lifts.
  tracked (utils_find_agent_by_name w).
  intros [agent_id|] Hfound; [|apply settles_ret; auto].
  destruct (negb (truthy_str agent_id)) eqn:Htruthy; [apply settles_ret; auto|].
  apply negb_false_iff in Htruthy.
  eapply settles_bind with (Q1 := fun _ => True);
    [apply settles_call; [known_call | auto]|].
  intros agent _.
  eapply settles_bind with (Q1 := fun _ => True).
  { unfold TestSqlAgent.init_mcp_tool. settle_known. }
  intros mcp_tool _.
  eapply settles_bind with (Q1 := fun _ => True);
    [apply settles_call; [known_call | auto]|].
  intros thread _.
  eapply settles_bind;
    [apply test_sql_scenarios_settles; constructor|].
  intros rs [Hrs Hlen]. apply settles_ret.
  destruct (summary_exit_codes_sql rs) as [E|E]; rewrite E; [right | auto].
  split; [reflexivity|]. split.
  - destruct Hfound as (history & Hh). exists history, agent_id. auto.
  - apply (test_sql_summary_completed rs Hrs); [|assumption].
    intros ->. cbn in Hlen. discriminate.
Qed.

Lemma test_sql_main_settles :
  settles P
    (fun o => o = Exit 1
              \/ (o = Exit 0 /\ config_read w /\ connected w
                  /\ agent_found w /\ completed_seen w))
    (TestSqlAgent.main w).
Proof.
  unfold TestSqlAgent.main.
  eapply settles_bind
    with (Q1 := fun loaded => match loaded with
                              | Some _ => config_read w
                              | None => True
                              end).
  { apply settles_try; [|intros; apply settles_ret; exact I].
    tracked (get_project_config w). intros project_config Hp.
    tracked (get_agent_config w). intros agent_config Ha.
    apply settles_ret. split.
    - destruct Hp as (h & Hh). eauto.
    - destruct Ha as (h & Hh). eauto. }
  intros [[project_config agent_config]|] Hcfg; [|apply settles_ret; auto].
  skip_lifts.
  eapply settles_bind with (Q1 := fun _ => True).
  { unfold TestSqlAgent.get_api_key_if_required. settle_known. }
  intros [api_key|] _; [|apply settles_ret; auto].
  skip_lifts.
  tracked (project_client w). intros [] Hconn.
  apply settles_try; [|intros; apply settles_ret; auto].
  eapply settles_weaken;
    [intros c Hc; exact Hc | | apply test_sql_session_settles].
  intros o [E|(E & Hf & Hc)]; [auto|].
  right. repeat split; try assumption.
  - destruct Hcfg as [H _]. exact H.
  - destruct Hcfg as [_ H]. exact H.
Qed.

End TestSqlAgentRuns.

Section ChatSqlAgentRuns.
Variable w : World.
Variable P : Call -> Prop.
Hypothesis HP : forall c, no_secret_call c -> P c.

Lemma chat_sql_wait_settles thread_id mcp_tool run :
  observed w run ->
  settles P (fun st => observed w (ChatSqlAgent.run_of st))
    (ChatSqlAgent.wait_for_completion w ChatSqlAgent.max_attempts thread_id mcp_tool run).
Proof.
  intros Hrun. apply chat_sql_wait_keeps; [exact HP | exact Hrun |].
  intros history r E. exists history. left. exact E.
Qed.

Lemma chat_sql_answer_settles agent_id mcp_tool thread user_input :
  settles P (fun _ => True)
          (ChatSqlAgent.answer w agent_id mcp_tool thread user_input).
Proof.
  unfold ChatSqlAgent.answer.
  eapply settles_bind with (Q1 := fun _ => True);
    [apply settles_call; [known_call | auto]|].
  intros message _.
  eapply settles_bind with (Q1 := observed w);
    [apply settles_call;
     [known_call | intros history a E; exists history; right; exact E]|].
  intros run Hrun.
  eapply settles_bind; [apply chat_sql_wait_settles; exact Hrun|].
  intros st _. cbv zeta. settle_known.
Qed.

Lemma chat_sql_pass_settles agent_id mcp_tool thread ev :
  settles P (fun _ => True)
          (ChatSqlAgent.chat_pass w agent_id mcp_tool thread ev).
Proof.
  unfold ChatSqlAgent.chat_pass.
  destruct ev as [raw|e|]; try (apply settles_ret; exact I).
  cbv zeta.
  repeat match goal with
    | |- settles _ _ (if ?b then _ else _) => destruct b
    end;
    try (apply settles_ret; exact I).
  - apply settles_try; [|intros; apply settles_ret; exact I].
    settle_known.
  - apply settles_try; [|intros; apply settles_ret; exact I].
    eapply settles_bind with (Q1 := fun _ => True);
      [apply chat_sql_answer_settles | intros; apply settles_ret; exact I].
Qed.

Lemma chat_sql_pass_returns agent_id mcp_tool thread ev :
  returns (ChatSqlAgent.chat_pass w agent_id mcp_tool thread ev).
Proof.
  unfold ChatSqlAgent.chat_pass.
  destruct ev as [raw|e|]; try apply returns_ret.
  cbv zeta.
  repeat match goal with
    | |- returns (if ?b then _ else _) => destruct b
    end;
    try apply returns_ret.
  - apply returns_try with (P := P) (Q := fun _ => True);
      [settle_known | intros; apply returns_ret].
  - apply returns_try with (P := P) (Q := fun _ => True);
      [|intros; apply returns_ret].
    eapply settles_bind with (Q1 := fun _ => True);
      [apply chat_sql_answer_settles | intros; apply settles_ret; exact I].
Qed.

Lemma chat_sql_loop_returns agent_id mcp_tool console :
  forall thread, returns (ChatSqlAgent.chat_loop w agent_id mcp_tool console thread).
Proof.
  induction console as [|ev rest IH]; intros thread; cbn [ChatSqlAgent.chat_loop].
  - apply returns_ret.
  - apply returns_bind; [apply chat_sql_pass_returns|].
    intros [thread'|u]; [apply IH | apply returns_ret].
Qed.

Lemma chat_sql_loop_settles agent_id mcp_tool console :
  forall thread,
    settles P (fun _ => True)
            (ChatSqlAgent.chat_loop w agent_id mcp_tool console thread).
Proof.
  induction console as [|ev rest IH]; intros thread; cbn [ChatSqlAgent.chat_loop].
  - apply settles_ret. exact I.
  - eapply settles_bind with (Q1 := fun _ => True);
      [apply chat_sql_pass_settles|].
    intros [thread'|u] _; [apply IH | apply settles_ret; exact I].
Qed.

End ChatSqlAgentRuns.

Section ChatGithubAgentRuns.
Variable w : World.
Variable P : Call -> Prop.
Hypothesis HP : forall c, no_secret_call c -> P c.

Lemma chat_github_wait_settles thread_id run_id :
  settles P (fun _ => True)
          (ChatGithubAgent.wait_for_run_completion w thread_id run_id).
Proof.
  unfold ChatGithubAgent.wait_for_run_completion.
  eapply settles_bind with (Q1 := fun _ => True);
    [|intros; apply settles_ret; exact I].
  eapply settles_weaken;
    [intros c Hc; exact Hc | intros r _; exact I
    | apply (chat_github_wait_keeps w P HP (fun _ => True)); auto].
Qed.

Lemma chat_github_answer_settles agent_id mcp_tool thread :
  settles P (fun _ => True) (ChatGithubAgent.answer w agent_id mcp_tool thread).
Proof.
  unfold ChatGithubAgent.answer.
  eapply settles_bind with (Q1 := fun _ => True);
    [apply settles_call; [known_call | auto]|].
  intros run _.
  eapply settles_bind with (Q1 := fun _ => True);
    [apply chat_github_wait_settles|].
  intros completed_run _.
  unfold ChatGithubAgent.get_latest_response. settle_known.
Qed.

Lemma chat_github_turn_settles agent_id mcp_tool st user_input :
  settles P (fun _ => True)
    (message <- call (CMessagesCreate (t_id (ChatGithubAgent.thread st)) "user" user_input)
                     (messages_create w) ;;
     try_except
       (ChatGithubAgent.answer w agent_id mcp_tool
          (ChatGithubAgent.thread
             (ChatGithubAgent.mkChat (ChatGithubAgent.thread st)
                                     (ChatGithubAgent.message_count st + 1))) ;;
        ret (@Next ChatGithubAgent.ChatState unit
               (ChatGithubAgent.mkChat (ChatGithubAgent.thread st)
                                       (ChatGithubAgent.message_count st + 1))))
       (fun _ => ret (Next (ChatGithubAgent.mkChat (ChatGithubAgent.thread st)
                                       (ChatGithubAgent.message_count st + 1))))).
Proof.
  eapply settles_bind with (Q1 := fun _ => True);
    [apply settles_call; [known_call | auto]|].
  intros message _.
  apply settles_try; [|intros; apply settles_ret; exact I].
  eapply settles_bind with (Q1 := fun _ => True);
    [apply chat_github_answer_settles | intros; apply settles_ret; exact I].
Qed.

Lemma chat_github_pass_settles agent_id mcp_tool st ev :
  settles P (fun _ => True)
          (ChatGithubAgent.chat_pass w agent_id mcp_tool st ev).
Proof.
  unfold ChatGithubAgent.chat_pass.
  destruct ev as [raw|e|]; try (apply settles_ret; exact I).
  cbv zeta.
  repeat match goal with
    | |- settles _ _ (if ?b then _ else _) => destruct b
    end;
    try (apply settles_ret; exact I).
  - apply settles_try; [|intros; apply settles_ret; exact I].
    settle_known.
  - apply settles_try; [|intros; apply settles_ret; exact I].
    apply chat_github_turn_settles.
Qed.

Lemma chat_github_pass_returns agent_id mcp_tool st ev :
  returns (ChatGithubAgent.chat_pass w agent_id mcp_tool st ev).
Proof.
  unfold ChatGithubAgent.chat_pass.
  destruct ev as [raw|e|]; try apply returns_ret.
  cbv zeta.
  repeat match goal with
    | |- returns (if ?b then _ else _) => destruct b
    end;
    try apply returns_ret.
  - apply returns_try with (P := P) (Q := fun _ => True);
      [settle_known | intros; apply returns_ret].
  - apply returns_try with (P := P) (Q := fun _ => True);
      [apply chat_github_turn_settles | intros; apply returns_ret].
Qed.

Lemma chat_github_loop_returns agent_id mcp_tool console :
  forall st, returns (ChatGithubAgent.chat_loop w agent_id mcp_tool console st).
Proof.
  induction console as [|ev rest IH]; intros st; cbn [ChatGithubAgent.chat_loop].
  - apply returns_ret.
  - apply returns_bind; [apply chat_github_pass_returns|].
    intros [st'|u]; [apply IH | apply returns_ret].
Qed.

Lemma chat_github_loop_settles agent_id mcp_tool console :
  forall st,
    settles P (fun _ => True)
            (ChatGithubAgent.chat_loop w agent_id mcp_tool console st).
Proof.
  induction console as [|ev rest IH]; intros st; cbn [ChatGithubAgent.chat_loop].
  - apply settles_ret. exact I.
  - eapply settles_bind with (Q1 := fun _ => True);
      [apply chat_github_pass_settles|].
    intros [st'|u] _; [apply IH | apply settles_ret; exact I].
Qed.

End ChatGithubAgentRuns.

Section ChatGithubAgentMain.
Variable w : World.
Variable P : Call -> Prop.
Hypothesis HP : forall c, no_secret_call c -> P c.

Lemma chat_github_session_settles console agent_config :
  settles P
    (fun r => match r with
              | Some o => o = Exit 1 \/ (o = AwaitingInput /\ agent_found w)
              | None => agent_found w
              end)
    (ChatGithubAgent.session w console agent_config).
Proof.
  unfold ChatGithubAgent.session. skip_lifts.
  tracked (utils_find_agent_by_name w).
  intros [agent_id|] Hfound; [|apply settles_ret; auto].
  destruct (negb (truthy_str agent_id)) eqn:Htruthy; [apply settles_ret; auto|].
  apply negb_false_iff in Htruthy.
  assert (Hagent : agent_found w).
  { destruct Hfound as (history & Hh). exists history, agent_id. auto. }
  skip_lifts. cbv zeta.
  eapply settles_bind with (Q1 := fun _ => True);
    [apply settles_call; [known_call | auto]|].
  intros thread _.
  eapply settles_bind with (Q1 := fun _ => True);
    [apply chat_github_loop_settles; exact HP|].
  intros [|] _; apply settles_ret; auto.
Qed.

Lemma chat_github_main_settles console :
  settles P
    (fun o => o = Exit 1
              \/ ((o = Exit 0 \/ o = AwaitingInput)
                  /\ config_read w /\ connected w /\ agent_found w))
    (ChatGithubAgent.main w console).
Proof.
  unfold ChatGithubAgent.main.
  eapply settles_bind
    with (Q1 := fun loaded => match loaded with
                              | Some _ => config_read w
                              | None => True
                              end).
  { apply settles_try; [|intros; apply settles_ret; exact I].
    tracked (get_project_config w). intros project_config Hp.
    tracked (get_agent_config w). intros agent_config Ha.
    apply settles_ret. split.
    - destruct Hp as (h & Hh). eauto.
    - destruct Ha as (h & Hh). eauto. }
  intros [[project_config agent_config]|] Hcfg; [|apply settles_ret; auto].
  skip_lifts.
  eapply settles_bind
    with (Q1 := fun flag : bool => flag = true -> connected w).
  { apply settles_try; [|intros; apply settles_ret; discriminate].
    skip_lifts.
    tracked (project_client w). intros [] Hconn.
    apply settles_ret. intros _. exact Hconn. }
  intros [|] Hconn; [|apply settles_ret; auto].
  specialize (Hconn eq_refl).
  eapply settles_bind;
    [apply settles_try;
     [apply chat_github_session_settles | intros; apply settles_ret; auto]|].
  intros [o|] Ho; apply settles_ret.
  - destruct Ho as [E|[E Hf]]; [auto|]. right.
    split; [auto | split; [exact Hcfg | split; assumption]].
  - right. split; [auto | split; [exact Hcfg | split; assumption]].
Qed.

End ChatGithubAgentMain.

Section ChatSqlAgentMain.
Variable w : World.

Lemma chat_sql_session_settles console agent_config :
  settles (fun _ => True)
    (fun o => o = Exit 1
              \/ ((o = Exit 0 \/ o = AwaitingInput) /\ agent_found w))
    (ChatSqlAgent.session w console agent_config).
Proof.
  unfold ChatSqlAgent.session. skip_lifts.
  tracked (utils_find_agent_by_name w).
  intros [agent_id|] Hfound; [|apply settles_ret; auto].
  destruct (negb (truthy_str agent_id)) eqn:Htruthy; [apply settles_ret; auto|].
  apply negb_false_iff in Htruthy.
  assert (Hagent : agent_found w).
  { destruct Hfound as (history & Hh). exists history, agent_id. auto. }
  eapply settles_bind with (Q1 := fun _ => True).
  { unfold ChatSqlAgent.init_mcp_tool. settle. }
  intros mcp_tool _.
  eapply settles_bind with (Q1 := fun _ => True);
    [apply settles_call; [exact I | auto]|].
  intros thread _.
  eapply settles_bind with (Q1 := fun _ => True);
    [apply chat_sql_loop_settles; intros; exact I|].
  intros [|] _; apply settles_ret; auto.
Qed.

Lemma chat_sql_main_settles console :
  settles (fun _ => True)
    (fun o => o = Exit 1
              \/ ((o = Exit 0 \/ o = AwaitingInput)
                  /\ config_read w /\ connected w /\ agent_found w))
    (ChatSqlAgent.main w console).
Proof.
  unfold ChatSqlAgent.main.
  eapply settles_bind
    with (Q1 := fun loaded => match loaded with
                              | Some _ => config_read w
                              | None => True
                              end).
  { apply settles_try; [|intros; apply settles_ret; exact I].
    tracked (get_project_config w). intros project_config Hp.
    tracked (get_agent_config w). intros agent_config Ha.
    skip_lifts.
    apply settles_ret. split.
    - destruct Hp as (h & Hh). eauto.
    - destruct Ha as (h & Hh). eauto. }
  intros [[project_config agent_config]|] Hcfg; [|apply settles_ret; auto].
  skip_lifts.
  tracked (project_client w). intros [] Hconn.
  apply settles_try; [|intros; apply settles_ret; auto].
  eapply settles_weaken;
    [intros c Hc; exact Hc | | apply chat_sql_session_settles].
  intros o [E|(E & Hf)]; [auto|].
  right. split; [exact E | split; [exact Hcfg | split; assumption]].
Qed.

End ChatSqlAgentMain.

Section DeployMains.
Variable w : World.

Lemma github_find_settles (P : Call -> Prop) agent_name :
  (forall c, no_secret_call c -> P c) ->
  settles P (fun _ => True) (McpGithubAgent.find_agent_by_name w agent_name).
Proof.
  intros HP. unfold McpGithubAgent.find_agent_by_name. settle_known.
Qed.

Lemma github_deploy_settles (P : Call -> Prop) agent_config project_config
    existing_agent_id :
  (forall c, no_secret_call c -> P c) ->
  settles P (fun o => o = Exit 0)
          (McpGithubAgent.deploy w agent_config project_config existing_agent_id).
Proof.
  intros HP. unfold McpGithubAgent.deploy. settle_known.
Qed.

Lemma github_deploy_session_settles (P : Call -> Prop) console agent_config
    project_config :
  (forall c, no_secret_call c -> P c) ->
  settles P (fun o => o = Exit 0 \/ o = Interrupted \/ o = AwaitingInput)
          (McpGithubAgent.session w console agent_config project_config).
Proof.
  intros HP. unfold McpGithubAgent.session. skip_lifts.
  eapply settles_bind with (Q1 := fun _ => True);
    [apply github_find_settles; exact HP|].
  intros existing _.
  assert (Hdeploy :
    settles P (fun o => o = Exit 0 \/ o = Interrupted \/ o = AwaitingInput)
            (McpGithubAgent.deploy w agent_config project_config existing)).
  { eapply settles_weaken;
      [intros c Hc; exact Hc | | apply github_deploy_settles; exact HP].
    intros o Ho; auto. }
  destruct (McpGithubAgent.found existing); [|exact Hdeploy].
  destruct console as [|[answer|e|] rest];
    try (apply settles_ret; auto); try apply settles_raise.
  destruct (lower (strip answer) =? "n"); [apply settles_ret; auto | exact Hdeploy].
Qed.

Lemma github_deploy_main_settles (P : Call -> Prop) console :
  (forall c, no_secret_call c -> P c) ->
  settles P
    (fun o => o = Exit 1
              \/ ((o = Exit 0 \/ o = Interrupted \/ o = AwaitingInput)
                  /\ file_read w /\ connected w))
    (McpGithubAgent.main w console).
Proof.
  intros HP. unfold McpGithubAgent.main.
  eapply settles_bind
    with (Q1 := fun loaded => match loaded with
                              | Some _ => file_read w
                              | None => True
                              end).
  { apply settles_try; [|intros; apply settles_ret; exact I].
    eapply settles_bind with (Q1 := fun _ => file_read w).
    { unfold McpGithubAgent.load_config.
      eapply settles_bind with (Q1 := fun _ => True);
        [apply settles_call; [known_call | auto]|].
      intros [|] _; cbn [negb]; [|apply settles_raise].
      tracked (read_json w). intros fields (h & Hh).
      apply settles_ret. exists h, fields. exact Hh. }
    intros config Hfile. skip_lifts. apply settles_ret. exact Hfile. }
  intros [[agent_config project_config]|] Hfile; [|apply settles_ret; auto].
  skip_lifts.
  tracked (project_client w). intros [] Hconn.
  apply settles_try; [|intros; apply settles_ret; auto].
  eapply settles_weaken;
    [intros c Hc; exact Hc | | apply github_deploy_session_settles; exact HP].
  intros o Ho. right. auto.
Qed.

Lemma sql_merge_files_settles files :
  forall config,
    (config = [] \/ file_read w) ->
    settles (fun _ => True) (fun c => c = [] \/ file_read w)
            (McpSqlAgent.merge_files w files config).
Proof.
  induction files as [|file rest IH]; intros config Hcfg;
    cbn [McpSqlAgent.merge_files].
  - apply settles_ret. exact Hcfg.
  - eapply settles_bind with (Q1 := fun _ => True);
      [apply settles_call; [exact I | auto]|].
    intros [|] _; [|apply IH; exact Hcfg].
    tracked (read_json w). intros data (h & Hh).
    eapply settles_bind with (Q1 := fun _ => True);
      [apply settles_lift; auto|].
    intros config' _. apply IH. right. exists h, data. exact Hh.
Qed.

Lemma sql_load_config_settles :
  settles (fun _ => True) (fun _ => file_read w) (McpSqlAgent.load_config w).
Proof.
  unfold McpSqlAgent.load_config. cbv zeta.
  eapply settles_bind with (Q1 := fun _ => True);
    [apply settles_call; [exact I | auto]|].
  intros [|] _.
  - tracked (read_json w). intros fields (h & Hh).
    apply settles_ret. exists h, fields. exact Hh.
  - eapply settles_bind; [apply sql_merge_files_settles; left; reflexivity|].
    intros [|kv config] Hcfg; [apply settles_raise|].
    apply settles_ret. destruct Hcfg as [E|H]; [discriminate | exact H].
Qed.

Lemma sql_deploy_session_settles console agent_config project_config api_key :
  settles (fun _ => True)
          (fun o => o = Exit 0 \/ o = Interrupted \/ o = AwaitingInput)
          (McpSqlAgent.session w console agent_config project_config api_key).
Proof.
  unfold McpSqlAgent.session. skip_lifts.
  eapply settles_bind with (Q1 := fun _ => True).
  { unfold McpSqlAgent.find_agent_by_name. settle. }
  intros existing _.
  assert (Hdeploy :
    settles (fun _ => True)
            (fun o => o = Exit 0 \/ o = Interrupted \/ o = AwaitingInput)
            (McpSqlAgent.deploy w agent_config project_config api_key existing)).
  { unfold McpSqlAgent.deploy, McpSqlAgent.init_mcp_tool. settle. }
  destruct (McpSqlAgent.found existing); [|exact Hdeploy].
  destruct console as [|[answer|e|] rest];
    try (apply settles_ret; auto); try apply settles_raise.
  destruct (lower (strip answer) =? "n"); [apply settles_ret; auto | exact Hdeploy].
Qed.

Lemma sql_deploy_main_settles console :
  settles (fun _ => True)
    (fun o => o = Exit 1
              \/ ((o = Exit 0 \/ o = Interrupted \/ o = AwaitingInput)
                  /\ file_read w /\ connected w))
    (McpSqlAgent.main w console).
Proof.
  unfold McpSqlAgent.main.
  eapply settles_bind
    with (Q1 := fun loaded => match loaded with
                              | Some _ => file_read w
                              | None => True
                              end).
  { apply settles_try; [|intros; apply settles_ret; exact I].
    eapply settles_bind; [apply sql_load_config_settles|].
    intros config Hfile. skip_lifts. apply settles_ret. exact Hfile. }
  intros [[[config agent_config] project_config]|] Hfile;
    [|apply settles_ret; auto].
  skip_lifts.
  eapply settles_bind with (Q1 := fun _ => True).
  { unfold McpSqlAgent.get_api_key_if_required,
      McpSqlAgent.get_mcp_api_key_from_keyvault. settle. }
  intros [api_key|] _; [|apply settles_ret; auto].
  skip_lifts.
  tracked (project_client w). intros [] Hconn.
  apply settles_try; [|intros; apply settles_ret; auto].
  eapply settles_weaken;
    [intros c Hc; exact Hc | | apply sql_deploy_session_settles].
  intros o Ho. right. auto.
Qed.

End DeployMains.

(** ** The API key and the secret store *)

Lemma sql_deploy_key_calls w config agent_config log :
  issued (McpSqlAgent.get_api_key_if_required w config agent_config) log
  = match (if wants_api_key agent_config then key_vault_of config else None) with
    | Some (name, secret_name) => [CGetSecret name secret_name]
    | None => []
    end.
Proof.
  apply issued_app.
  unfold McpSqlAgent.get_api_key_if_required,
    McpSqlAgent.get_mcp_api_key_from_keyvault, wants_api_key, key_vault_of.
  unfold try_except, try_except_when, bind, call, lift, raise, ret.
  run_pass; cbn [snd negb] in *; rewrite ?app_nil_r;
    try reflexivity; try discriminate; try congruence.
Qed.

Lemma test_sql_key_calls w agent_config log :
  issued (TestSqlAgent.get_api_key_if_required w agent_config) log
  = if wants_api_key agent_config then [CGetMcpApiKey] else [].
Proof.
  apply issued_app.
  unfold TestSqlAgent.get_api_key_if_required, wants_api_key.
  unfold try_except_when, bind, call, lift, raise, ret.
  run_pass; cbn [snd negb] in *; rewrite ?app_nil_r;
    try reflexivity; try discriminate; try congruence.
Qed.

Lemma sql_deploy_tool_headers agent_config api_key log :
  match fst (McpSqlAgent.init_mcp_tool agent_config api_key log) with
  | Returned tool => headers tool = api_key_header api_key
  | _ => True
  end.
Proof.
  unfold McpSqlAgent.init_mcp_tool, api_key_header.
  unfold bind, lift, ret.
  run_pass; cbn in *; try discriminate;
    repeat match goal with
      | H : Returned _ = Returned _ |- _ => injection H as <-
      end;
    try reflexivity; auto.
Qed.

Lemma test_sql_tool_headers agent_config api_key log :
  match fst (TestSqlAgent.init_mcp_tool agent_config api_key log) with
  | Returned tool => headers tool = api_key_header api_key
  | _ => True
  end.
Proof.
  unfold TestSqlAgent.init_mcp_tool, api_key_header.
  unfold bind, lift, ret.
  run_pass; cbn in *; try discriminate;
    repeat match goal with
      | H : Returned _ = Returned _ |- _ => injection H as <-
      end;
    try reflexivity; auto.
Qed.

Lemma chat_sql_tool_headers w agent_config :
  settles (fun _ => True)
    (fun tool => exists history api_key,
                   get_secret w history = Ok api_key
                   /\ headers tool = api_key_header api_key)
    (ChatSqlAgent.init_mcp_tool w agent_config).
Proof.
  unfold ChatSqlAgent.init_mcp_tool.
  eapply settles_bind with (Q1 := fun _ => True);
    [apply settles_call; [exact I | auto]|].
  intros config _. skip_lifts.
  tracked (get_secret w). intros api_key (h & Hh).
  skip_lifts. cbv zeta. apply settles_ret.
  exists h, api_key. split; [exact Hh|].
  unfold api_key_header. destruct api_key as [key|]; [|reflexivity].
  destruct (truthy_str key); reflexivity.
Qed.

Lemma Json_eqb_str (v : Json) (s : string) :
  Json_eqb v (JStr s) = true <-> v = JStr s.
Proof.
  destruct v; cbn; split; intros H; try discriminate.
  - apply String.eqb_eq in H. congruence.
  - injection H as ->. apply String.eqb_refl.
Qed.

Lemma wants_api_key_iff (agent_config : Json) :
  wants_api_key agent_config = true
  <-> exists mcpServer,
        getitem agent_config "mcpServer" = Ok mcpServer
        /\ getitem mcpServer "authType" = Ok (JStr "apiKey").
Proof.
  unfold wants_api_key. split.
  - destruct (getitem agent_config "mcpServer") as [m|e]; [|discriminate].
    destruct (getitem m "authType") as [a|e] eqn:E; [|discriminate].
    intros H. apply Json_eqb_str in H. subst a. exists m. auto.
  - intros (m & -> & ->). reflexivity.
Qed.

(** C5, as the code has it.  The SQL deployment script calls the secret
    store exactly when [authType] equals "apiKey" and the configuration
    names a Key Vault, and then once; the SQL test script reaches for the
    key, through [get_mcp_api_key], exactly when [authType] equals
    "apiKey"; with any other [authType] neither issues any call there.  A
    tool initialised with the key abc123 carries the header
    X-API-Key: abc123, in the SQL chat script too, whose tool carries the
    header of whatever key the store returned.  The three GitHub scripts
    never call the secret store. *)
Theorem secret_store_use :
  forall (w : World) (config agent_config : Json) (api_key : option string)
         (console : list ConsoleEvent) (log : list Call),
    issued (McpSqlAgent.get_api_key_if_required w config agent_config) log
    = match (if wants_api_key agent_config then key_vault_of config else None) with
      | Some (name, secret_name) => [CGetSecret name secret_name]
      | None => []
      end
    /\ existsb is_get_secret
         (issued (McpSqlAgent.get_api_key_if_required w config agent_config) log)
       = wants_api_key agent_config
         && match key_vault_of config with Some _ => true | None => false end
    /\ issued (TestSqlAgent.get_api_key_if_required w agent_config) log
       = (if wants_api_key agent_config then [CGetMcpApiKey] else [])
    /\ (wants_api_key agent_config = true
        <-> exists mcpServer,
              getitem agent_config "mcpServer" = Ok mcpServer
              /\ getitem mcpServer "authType" = Ok (JStr "apiKey"))
    /\ match fst (McpSqlAgent.init_mcp_tool agent_config api_key log) with
       | Returned tool => headers tool = api_key_header api_key
       | _ => True
       end
    /\ match fst (TestSqlAgent.init_mcp_tool agent_config api_key log) with
       | Returned tool => headers tool = api_key_header api_key
       | _ => True
       end
    /\ settles (fun _ => True)
         (fun tool => exists history key,
                        get_secret w history = Ok key
                        /\ headers tool = api_key_header key)
         (ChatSqlAgent.init_mcp_tool w agent_config)
    /\ api_key_header (Some "abc123") = [("X-API-Key", "abc123")]
    /\ settles no_secret_call (fun _ => True) (McpGithubAgent.main w console)
    /\ settles no_secret_call (fun _ => True) (TestGithubAgent.main w)
    /\ settles no_secret_call (fun _ => True) (ChatGithubAgent.main w console).
Proof.
  intros w config agent_config api_key console log.
  split; [apply sql_deploy_key_calls|].
  split.
  { rewrite sql_deploy_key_calls.
    destruct (wants_api_key agent_config); [|reflexivity].
    destruct (key_vault_of config) as [[name secret_name]|]; reflexivity. }
  split; [apply test_sql_key_calls|].
  split; [apply wants_api_key_iff|].
  split; [apply sql_deploy_tool_headers|].
  split; [apply test_sql_tool_headers|].
  split; [apply chat_sql_tool_headers|].
  split; [reflexivity|].
  split; [|split].
  - eapply settles_weaken;
      [intros c Hc; exact Hc | intros o _; exact I
      | apply (github_deploy_main_settles w no_secret_call console);
        intros c Hc; exact Hc].
  - eapply settles_weaken;
      [intros c Hc; exact Hc | intros o _; exact I
      | apply (test_github_main_settles w no_secret_call);
        intros c Hc; exact Hc].
  - eapply settles_weaken;
      [intros c Hc; exact Hc | intros o _; exact I
      | apply (chat_github_main_settles w no_secret_call);
        intros c Hc; exact Hc].
Qed.

(** C5 as stated fails on the SQL deployment script: with [authType]
    "apiKey" and a configuration that names no Key Vault, the script stops
    with exit code 1 before any call to the secret store. *)
Lemma secret_store_counterexample :
  getitem sql_agent_config "mcpServer"
  = Ok (JObj [("url", JStr "https://sql.example/mcp");
              ("label", JStr "mssql");
              ("authType", JStr "apiKey")])
  /\ wants_api_key sql_agent_config = true
  /\ McpSqlAgent.get_api_key_if_required files_without_vault
       (JObj config_without_vault) sql_agent_config []
     = (Returned None, [])
  /\ run_script (McpSqlAgent.main files_without_vault [])
     = (Some (Exit 1),
        [CPathExists "config/config.json"; CReadJson "config/config.json"]).
Proof. repeat split. Qed.

(** The SQL chat script does not look at [authType]: for an agent
    configured with "none" it fetches the key all the same. *)
Lemma chat_sql_ignores_auth_type :
  wants_api_key open_sql_agent_config = false
  /\ issued (ChatSqlAgent.init_mcp_tool helpful open_sql_agent_config) []
     = [CLoadConfig; CGetSecret (JStr "kv-demo") (JStr "mcp-api-key")]
  /\ fst (ChatSqlAgent.init_mcp_tool helpful open_sql_agent_config [])
     = Returned (mkMcpTool (JStr "mssql") (JStr "https://sql.example/mcp")
                           (JArr []) [("X-API-Key", "abc123")] None).
Proof. repeat split. Qed.

(** A deployment of the SQL agent in a service in good order: the key is
    fetched once and the tool sent with the agent carries it. *)
Lemma sql_deploy_run_example :
  run_script (McpSqlAgent.main helpful [Line "y"])
  = (Some (Exit 0),
     [CPathExists "config/config.json"; CReadJson "config/config.json";
      CGetSecret (JStr "kv-demo") (JStr "mcp-api-key");
      CProjectClient
        (JStr "https://demo.services.ai.azure.com/api/projects/demo");
      CAgentsList;
      CUpdateAgent "asst_2" (JStr "gpt-4o") (JStr "sql-agent")
        (JStr "Answer questions about the database.")
        (mkMcpTool (JStr "mssql") (JStr "https://sql.example/mcp") (JArr [])
                   [("X-API-Key", "abc123")] None)]).
Proof. vm_compute. reflexivity. Qed.

(** ** Exit codes *)

Lemma report_of_settles (P : Call -> Prop) (main : M Outcome)
    (allowed : list Outcome) (needed needed_for_0 : Prop) :
  settles P
    (fun o => o = Exit 1
              \/ (In o allowed /\ needed /\ (o = Exit 0 -> needed_for_0)))
    main ->
  exit_report allowed main needed needed_for_0.
Proof.
  intros H. destruct (H []) as (extra & Hlog & Hall & Hres).
  unfold exit_report, process_ends_as, run_script.
  destruct (main []) as [[o|e|] log]; cbn [fst snd] in *.
  - destruct Hres as [->|(Hin & Hn & H0)].
    + split; [exists (Exit 1); split; [reflexivity | left; reflexivity]|].
      split; [congruence | discriminate].
    + split; [exists o; split; [reflexivity | right; exact Hin]|].
      split; [intros _; exact Hn|].
      intros E. injection E as ->. apply H0. reflexivity.
  - split; [exists (Exit 1); split; [reflexivity | left; reflexivity]|].
    split; [congruence | discriminate].
  - contradiction.
Qed.

Lemma summary_iff_github rs :
  TestGithubAgent.summary rs = Exit 0
  <-> forallb TestGithubAgent.success rs = true.
Proof.
  split; [apply summary_pass_github|].
  intros H. unfold TestGithubAgent.summary.
  rewrite (forallb_filter_id _ _ H), Nat.eqb_refl. reflexivity.
Qed.

Lemma summary_iff_sql rs :
  TestSqlAgent.summary rs = Exit 0
  <-> forallb TestSqlAgent.success rs = true.
Proof.
  split; [apply summary_pass_sql|].
  intros H. unfold TestSqlAgent.summary.
  rewrite (forallb_filter_id _ _ H), Nat.eqb_refl. reflexivity.
Qed.

(** ** Loading the configuration of the SQL deployment script *)

Lemma assoc_set_same {V} (k : string) (v : V) (d : list (string * V)) :
  assoc k (assoc_set k v d) = Some v.
Proof.
  induction d as [|[k' v'] rest IH]; cbn.
  - rewrite String.eqb_refl. reflexivity.
  - destruct (k' =? k) eqn:E; cbn.
    + rewrite String.eqb_refl. reflexivity.
    + rewrite E. exact IH.
Qed.

Lemma assoc_set_other {V} (k k' : string) (v : V) (d : list (string * V)) :
  k' <> k -> assoc k' (assoc_set k v d) = assoc k' d.
Proof.
  intros Hne. induction d as [|[k0 v0] rest IH]; cbn.
  - destruct (k =? k') eqn:E; [|reflexivity].
    apply String.eqb_eq in E. congruence.
  - destruct (k0 =? k) eqn:E; cbn.
    + apply String.eqb_eq in E. subst k0.
      destruct (k =? k') eqn:E'; [|reflexivity].
      apply String.eqb_eq in E'. congruence.
    + destruct (k0 =? k'); [reflexivity | exact IH].
Qed.

Lemma assoc_none_not_in {V} (k : string) (d : list (string * V)) :
  ~ In k (map fst d) -> assoc k d = None.
Proof.
  induction d as [|[k' v'] rest IH]; cbn; intros H; [reflexivity|].
  destruct (k' =? k) eqn:E.
  - apply String.eqb_eq in E. tauto.
  - apply IH. tauto.
Qed.

(** [d.update(other)] and then [d[k]]: the value of [other] when it has the
    key, the old value otherwise. *)
Lemma assoc_update_lookup {V} (k : string) (other : list (string * V)) :
  NoDup (map fst other) ->
  forall d,
    assoc k (assoc_update d other)
    = match assoc k other with
      | Some v => Some v
      | None => assoc k d
      end.
Proof.
  unfold assoc_update.
  induction other as [|[k1 v1] rest IH]; intros Hnd d; cbn; [reflexivity|].
  inversion Hnd as [|? ? Hnotin Hnd']; subst.
  rewrite (IH Hnd'). cbn [fst snd].
  destruct (k1 =? k) eqn:E.
  - apply String.eqb_eq in E. subst k1.
    rewrite (assoc_none_not_in k rest Hnotin). apply assoc_set_same.
  - destruct (assoc k rest); [reflexivity|].
    apply assoc_set_other. intros ->. rewrite String.eqb_refl in E.
    discriminate.
Qed.

(** X1.  Merging one deployment-output file into the configuration of the
    SQL deployment script.  A file that has the key "infrastructure" or
    "mcp" goes under [config["infrastructure"]], every key of the file
    taking the file's value and the other keys there keeping theirs, and
    the rest of [config] is left alone; any other file is merged at the top
    level in the same way. *)
Theorem merge_outputs_lookup :
  forall (config data config' : list (string * Json)),
    NoDup (map fst data) ->
    McpSqlAgent.merge_outputs config data = Ok config' ->
    if McpSqlAgent.has_key "infrastructure" data || McpSqlAgent.has_key "mcp" data
    then
      exists infra',
        assoc "infrastructure" config' = Some (JObj infra')
        /\ (forall k v, assoc k data = Some v -> assoc k infra' = Some v)
        /\ (forall k, assoc k data = None ->
              assoc k infra'
              = match assoc "infrastructure" config with
                | Some (JObj infra) => assoc k infra
                | _ => None
                end)
        /\ (forall k, k <> "infrastructure" -> assoc k config' = assoc k config)
    else
      (forall k v, assoc k data = Some v -> assoc k config' = Some v)
      /\ (forall k, assoc k data = None -> assoc k config' = assoc k config).
Proof.
  intros config data config' Hnd. unfold McpSqlAgent.merge_outputs.
  destruct (McpSqlAgent.has_key "infrastructure" data || McpSqlAgent.has_key "mcp" data).
  - destruct (assoc "infrastructure" config) as [[| | | | |infra]|] eqn:Einfra;
      try discriminate; intros H; injection H as <-.
    + exists (assoc_update infra data).
      split; [apply assoc_set_same|]. split; [|split].
      * intros k v Hk. rewrite (assoc_update_lookup k data Hnd), Hk. reflexivity.
      * intros k Hk. rewrite (assoc_update_lookup k data Hnd), Hk. reflexivity.
      * intros k Hk. apply assoc_set_other. exact Hk.
    + exists (assoc_update [] data).
      split; [apply assoc_set_same|]. split; [|split].
      * intros k v Hk. rewrite (assoc_update_lookup k data Hnd), Hk. reflexivity.
      * intros k Hk. rewrite (assoc_update_lookup k data Hnd), Hk. reflexivity.
      * intros k Hk. apply assoc_set_other. exact Hk.
  - intros H; injection H as <-. split.
    + intros k v Hk. rewrite (assoc_update_lookup k data Hnd), Hk. reflexivity.
    + intros k Hk. rewrite (assoc_update_lookup k data Hnd), Hk. reflexivity.
Qed.

Lemma merge_outputs_lookup_witness :
  exists infra',
    assoc "infrastructure"
          [("project", project_settings);
           ("infrastructure",
            JObj [("mcp", JObj [("keyVault", JObj [("name", JStr "kv-demo")])]);
                  ("sql", JStr "kept"); ("resourceGroup", JStr "rg-demo")])]
    = Some (JObj infra')
    /\ (forall k v, assoc k mcp_outputs = Some v -> assoc k infra' = Some v)
    /\ (forall k, assoc k mcp_outputs = None ->
          assoc k infra'
          = match assoc "infrastructure" merged_so_far with
            | Some (JObj infra) => assoc k infra
            | _ => None
            end)
    /\ (forall k, k <> "infrastructure" ->
          assoc k [("project", project_settings);
                   ("infrastructure",
                    JObj [("mcp", JObj [("keyVault", JObj [("name", JStr "kv-demo")])]);
                          ("sql", JStr "kept"); ("resourceGroup", JStr "rg-demo")])]
          = assoc k merged_so_far).
Proof.
  refine (merge_outputs_lookup merged_so_far mcp_outputs _ _ _).
  - repeat constructor; cbn; intuition discriminate.
  - reflexivity.
Defined.

Lemma merge_files_step (w : World) file rest config log :
  McpSqlAgent.merge_files w (file :: rest) config log
  = let log1 := log ++ [CPathExists file] in
    if path_exists w log1 then
      let log2 := log1 ++ [CReadJson file] in
      match read_json w log2 with
      | Ok data =>
          match McpSqlAgent.merge_outputs config data with
          | Ok config' => McpSqlAgent.merge_files w rest config' log2
          | Raise e => (Raised e, log2)
          end
      | Raise e => (Raised e, log2)
      end
    else McpSqlAgent.merge_files w rest config log1.
Proof.
  cbn [McpSqlAgent.merge_files]. unfold bind, call, lift. cbv zeta.
  destruct (path_exists w (log ++ [CPathExists file])); [|reflexivity].
  destruct (read_json w ((log ++ [CPathExists file]) ++ [CReadJson file]));
    [|reflexivity].
  destruct (McpSqlAgent.merge_outputs config a); reflexivity.
Qed.

(** What the fallback of [load_config] hands on, and what it issues: only
    file probes and reads. *)
Lemma merge_files_shape (w : World) (Keep : list (string * Json) -> Prop) files :
  (forall config history data config',
      Keep config -> read_json w history = Ok data ->
      McpSqlAgent.merge_outputs config data = Ok config' -> Keep config') ->
  forall config log,
    Keep config ->
    exists extra,
      snd (McpSqlAgent.merge_files w files config log) = log ++ extra
      /\ forallb is_file_call extra = true
      /\ match fst (McpSqlAgent.merge_files w files config log) with
         | Returned config' => Keep config'
         | Raised _ => True
         | Unfinished => False
         end.
Proof.
  intros Hkeep. induction files as [|file rest IH]; intros config log Hc.
  - exists []. rewrite app_nil_r. cbn. auto.
  - rewrite merge_files_step. cbv zeta.
    destruct (path_exists w (log ++ [CPathExists file])).
    + destruct (read_json w ((log ++ [CPathExists file]) ++ [CReadJson file]))
        as [data|e] eqn:Eread.
      * destruct (McpSqlAgent.merge_outputs config data) as [config'|e] eqn:Em.
        -- destruct (IH config' ((log ++ [CPathExists file]) ++ [CReadJson file])
                       (Hkeep _ _ _ _ Hc Eread Em))
             as (extra & Hlog & Hfiles & Hres).
           exists ([CPathExists file; CReadJson file] ++ extra).
           rewrite Hlog. split; [rewrite <- !app_assoc; reflexivity|].
           split; [cbn; exact Hfiles | exact Hres].
        -- exists [CPathExists file; CReadJson file]. cbn.
           rewrite <- app_assoc. auto.
      * exists [CPathExists file; CReadJson file]. cbn.
        rewrite <- app_assoc. auto.
    + destruct (IH config (log ++ [CPathExists file]) Hc)
        as (extra & Hlog & Hfiles & Hres).
      exists ([CPathExists file] ++ extra).
      rewrite Hlog. split; [rewrite <- !app_assoc; reflexivity|].
      split; [cbn; exact Hfiles | exact Hres].
Qed.

Lemma sql_load_config_step (w : World) log :
  McpSqlAgent.load_config w log
  = let log1 := log ++ [CPathExists "config/config.json"] in
    if path_exists w log1 then
      let log2 := log1 ++ [CReadJson "config/config.json"] in
      match read_json w log2 with
      | Ok fields => (Returned (JObj fields), log2)
      | Raise e => (Raised e, log2)
      end
    else
      match McpSqlAgent.merge_files w
              ["config/mcp-sql-server-deployment-outputs.json";
               "config/foundry-deployment-outputs.json"] [] log1 with
      | (Returned [], log') =>
          (Raised (mkExn FileNotFoundError "No configuration found"), log')
      | (Returned config, log') => (Returned (JObj config), log')
      | (Raised e, log') => (Raised e, log')
      | (Unfinished, log') => (Unfinished, log')
      end.
Proof.
  unfold McpSqlAgent.load_config. cbv zeta.
  unfold bind at 1, call at 1, lift at 1.
  destruct (path_exists w (log ++ [CPathExists "config/config.json"])).
  - unfold bind, call, lift.
    destruct (read_json w _); reflexivity.
  - unfold bind at 1.
    destruct (McpSqlAgent.merge_files w _ [] _) as [[[|kv c]|e|] log'];
      reflexivity.
Qed.

(** X2.  What [load_config] of the SQL deployment script returns.  When
    [config.json] exists its content is returned as loaded, even an empty
    object, after one probe and one read: the deployment outputs are not
    looked at.  Otherwise the result is the merge of the deployment
    outputs, and never an empty configuration: an empty merge raises
    [FileNotFoundError] instead.  In both cases the function issues only
    file probes and reads. *)
Theorem sql_load_config_shape :
  forall (w : World) (log : list Call),
    let probe := log ++ [CPathExists "config/config.json"] in
    let read := probe ++ [CReadJson "config/config.json"] in
    (exists extra,
        snd (McpSqlAgent.load_config w log) = log ++ extra
        /\ forallb is_file_call extra = true)
    /\ if path_exists w probe
       then snd (McpSqlAgent.load_config w log) = read
            /\ fst (McpSqlAgent.load_config w log)
               = match read_json w read with
                 | Ok fields => Returned (JObj fields)
                 | Raise e => Raised e
                 end
       else match fst (McpSqlAgent.load_config w log) with
            | Returned config => exists kv fields, config = JObj (kv :: fields)
            | Raised _ => True
            | Unfinished => False
            end.
Proof.
  intros w log probe read. subst probe read.
  rewrite sql_load_config_step. cbv zeta.
  destruct (path_exists w (log ++ [CPathExists "config/config.json"])).
  - split.
    + exists [CPathExists "config/config.json"; CReadJson "config/config.json"].
      rewrite <- app_assoc.
      destruct (read_json w _); cbn; auto.
    + destruct (read_json w _); cbn; auto.
  - destruct (merge_files_shape w (fun _ => True)
                ["config/mcp-sql-server-deployment-outputs.json";
                 "config/foundry-deployment-outputs.json"]
                (fun _ _ _ _ _ _ _ => I) []
                (log ++ [CPathExists "config/config.json"]) I)
      as (extra & Hlog & Hfiles & Hres).
    destruct (McpSqlAgent.merge_files w _ [] _) as [[[|kv c]|e|] log'];
      cbn [fst snd] in *; subst log'.
    + split; [|exact I].
      exists ([CPathExists "config/config.json"] ++ extra).
      rewrite <- app_assoc. auto.
    + split; [|eauto].
      exists ([CPathExists "config/config.json"] ++ extra).
      rewrite <- app_assoc. auto.
    + split; [|exact I].
      exists ([CPathExists "config/config.json"] ++ extra).
      rewrite <- app_assoc. auto.
    + contradiction.
Qed.

(** X3.  Deployment outputs that are empty objects count as missing: with
    no [config.json], and every deployment-output file that exists holding
    [{}], [load_config] raises its [FileNotFoundError]. *)
Theorem sql_load_config_empty_outputs :
  forall (w : World) (log : list Call),
    path_exists w (log ++ [CPathExists "config/config.json"]) = false ->
    (forall history, read_json w history = Ok []) ->
    fst (McpSqlAgent.load_config w log)
    = Raised (mkExn FileNotFoundError "No configuration found").
Proof.
  intros w log Hnone Hread.
  rewrite sql_load_config_step. cbv zeta. rewrite Hnone.
  rewrite !merge_files_step. cbv zeta. rewrite !Hread.
  cbn [McpSqlAgent.merge_outputs McpSqlAgent.has_key assoc orb assoc_update fold_left].
  repeat match goal with
         | |- context [if path_exists w ?h then _ else _] =>
             destruct (path_exists w h)
         end; cbn [McpSqlAgent.merge_outputs McpSqlAgent.has_key assoc orb
                   assoc_update fold_left];
    rewrite ?merge_files_step; cbv zeta; rewrite ?Hread;
    repeat match goal with
         | |- context [if path_exists w ?h then _ else _] =>
             destruct (path_exists w h)
         end; reflexivity.
Qed.

Lemma sql_load_config_empty_outputs_witness :
  fst (McpSqlAgent.load_config (outputs_only []) [])
  = Raised (mkExn FileNotFoundError "No configuration found").
Proof.
  apply (sql_load_config_empty_outputs (outputs_only []) []);
    [reflexivity | intros history; reflexivity].
Defined.

Lemma merge_outputs_only_infrastructure config data config' :
  only_infrastructure config ->
  McpSqlAgent.has_key "infrastructure" data || McpSqlAgent.has_key "mcp" data = true ->
  McpSqlAgent.merge_outputs config data = Ok config' ->
  only_infrastructure config'.
Proof.
  intros Hc Hd. unfold McpSqlAgent.merge_outputs. rewrite Hd.
  destruct Hc as [->|(infra & ->)]; cbn; intros H; injection H as <-;
    right; eexists; reflexivity.
Qed.

(** X4.  The fallback cannot configure an agent from infrastructure
    outputs alone.  With no [config.json], and every deployment-output file
    that can be read holding the key "infrastructure" or "mcp", the merged
    configuration has no key but "infrastructure", so the SQL deployment
    script ends with exit code 1 at [config["agents"]]: it has touched
    nothing but the configuration files. *)
Theorem sql_fallback_outputs_lack_agents :
  forall (w : World) (console : list ConsoleEvent),
    path_exists w [CPathExists "config/config.json"] = false ->
    (forall history data,
        read_json w history = Ok data ->
        McpSqlAgent.has_key "infrastructure" data
        || McpSqlAgent.has_key "mcp" data = true) ->
    fst (run_script (McpSqlAgent.main w console)) = Some (Exit 1)
    /\ forallb is_file_call (snd (run_script (McpSqlAgent.main w console)))
       = true.
Proof.
  intros w console Hnone Hinfra.
  assert (Hload :
    exists extra,
      snd (McpSqlAgent.load_config w []) = extra
      /\ forallb is_file_call extra = true
      /\ match fst (McpSqlAgent.load_config w []) with
         | Returned config =>
             exists c, config = JObj c /\ only_infrastructure c
         | Raised _ => True
         | Unfinished => False
         end).
  { rewrite sql_load_config_step. cbv zeta. cbn [app]. rewrite Hnone.
    destruct (merge_files_shape w only_infrastructure
                ["config/mcp-sql-server-deployment-outputs.json";
                 "config/foundry-deployment-outputs.json"]
                (fun config history data config' Hc Hr Hm =>
                   merge_outputs_only_infrastructure config data config' Hc
                     (Hinfra history data Hr) Hm)
                [] [CPathExists "config/config.json"] (or_introl eq_refl))
      as (extra & Hlog & Hfiles & Hres).
    destruct (McpSqlAgent.merge_files w _ [] _) as [[[|kv c]|e|] log'];
      cbn [fst snd] in *; subst log'; eexists; (split; [reflexivity|]);
      (split; [cbn; exact Hfiles|]); try exact I; try contradiction.
    exists (kv :: c). split; [reflexivity | exact Hres]. }
  destruct Hload as (extra & Hlog & Hfiles & Hres).
  assert (Hmain : McpSqlAgent.main w console [] = (Returned (Exit 1), extra)).
  { unfold McpSqlAgent.main, try_except, try_except_when.
    unfold bind at 1. unfold bind at 1.
    destruct (McpSqlAgent.load_config w []) as [[config|e|] log'];
      cbn [fst snd] in *; subst log'.
    - destruct Hres as (c & -> & [->|(infra & ->)]); reflexivity.
    - reflexivity.
    - contradiction. }
  unfold run_script. rewrite Hmain. cbn [fst snd]. auto.
Qed.

Lemma sql_fallback_outputs_lack_agents_witness :
  fst (run_script (McpSqlAgent.main (outputs_only mcp_outputs) [])) = Some (Exit 1)
  /\ forallb is_file_call
       (snd (run_script (McpSqlAgent.main (outputs_only mcp_outputs) [])))
     = true.
Proof.
  apply (sql_fallback_outputs_lack_agents (outputs_only mcp_outputs) []).
  - reflexivity.
  - intros history data H. injection H as <-. reflexivity.
Defined.

(** ** The deployment sessions *)
Lemma allow_tools_keep tools :
  forall t,
    let t' := fold_left (fun t tool => allow_tool tool t) tools t in
    server_label t' = server_label t /\ server_url t' = server_url t
    /\ headers t' = headers t.
Proof.
  induction tools as [|tool rest IH]; intros t; cbn; [auto|].
  destruct (IH (allow_tool tool t)) as (H1 & H2 & H3).
  cbv zeta in *. rewrite H1, H2, H3. cbn. auto.
Qed.

Lemma github_deploy_cases w agent_config project_config existing log :
  (exists e, McpGithubAgent.deploy w agent_config project_config existing log
             = (Raised e, log))
  \/ exists name model instructions mcpServer tool,
       getitem agent_config "name" = Ok name
       /\ getitem project_config "modelDeployment" = Ok model
       /\ getitem agent_config "instructions" = Ok instructions
       /\ getitem agent_config "mcpServer" = Ok mcpServer
       /\ getitem mcpServer "label" = Ok (server_label tool)
       /\ getitem mcpServer "url" = Ok (server_url tool)
       /\ headers tool = []
       /\ let c := deployment_call existing model name instructions tool in
          McpGithubAgent.deploy w agent_config project_config existing log
          = (match service_answer w c (log ++ [c]) with
             | Ok _ => Returned (Exit 0)
             | Raise e => Raised e
             end, log ++ [c]).
Proof.
  unfold McpGithubAgent.deploy, bind, lift.
  destruct (getitem agent_config "mcpServer") as [mcpServer|e] eqn:Eserver;
    [|left; eauto].
  destruct (getitem mcpServer "label") as [label|e] eqn:Elabel; [|left; eauto].
  destruct (getitem mcpServer "url") as [url|e] eqn:Eurl; [|left; eauto].
  destruct (get_default agent_config "allowedTools" (JArr [])) as [tools|e];
    [|left; eauto].
  destruct (iter_json tools) as [tool_list|e]; [|left; eauto].
  destruct (getitem agent_config "name") as [name|e] eqn:Ename; [|left; eauto].
  destruct (allow_tools_keep tool_list (new_McpTool label url (JArr [])))
    as (Hl & Hu & Hh). cbv zeta in Hl, Hu, Hh.
  set (tool := fold_left _ tool_list _) in *.
  unfold McpGithubAgent.found, deployment_call, service_answer.
  destruct existing as [agent_id|]; [destruct (truthy_str agent_id)|];
    unfold bind, lift;
    (destruct (getitem project_config "modelDeployment") as [model|e] eqn:Emodel;
     [|left; eauto]);
    rewrite ?Ename;
    (destruct (getitem agent_config "instructions") as [instructions|e] eqn:Einstr;
     [|left; eauto]);
    right; exists name, model, instructions, mcpServer, tool;
    rewrite Hl, Hu, Hh; cbn [new_McpTool server_label server_url headers];
    (repeat split; try assumption; try reflexivity);
    cbv zeta; unfold bind, call, lift, ret;
    first [destruct (update_agent w _) | destruct (create_agent w _)];
    reflexivity.
Qed.

Lemma github_session_step w console agent_config project_config log :
  McpGithubAgent.session w console agent_config project_config log
  = match getitem agent_config "name" with
    | Raise e => (Raised e, log)
    | Ok name =>
        let log1 := log ++ [CAgentsList] in
        let existing := lookup_answer (agents_list w log1) name in
        if McpGithubAgent.found existing then
          match console with
          | [] => (Returned AwaitingInput, log1)
          | Interrupt :: _ => (Returned Interrupted, log1)
          | InputError e :: _ => (Raised e, log1)
          | Line answer :: _ =>
              if declines answer then (Returned (Exit 0), log1)
              else McpGithubAgent.deploy w agent_config project_config
                     existing log1
          end
        else McpGithubAgent.deploy w agent_config project_config existing log1
    end.
Proof.
  unfold McpGithubAgent.session, declines.
  unfold bind at 1, lift at 1.
  destruct (getitem agent_config "name") as [name|e]; [|reflexivity].
  unfold bind at 1, lift at 1. unfold bind at 1.
  rewrite github_find_agent_by_name_spec. cbv zeta.
  destruct (McpGithubAgent.found _); [|reflexivity].
  destruct console as [|[answer|e|] rest]; try reflexivity.
  destruct (lower (strip answer) =? "n"); reflexivity.
Qed.

(** X5.  What a session of the GitHub deployment script does to the
    service.  It lists the agents once and then issues at most one more
    call, a creation or an update, which carries the model, name and
    instructions of the configuration and a tool with the configured label
    and URL and no header.  The update of a found agent is only issued
    after the operator answered the prompt with something other than n;
    a creation is issued without prompting, when the lookup gave no agent,
    be it absent or the listing failed.  Exit code 0 means that the
    operator declined, or that the service accepted the creation or
    update. *)
Theorem github_deploy_session_calls :
  forall (w : World) (console : list ConsoleEvent)
         (agent_config project_config : Json) (log : list Call),
    let extra :=
      issued (McpGithubAgent.session w console agent_config project_config) log in
    (extra = [] \/ extra = [CAgentsList]
     \/ exists name model instructions mcpServer tool,
          getitem agent_config "name" = Ok name
          /\ getitem project_config "modelDeployment" = Ok model
          /\ getitem agent_config "instructions" = Ok instructions
          /\ getitem agent_config "mcpServer" = Ok mcpServer
          /\ getitem mcpServer "label" = Ok (server_label tool)
          /\ getitem mcpServer "url" = Ok (server_url tool)
          /\ headers tool = []
          /\ let existing :=
               lookup_answer (agents_list w (log ++ [CAgentsList])) name in
             extra = [CAgentsList;
                      deployment_call existing model name instructions tool]
             /\ (McpGithubAgent.found existing = true ->
                 exists answer rest,
                   console = Line answer :: rest /\ declines answer = false))
    /\ (fst (McpGithubAgent.session w console agent_config project_config log)
        = Returned (Exit 0) ->
        (extra = [CAgentsList]
         /\ exists answer rest,
              console = Line answer :: rest /\ declines answer = true)
        \/ exists c agent,
             is_mutation c = true /\ extra = [CAgentsList; c]
             /\ service_answer w c (log ++ extra) = Ok agent).
Proof.
  intros w console agent_config project_config log.
  assert (Hdeploy :
    forall name existing,
      getitem agent_config "name" = Ok name ->
      existing = lookup_answer (agents_list w (log ++ [CAgentsList])) name ->
      (McpGithubAgent.found existing = true ->
       exists answer rest,
         console = Line answer :: rest /\ declines answer = false) ->
      let extra :=
        skipn (length log)
              (snd (McpGithubAgent.deploy w agent_config project_config
                      existing (log ++ [CAgentsList]))) in
      (extra = [] \/ extra = [CAgentsList]
       \/ exists name model instructions mcpServer tool,
            getitem agent_config "name" = Ok name
            /\ getitem project_config "modelDeployment" = Ok model
            /\ getitem agent_config "instructions" = Ok instructions
            /\ getitem agent_config "mcpServer" = Ok mcpServer
            /\ getitem mcpServer "label" = Ok (server_label tool)
            /\ getitem mcpServer "url" = Ok (server_url tool)
            /\ headers tool = []
            /\ let existing :=
                 lookup_answer (agents_list w (log ++ [CAgentsList])) name in
               extra = [CAgentsList;
                        deployment_call existing model name instructions tool]
               /\ (McpGithubAgent.found existing = true ->
                   exists answer rest,
                     console = Line answer :: rest /\ declines answer = false))
      /\ (fst (McpGithubAgent.deploy w agent_config project_config
                 existing (log ++ [CAgentsList])) = Returned (Exit 0) ->
          (extra = [CAgentsList]
           /\ exists answer rest,
                console = Line answer :: rest /\ declines answer = true)
          \/ exists c agent,
               is_mutation c = true /\ extra = [CAgentsList; c]
               /\ service_answer w c (log ++ extra) = Ok agent)).
  { intros name existing Hname Hex Hconsent extra. subst extra.
    destruct (github_deploy_cases w agent_config project_config existing
                (log ++ [CAgentsList]))
      as [(e & E)|(name' & model & instructions & mcpServer & tool & Hn & Hm
                   & Hi & Hs & Hl & Hu & Hh & E)].
    - rewrite E. cbn [fst snd].
      rewrite skipn_app, skipn_all, Nat.sub_diag. cbn [skipn app].
      split; [auto | discriminate].
    - cbv zeta in E. rewrite E. cbn [fst snd].
      assert (name' = name) by congruence. subst name'.
      assert (Hmut : is_mutation
                (deployment_call existing model name instructions tool) = true).
      { unfold deployment_call.
        destruct existing as [i|]; [destruct (truthy_str i)|]; reflexivity. }
      destruct (service_answer w _ _) as [agent|e0] eqn:Ea;
        rewrite <- app_assoc in *; cbn [app] in *;
        rewrite skipn_app, skipn_all, Nat.sub_diag; cbn [skipn app];
        (split;
         [right; right; exists name, model, instructions, mcpServer, tool;
          subst existing; cbv zeta; auto 10|]);
        [|discriminate].
      intros _. right.
      exists (deployment_call existing model name instructions tool), agent.
      auto. }
  cbv zeta.
  unfold issued. rewrite github_session_step.
  destruct (getitem agent_config "name") as [name|e] eqn:Ename.
  2:{ rewrite skipn_all. split; [auto | discriminate]. }
  cbv zeta.
  destruct (McpGithubAgent.found _) eqn:Efound.
  - destruct console as [|[answer|e|] rest]; cbn [fst snd].
    + rewrite skipn_app, skipn_all, Nat.sub_diag. cbn.
      split; [auto | discriminate].
    + destruct (declines answer) eqn:Edec; cbn [fst snd].
      * rewrite skipn_app, skipn_all, Nat.sub_diag. cbn.
        split; [auto|]. intros _. left. split; [reflexivity | eauto].
      * apply (Hdeploy name _ eq_refl eq_refl). intros _. eauto.
    + rewrite skipn_app, skipn_all, Nat.sub_diag. cbn.
      split; [auto | discriminate].
    + rewrite skipn_app, skipn_all, Nat.sub_diag. cbn.
      split; [auto | discriminate].
  - apply (Hdeploy name _ eq_refl eq_refl). rewrite Efound. discriminate.
Qed.

Lemma sql_deploy_cases w agent_config project_config api_key existing log :
  (exists e, McpSqlAgent.deploy w agent_config project_config api_key existing log
             = (Raised e, log))
  \/ exists name model instructions mcpServer tool,
       getitem agent_config "name" = Ok name
       /\ getitem project_config "modelDeployment" = Ok model
       /\ getitem agent_config "instructions" = Ok instructions
       /\ getitem agent_config "mcpServer" = Ok mcpServer
       /\ getitem mcpServer "label" = Ok (server_label tool)
       /\ getitem mcpServer "url" = Ok (server_url tool)
       /\ get_default agent_config "allowedTools" (JArr [])
          = Ok (allowed_tools tool)
       /\ headers tool = api_key_header api_key
       /\ let c := deployment_call existing model name instructions tool in
          McpSqlAgent.deploy w agent_config project_config api_key existing log
          = (match service_answer w c (log ++ [c]) with
             | Ok _ => Returned (Exit 0)
             | Raise e => Raised e
             end, log ++ [c]).
Proof.
  unfold McpSqlAgent.deploy, McpSqlAgent.init_mcp_tool, bind, lift, ret.
  destruct (getitem agent_config "mcpServer") as [mcpServer|e] eqn:Eserver;
    [|left; eauto].
  destruct (getitem mcpServer "label") as [label|e] eqn:Elabel; [|left; eauto].
  destruct (getitem mcpServer "url") as [url|e] eqn:Eurl; [|left; eauto].
  destruct (get_default agent_config "allowedTools" (JArr [])) as [tools|e]
    eqn:Etools; [|left; eauto].
  destruct (getitem agent_config "name") as [name|e] eqn:Ename; [|left; eauto].
  set (tool := match api_key with
               | Some key =>
                   if truthy_str key
                   then update_headers "X-API-Key" key (new_McpTool label url tools)
                   else new_McpTool label url tools
               | None => new_McpTool label url tools
               end).
  assert (Htool : server_label tool = label /\ server_url tool = url
                  /\ allowed_tools tool = tools
                  /\ headers tool = api_key_header api_key).
  { subst tool. unfold api_key_header.
    destruct api_key as [key|]; [destruct (truthy_str key)|]; cbn; auto. }
  destruct Htool as (Hl & Hu & Ha & Hh).
  unfold McpSqlAgent.found, deployment_call, service_answer.
  destruct existing as [agent_id|]; [destruct (truthy_str agent_id)|];
    unfold bind, lift;
    (destruct (getitem project_config "modelDeployment") as [model|e] eqn:Emodel;
     [|left; eauto]);
    rewrite ?Ename;
    (destruct (getitem agent_config "instructions") as [instructions|e] eqn:Einstr;
     [|left; eauto]);
    right; exists name, model, instructions, mcpServer, tool;
    rewrite Hl, Hu, Ha, Hh;
    (repeat split; try assumption; try reflexivity);
    cbv zeta; unfold bind, call, lift, ret;
    first [destruct (update_agent w _) | destruct (create_agent w _)];
    reflexivity.
Qed.

Lemma sql_session_step w console agent_config project_config api_key log :
  McpSqlAgent.session w console agent_config project_config api_key log
  = match getitem agent_config "name" with
    | Raise e => (Raised e, log)
    | Ok name =>
        let log1 := log ++ [CAgentsList] in
        let existing := lookup_answer (agents_list w log1) name in
        if McpSqlAgent.found existing then
          match console with
          | [] => (Returned AwaitingInput, log1)
          | Interrupt :: _ => (Returned Interrupted, log1)
          | InputError e :: _ => (Raised e, log1)
          | Line answer :: _ =>
              if declines answer then (Returned (Exit 0), log1)
              else McpSqlAgent.deploy w agent_config project_config api_key
                     existing log1
          end
        else McpSqlAgent.deploy w agent_config project_config api_key existing log1
    end.
Proof.
  unfold McpSqlAgent.session, declines.
  unfold bind at 1, lift at 1.
  destruct (getitem agent_config "name") as [name|e]; [|reflexivity].
  unfold bind at 1, lift at 1. unfold bind at 1.
  rewrite sql_find_agent_by_name_same, github_find_agent_by_name_spec. cbv zeta.
  destruct (McpSqlAgent.found _); [|reflexivity].
  destruct console as [|[answer|e|] rest]; try reflexivity.
  destruct (lower (strip answer) =? "n"); reflexivity.
Qed.

(** X6.  What a session of the SQL deployment script does to the service.
    It lists the agents once and then issues at most one more call, a
    creation or an update, which carries the model, name and instructions
    of the configuration and a tool with the configured label, URL and
    allowed tools, whose only header is the API key when there is one.  The
    update of a found agent is only issued after the operator answered the
    prompt with something other than n; a creation is issued without
    prompting, when the lookup gave no agent, be it absent or the listing
    failed.  Exit code 0 means that the operator declined, or that the
    service accepted the creation or update. *)
Theorem sql_deploy_session_calls :
  forall (w : World) (console : list ConsoleEvent)
         (agent_config project_config : Json) (api_key : option string)
         (log : list Call),
    let extra :=
      issued (McpSqlAgent.session w console agent_config project_config api_key) log in
    (extra = [] \/ extra = [CAgentsList]
     \/ exists name model instructions mcpServer tool,
          getitem agent_config "name" = Ok name
          /\ getitem project_config "modelDeployment" = Ok model
          /\ getitem agent_config "instructions" = Ok instructions
          /\ getitem agent_config "mcpServer" = Ok mcpServer
          /\ getitem mcpServer "label" = Ok (server_label tool)
          /\ getitem mcpServer "url" = Ok (server_url tool)
          /\ get_default agent_config "allowedTools" (JArr [])
             = Ok (allowed_tools tool)
          /\ headers tool = api_key_header api_key
          /\ let existing :=
               lookup_answer (agents_list w (log ++ [CAgentsList])) name in
             extra = [CAgentsList;
                      deployment_call existing model name instructions tool]
             /\ (McpSqlAgent.found existing = true ->
                 exists answer rest,
                   console = Line answer :: rest /\ declines answer = false))
    /\ (fst (McpSqlAgent.session w console agent_config project_config api_key log)
        = Returned (Exit 0) ->
        (extra = [CAgentsList]
         /\ exists answer rest,
              console = Line answer :: rest /\ declines answer = true)
        \/ exists c agent,
             is_mutation c = true /\ extra = [CAgentsList; c]
             /\ service_answer w c (log ++ extra) = Ok agent).
Proof.
  intros w console agent_config project_config api_key log.
  assert (Hdeploy :
    forall name existing,
      getitem agent_config "name" = Ok name ->
      existing = lookup_answer (agents_list w (log ++ [CAgentsList])) name ->
      (McpSqlAgent.found existing = true ->
       exists answer rest,
         console = Line answer :: rest /\ declines answer = false) ->
      let extra :=
        skipn (length log)
              (snd (McpSqlAgent.deploy w agent_config project_config api_key
                      existing (log ++ [CAgentsList]))) in
      (extra = [] \/ extra = [CAgentsList]
       \/ exists name model instructions mcpServer tool,
            getitem agent_config "name" = Ok name
            /\ getitem project_config "modelDeployment" = Ok model
            /\ getitem agent_config "instructions" = Ok instructions
            /\ getitem agent_config "mcpServer" = Ok mcpServer
            /\ getitem mcpServer "label" = Ok (server_label tool)
            /\ getitem mcpServer "url" = Ok (server_url tool)
            /\ get_default agent_config "allowedTools" (JArr [])
             = Ok (allowed_tools tool)
          /\ headers tool = api_key_header api_key
            /\ let existing :=
                 lookup_answer (agents_list w (log ++ [CAgentsList])) name in
               extra = [CAgentsList;
                        deployment_call existing model name instructions tool]
               /\ (McpSqlAgent.found existing = true ->
                   exists answer rest,
                     console = Line answer :: rest /\ declines answer = false))
      /\ (fst (McpSqlAgent.deploy w agent_config project_config api_key
                 existing (log ++ [CAgentsList])) = Returned (Exit 0) ->
          (extra = [CAgentsList]
           /\ exists answer rest,
                console = Line answer :: rest /\ declines answer = true)
          \/ exists c agent,
               is_mutation c = true /\ extra = [CAgentsList; c]
               /\ service_answer w c (log ++ extra) = Ok agent)).
  { intros name existing Hname Hex Hconsent extra. subst extra.
    destruct (sql_deploy_cases w agent_config project_config api_key existing
                (log ++ [CAgentsList]))
      as [(e & E)|(name' & model & instructions & mcpServer & tool & Hn & Hm
                   & Hi & Hs & Hl & Hu & Ha & Hh & E)].
    - rewrite E. cbn [fst snd].
      rewrite skipn_app, skipn_all, Nat.sub_diag. cbn [skipn app].
      split; [auto | discriminate].
    - cbv zeta in E. rewrite E. cbn [fst snd].
      assert (name' = name) by congruence. subst name'.
      assert (Hmut : is_mutation
                (deployment_call existing model name instructions tool) = true).
      { unfold deployment_call.
        destruct existing as [i|]; [destruct (truthy_str i)|]; reflexivity. }
      destruct (service_answer w _ _) as [agent|e0] eqn:Ea;
        rewrite <- app_assoc in *; cbn [app] in *;
        rewrite skipn_app, skipn_all, Nat.sub_diag; cbn [skipn app];
        (split;
         [right; right; exists name, model, instructions, mcpServer, tool;
          subst existing; cbv zeta; auto 10|]);
        [|discriminate].
      intros _. right.
      exists (deployment_call existing model name instructions tool), agent.
      auto. }
  cbv zeta.
  unfold issued. rewrite sql_session_step.
  destruct (getitem agent_config "name") as [name|e] eqn:Ename.
  2:{ rewrite skipn_all. split; [auto | discriminate]. }
  cbv zeta.
  destruct (McpSqlAgent.found _) eqn:Efound.
  - destruct console as [|[answer|e|] rest]; cbn [fst snd].
    + rewrite skipn_app, skipn_all, Nat.sub_diag. cbn.
      split; [auto | discriminate].
    + destruct (declines answer) eqn:Edec; cbn [fst snd].
      * rewrite skipn_app, skipn_all, Nat.sub_diag. cbn.
        split; [auto|]. intros _. left. split; [reflexivity | eauto].
      * apply (Hdeploy name _ eq_refl eq_refl). intros _. eauto.
    + rewrite skipn_app, skipn_all, Nat.sub_diag. cbn.
      split; [auto | discriminate].
    + rewrite skipn_app, skipn_all, Nat.sub_diag. cbn.
      split; [auto | discriminate].
  - apply (Hdeploy name _ eq_refl eq_refl). rewrite Efound. discriminate.
Qed.

(** ** Failing to get the API key *)

(** X7.  The SQL deployment script without its key.  The helper
    [get_mcp_api_key_from_keyvault] calls the secret store once and either
    returns the secret's value or raises a [RuntimeError], whatever the
    store raised.  When [config.json] is complete, asks for an API key and
    names a Key Vault, and the secret store fails, the script ends with
    exit code 1 right after the call to the store: it does not connect to
    the project, list agents, create or update anything. *)
Theorem sql_deploy_stops_without_key :
  forall (w : World) (console : list ConsoleEvent)
         (fields : list (string * Json)) (agent_config project_config : Json)
         (vault secret_name : Json) (e : Exn),
    sql_config_on_file w fields agent_config project_config ->
    announced agent_config project_config ->
    wants_api_key agent_config = true ->
    key_vault_of (JObj fields) = Some (vault, secret_name) ->
    get_secret w [CPathExists "config/config.json";
                  CReadJson "config/config.json";
                  CGetSecret vault secret_name] = Raise e ->
    run_script (McpSqlAgent.main w console)
    = (Some (Exit 1),
       [CPathExists "config/config.json"; CReadJson "config/config.json";
        CGetSecret vault secret_name])
    /\ forall log,
         snd (McpSqlAgent.get_mcp_api_key_from_keyvault w vault secret_name log)
         = log ++ [CGetSecret vault secret_name]
         /\ match fst (McpSqlAgent.get_mcp_api_key_from_keyvault
                         w vault secret_name log) with
            | Returned key =>
                get_secret w (log ++ [CGetSecret vault secret_name]) = Ok key
            | Raised e' =>
                exn_class e' = RuntimeError
                /\ exists cause,
                     get_secret w (log ++ [CGetSecret vault secret_name])
                     = Raise cause
            | Unfinished => False
            end.
Proof.
  intros w console fields agent_config project_config vault secret_name e
         (Hexists & Hread & (agents & Hagents & Hsql) & Hproject & (model & Hmodel))
         ((endpoint & Hendpoint) & (name & Hname)
          & (mcpServer & url & label & Hserver & Hurl & Hlabel))
         Hwants Hvault Hsecret.
  split.
  - unfold run_script, McpSqlAgent.main, McpSqlAgent.load_config,
      try_except, try_except_when, bind, call, lift, ret. cbn [app].
    rewrite Hexists. cbn [app]. rewrite Hread. cbn [app].
    rewrite Hagents. cbn [app]. rewrite Hsql. cbn [app].
    rewrite Hproject. cbn [app]. rewrite Hendpoint, Hmodel, Hname, Hserver.
    cbn [app]. rewrite Hurl, Hlabel. cbn [app].
    unfold McpSqlAgent.get_api_key_if_required, bind, lift.
    rewrite Hserver.
    unfold wants_api_key in Hwants. rewrite Hserver in Hwants.
    destruct (getitem mcpServer "authType") as [authType|]; [|discriminate].
    rewrite Hwants.
    unfold key_vault_of in Hvault.
    unfold McpSqlAgent.get_mcp_api_key_from_keyvault,
      try_except, try_except_when, bind, lift, call, raise, ret.
    destruct (get_default (JObj fields) "infrastructure" (JObj [])) as [infra|];
      [|discriminate].
    destruct (get_default infra "mcp" (JObj [])) as [mcp|]; [|discriminate].
    destruct (get_default mcp "keyVault" (JObj [])) as [kv|]; [|discriminate].
    destruct (get_default kv "name" JNull) as [n|]; [|discriminate].
    destruct (get_default kv "apiKeySecretName" (JStr "mcp-api-key")) as [s|];
      [|discriminate].
    destruct (truthy n); [|discriminate].
    injection Hvault as -> ->. cbn [negb app].
    rewrite Hsecret. reflexivity.
  - intros log.
    unfold McpSqlAgent.get_mcp_api_key_from_keyvault, try_except,
      try_except_when, call, lift, raise.
    destruct (get_secret w (log ++ [CGetSecret vault secret_name])) as [key|cause];
      cbn; eauto.
Qed.

Lemma sql_deploy_stops_without_key_witness :
  run_script (McpSqlAgent.main locked_vault [])
  = (Some (Exit 1),
     [CPathExists "config/config.json"; CReadJson "config/config.json";
      CGetSecret (JStr "kv-demo") (JStr "mcp-api-key")]).
Proof.
  refine (proj1 (sql_deploy_stops_without_key locked_vault [] full_config
                   sql_agent_config project_settings (JStr "kv-demo")
                   (JStr "mcp-api-key") vault_denied _ _ _ _ _)).
  - split; [reflexivity|]. split; [reflexivity|].
    split; [eexists; split; reflexivity|].
    split; [reflexivity | eexists; reflexivity].
  - split; [eexists; reflexivity|]. split; [eexists; reflexivity|].
    do 3 eexists. split; [reflexivity|]. split; reflexivity.
  - reflexivity.
  - reflexivity.
  - reflexivity.
Defined.

(** X8.  The SQL test script without its key.  When the configuration
    asks for an API key and [get_mcp_api_key] raises, the script stops
    right there, before connecting to the project: with [return 1] when the
    exception is a [ValueError], the only class its handler names; any
    other exception escapes [main] uncaught. *)
Theorem test_sql_key_failure :
  forall (w : World) (project_config agent_config : Json) (e : Exn),
    get_project_config w [CGetProjectConfig] = Ok project_config ->
    get_agent_config w [CGetProjectConfig; CGetAgentConfig "sql"]
    = Ok agent_config ->
    announced agent_config project_config ->
    wants_api_key agent_config = true ->
    get_mcp_api_key w [CGetProjectConfig; CGetAgentConfig "sql"; CGetMcpApiKey]
    = Raise e ->
    TestSqlAgent.main w []
    = (if ExnClass_eqb (exn_class e) ValueError
       then Returned (Exit 1) else Raised e,
       [CGetProjectConfig; CGetAgentConfig "sql"; CGetMcpApiKey]).
Proof.
  intros w project_config agent_config e Hproject Hagent
         ((endpoint & Hendpoint) & (name & Hname)
          & (mcpServer & url & label & Hserver & Hurl & Hlabel))
         Hwants Hkey.
  unfold TestSqlAgent.main, try_except, try_except_when, bind, call, lift, ret.
  cbn [app]. rewrite Hproject. cbn [app]. rewrite Hagent. cbn [app].
  rewrite Hendpoint, Hname, Hserver. cbn [app]. rewrite Hurl, Hlabel.
  unfold TestSqlAgent.get_api_key_if_required, try_except_when, bind, call,
    lift, ret.
  rewrite Hserver.
  unfold wants_api_key in Hwants. rewrite Hserver in Hwants.
  destruct (getitem mcpServer "authType") as [authType|]; [|discriminate].
  rewrite Hwants. cbn [app]. rewrite Hkey.
  destruct (ExnClass_eqb (exn_class e) ValueError); reflexivity.
Qed.

Lemma test_sql_key_failure_witness :
  TestSqlAgent.main locked_vault []
  = (Raised (mkExn RuntimeError "Key Vault unavailable"),
     [CGetProjectConfig; CGetAgentConfig "sql"; CGetMcpApiKey]).
Proof.
  refine (test_sql_key_failure locked_vault project_settings sql_agent_config
            (mkExn RuntimeError "Key Vault unavailable") _ _ _ _ _).
  - reflexivity.
  - reflexivity.
  - split; [eexists; reflexivity|]. split; [eexists; reflexivity|].
    do 3 eexists. split; [reflexivity|]. split; reflexivity.
  - reflexivity.
  - reflexivity.
Defined.

(** ** Counting the calls of a kind *)

Lemma costs_ret {A} (f : Call -> bool) (n : nat) (a : A) : costs f n (ret a).
Proof. intros log. cbn. split; [lia | discriminate]. Qed.

Lemma costs_raise {A} (f : Call -> bool) (n : nat) (e : Exn) :
  costs f n (@raise A e).
Proof. intros log. cbn. split; [lia | discriminate]. Qed.

Lemma costs_lift {A} (f : Call -> bool) (n : nat) (r : Res A) :
  costs f n (lift r).
Proof. intros log. unfold lift. destruct r; cbn; split; (lia || discriminate). Qed.

Lemma costs_call {A} (f : Call -> bool) (n : nat) (c : Call)
    (oracle : list Call -> Res A) :
  (if f c then 1 else 0) <= n -> costs f n (call c oracle).
Proof.
  intros Hn log. unfold call, lift.
  assert (H : length (filter f (log ++ [c])) <= length (filter f log) + n).
  { rewrite filter_app, length_app. cbn [filter].
    destruct (f c); cbn [length] in *; lia. }
  destruct (oracle (log ++ [c])); cbn [fst snd]; split;
    (exact H || discriminate).
Qed.

Lemma costs_bind {A B} (f : Call -> bool) (n1 n2 : nat) (m : M A)
    (k : A -> M B) :
  costs f n1 m -> (forall a, costs f n2 (k a)) ->
  costs f (n1 + n2) (bind m k).
Proof.
  intros Hm Hk log. unfold bind.
  destruct (Hm log) as [H1 Hfin].
  destruct (m log) as [[a|e|] log1]; cbn [fst snd] in *.
  - destruct (Hk a log1) as [H2 Hfin2]. split; [lia | exact Hfin2].
  - split; [lia | discriminate].
  - congruence.
Qed.

Lemma costs_try {A} (f : Call -> bool) (n1 n2 : nat)
    (catches : Exn -> bool) (m : M A) (handler : Exn -> M A) :
  costs f n1 m -> (forall e, costs f n2 (handler e)) ->
  costs f (n1 + n2) (try_except_when catches m handler).
Proof.
  intros Hm Hh log. unfold try_except_when.
  destruct (Hm log) as [H1 Hfin].
  destruct (m log) as [[a|e|] log1]; cbn [fst snd] in *.
  - split; [lia | discriminate].
  - destruct (catches e).
    + destruct (Hh e log1) as [H2 Hfin2]. split; [lia | exact Hfin2].
    + cbn. split; [lia | discriminate].
  - congruence.
Qed.

Lemma costs_weaken {A} (f : Call -> bool) (n n' : nat) (m : M A) :
  n <= n' -> costs f n m -> costs f n' m.
Proof.
  intros Hn Hm log. destruct (Hm log) as [H Hfin]. split; [lia | exact Hfin].
Qed.

Lemma costs_bind_first {A B} (f : Call -> bool) (n : nat) (m : M A)
    (k : A -> M B) :
  costs f n m -> (forall a, costs f 0 (k a)) -> costs f n (bind m k).
Proof.
  intros Hm Hk. eapply costs_weaken; [|apply (costs_bind f n 0 m k Hm Hk)].
  lia.
Qed.

Lemma costs_try_body {A} (f : Call -> bool) (n : nat)
    (catches : Exn -> bool) (m : M A) (handler : Exn -> M A) :
  costs f n m -> (forall e, costs f 0 (handler e)) ->
  costs f n (try_except_when catches m handler).
Proof.
  intros Hm Hh.
  eapply costs_weaken; [|apply (costs_try f n 0 catches m handler Hm Hh)].
  lia.
Qed.

(** A poll that ends within [bound] status fetches costs as many. *)
Lemma costs_of_ends_within {R} (poll : M R) (attR : R -> nat) (bound : nat) :
  (forall log, ends_within poll attR bound log) ->
  costs is_runs_get bound poll.
Proof.
  intros H log. specialize (H log). unfold ends_within, fetches in H.
  destruct (poll log) as [[r|e|] log']; cbn [fst snd].
  - destruct H as [H1 H2]. split; [lia | discriminate].
  - split; [lia | discriminate].
  - contradiction.
Qed.

(** Steps that cost nothing on the way to one that does. *)
Ltac free_steps :=
  repeat first
    [ apply costs_ret
    | apply costs_raise
    | apply costs_lift
    | apply costs_call; cbn; lia
    | match goal with
      | |- costs _ ?n (bind _ _) =>
          first [ apply (costs_bind _ 0 n); [solve [free_steps] | intros ?]
                | apply costs_bind_first; [|intros ?; solve [free_steps]] ]
      | |- costs _ _ (try_except _ _) =>
          apply costs_try_body; [|intros ?; solve [free_steps]]
      | |- costs _ _ (try_except_when _ _ _) =>
          apply costs_try_body; [|intros ?; solve [free_steps]]
      | |- costs _ _ (match ?x with _ => _ end) => destruct x
      | |- costs _ _ (if ?b then _ else _) => destruct b
      end ].

Lemma test_github_wait_costs w thread_id mcp_tool run :
  costs is_runs_get 60
    (TestGithubAgent.wait_for_completion w TestGithubAgent.max_attempts
       thread_id mcp_tool run).
Proof.
  apply (costs_of_ends_within _ TestGithubAgent.attempt_of). intros log.
  unfold TestGithubAgent.wait_for_completion.
  apply (loop_ends_within _ TestGithubAgent.attempt_of);
    [apply test_github_pass_step | reflexivity
    | unfold TestGithubAgent.max_attempts; lia
    | unfold TestGithubAgent.max_attempts; lia].
Qed.

Lemma test_sql_wait_costs w thread_id mcp_tool run :
  costs is_runs_get 60
    (TestSqlAgent.wait_for_completion w TestSqlAgent.max_attempts
       thread_id mcp_tool run).
Proof.
  apply (costs_of_ends_within _ TestSqlAgent.attempt_of). intros log.
  unfold TestSqlAgent.wait_for_completion.
  apply (loop_ends_within _ TestSqlAgent.attempt_of);
    [apply test_sql_pass_step | reflexivity
    | unfold TestSqlAgent.max_attempts; lia
    | unfold TestSqlAgent.max_attempts; lia].
Qed.

Lemma chat_sql_wait_costs w thread_id mcp_tool run :
  costs is_runs_get 60
    (ChatSqlAgent.wait_for_completion w ChatSqlAgent.max_attempts
       thread_id mcp_tool run).
Proof.
  apply (costs_of_ends_within _ ChatSqlAgent.attempt_of). intros log.
  unfold ChatSqlAgent.wait_for_completion.
  apply (loop_ends_within _ ChatSqlAgent.attempt_of);
    [apply chat_sql_pass_step | reflexivity
    | unfold ChatSqlAgent.max_attempts; lia
    | unfold ChatSqlAgent.max_attempts; lia].
Qed.

Lemma chat_github_wait_costs w thread_id run_id :
  costs is_runs_get 120 (ChatGithubAgent.wait_for_run_completion w thread_id run_id).
Proof.
  unfold ChatGithubAgent.wait_for_run_completion. free_steps.
  apply (costs_of_ends_within _ fst). intros log.
  unfold ChatGithubAgent.wait_loop.
  apply (loop_ends_within _ (fun attempt : nat => attempt));
    [apply chat_github_pass_step | reflexivity
    | unfold ChatGithubAgent.max_attempts; lia
    | unfold ChatGithubAgent.max_attempts; lia].
Qed.

Lemma test_github_scenario_costs w thread agent_id mcp_tool sc :
  costs is_runs_get 60 (TestGithubAgent.run_scenario w thread agent_id mcp_tool sc).
Proof.
  unfold TestGithubAgent.run_scenario.
  free_steps. apply test_github_wait_costs.
Qed.

Lemma test_github_scenarios_costs w thread agent_id mcp_tool scs :
  forall acc,
    costs is_runs_get (60 * length scs)
      (TestGithubAgent.run_scenarios w thread agent_id mcp_tool scs acc).
Proof.
  induction scs as [|sc scs IH]; intros acc; cbn [TestGithubAgent.run_scenarios].
  - apply costs_ret.
  - eapply costs_weaken;
      [|apply (costs_bind _ 60 (60 * length scs));
        [apply test_github_scenario_costs | intros r; apply IH]].
    cbn [length]. lia.
Qed.

Lemma test_sql_scenario_costs w thread agent_id mcp_tool sc :
  costs is_runs_get 60 (TestSqlAgent.run_scenario w thread agent_id mcp_tool sc).
Proof.
  unfold TestSqlAgent.run_scenario.
  free_steps. apply test_sql_wait_costs.
Qed.

Lemma test_sql_scenarios_costs w thread agent_id mcp_tool scs :
  forall acc,
    costs is_runs_get (60 * length scs)
      (TestSqlAgent.run_scenarios w thread agent_id mcp_tool scs acc).
Proof.
  induction scs as [|sc scs IH]; intros acc; cbn [TestSqlAgent.run_scenarios].
  - apply costs_ret.
  - eapply costs_weaken;
      [|apply (costs_bind _ 60 (60 * length scs));
        [apply test_sql_scenario_costs | intros r; apply IH]].
    cbn [length]. lia.
Qed.

Lemma test_github_main_costs w :
  costs is_runs_get 180 (TestGithubAgent.main w).
Proof.
  unfold TestGithubAgent.main, TestGithubAgent.check_endpoint_health,
    TestGithubAgent.session.
  free_steps.
  apply (test_github_scenarios_costs w _ _ _ TestGithubAgent.TEST_SCENARIOS).
Qed.

Lemma test_sql_main_costs w :
  costs is_runs_get 240 (TestSqlAgent.main w).
Proof.
  unfold TestSqlAgent.main, TestSqlAgent.get_api_key_if_required,
    TestSqlAgent.session, TestSqlAgent.init_mcp_tool.
  free_steps.
  apply (test_sql_scenarios_costs w _ _ _ TestSqlAgent.TEST_SCENARIOS).
Qed.

(** X9.  The test suites take bounded time.  Whatever the service answers,
    each scenario makes at most 60 status fetches, and a whole run of the
    GitHub suite, with its three scenarios, at most 180; a run of the SQL
    suite, with its four, at most 240.  Both scripts come to an end. *)
Theorem test_suites_fetch_bound :
  forall w : World,
    costs is_runs_get 180 (TestGithubAgent.main w)
    /\ costs is_runs_get 240 (TestSqlAgent.main w)
    /\ (forall thread agent_id mcp_tool sc,
          costs is_runs_get 60
            (TestGithubAgent.run_scenario w thread agent_id mcp_tool sc))
    /\ (forall thread agent_id mcp_tool sc,
          costs is_runs_get 60
            (TestSqlAgent.run_scenario w thread agent_id mcp_tool sc)).
Proof.
  intros w. split; [|split; [|split]].
  - apply test_github_main_costs.
  - apply test_sql_main_costs.
  - apply test_github_scenario_costs.
  - apply test_sql_scenario_costs.
Qed.

Lemma chat_github_pass_costs w agent_id mcp_tool st ev :
  costs is_runs_get 120 (ChatGithubAgent.chat_pass w agent_id mcp_tool st ev).
Proof.
  unfold ChatGithubAgent.chat_pass, ChatGithubAgent.answer,
    ChatGithubAgent.get_latest_response.
  destruct ev as [raw| |]; cbv zeta; free_steps.
  apply chat_github_wait_costs.
Qed.

Lemma chat_github_loop_costs w agent_id mcp_tool console :
  forall st,
    costs is_runs_get (120 * length console)
      (ChatGithubAgent.chat_loop w agent_id mcp_tool console st).
Proof.
  induction console as [|ev rest IH]; intros st;
    cbn [ChatGithubAgent.chat_loop].
  - apply costs_ret.
  - eapply costs_weaken;
      [|apply (costs_bind _ 120 (120 * length rest));
        [apply chat_github_pass_costs
        | intros [st'|[]]; [apply IH | apply costs_ret]]].
    cbn [length]. lia.
Qed.

Lemma chat_sql_pass_costs w agent_id mcp_tool thread ev :
  costs is_runs_get 60 (ChatSqlAgent.chat_pass w agent_id mcp_tool thread ev).
Proof.
  unfold ChatSqlAgent.chat_pass, ChatSqlAgent.answer.
  destruct ev as [raw| |]; cbv zeta; free_steps.
  apply chat_sql_wait_costs.
Qed.

Lemma chat_sql_loop_costs w agent_id mcp_tool console :
  forall thread,
    costs is_runs_get (60 * length console)
      (ChatSqlAgent.chat_loop w agent_id mcp_tool console thread).
Proof.
  induction console as [|ev rest IH]; intros thread;
    cbn [ChatSqlAgent.chat_loop].
  - apply costs_ret.
  - eapply costs_weaken;
      [|apply (costs_bind _ 60 (60 * length rest));
        [apply chat_sql_pass_costs
        | intros [thread'|[]]; [apply IH | apply costs_ret]]].
    cbn [length]. lia.
Qed.

Lemma chat_github_main_costs w console :
  costs is_runs_get (120 * length console) (ChatGithubAgent.main w console).
Proof.
  unfold ChatGithubAgent.main, ChatGithubAgent.session.
  free_steps. apply chat_github_loop_costs.
Qed.

Lemma chat_sql_main_costs w console :
  costs is_runs_get (60 * length console) (ChatSqlAgent.main w console).
Proof.
  unfold ChatSqlAgent.main, ChatSqlAgent.session, ChatSqlAgent.init_mcp_tool.
  free_steps. apply chat_sql_loop_costs.
Qed.

(** X10.  A chat session polls in proportion to what the operator types.
    Each console event costs at most 120 status fetches in the GitHub chat
    script and at most 60 in the SQL chat script, so a session over [n]
    events makes at most [120 * n], respectively [60 * n], status fetches,
    and every turn comes to an end. *)
Theorem chat_sessions_fetch_bound :
  forall (w : World) (console : list ConsoleEvent),
    costs is_runs_get (120 * length console) (ChatGithubAgent.main w console)
    /\ costs is_runs_get (60 * length console) (ChatSqlAgent.main w console)
    /\ (forall agent_id mcp_tool st ev,
          costs is_runs_get 120
            (ChatGithubAgent.chat_pass w agent_id mcp_tool st ev))
    /\ (forall agent_id mcp_tool thread ev,
          costs is_runs_get 60
            (ChatSqlAgent.chat_pass w agent_id mcp_tool thread ev)).
Proof.
  intros w console. split; [|split; [|split]].
  - apply chat_github_main_costs.
  - apply chat_sql_main_costs.
  - apply chat_github_pass_costs.
  - apply chat_sql_pass_costs.
Qed.

(** ** What the scripts address their calls to *)

Ltac yield_by tac :=
  repeat match goal with
    | |- yields _ _ (ret _) => apply yields_ret; tac
    | |- yields _ _ (raise _) => apply yields_raise
    | |- yields _ _ (lift _) => apply yields_lift; intros; tac
    | |- yields _ _ (call _ _) => apply yields_call; [tac | intros; tac]
    | |- yields _ _ (bind _ _) =>
        eapply yields_bind with (Q1 := fun _ => True); [|intros ? _]
    | |- yields _ _ (try_except _ _) => apply yields_try; [|intros ?]
    | |- yields _ _ (try_except_when _ _ _) => apply yields_try; [|intros ?]
    | |- yields _ _ (match ?x with _ => _ end) => destruct x
    | |- yields _ _ (if ?b then _ else _) => destruct b
    end.

Ltac yield := yield_by ltac:(cbn; auto).

(** Termination is the business of [costs]; what is issued and returned,
    that of [yields]. *)
Lemma settles_of_yields {A} (P : Call -> Prop) (Q : A -> Prop)
    (f : Call -> bool) (n : nat) (m : M A) :
  yields P Q m -> costs f n m -> settles P Q m.
Proof.
  intros Hy Hc log. destruct (Hy log) as (extra & Hlog & Hall & Hres).
  destruct (Hc log) as [_ Hfin].
  exists extra. split; [assumption|]. split; [assumption|].
  destruct (fst (m log)); [assumption | exact I | congruence].
Qed.

Section PollCalls.
Variable w : World.
Variable P : Call -> Prop.
Variable tid : string.
Hypothesis HP : forall c, is_poll_call tid c -> P c.

Lemma test_github_wait_polls fuel mcp_tool run :
  yields P (fun _ => True)
    (TestGithubAgent.wait_for_completion w fuel tid mcp_tool run).
Proof.
  unfold TestGithubAgent.wait_for_completion.
  apply yields_loop with (Inv := fun _ => True); [|exact I].
  intros [[attempt r] made] _. unfold TestGithubAgent.poll_pass. cbv zeta.
  yield_by ltac:(first [apply HP; reflexivity | cbn; auto]).
Qed.

Lemma test_sql_wait_polls fuel mcp_tool run :
  yields P (fun _ => True)
    (TestSqlAgent.wait_for_completion w fuel tid mcp_tool run).
Proof.
  unfold TestSqlAgent.wait_for_completion.
  apply yields_loop with (Inv := fun _ => True); [|exact I].
  intros [[attempt r] made] _. unfold TestSqlAgent.poll_pass. cbv zeta.
  yield_by ltac:(first [apply HP; reflexivity | cbn; auto]).
Qed.

Lemma chat_sql_wait_polls fuel mcp_tool run :
  yields P (fun _ => True)
    (ChatSqlAgent.wait_for_completion w fuel tid mcp_tool run).
Proof.
  unfold ChatSqlAgent.wait_for_completion.
  apply yields_loop with (Inv := fun _ => True); [|exact I].
  intros [[attempt r] made] _. unfold ChatSqlAgent.poll_pass. cbv zeta.
  yield_by ltac:(first [apply HP; reflexivity | cbn; auto]).
Qed.

End PollCalls.

(** The wait of the GitHub chat script touches nothing but its run. *)
Lemma chat_github_wait_polls (w : World) (P : Call -> Prop) tid run_id :
  (forall c, own_run_call tid run_id c -> P c) ->
  yields P (fun _ => True)
    (ChatGithubAgent.wait_for_run_completion w tid run_id).
Proof.
  intros HP.
  unfold ChatGithubAgent.wait_for_run_completion, ChatGithubAgent.wait_loop.
  eapply yields_bind with (Q1 := fun _ => True);
    [|intros; apply yields_ret; exact I].
  apply yields_loop with (Inv := fun _ => True); [|exact I].
  intros attempt _. unfold ChatGithubAgent.wait_pass. cbv zeta.
  yield_by ltac:(first [apply HP; cbn; auto | cbn; auto]).
Qed.

Lemma poll_call_addressed tid c : is_poll_call tid c -> addressed_to tid c.
Proof. destruct c; cbn; intros H; try contradiction; exact H. Qed.

Lemma own_run_call_turn tid rid c :
  own_run_call tid rid c -> chat_github_turn_call tid c.
Proof. destruct c; cbn; intros H; try contradiction; apply H. Qed.

Section ScenarioCalls.
Variable w : World.
Variable P : Call -> Prop.
Variable thread : Thread.
Hypothesis HP : forall c, addressed_to (t_id thread) c -> P c.

Lemma test_github_scenario_yields agent_id mcp_tool sc :
  yields P (fun res => TestGithubAgent.scenario res = TestGithubAgent.s_name sc)
    (TestGithubAgent.run_scenario w thread agent_id mcp_tool sc).
Proof.
  unfold TestGithubAgent.run_scenario.
  eapply yields_bind with (Q1 := fun _ => True);
    [apply yields_call; [apply HP; reflexivity | auto] | intros message _].
  eapply yields_bind with (Q1 := fun _ => True);
    [apply yields_call; [apply HP; reflexivity | auto] | intros run _].
  eapply yields_bind with (Q1 := fun _ => True);
    [apply test_github_wait_polls; intros c Hc;
     apply HP, poll_call_addressed, Hc | intros st _].
  cbv zeta.
  yield_by ltac:(first [apply HP; reflexivity | cbn; auto]).
Qed.

Lemma test_github_scenarios_yields agent_id mcp_tool scs :
  forall acc,
    yields P
      (fun rs => map TestGithubAgent.scenario rs
                 = map TestGithubAgent.scenario acc
                   ++ map TestGithubAgent.s_name scs)
      (TestGithubAgent.run_scenarios w thread agent_id mcp_tool scs acc).
Proof.
  induction scs as [|sc scs IH]; intros acc;
    cbn [TestGithubAgent.run_scenarios].
  - apply yields_ret. cbn. rewrite app_nil_r. reflexivity.
  - eapply yields_bind; [apply test_github_scenario_yields|].
    intros res Hres.
    eapply yields_weaken; [intros c Hc; exact Hc | | apply IH].
    intros rs Hrs. rewrite Hrs, map_app, <- app_assoc. cbn. rewrite Hres.
    reflexivity.
Qed.

Lemma test_sql_scenario_yields agent_id mcp_tool sc :
  yields P (fun res => TestSqlAgent.scenario res = TestSqlAgent.s_name sc)
    (TestSqlAgent.run_scenario w thread agent_id mcp_tool sc).
Proof.
  unfold TestSqlAgent.run_scenario.
  eapply yields_bind with (Q1 := fun _ => True);
    [apply yields_call; [apply HP; reflexivity | auto] | intros message _].
  eapply yields_bind with (Q1 := fun _ => True);
    [apply yields_call; [apply HP; reflexivity | auto] | intros run _].
  eapply yields_bind with (Q1 := fun _ => True);
    [apply test_sql_wait_polls; intros c Hc;
     apply HP, poll_call_addressed, Hc | intros st _].
  cbv zeta.
  yield_by ltac:(first [apply HP; reflexivity | cbn; auto]).
Qed.

Lemma test_sql_scenarios_yields agent_id mcp_tool scs :
  forall acc,
    yields P
      (fun rs => map TestSqlAgent.scenario rs
                 = map TestSqlAgent.scenario acc
                   ++ map TestSqlAgent.s_name scs)
      (TestSqlAgent.run_scenarios w thread agent_id mcp_tool scs acc).
Proof.
  induction scs as [|sc scs IH]; intros acc;
    cbn [TestSqlAgent.run_scenarios].
  - apply yields_ret. cbn. rewrite app_nil_r. reflexivity.
  - eapply yields_bind; [apply test_sql_scenario_yields|].
    intros res Hres.
    eapply yields_weaken; [intros c Hc; exact Hc | | apply IH].
    intros rs Hrs. rewrite Hrs, map_app, <- app_assoc. cbn. rewrite Hres.
    reflexivity.
Qed.

End ScenarioCalls.


(** ** The calls each script can issue *)

Section ChatGithubCalls.
Variable w : World.
Variable P : Call -> Prop.
Hypothesis HP : forall tid c, chat_github_turn_call tid c -> P c.
Hypothesis Hthread : P CThreadsCreate.

Lemma chat_github_pass_yields agent_id mcp_tool st ev :
  yields P (fun _ => True) (ChatGithubAgent.chat_pass w agent_id mcp_tool st ev).
Proof.
  unfold ChatGithubAgent.chat_pass, ChatGithubAgent.answer,
    ChatGithubAgent.get_latest_response.
  destruct ev as [raw| |]; cbv zeta;
    yield_by ltac:(first [exact Hthread
                         | eapply HP; reflexivity | cbn; auto]).
  apply chat_github_wait_polls. intros c Hc.
  eapply HP, own_run_call_turn, Hc.
Qed.

Lemma chat_github_loop_yields agent_id mcp_tool console :
  forall st,
    yields P (fun _ => True)
      (ChatGithubAgent.chat_loop w agent_id mcp_tool console st).
Proof.
  induction console as [|ev rest IH]; intros st;
    cbn [ChatGithubAgent.chat_loop].
  - apply yields_ret. exact I.
  - eapply yields_bind with (Q1 := fun _ => True);
      [apply chat_github_pass_yields|].
    intros [st'|[]] _; [apply IH | apply yields_ret; exact I].
Qed.

End ChatGithubCalls.

Section ChatSqlCalls.
Variable w : World.
Variable P : Call -> Prop.
Hypothesis HP : forall tid c, addressed_to tid c -> P c.
Hypothesis Hthread : P CThreadsCreate.

Lemma chat_sql_pass_yields agent_id mcp_tool thread ev :
  yields P (fun _ => True) (ChatSqlAgent.chat_pass w agent_id mcp_tool thread ev).
Proof.
  unfold ChatSqlAgent.chat_pass, ChatSqlAgent.answer.
  destruct ev as [raw| |]; cbv zeta;
    yield_by ltac:(first [exact Hthread
                         | eapply HP; reflexivity | cbn; auto]).
  apply chat_sql_wait_polls. intros c Hc.
  eapply HP, poll_call_addressed, Hc.
Qed.

Lemma chat_sql_loop_yields agent_id mcp_tool console :
  forall thread,
    yields P (fun _ => True)
      (ChatSqlAgent.chat_loop w agent_id mcp_tool console thread).
Proof.
  induction console as [|ev rest IH]; intros thread;
    cbn [ChatSqlAgent.chat_loop].
  - apply yields_ret. exact I.
  - eapply yields_bind with (Q1 := fun _ => True);
      [apply chat_sql_pass_yields|].
    intros [thread'|[]] _; [apply IH | apply yields_ret; exact I].
Qed.

End ChatSqlCalls.

Lemma github_deploy_main_ends w console :
  costs is_runs_get 0 (McpGithubAgent.main w console).
Proof.
  unfold McpGithubAgent.main, McpGithubAgent.load_config,
    McpGithubAgent.session, McpGithubAgent.find_agent_by_name,
    McpGithubAgent.deploy.
  free_steps.
Qed.

Lemma sql_deploy_main_ends w console :
  costs is_runs_get 0 (McpSqlAgent.main w console).
Proof.
  unfold McpSqlAgent.main, McpSqlAgent.load_config,
    McpSqlAgent.get_api_key_if_required,
    McpSqlAgent.get_mcp_api_key_from_keyvault,
    McpSqlAgent.session, McpSqlAgent.find_agent_by_name,
    McpSqlAgent.deploy, McpSqlAgent.init_mcp_tool.
  cbv zeta. cbn [McpSqlAgent.merge_files].
  free_steps.
Qed.

(** X12.  The calls the deployment and test scripts can issue.  Whatever
    the collaborators answer and the operator types, each of these scripts
    comes to an end having issued only calls of its own kinds.  The
    deployment scripts read configuration files, connect, list agents and
    create or update one, the SQL one reaching for the secret store as
    well: they never create a thread, a message or a run.  The test scripts
    never create or update an agent, never read the configuration files
    themselves, never call the secret store themselves, and never approve
    through [submit_tool_approval]. *)
Theorem scripts_stay_within_their_calls :
  forall (w : World) (console : list ConsoleEvent),
    settles (fun c => deploy_github_call c = true) (fun _ => True)
            (McpGithubAgent.main w console)
    /\ settles (fun c => deploy_sql_call c = true) (fun _ => True)
               (McpSqlAgent.main w console)
    /\ settles (fun c => test_github_call c = true) (fun _ => True)
               (TestGithubAgent.main w)
    /\ settles (fun c => test_sql_call c = true) (fun _ => True)
               (TestSqlAgent.main w).
Proof.
  intros w console.
  split; [|split; [|split]].
  - eapply settles_of_yields; [|apply github_deploy_main_ends].
    unfold McpGithubAgent.main, McpGithubAgent.load_config,
      McpGithubAgent.session, McpGithubAgent.find_agent_by_name,
      McpGithubAgent.deploy.
    yield.
  - eapply settles_of_yields; [|apply sql_deploy_main_ends].
    unfold McpSqlAgent.main, McpSqlAgent.load_config,
      McpSqlAgent.get_api_key_if_required,
      McpSqlAgent.get_mcp_api_key_from_keyvault,
      McpSqlAgent.session, McpSqlAgent.find_agent_by_name,
      McpSqlAgent.deploy, McpSqlAgent.init_mcp_tool.
    cbv zeta. cbn [McpSqlAgent.merge_files].
    yield.
  - eapply settles_of_yields;
      [|apply test_github_main_costs].
    unfold TestGithubAgent.main, TestGithubAgent.check_endpoint_health,
      TestGithubAgent.session.
    yield.
    eapply yields_weaken;
      [intros c Hc; exact Hc | intros; exact I
      | apply test_github_scenarios_yields].
    intros c Hc. destruct c; cbn in *; try contradiction; reflexivity.
  - eapply settles_of_yields;
      [|apply test_sql_main_costs].
    unfold TestSqlAgent.main, TestSqlAgent.get_api_key_if_required,
      TestSqlAgent.session, TestSqlAgent.init_mcp_tool.
    yield.
    eapply yields_weaken;
      [intros c Hc; exact Hc | intros; exact I
      | apply test_sql_scenarios_yields].
    intros c Hc. destruct c; cbn in *; try contradiction; reflexivity.
Qed.

(** X25.  The calls the chat scripts can issue.  Whatever the
    collaborators answer and the operator types, each chat script comes to
    an end having issued only calls of its own kinds.  Neither creates or
    updates an agent.  The GitHub chat script never cancels a run, never
    calls the secret store, and approves through [submit_tool_approval];
    the SQL chat script approves through [submit_tool_outputs] and is the
    one that loads the whole configuration and calls the secret store. *)
Theorem chat_scripts_stay_within_their_calls :
  forall (w : World) (console : list ConsoleEvent),
    settles (fun c => chat_github_call c = true) (fun _ => True)
            (ChatGithubAgent.main w console)
    /\ settles (fun c => chat_sql_call c = true) (fun _ => True)
               (ChatSqlAgent.main w console).
Proof.
  intros w console. split.
  - eapply settles_of_yields;
      [|apply chat_github_main_costs].
    unfold ChatGithubAgent.main, ChatGithubAgent.session.
    yield.
    apply chat_github_loop_yields; [|reflexivity].
    intros tid c Hc. destruct c; cbn in *; try contradiction; reflexivity.
  - eapply settles_of_yields;
      [|apply chat_sql_main_costs].
    unfold ChatSqlAgent.main, ChatSqlAgent.session, ChatSqlAgent.init_mcp_tool.
    yield.
    apply chat_sql_loop_yields; [|reflexivity].
    intros tid c Hc. destruct c; cbn in *; try contradiction; reflexivity.
Qed.

(** ** The poll loops, pass by pass *)

(** A status-dependent invariant of a loop carries over to its result,
    however the loop ends. *)
Lemma loop_invariant {St R} (pass : St -> M (Ctl St R))
    (Inv : St -> list Call -> Prop) (End : Result R -> list Call -> Prop) :
  (forall s log,
      Inv s log ->
      match pass s log with
      | (Returned (Next s'), log') => Inv s' log'
      | (Returned (Leave r), log') => End (Returned r) log'
      | (Raised e, log') => End (Raised e) log'
      | (Unfinished, log') => End Unfinished log'
      end) ->
  (forall s log, Inv s log -> End Unfinished log) ->
  forall (fuel : nat) (s : St) (log : list Call),
    Inv s log ->
    End (fst (loop pass fuel s log)) (snd (loop pass fuel s log)).
Proof.
  intros Hpass Hout. induction fuel as [|fuel IH]; intros s log Hinv.
  - cbn. apply (Hout s). exact Hinv.
  - cbn [loop]. unfold bind. specialize (Hpass s log Hinv).
    destruct (pass s log) as [[[s'|r]|e|] log']; cbn [fst snd].
    + apply IH. exact Hpass.
    + exact Hpass.
    + exact Hpass.
    + exact Hpass.
Qed.

Lemma test_github_pass_eq w tid mcp_tool bound attempt run made log :
  TestGithubAgent.poll_pass w tid mcp_tool bound (attempt, run, made) log
  = if str_in (r_status run) ["queued"; "in_progress"; "requires_action"]
    then
      let log1 := log ++ [CRunsGet tid (r_id run)] in
      match runs_get w log1 with
      | Raise e => (Raised e, log1)
      | Ok run' =>
          match TestGithubAgent.approval_calls run' with
          | Some [] =>
              let log2 := log1 ++ [CRunsCancel tid (r_id run')] in
              (match runs_cancel w log2 with
               | Ok _ => Returned (Leave (attempt + 1, run', made))
               | Raise e => Raised e
               end, log2)
          | Some tool_calls =>
              let mcp_calls := filter is_mcp_call tool_calls in
              let made' :=
                made ++ map (fun c => (tc_name c, tc_arguments c)) mcp_calls in
              match mcp_calls with
              | [] => (onward bound (attempt + 1) (attempt + 1, run', made'), log1)
              | _ =>
                  let log2 :=
                    log1 ++ [CSubmitToolOutputs tid (r_id run')
                               (map (approve_with (Some (headers mcp_tool)))
                                    mcp_calls)] in
                  (match runs_submit_tool_outputs w log2 with
                   | Ok _ => onward bound (attempt + 1) (attempt + 1, run', made')
                   | Raise e => Raised e
                   end, log2)
              end
          | None => (onward bound (attempt + 1) (attempt + 1, run', made), log1)
          end
      end
    else (Returned (Leave (attempt, run, made)), log).
Proof.
  unfold TestGithubAgent.poll_pass, onward, approve_with.
  destruct (str_in (r_status run) _); [|reflexivity].
  cbv zeta. unfold bind at 1, call at 1, lift at 1.
  destruct (runs_get w (log ++ [CRunsGet tid (r_id run)])) as [run'|e];
    [|reflexivity].
  destruct (TestGithubAgent.approval_calls run') as [[|c calls]|].
  - unfold bind, call, lift, ret.
    destruct (runs_cancel w _); reflexivity.
  - destruct (filter is_mcp_call (c :: calls)) as [|m ms] eqn:E.
    + cbn [map]. unfold bind, ret. cbn.
      destruct (bound <=? attempt + 1)%nat; reflexivity.
    + cbn [map]. unfold bind, call, lift, ret.
      destruct (runs_submit_tool_outputs w _);
        [destruct (bound <=? attempt + 1)%nat|]; reflexivity.
  - unfold ret. destruct (bound <=? attempt + 1)%nat; reflexivity.
Qed.

Lemma test_sql_pass_eq w tid mcp_tool bound attempt run made log :
  TestSqlAgent.poll_pass w tid mcp_tool bound (attempt, run, made) log
  = if str_in (r_status run) ["queued"; "in_progress"; "requires_action"]
    then
      let log1 := log ++ [CRunsGet tid (r_id run)] in
      match runs_get w log1 with
      | Raise e => (Raised e, log1)
      | Ok run' =>
          match TestSqlAgent.approval_calls run' with
          | Some [] =>
              let log2 := log1 ++ [CRunsCancel tid (r_id run')] in
              (match runs_cancel w log2 with
               | Ok _ => Returned (Leave (attempt + 1, run', made))
               | Raise e => Raised e
               end, log2)
          | Some tool_calls =>
              let mcp_calls := filter is_mcp_call tool_calls in
              let made' :=
                made ++ map (fun c => (tc_name c, tc_arguments c)) mcp_calls in
              match mcp_calls with
              | [] => (onward bound (attempt + 1) (attempt + 1, run', made'), log1)
              | _ =>
                  let log2 :=
                    log1 ++ [CSubmitToolOutputs tid (r_id run')
                               (map (approve_with (Some (headers mcp_tool)))
                                    mcp_calls)] in
                  (match runs_submit_tool_outputs w log2 with
                   | Ok _ => onward bound (attempt + 1) (attempt + 1, run', made')
                   | Raise e => Raised e
                   end, log2)
              end
          | None => (onward bound (attempt + 1) (attempt + 1, run', made), log1)
          end
      end
    else (Returned (Leave (attempt, run, made)), log).
Proof.
  unfold TestSqlAgent.poll_pass, onward, approve_with.
  destruct (str_in (r_status run) _); [|reflexivity].
  cbv zeta. unfold bind at 1, call at 1, lift at 1.
  destruct (runs_get w (log ++ [CRunsGet tid (r_id run)])) as [run'|e];
    [|reflexivity].
  destruct (TestSqlAgent.approval_calls run') as [[|c calls]|].
  - unfold bind, call, lift, ret.
    destruct (runs_cancel w _); reflexivity.
  - destruct (filter is_mcp_call (c :: calls)) as [|m ms] eqn:E.
    + cbn [map]. unfold bind, ret. cbn.
      destruct (bound <=? attempt + 1)%nat; reflexivity.
    + cbn [map]. unfold bind, call, lift, ret.
      destruct (runs_submit_tool_outputs w _);
        [destruct (bound <=? attempt + 1)%nat|]; reflexivity.
  - unfold ret. destruct (bound <=? attempt + 1)%nat; reflexivity.
Qed.

Lemma chat_sql_pass_eq w tid mcp_tool bound attempt run made log :
  ChatSqlAgent.poll_pass w tid mcp_tool bound (attempt, run, made) log
  = if str_in (r_status run) ["queued"; "in_progress"; "requires_action"]
    then
      let log1 := log ++ [CRunsGet tid (r_id run)] in
      match runs_get w log1 with
      | Raise e => (Raised e, log1)
      | Ok run' =>
          match ChatSqlAgent.approval_calls run' with
          | Some [] =>
              let log2 := log1 ++ [CRunsCancel tid (r_id run')] in
              (match runs_cancel w log2 with
               | Ok _ => Returned (Leave (attempt + 1, run', made))
               | Raise e => Raised e
               end, log2)
          | Some tool_calls =>
              let made' :=
                made ++ map (fun c => (tc_name c, tc_arguments c))
                            (filter is_mcp_call tool_calls) in
              let log2 :=
                log1 ++ [CSubmitToolOutputs tid (r_id run')
                           (map (approve_with (Some (headers mcp_tool)))
                                tool_calls)] in
              (match runs_submit_tool_outputs w log2 with
               | Ok _ => onward bound (attempt + 1) (attempt + 1, run', made')
               | Raise e => Raised e
               end, log2)
          | None => (onward bound (attempt + 1) (attempt + 1, run', made), log1)
          end
      end
    else (Returned (Leave (attempt, run, made)), log).
Proof.
  unfold ChatSqlAgent.poll_pass, onward, approve_with.
  destruct (str_in (r_status run) _); [|reflexivity].
  cbv zeta. unfold bind at 1, call at 1, lift at 1.
  destruct (runs_get w (log ++ [CRunsGet tid (r_id run)])) as [run'|e];
    [|reflexivity].
  destruct (ChatSqlAgent.approval_calls run') as [[|c calls]|].
  - unfold bind, call, lift, ret.
    destruct (runs_cancel w _); reflexivity.
  - unfold bind, call, lift, ret.
    destruct (runs_submit_tool_outputs w _);
      [destruct (bound <=? attempt + 1)%nat|]; reflexivity.
  - unfold ret. destruct (bound <=? attempt + 1)%nat; reflexivity.
Qed.

Lemma chat_github_pass_eq w tid run_id bound attempt log :
  ChatGithubAgent.wait_pass w tid run_id bound attempt log
  = let log1 := log ++ [CRunsGet tid run_id] in
    let go (run : Run) : Result (Ctl nat (nat * Run)) :=
      Returned (if (bound <=? attempt + 1)%nat
                then Leave (attempt + 1, run) else Next (attempt + 1)) in
    match runs_get w log1 with
    | Raise e => (Raised e, log1)
    | Ok run =>
        if r_status run =? "completed"
        then (Returned (Leave (attempt + 1, run)), log1)
        else if r_status run =? "failed"
        then (Returned (Leave (attempt + 1, run)), log1)
        else if r_status run =? "requires_action" then
          match r_required_action run with
          | Some (McpToolApprovalShape required_calls) =>
              let log2 :=
                log1 ++ [CSubmitToolApproval tid run_id
                           (map (approve_with None) required_calls)] in
              (match runs_submit_tool_approval w log2 with
               | Ok _ => go run
               | Raise e => Raised e
               end, log2)
          | _ => (go run, log1)
          end
        else if str_in (r_status run) ["cancelled"; "expired"]
        then (Returned (Leave (attempt + 1, run)), log1)
        else (go run, log1)
    end.
Proof.
  unfold ChatGithubAgent.wait_pass, approve_with. cbv zeta.
  unfold bind at 1, call at 1, lift at 1.
  destruct (runs_get w (log ++ [CRunsGet tid run_id])) as [run|e];
    [|reflexivity].
  destruct (r_status run =? "completed"); [reflexivity|].
  destruct (r_status run =? "failed"); [reflexivity|].
  destruct (r_status run =? "requires_action").
  - destruct (r_required_action run) as [[calls|calls|calls]|];
      unfold bind, call, lift, ret;
      try (destruct (bound <=? attempt + 1)%nat; reflexivity).
    destruct (runs_submit_tool_approval w _);
      [destruct (bound <=? attempt + 1)%nat|]; reflexivity.
  - destruct (str_in (r_status run) ["cancelled"; "expired"]); [reflexivity|].
    unfold ret. destruct (bound <=? attempt + 1)%nat; reflexivity.
Qed.

(** ** Recorded tool calls and submitted approvals *)

Lemma approved_app a b : approved (a ++ b) = approved a ++ approved b.
Proof. unfold approved. apply flat_map_app. Qed.

Ltac grow_log :=
  repeat rewrite <- app_assoc; cbn [app];
  repeat rewrite approved_app; cbn [approved flat_map app];
  repeat rewrite length_app; repeat rewrite length_map; cbn [length].

Ltac record_pass :=
  cbn [fst snd]; eexists;
  (split; [rewrite <- ?app_assoc; reflexivity|]);
  grow_log; cbn [snd]; grow_log; try lia; auto.

Lemma test_github_records w tid mcp_tool fuel run log :
  exists extra,
    snd (TestGithubAgent.wait_for_completion w fuel tid mcp_tool run log)
    = log ++ extra
    /\ match fst (TestGithubAgent.wait_for_completion w fuel tid mcp_tool run log) with
       | Returned st => length (snd st) = length (approved extra)
       | _ => True
       end.
Proof.
  unfold TestGithubAgent.wait_for_completion.
  apply (loop_invariant (TestGithubAgent.poll_pass w tid mcp_tool TestGithubAgent.max_attempts)
           (fun st log' => exists extra,
                log' = log ++ extra
                /\ length (snd st) = length (approved extra))
           (fun r log' => exists extra,
                log' = log ++ extra
                /\ match r with
                   | Returned st => length (snd st) = length (approved extra)
                   | _ => True
                   end)).
  - intros [[attempt r] made] log' (extra & -> & Hlen). cbn [snd] in Hlen.
    rewrite test_github_pass_eq. unfold onward. cbv zeta.
    destruct (str_in (r_status r) _); [|exists extra; auto].
    destruct (runs_get w _) as [run'|e]; [|record_pass].
    destruct (TestGithubAgent.approval_calls run') as [[|c calls]|].
    + destruct (runs_cancel w _); record_pass.
    + destruct (filter is_mcp_call (c :: calls)) as [|m ms].
      * destruct (TestGithubAgent.max_attempts <=? attempt + 1)%nat;
          record_pass.
      * destruct (runs_submit_tool_outputs w _);
          [destruct (TestGithubAgent.max_attempts <=? attempt + 1)%nat|];
          record_pass.
    + destruct (TestGithubAgent.max_attempts <=? attempt + 1)%nat;
        record_pass.
  - intros st log' (extra & -> & _). exists extra. auto.
  - exists []. rewrite app_nil_r. auto.
Qed.

Lemma test_sql_records w tid mcp_tool fuel run log :
  exists extra,
    snd (TestSqlAgent.wait_for_completion w fuel tid mcp_tool run log)
    = log ++ extra
    /\ match fst (TestSqlAgent.wait_for_completion w fuel tid mcp_tool run log) with
       | Returned st => length (snd st) = length (approved extra)
       | _ => True
       end.
Proof.
  unfold TestSqlAgent.wait_for_completion.
  apply (loop_invariant (TestSqlAgent.poll_pass w tid mcp_tool TestSqlAgent.max_attempts)
           (fun st log' => exists extra,
                log' = log ++ extra
                /\ length (snd st) = length (approved extra))
           (fun r log' => exists extra,
                log' = log ++ extra
                /\ match r with
                   | Returned st => length (snd st) = length (approved extra)
                   | _ => True
                   end)).
  - intros [[attempt r] made] log' (extra & -> & Hlen). cbn [snd] in Hlen.
    rewrite test_sql_pass_eq. unfold onward. cbv zeta.
    destruct (str_in (r_status r) _); [|exists extra; auto].
    destruct (runs_get w _) as [run'|e]; [|record_pass].
    destruct (TestSqlAgent.approval_calls run') as [[|c calls]|].
    + destruct (runs_cancel w _); record_pass.
    + destruct (filter is_mcp_call (c :: calls)) as [|m ms].
      * destruct (TestSqlAgent.max_attempts <=? attempt + 1)%nat;
          record_pass.
      * destruct (runs_submit_tool_outputs w _);
          [destruct (TestSqlAgent.max_attempts <=? attempt + 1)%nat|];
          record_pass.
    + destruct (TestSqlAgent.max_attempts <=? attempt + 1)%nat;
        record_pass.
  - intros st log' (extra & -> & _). exists extra. auto.
  - exists []. rewrite app_nil_r. auto.
Qed.

Lemma chat_sql_records w tid mcp_tool fuel run log :
  exists extra,
    snd (ChatSqlAgent.wait_for_completion w fuel tid mcp_tool run log)
    = log ++ extra
    /\ match fst (ChatSqlAgent.wait_for_completion w fuel tid mcp_tool run log) with
       | Returned st => length (snd st) <= length (approved extra)
       | _ => True
       end.
Proof.
  unfold ChatSqlAgent.wait_for_completion.
  apply (loop_invariant (ChatSqlAgent.poll_pass w tid mcp_tool ChatSqlAgent.max_attempts)
           (fun st log' => exists extra,
                log' = log ++ extra
                /\ length (snd st) <= length (approved extra))
           (fun r log' => exists extra,
                log' = log ++ extra
                /\ match r with
                   | Returned st => length (snd st) <= length (approved extra)
                   | _ => True
                   end)).
  - intros [[attempt r] made] log' (extra & -> & Hlen). cbn [snd] in Hlen.
    rewrite chat_sql_pass_eq. unfold onward. cbv zeta.
    destruct (str_in (r_status r) _); [|exists extra; auto].
    destruct (runs_get w _) as [run'|e]; [|record_pass].
    destruct (ChatSqlAgent.approval_calls run') as [[|c calls]|].
    + destruct (runs_cancel w _); record_pass.
    + pose proof (filter_length_le is_mcp_call (c :: calls)) as Hle.
      cbn [length] in Hle.
      destruct (runs_submit_tool_outputs w _);
        [destruct (ChatSqlAgent.max_attempts <=? attempt + 1)%nat|];
        record_pass.
    + destruct (ChatSqlAgent.max_attempts <=? attempt + 1)%nat;
        record_pass.
  - intros st log' (extra & -> & _). exists extra. auto.
  - exists []. rewrite app_nil_r. cbn. auto.
Qed.

(** X13.  The tool calls a poll reports are the tool calls it approved.
    When the wait of a test script returns, its list [tool_calls_made] has
    exactly as many entries as approvals were submitted during the wait: a
    call is recorded only together with its approval.  In the SQL chat
    script the list never has more entries than approvals were submitted,
    since every pending call is approved and only the MCP ones are
    recorded.  The waits always come to an end. *)
Theorem recorded_calls_were_approved :
  forall (w : World) (tid : string) (mcp_tool : McpTool) (run : Run)
         (log : list Call),
    (let poll := TestGithubAgent.wait_for_completion w
                   TestGithubAgent.max_attempts tid mcp_tool run in
     match fst (poll log) with
     | Returned st => length (snd st) = length (approved (issued poll log))
     | Raised _ => True
     | Unfinished => False
     end)
    /\ (let poll := TestSqlAgent.wait_for_completion w
                      TestSqlAgent.max_attempts tid mcp_tool run in
        match fst (poll log) with
        | Returned st => length (snd st) = length (approved (issued poll log))
        | Raised _ => True
        | Unfinished => False
        end)
    /\ (let poll := ChatSqlAgent.wait_for_completion w
                      ChatSqlAgent.max_attempts tid mcp_tool run in
        match fst (poll log) with
        | Returned st => length (snd st) <= length (approved (issued poll log))
        | Raised _ => True
        | Unfinished => False
        end).
Proof.
  intros w tid mcp_tool run log. cbv zeta. split; [|split].
  - destruct (test_github_records w tid mcp_tool TestGithubAgent.max_attempts
                run log) as (extra & Hlog & Hres).
    rewrite (issued_app _ _ _ Hlog).
    destruct (test_github_wait_costs w tid mcp_tool run log) as [_ Hfin].
    destruct (fst _); [exact Hres | exact I | congruence].
  - destruct (test_sql_records w tid mcp_tool TestSqlAgent.max_attempts
                run log) as (extra & Hlog & Hres).
    rewrite (issued_app _ _ _ Hlog).
    destruct (test_sql_wait_costs w tid mcp_tool run log) as [_ Hfin].
    destruct (fst _); [exact Hres | exact I | congruence].
  - destruct (chat_sql_records w tid mcp_tool ChatSqlAgent.max_attempts
                run log) as (extra & Hlog & Hres).
    rewrite (issued_app _ _ _ Hlog).
    destruct (chat_sql_wait_costs w tid mcp_tool run log) as [_ Hfin].
    destruct (fst _); [exact Hres | exact I | congruence].
Qed.

(** ** Cancelling *)

Lemma empty_approval_calls episode :
  TestGithubAgent.approval_calls episode = Some []
  \/ TestSqlAgent.approval_calls episode = Some []
  \/ ChatSqlAgent.approval_calls episode = Some [] ->
  r_status episode = "requires_action"
  /\ r_required_action episode = Some (SubmitToolApprovalAction []).
Proof.
  unfold TestGithubAgent.approval_calls, TestSqlAgent.approval_calls,
    ChatSqlAgent.approval_calls.
  destruct (String.eqb_spec (r_status episode) "requires_action") as [E|E];
    [|intros [H|[H|H]]; discriminate].
  destruct (r_required_action episode) as [[calls|calls|calls]|];
    intros [H|[H|H]]; try discriminate; injection H as ->; auto.
Qed.

Lemma no_cancel_snoc extra c :
  no_cancel extra -> is_runs_cancel c = false -> no_cancel (extra ++ [c]).
Proof.
  intros H Hc. apply Forall_app. split; [exact H | repeat constructor; exact Hc].
Qed.

Ltac quiet_pass :=
  cbn [fst snd]; eexists;
  (split; [rewrite <- ?app_assoc; reflexivity|]);
  try left;
  repeat (apply no_cancel_snoc; [|reflexivity]);
  try rewrite app_assoc;
  repeat (apply no_cancel_snoc; [|reflexivity]);
  try assumption.

Lemma test_github_cancel_shape w tid mcp_tool fuel run log :
  exists extra,
    snd (TestGithubAgent.wait_for_completion w fuel tid mcp_tool run log)
    = log ++ extra
    /\ (no_cancel extra \/ cancelled_at_the_end w tid log extra).
Proof.
  unfold TestGithubAgent.wait_for_completion.
  apply (loop_invariant (TestGithubAgent.poll_pass w tid mcp_tool TestGithubAgent.max_attempts)
           (fun st log' => exists extra, log' = log ++ extra /\ no_cancel extra)
           (fun r log' => exists extra,
                log' = log ++ extra
                /\ (no_cancel extra \/ cancelled_at_the_end w tid log extra))).
  - intros [[attempt r] made] log' (extra & -> & Hq).
    rewrite test_github_pass_eq. unfold onward. cbv zeta.
    destruct (str_in (r_status r) _); [|exists extra; auto].
    destruct (runs_get w _) as [run'|e] eqn:Eget; [|quiet_pass].
    destruct (TestGithubAgent.approval_calls run') as [[|c calls]|] eqn:Ecalls.
    + assert (Hshape : cancelled_at_the_end w tid log
                (extra ++ [CRunsGet tid (r_id r); CRunsCancel tid (r_id run')])).
      { exists extra, (r_id r), run'. split; [reflexivity|].
        split; [exact Hq|]. rewrite app_assoc. split; [exact Eget|].
        apply empty_approval_calls. auto. }
      destruct (runs_cancel w _); cbn [fst snd]; eexists;
        (split; [rewrite <- ?app_assoc; reflexivity | right; exact Hshape]).
    + destruct (filter is_mcp_call (c :: calls)) as [|m ms].
      * destruct (TestGithubAgent.max_attempts <=? attempt + 1)%nat;
          quiet_pass.
      * destruct (runs_submit_tool_outputs w _);
          [destruct (TestGithubAgent.max_attempts <=? attempt + 1)%nat|];
          quiet_pass.
    + destruct (TestGithubAgent.max_attempts <=? attempt + 1)%nat;
        quiet_pass.
  - intros st log' (extra & -> & Hq). exists extra. auto.
  - exists []. rewrite app_nil_r. split; [reflexivity | constructor].
Qed.

Lemma test_sql_cancel_shape w tid mcp_tool fuel run log :
  exists extra,
    snd (TestSqlAgent.wait_for_completion w fuel tid mcp_tool run log)
    = log ++ extra
    /\ (no_cancel extra \/ cancelled_at_the_end w tid log extra).
Proof.
  unfold TestSqlAgent.wait_for_completion.
  apply (loop_invariant (TestSqlAgent.poll_pass w tid mcp_tool TestSqlAgent.max_attempts)
           (fun st log' => exists extra, log' = log ++ extra /\ no_cancel extra)
           (fun r log' => exists extra,
                log' = log ++ extra
                /\ (no_cancel extra \/ cancelled_at_the_end w tid log extra))).
  - intros [[attempt r] made] log' (extra & -> & Hq).
    rewrite test_sql_pass_eq. unfold onward. cbv zeta.
    destruct (str_in (r_status r) _); [|exists extra; auto].
    destruct (runs_get w _) as [run'|e] eqn:Eget; [|quiet_pass].
    destruct (TestSqlAgent.approval_calls run') as [[|c calls]|] eqn:Ecalls.
    + assert (Hshape : cancelled_at_the_end w tid log
                (extra ++ [CRunsGet tid (r_id r); CRunsCancel tid (r_id run')])).
      { exists extra, (r_id r), run'. split; [reflexivity|].
        split; [exact Hq|]. rewrite app_assoc. split; [exact Eget|].
        apply empty_approval_calls. auto. }
      destruct (runs_cancel w _); cbn [fst snd]; eexists;
        (split; [rewrite <- ?app_assoc; reflexivity | right; exact Hshape]).
    + destruct (filter is_mcp_call (c :: calls)) as [|m ms].
      * destruct (TestSqlAgent.max_attempts <=? attempt + 1)%nat;
          quiet_pass.
      * destruct (runs_submit_tool_outputs w _);
          [destruct (TestSqlAgent.max_attempts <=? attempt + 1)%nat|];
          quiet_pass.
    + destruct (TestSqlAgent.max_attempts <=? attempt + 1)%nat;
        quiet_pass.
  - intros st log' (extra & -> & Hq). exists extra. auto.
  - exists []. rewrite app_nil_r. split; [reflexivity | constructor].
Qed.

Lemma chat_sql_cancel_shape w tid mcp_tool fuel run log :
  exists extra,
    snd (ChatSqlAgent.wait_for_completion w fuel tid mcp_tool run log)
    = log ++ extra
    /\ (no_cancel extra \/ cancelled_at_the_end w tid log extra).
Proof.
  unfold ChatSqlAgent.wait_for_completion.
  apply (loop_invariant (ChatSqlAgent.poll_pass w tid mcp_tool ChatSqlAgent.max_attempts)
           (fun st log' => exists extra, log' = log ++ extra /\ no_cancel extra)
           (fun r log' => exists extra,
                log' = log ++ extra
                /\ (no_cancel extra \/ cancelled_at_the_end w tid log extra))).
  - intros [[attempt r] made] log' (extra & -> & Hq).
    rewrite chat_sql_pass_eq. unfold onward. cbv zeta.
    destruct (str_in (r_status r) _); [|exists extra; auto].
    destruct (runs_get w _) as [run'|e] eqn:Eget; [|quiet_pass].
    destruct (ChatSqlAgent.approval_calls run') as [[|c calls]|] eqn:Ecalls.
    + assert (Hshape : cancelled_at_the_end w tid log
                (extra ++ [CRunsGet tid (r_id r); CRunsCancel tid (r_id run')])).
      { exists extra, (r_id r), run'. split; [reflexivity|].
        split; [exact Hq|]. rewrite app_assoc. split; [exact Eget|].
        apply empty_approval_calls. auto. }
      destruct (runs_cancel w _); cbn [fst snd]; eexists;
        (split; [rewrite <- ?app_assoc; reflexivity | right; exact Hshape]).
    + destruct (runs_submit_tool_outputs w _);
        [destruct (ChatSqlAgent.max_attempts <=? attempt + 1)%nat|];
        quiet_pass.
    + destruct (ChatSqlAgent.max_attempts <=? attempt + 1)%nat;
        quiet_pass.
  - intros st log' (extra & -> & Hq). exists extra. auto.
  - exists []. rewrite app_nil_r. split; [reflexivity | constructor].
Qed.

(** X14.  When a poll cancels.  In the two test scripts and the SQL chat
    script, whatever the service answers and however the wait ends, the
    wait cancels at most once, and only in this way: its last two calls are
    a status fetch that the service answered with an approval request
    carrying no tool call, and the cancellation of that run.  Nothing is
    issued after a cancellation, and a wait that gives up at
    [max_attempts] leaves its run alone. *)
Theorem cancel_ends_the_wait :
  forall (w : World) (tid : string) (mcp_tool : McpTool) (fuel : nat)
         (run : Run) (log : list Call),
    (let extra := issued (TestGithubAgent.wait_for_completion
                            w fuel tid mcp_tool run) log in
     no_cancel extra \/ cancelled_at_the_end w tid log extra)
    /\ (let extra := issued (TestSqlAgent.wait_for_completion
                               w fuel tid mcp_tool run) log in
        no_cancel extra \/ cancelled_at_the_end w tid log extra)
    /\ (let extra := issued (ChatSqlAgent.wait_for_completion
                               w fuel tid mcp_tool run) log in
        no_cancel extra \/ cancelled_at_the_end w tid log extra).
Proof.
  intros w tid mcp_tool fuel run log. cbv zeta. split; [|split].
  - destruct (test_github_cancel_shape w tid mcp_tool fuel run log)
      as (extra & Hlog & H).
    rewrite (issued_app _ _ _ Hlog). exact H.
  - destruct (test_sql_cancel_shape w tid mcp_tool fuel run log)
      as (extra & Hlog & H).
    rewrite (issued_app _ _ _ Hlog). exact H.
  - destruct (chat_sql_cancel_shape w tid mcp_tool fuel run log)
      as (extra & Hlog & H).
    rewrite (issued_app _ _ _ Hlog). exact H.
Qed.

(** ** The status a poll hands on *)

Lemma last_fetched_snoc w l c :
  last_fetched w (rev (l ++ [c]))
  = if is_runs_get c then Some (runs_get w (l ++ [c]))
    else last_fetched w (rev l).
Proof.
  rewrite rev_app_distr. cbn [rev app last_fetched].
  destruct (is_runs_get c); [|reflexivity].
  rewrite rev_involutive. reflexivity.
Qed.

Ltac latest_pass :=
  cbn [fst snd]; eexists;
  (split; [rewrite <- ?app_assoc; reflexivity|]);
  right; rewrite ?app_assoc;
  repeat (rewrite last_fetched_snoc; cbn [is_runs_get]);
  try (f_equal; assumption); try assumption.

Lemma test_github_latest w tid mcp_tool fuel run log :
  exists extra,
    snd (TestGithubAgent.wait_for_completion w fuel tid mcp_tool run log)
    = log ++ extra
    /\ match fst (TestGithubAgent.wait_for_completion w fuel tid mcp_tool run log) with
       | Returned st =>
           (fetches extra = 0 /\ TestGithubAgent.run_of st = run)
           \/ last_fetched w (rev (log ++ extra))
              = Some (Ok (TestGithubAgent.run_of st))
       | _ => True
       end.
Proof.
  unfold TestGithubAgent.wait_for_completion.
  apply (loop_invariant (TestGithubAgent.poll_pass w tid mcp_tool TestGithubAgent.max_attempts)
           (fun st log' => exists extra,
                log' = log ++ extra
                /\ ((fetches extra = 0 /\ TestGithubAgent.run_of st = run)
                    \/ last_fetched w (rev (log ++ extra))
                       = Some (Ok (TestGithubAgent.run_of st))))
           (fun r log' => exists extra,
                log' = log ++ extra
                /\ match r with
                   | Returned st =>
                       (fetches extra = 0 /\ TestGithubAgent.run_of st = run)
                       \/ last_fetched w (rev (log ++ extra))
                          = Some (Ok (TestGithubAgent.run_of st))
                   | _ => True
                   end)).
  - intros [[attempt r] made] log' (extra & -> & Hinv).
    unfold TestGithubAgent.run_of in *. cbn [fst snd] in Hinv.
    rewrite test_github_pass_eq. unfold onward. cbv zeta.
    destruct (str_in (r_status r) _); [|exists extra; auto].
    destruct (runs_get w _) as [run'|e] eqn:Eget;
      [|cbn [fst snd]; eexists; split; [rewrite <- ?app_assoc; reflexivity|exact I]].
    destruct (TestGithubAgent.approval_calls run') as [[|c calls]|].
    + destruct (runs_cancel w _);
        [latest_pass
        |cbn [fst snd]; eexists; split; [rewrite <- ?app_assoc; reflexivity|exact I]].
    + destruct (filter is_mcp_call (c :: calls)) as [|m ms].
      * destruct (TestGithubAgent.max_attempts <=? attempt + 1)%nat;
          latest_pass.
      * destruct (runs_submit_tool_outputs w _);
          [destruct (TestGithubAgent.max_attempts <=? attempt + 1)%nat;
           latest_pass
          |cbn [fst snd]; eexists; split; [rewrite <- ?app_assoc; reflexivity|exact I]].
    + destruct (TestGithubAgent.max_attempts <=? attempt + 1)%nat;
        latest_pass.
  - intros st log' (extra & -> & _). exists extra. auto.
  - exists []. rewrite app_nil_r. split; [reflexivity|]. left.
    split; reflexivity.
Qed.

Lemma test_sql_latest w tid mcp_tool fuel run log :
  exists extra,
    snd (TestSqlAgent.wait_for_completion w fuel tid mcp_tool run log)
    = log ++ extra
    /\ match fst (TestSqlAgent.wait_for_completion w fuel tid mcp_tool run log) with
       | Returned st =>
           (fetches extra = 0 /\ TestSqlAgent.run_of st = run)
           \/ last_fetched w (rev (log ++ extra))
              = Some (Ok (TestSqlAgent.run_of st))
       | _ => True
       end.
Proof.
  unfold TestSqlAgent.wait_for_completion.
  apply (loop_invariant (TestSqlAgent.poll_pass w tid mcp_tool TestSqlAgent.max_attempts)
           (fun st log' => exists extra,
                log' = log ++ extra
                /\ ((fetches extra = 0 /\ TestSqlAgent.run_of st = run)
                    \/ last_fetched w (rev (log ++ extra))
                       = Some (Ok (TestSqlAgent.run_of st))))
           (fun r log' => exists extra,
                log' = log ++ extra
                /\ match r with
                   | Returned st =>
                       (fetches extra = 0 /\ TestSqlAgent.run_of st = run)
                       \/ last_fetched w (rev (log ++ extra))
                          = Some (Ok (TestSqlAgent.run_of st))
                   | _ => True
                   end)).
  - intros [[attempt r] made] log' (extra & -> & Hinv).
    unfold TestSqlAgent.run_of in *. cbn [fst snd] in Hinv.
    rewrite test_sql_pass_eq. unfold onward. cbv zeta.
    destruct (str_in (r_status r) _); [|exists extra; auto].
    destruct (runs_get w _) as [run'|e] eqn:Eget;
      [|cbn [fst snd]; eexists; split; [rewrite <- ?app_assoc; reflexivity|exact I]].
    destruct (TestSqlAgent.approval_calls run') as [[|c calls]|].
    + destruct (runs_cancel w _);
        [latest_pass
        |cbn [fst snd]; eexists; split; [rewrite <- ?app_assoc; reflexivity|exact I]].
    + destruct (filter is_mcp_call (c :: calls)) as [|m ms].
      * destruct (TestSqlAgent.max_attempts <=? attempt + 1)%nat;
          latest_pass.
      * destruct (runs_submit_tool_outputs w _);
          [destruct (TestSqlAgent.max_attempts <=? attempt + 1)%nat;
           latest_pass
          |cbn [fst snd]; eexists; split; [rewrite <- ?app_assoc; reflexivity|exact I]].
    + destruct (TestSqlAgent.max_attempts <=? attempt + 1)%nat;
        latest_pass.
  - intros st log' (extra & -> & _). exists extra. auto.
  - exists []. rewrite app_nil_r. split; [reflexivity|]. left.
    split; reflexivity.
Qed.

Lemma chat_sql_latest w tid mcp_tool fuel run log :
  exists extra,
    snd (ChatSqlAgent.wait_for_completion w fuel tid mcp_tool run log)
    = log ++ extra
    /\ match fst (ChatSqlAgent.wait_for_completion w fuel tid mcp_tool run log) with
       | Returned st =>
           (fetches extra = 0 /\ ChatSqlAgent.run_of st = run)
           \/ last_fetched w (rev (log ++ extra))
              = Some (Ok (ChatSqlAgent.run_of st))
       | _ => True
       end.
Proof.
  unfold ChatSqlAgent.wait_for_completion.
  apply (loop_invariant (ChatSqlAgent.poll_pass w tid mcp_tool ChatSqlAgent.max_attempts)
           (fun st log' => exists extra,
                log' = log ++ extra
                /\ ((fetches extra = 0 /\ ChatSqlAgent.run_of st = run)
                    \/ last_fetched w (rev (log ++ extra))
                       = Some (Ok (ChatSqlAgent.run_of st))))
           (fun r log' => exists extra,
                log' = log ++ extra
                /\ match r with
                   | Returned st =>
                       (fetches extra = 0 /\ ChatSqlAgent.run_of st = run)
                       \/ last_fetched w (rev (log ++ extra))
                          = Some (Ok (ChatSqlAgent.run_of st))
                   | _ => True
                   end)).
  - intros [[attempt r] made] log' (extra & -> & Hinv).
    unfold ChatSqlAgent.run_of in *. cbn [fst snd] in Hinv.
    rewrite chat_sql_pass_eq. unfold onward. cbv zeta.
    destruct (str_in (r_status r) _); [|exists extra; auto].
    destruct (runs_get w _) as [run'|e] eqn:Eget;
      [|cbn [fst snd]; eexists; split; [rewrite <- ?app_assoc; reflexivity|exact I]].
    destruct (ChatSqlAgent.approval_calls run') as [[|c calls]|].
    + destruct (runs_cancel w _);
        [latest_pass
        |cbn [fst snd]; eexists; split; [rewrite <- ?app_assoc; reflexivity|exact I]].
    + destruct (runs_submit_tool_outputs w _);
        [destruct (ChatSqlAgent.max_attempts <=? attempt + 1)%nat;
         latest_pass
        |cbn [fst snd]; eexists; split; [rewrite <- ?app_assoc; reflexivity|exact I]].
    + destruct (ChatSqlAgent.max_attempts <=? attempt + 1)%nat;
        latest_pass.
  - intros st log' (extra & -> & _). exists extra. auto.
  - exists []. rewrite app_nil_r. split; [reflexivity|]. left.
    split; reflexivity.
Qed.

Ltac latest_run Hlatest Hafter :=
  cbn [fst snd]; eexists;
  first [ split;
          [rewrite <- ?app_assoc; cbn [app]; reflexivity
          |first [exact Hlatest | apply Hafter; reflexivity | exact I]]
        | rewrite <- ?app_assoc; cbn [app]; reflexivity ].

Lemma chat_github_latest w tid run_id fuel log :
  exists extra,
    snd (ChatGithubAgent.wait_loop w fuel tid run_id log) = log ++ extra
    /\ match fst (ChatGithubAgent.wait_loop w fuel tid run_id log) with
       | Returned r =>
           last_fetched w (rev (log ++ extra)) = Some (Ok (snd r))
       | _ => True
       end.
Proof.
  unfold ChatGithubAgent.wait_loop.
  apply (loop_invariant (ChatGithubAgent.wait_pass w tid run_id ChatGithubAgent.max_attempts)
           (fun _ log' => exists extra, log' = log ++ extra)
           (fun r log' => exists extra,
                log' = log ++ extra
                /\ match r with
                   | Returned r =>
                       last_fetched w (rev (log ++ extra)) = Some (Ok (snd r))
                   | _ => True
                   end)).
  - intros attempt log' (extra & ->).
    rewrite chat_github_pass_eq. cbv zeta.
    destruct (runs_get w _) as [run|e] eqn:Eget;
      [|cbn [fst snd]; eexists; split; [rewrite <- ?app_assoc; reflexivity|exact I]].
    assert (Hlatest :
      last_fetched w (rev (log ++ extra ++ [CRunsGet tid run_id])) = Some (Ok run)).
    { rewrite app_assoc, last_fetched_snoc. cbn [is_runs_get].
      f_equal. exact Eget. }
    assert (Hafter : forall c,
      is_runs_get c = false ->
      last_fetched w (rev (log ++ extra ++ [CRunsGet tid run_id; c]))
      = Some (Ok run)).
    { intros c Hc.
      change [CRunsGet tid run_id; c] with ([CRunsGet tid run_id] ++ [c]).
      rewrite !app_assoc, last_fetched_snoc, Hc, <- app_assoc. exact Hlatest. }
    destruct (r_status run =? "completed"); [latest_run Hlatest Hafter|].
    destruct (r_status run =? "failed"); [latest_run Hlatest Hafter|].
    destruct (r_status run =? "requires_action").
    + destruct (r_required_action run) as [[calls|calls|calls]|];
        try (destruct (ChatGithubAgent.max_attempts <=? attempt + 1)%nat;
             latest_run Hlatest Hafter).
      destruct (runs_submit_tool_approval w _);
        [destruct (ChatGithubAgent.max_attempts <=? attempt + 1)%nat|];
        latest_run Hlatest Hafter.
    + destruct (str_in (r_status run) ["cancelled"; "expired"]);
        [latest_run Hlatest Hafter|].
      destruct (ChatGithubAgent.max_attempts <=? attempt + 1)%nat;
        latest_run Hlatest Hafter.
  - intros st log' (extra & ->). exists extra. auto.
  - exists []. rewrite app_nil_r. reflexivity.
Qed.

(** X15.  A poll hands on the latest status.  When a wait returns, the
    run it hands on is the answer the service gave to the last status
    fetch of the wait; in the test scripts and the SQL chat script it is
    the run the wait was given when the wait made no fetch at all, which
    happens when that run was in none of the three waiting statuses.  The
    wait of the GitHub chat script always makes a fetch. *)
Theorem poll_hands_on_latest_status :
  forall (w : World) (tid : string) (mcp_tool : McpTool) (run : Run)
         (log : list Call),
    (let poll := TestGithubAgent.wait_for_completion w
                   TestGithubAgent.max_attempts tid mcp_tool run in
     match fst (poll log) with
     | Returned st =>
         (fetches (issued poll log) = 0 /\ TestGithubAgent.run_of st = run)
         \/ last_fetched w (rev (snd (poll log)))
            = Some (Ok (TestGithubAgent.run_of st))
     | Raised _ => True
     | Unfinished => False
     end)
    /\ (let poll := TestSqlAgent.wait_for_completion w
                      TestSqlAgent.max_attempts tid mcp_tool run in
        match fst (poll log) with
        | Returned st =>
            (fetches (issued poll log) = 0 /\ TestSqlAgent.run_of st = run)
            \/ last_fetched w (rev (snd (poll log)))
               = Some (Ok (TestSqlAgent.run_of st))
        | Raised _ => True
        | Unfinished => False
        end)
    /\ (let poll := ChatSqlAgent.wait_for_completion w
                      ChatSqlAgent.max_attempts tid mcp_tool run in
        match fst (poll log) with
        | Returned st =>
            (fetches (issued poll log) = 0 /\ ChatSqlAgent.run_of st = run)
            \/ last_fetched w (rev (snd (poll log)))
               = Some (Ok (ChatSqlAgent.run_of st))
        | Raised _ => True
        | Unfinished => False
        end)
    /\ (let poll := ChatGithubAgent.wait_for_run_completion w tid (r_id run) in
        match fst (poll log) with
        | Returned r => last_fetched w (rev (snd (poll log))) = Some (Ok r)
        | Raised _ => True
        | Unfinished => False
        end).
Proof.
  intros w tid mcp_tool run log. cbv zeta. split; [|split; [|split]].
  - destruct (test_github_latest w tid mcp_tool TestGithubAgent.max_attempts
                run log) as (extra & Hlog & Hres).
    rewrite (issued_app _ _ _ Hlog), Hlog.
    destruct (test_github_wait_costs w tid mcp_tool run log) as [_ Hfin].
    destruct (fst _); [exact Hres | exact I | congruence].
  - destruct (test_sql_latest w tid mcp_tool TestSqlAgent.max_attempts
                run log) as (extra & Hlog & Hres).
    rewrite (issued_app _ _ _ Hlog), Hlog.
    destruct (test_sql_wait_costs w tid mcp_tool run log) as [_ Hfin].
    destruct (fst _); [exact Hres | exact I | congruence].
  - destruct (chat_sql_latest w tid mcp_tool ChatSqlAgent.max_attempts
                run log) as (extra & Hlog & Hres).
    rewrite (issued_app _ _ _ Hlog), Hlog.
    destruct (chat_sql_wait_costs w tid mcp_tool run log) as [_ Hfin].
    destruct (fst _); [exact Hres | exact I | congruence].
  - destruct (chat_github_latest w tid (r_id run) ChatGithubAgent.max_attempts
                log) as (extra & Hlog & Hres).
    destruct (chat_github_wait_costs w tid (r_id run) log) as [_ Hfin].
    unfold ChatGithubAgent.wait_for_run_completion, bind, ret in *.
    destruct (ChatGithubAgent.wait_loop w ChatGithubAgent.max_attempts tid
                (r_id run) log) as [[r|e|] log'];
      cbn [fst snd] in *; [subst log'; exact Hres | exact I | congruence].
Qed.

(** ** Strings: searching, lower case and splitting *)

Lemma startswith_app (s prefix : string) :
  startswith s prefix = true <-> exists rest, s = (prefix ++ rest)%string.
Proof.
  revert s. induction prefix as [|p prefix IH]; intros s; cbn.
  - destruct s; split; eauto.
  - destruct s as [|c s]; [split; [discriminate | intros (rest & H); discriminate]|].
    split.
    + intros H. apply andb_prop in H. destruct H as [Hc Hs].
      apply Ascii.eqb_eq in Hc. subst p.
      apply IH in Hs. destruct Hs as (rest & ->). eauto.
    + intros (rest & H). injection H as Hc Hs. subst c s. cbn.
      rewrite Ascii.eqb_refl. cbn. apply IH. eauto.
Qed.

(** [needle in hay] holds exactly when [hay] is [needle] with something
    before and something after. *)
Lemma str_contains_app (needle hay : string) :
  str_contains needle hay = true
  <-> exists before after, hay = (before ++ needle ++ after)%string.
Proof.
  induction hay as [|c hay IH]; cbn [str_contains].
  - rewrite orb_false_r, startswith_app. split.
    + intros (rest & H). exists EmptyString, rest. exact H.
    + intros ([|b before] & after & H); [eauto | discriminate].
  - split.
    + intros H. apply orb_prop in H. destruct H as [H|H].
      * apply startswith_app in H. destruct H as (rest & H).
        exists EmptyString, rest. exact H.
      * apply IH in H. destruct H as (before & after & ->).
        exists (String c before), after. reflexivity.
    + intros ([|b before] & after & H).
      * apply orb_true_intro. left. apply startswith_app. eauto.
      * injection H as Hc Hs. subst b hay.
        apply orb_true_intro. right. apply IH. eauto.
Qed.

Lemma string_app_assoc (a b c : string) :
  ((a ++ b) ++ c = a ++ b ++ c)%string.
Proof. induction a as [|x a IH]; cbn; [reflexivity | rewrite IH; reflexivity]. Qed.

Lemma str_contains_within (needle hay before after : string) :
  str_contains needle hay = true ->
  str_contains needle (before ++ hay ++ after)%string = true.
Proof.
  intros H. apply str_contains_app in H. destruct H as (b & a & ->).
  apply str_contains_app. exists (before ++ b)%string, (a ++ after)%string.
  rewrite !string_app_assoc. reflexivity.
Qed.

Lemma str_contains_trans (a b c : string) :
  str_contains a b = true -> str_contains b c = true ->
  str_contains a c = true.
Proof.
  intros Hab Hbc. apply str_contains_app in Hbc.
  destruct Hbc as (before & after & ->).
  apply str_contains_within. exact Hab.
Qed.

Lemma lower_app (a b : string) : lower (a ++ b) = (lower a ++ lower b)%string.
Proof. induction a as [|c a IH]; cbn; [reflexivity | rewrite IH; reflexivity]. Qed.

Lemma lower_char_idempotent (c : ascii) : lower_char (lower_char c) = lower_char c.
Proof.
  destruct c as [[|] [|] [|] [|] [|] [|] [|] [|]]; reflexivity.
Qed.

Lemma lower_idempotent (s : string) : lower (lower s) = lower s.
Proof.
  induction s as [|c s IH]; cbn; [reflexivity|].
  rewrite lower_char_idempotent, IH. reflexivity.
Qed.

Lemma truthy_lower (s : string) : truthy_str (lower s) = truthy_str s.
Proof. destruct s; reflexivity. Qed.

Lemma filter_incl_when {A} (p q : A -> bool) (l : list A) :
  (forall x, p x = true -> q x = true) ->
  incl (filter p l) (filter q l) /\ length (filter p l) <= length (filter q l).
Proof.
  intros Hpq. induction l as [|x l [IHi IHl]]; cbn; [split; [apply incl_refl | lia]|].
  destruct (p x) eqn:Ep.
  - rewrite (Hpq x Ep). split; [|cbn; lia].
    intros y [->|Hy]; [left; reflexivity | right; apply IHi; exact Hy].
  - destruct (q x); split; cbn; try lia.
    + intros y Hy. right. apply IHi. exact Hy.
    + exact IHi.
Qed.

(** ** Evidence of tool usage in a response *)

Lemma truthy_within (before text after : string) :
  truthy_str text = true ->
  truthy_str (before ++ text ++ after)%string = true.
Proof.
  destruct text as [|c text]; [discriminate|]. intros _.
  destruct before; reflexivity.
Qed.

(** The indicators found in a text, as both analysers compute them. *)
Lemma found_indicators_lower (indicators : list string) (text : string) :
  filter (fun indicator => str_contains (lower indicator) (lower (lower text)))
         indicators
  = filter (fun indicator => str_contains (lower indicator) (lower text))
           indicators.
Proof. rewrite lower_idempotent. reflexivity. Qed.

Lemma found_indicators_within (indicators : list string)
    (before text after : string) :
  let found t :=
    filter (fun indicator => str_contains (lower indicator) (lower t))
           indicators in
  incl (found text) (found (before ++ text ++ after)%string)
  /\ length (found text) <= length (found (before ++ text ++ after)%string).
Proof.
  cbv zeta. apply filter_incl_when. intros indicator H.
  rewrite !lower_app. apply str_contains_within. exact H.
Qed.

Lemma two_distinct {A} (l : list A) :
  NoDup l -> 2 <= length l -> exists x y, x <> y /\ In x l /\ In y l.
Proof.
  intros Hnd Hlen. destruct l as [|x [|y l]]; cbn in Hlen; try lia.
  exists x, y. split; [|cbn; auto].
  inversion Hnd as [|? ? Hnotin _]; subst. intros ->. apply Hnotin. left.
  reflexivity.
Qed.

Lemma NoDup_tool_indicators : NoDup ChatGithubAgent.tool_indicators.
Proof.
  unfold ChatGithubAgent.tool_indicators.
  repeat (constructor; [cbn; intuition discriminate|]). constructor.
Qed.

(** X16.  [analyze_tool_usage] of the GitHub chat script.  No text and the
    empty text show no tool usage.  The verdict does not depend on the
    letter case of the response; putting text before or after a response
    loses no indicator and never turns the verdict from used to unused;
    and the verdict is "used" only when two different indicators occur in
    the text. *)
Theorem analyze_tool_usage_evidence :
  forall text before after : string,
    ChatGithubAgent.analyze_tool_usage None = (false, [])
    /\ ChatGithubAgent.analyze_tool_usage (Some "") = (false, [])
    /\ ChatGithubAgent.analyze_tool_usage (Some (lower text))
       = ChatGithubAgent.analyze_tool_usage (Some text)
    /\ incl (snd (ChatGithubAgent.analyze_tool_usage (Some text)))
            (snd (ChatGithubAgent.analyze_tool_usage
                    (Some (before ++ text ++ after)%string)))
    /\ (fst (ChatGithubAgent.analyze_tool_usage (Some text)) = true ->
        fst (ChatGithubAgent.analyze_tool_usage
               (Some (before ++ text ++ after)%string)) = true)
    /\ (fst (ChatGithubAgent.analyze_tool_usage (Some text)) = true ->
        exists one other,
          one <> other
          /\ str_contains (lower one) (lower text) = true
          /\ str_contains (lower other) (lower text) = true
          /\ In one ChatGithubAgent.tool_indicators
          /\ In other ChatGithubAgent.tool_indicators).
Proof.
  intros text before after.
  split; [reflexivity|]. split; [reflexivity|].
  unfold ChatGithubAgent.analyze_tool_usage.
  rewrite truthy_lower, found_indicators_lower.
  split; [reflexivity|].
  destruct (truthy_str text) eqn:Etext; cbn [negb fst snd].
  - rewrite (truthy_within before text after Etext). cbn [negb fst snd].
    destruct (found_indicators_within ChatGithubAgent.tool_indicators
                before text after) as [Hincl Hlen]. cbv zeta in Hincl, Hlen.
    split; [exact Hincl|]. split.
    + intros H. apply Nat.leb_le in H. apply Nat.leb_le. lia.
    + intros H. apply Nat.leb_le in H.
      destruct (two_distinct _ (NoDup_filter _ NoDup_tool_indicators) H)
        as (one & other & Hne & Hone & Hother).
      apply filter_In in Hone, Hother.
      exists one, other. tauto.
  - split; [intros x []|]. split; discriminate.
Qed.

(** X17.  [analyze_sql_response] of the SQL chat script.  No text and the
    empty text give no indicator.  The indicators found do not depend on
    the letter case of the response, and putting text before or after a
    response loses none.  Indicators are searched as substrings, not as
    words: whenever "CREATE TABLE" or "ALTER TABLE" is found, so is
    "table". *)
Theorem analyze_sql_response_evidence :
  forall text before after : string,
    ChatSqlAgent.analyze_sql_response None = []
    /\ ChatSqlAgent.analyze_sql_response (Some "") = []
    /\ ChatSqlAgent.analyze_sql_response (Some (lower text))
       = ChatSqlAgent.analyze_sql_response (Some text)
    /\ incl (ChatSqlAgent.analyze_sql_response (Some text))
            (ChatSqlAgent.analyze_sql_response
               (Some (before ++ text ++ after)%string))
    /\ length (ChatSqlAgent.analyze_sql_response (Some text))
       <= length (ChatSqlAgent.analyze_sql_response
                    (Some (before ++ text ++ after)%string))
    /\ (In "CREATE TABLE" (ChatSqlAgent.analyze_sql_response (Some text))
        \/ In "ALTER TABLE" (ChatSqlAgent.analyze_sql_response (Some text)) ->
        In "table" (ChatSqlAgent.analyze_sql_response (Some text))).
Proof.
  intros text before after.
  split; [reflexivity|]. split; [reflexivity|].
  unfold ChatSqlAgent.analyze_sql_response.
  rewrite truthy_lower, found_indicators_lower.
  split; [reflexivity|].
  destruct (truthy_str text) eqn:Etext; cbn [negb].
  - rewrite (truthy_within before text after Etext). cbn [negb].
    destruct (found_indicators_within ChatSqlAgent.sql_indicators
                before text after) as [Hincl Hlen]. cbv zeta in Hincl, Hlen.
    split; [exact Hincl|]. split; [exact Hlen|].
    intros H. apply filter_In. split.
    + unfold ChatSqlAgent.sql_indicators. cbn. auto 20.
    + destruct H as [H|H]; apply filter_In in H; destruct H as [_ H];
        refine (str_contains_trans _ _ _ _ H); reflexivity.
  - split; [intros x []|]. split; [cbn; lia|]. intros [[]|[]].
Qed.

(** ** The project name in the banner *)

Lemma split_cons (sep : ascii) (s : string) :
  exists piece pieces, split sep s = piece :: pieces.
Proof.
  induction s as [|c s (piece & pieces & IH)]; cbn; [eauto|].
  destruct (Ascii.eqb c sep); [eauto|]. rewrite IH. eauto.
Qed.

Lemma split_app_sep (sep : ascii) (a r : string) :
  split sep (a ++ String sep r) = split sep a ++ split sep r.
Proof.
  induction a as [|c a IH]; cbn.
  - rewrite Ascii.eqb_refl. reflexivity.
  - destruct (Ascii.eqb c sep); [rewrite IH; reflexivity|].
    rewrite IH. destruct (split_cons sep a) as (piece & pieces & ->).
    reflexivity.
Qed.

Lemma startswith_empty (s : string) : startswith s "" = true.
Proof. destruct s; reflexivity. Qed.

Lemma contains_char (sep : ascii) (s : string) :
  str_contains (String sep EmptyString) s
  = existsb (Ascii.eqb sep) (list_ascii_of_string s).
Proof.
  induction s as [|c s IH]; cbn; [reflexivity|].
  rewrite IH, startswith_empty, andb_true_r, Ascii.eqb_sym. reflexivity.
Qed.

Lemma split_without_sep (sep : ascii) (s : string) :
  str_contains (String sep EmptyString) s = false -> split sep s = [s].
Proof.
  induction s as [|c s IH]; cbn; [reflexivity|].
  rewrite startswith_empty, andb_true_r. intros H. apply orb_false_elim in H.
  destruct H as [Hc Hs]. rewrite Hc, (IH Hs). reflexivity.
Qed.

Lemma split_length (sep : ascii) (s : string) :
  str_contains (String sep EmptyString) s = true <-> 2 <= length (split sep s).
Proof.
  induction s as [|c s IH]; cbn.
  - split; [discriminate | lia].
  - rewrite startswith_empty, andb_true_r.
    destruct (split_cons sep s) as (piece & pieces & E).
    destruct (Ascii.eqb c sep); cbn.
    + rewrite E. cbn. split; [lia | reflexivity].
    + rewrite IH, E. cbn. reflexivity.
Qed.

Lemma penultimate_ok {A} (xs : list A) :
  (exists x, penultimate xs = Ok x) <-> 2 <= length xs.
Proof.
  unfold penultimate. rewrite <- (length_rev xs).
  destruct (rev xs) as [|a [|b l]]; cbn; split;
    try lia; try (intros (x & H); discriminate); eauto.
Qed.

Lemma join_split (sep : ascii) (s : string) :
  join (String sep EmptyString) (split sep s) = s.
Proof.
  induction s as [|c s IH]; cbn; [reflexivity|].
  destruct (split_cons sep s) as (piece & pieces & E).
  destruct (Ascii.eqb_spec c sep) as [->|Hne].
  - rewrite E in *. cbn. rewrite <- IH. reflexivity.
  - rewrite E in *. cbn [join] in *.
    destruct pieces; cbn; rewrite <- IH; reflexivity.
Qed.

Lemma endpoint_host_of_project (s : string) :
  (if existsb (Ascii.eqb "/"%char) (list_ascii_of_string s)
   then Ok tt
   else Raise (mkExn OtherException "list index out of range"))
  = match penultimate (split "/"%char s) with
    | Ok _ => Ok tt
    | Raise e => Raise e
    end.
Proof.
  rewrite <- contains_char.
  destruct (str_contains "/" s) eqn:E.
  - apply split_length, penultimate_ok in E. destruct E as (x & ->).
    reflexivity.
  - destruct (penultimate (split "/"%char s)) as [x|e] eqn:Ep.
    + assert (H : str_contains "/" s = true)
        by (apply split_length, penultimate_ok; eauto).
      congruence.
    + unfold penultimate in Ep.
      destruct (rev (split "/"%char s)) as [|a [|b l]]; congruence.
Qed.

(** X18.  The project name the chat scripts print,
    [endpoint.split('/')[-2]].  The pieces of the endpoint, joined with
    "/", give the endpoint back, and the name printed is the last piece
    but one: for an endpoint that ends in [/<project>/<last>] it is
    [<project>], so for [.../api/projects/NAME] it is the word "projects".
    The expression succeeds exactly when the endpoint contains a "/", and
    the scripts' start-up raises just where this expression does. *)
Theorem endpoint_project_name :
  forall (project_config : Json) (endpoint : string),
    getitem project_config "endpoint" = Ok (JStr endpoint) ->
    ChatSqlAgent.endpoint_project project_config
    = ChatGithubAgent.endpoint_project project_config
    /\ join "/" (split "/"%char endpoint) = endpoint
    /\ ((exists name,
            ChatGithubAgent.endpoint_project project_config = Ok name)
        <-> str_contains "/" endpoint = true)
    /\ (forall base project last : string,
          endpoint = (base ++ "/" ++ project ++ "/" ++ last)%string ->
          str_contains "/" project = false ->
          str_contains "/" last = false ->
          ChatGithubAgent.endpoint_project project_config = Ok project)
    /\ ChatGithubAgent.endpoint_host project_config
       = match ChatGithubAgent.endpoint_project project_config with
         | Ok _ => Ok tt
         | Raise e => Raise e
         end
    /\ ChatSqlAgent.endpoint_host project_config
       = match ChatSqlAgent.endpoint_project project_config with
         | Ok _ => Ok tt
         | Raise e => Raise e
         end.
Proof.
  intros project_config endpoint Hendpoint.
  unfold ChatSqlAgent.endpoint_project, ChatGithubAgent.endpoint_project,
    ChatSqlAgent.endpoint_host, ChatGithubAgent.endpoint_host.
  rewrite Hendpoint.
  split; [reflexivity|]. split; [apply join_split|].
  split; [rewrite penultimate_ok; symmetry; apply split_length|].
  split; [|split; apply endpoint_host_of_project].
  intros base project last -> Hproject Hlast.
  cbn [append]. rewrite split_app_sep, split_app_sep.
  rewrite (split_without_sep _ _ Hproject), (split_without_sep _ _ Hlast).
  unfold penultimate. rewrite !rev_app_distr. reflexivity.
Qed.

Lemma endpoint_project_name_witness :
  ChatGithubAgent.endpoint_project project_settings = Ok "projects".
Proof.
  refine (proj1 (proj2 (proj2 (proj2
            (endpoint_project_name project_settings
               "https://demo.services.ai.azure.com/api/projects/demo"
               eq_refl))))
            "https://demo.services.ai.azure.com/api" "projects" "demo"
            eq_refl eq_refl eq_refl).
Defined.

(** ** The health check of the GitHub test script *)

Lemma check_endpoint_health_log w url log :
  fails_as_requests (http_get w) ->
  exists verdict,
    TestGithubAgent.check_endpoint_health w url log
    = (Returned verdict, log ++ [CHttpGet url])
    /\ (fst verdict = true <-> exists code, snd verdict = Some code)
    /\ match http_get w (log ++ [CHttpGet url]) with
       | Ok code => verdict = (true, Some code)
       | Raise _ => verdict = (false, None)
       end.
Proof.
  intros Hfails.
  unfold TestGithubAgent.check_endpoint_health, try_except_when, bind, call,
    lift, ret.
  destruct (http_get w (log ++ [CHttpGet url])) as [code|e] eqn:E.
  - exists (true, Some code). cbn. split; [reflexivity|].
    split; [split; eauto | reflexivity].
  - rewrite (Hfails _ _ E). cbn. exists (false, None).
    split; [reflexivity|]. split; [|reflexivity].
    cbn. split; [discriminate | intros (code & H); discriminate].
Qed.

Lemma bind_ext {A B} (m : M A) (k1 k2 : A -> M B) (log : list Call) :
  (forall a log', k1 a log' = k2 a log') -> bind m k1 log = bind m k2 log.
Proof.
  intros H. unfold bind. destruct (m log) as [[a|e|] log']; auto.
Qed.

(** X19.  The health check of the GitHub test script decides nothing.  As
    long as the HTTP request fails only with a [RequestException], the
    check returns without raising, and the run of the script is the same
    whatever the request answered: same calls, same exit code.  An endpoint
    that is down does not keep the suite from running, nor make it fail. *)
Theorem health_check_decides_nothing :
  forall (w : World) (f : list Call -> Res nat) (log : list Call),
    fails_as_requests (http_get w) ->
    fails_as_requests f ->
    TestGithubAgent.main (with_http_get f w) log = TestGithubAgent.main w log.
Proof.
  intros w f log Hw Hf.
  assert (Hf' : fails_as_requests (http_get (with_http_get f w))) by exact Hf.
  unfold TestGithubAgent.main.
  apply bind_ext. intros [[project_config agent_config]|] log1;
    [|reflexivity].
  do 9 (apply bind_ext; intros ? ?).
  apply bind_ext. intros url log2.
  destruct (check_endpoint_health_log w url log2 Hw) as (v & E & _).
  destruct (check_endpoint_health_log (with_http_get f w) url log2 Hf')
    as (v' & E' & _).
  unfold bind at 1. rewrite E'. symmetry. unfold bind at 1. rewrite E.
  reflexivity.
Qed.

Lemma health_check_decides_nothing_witness :
  TestGithubAgent.main
    (with_http_get
       (fun _ => Raise (mkExn RequestException "Connection refused")) helpful)
    []
  = TestGithubAgent.main helpful [].
Proof.
  apply health_check_decides_nothing.
  - intros history e H. discriminate H.
  - intros history e H. injection H as <-. reflexivity.
Defined.

(** ** Reading the answer off the thread *)

Lemma latest_assistant_text_snoc messages message :
  TestGithubAgent.latest_assistant_text (messages ++ [message])
  = if speaks message then Some (last (m_text_messages message) "")
    else TestGithubAgent.latest_assistant_text messages.
Proof.
  unfold TestGithubAgent.latest_assistant_text, speaks.
  rewrite fold_left_app. reflexivity.
Qed.

Lemma latest_assistant_text_newest messages :
  TestGithubAgent.latest_assistant_text messages
  = option_map (fun message => last (m_text_messages message) "")
               (newest_answer messages).
Proof.
  unfold newest_answer.
  induction messages as [|message messages IH] using rev_ind; [reflexivity|].
  rewrite latest_assistant_text_snoc, rev_app_distr. cbn [rev app find].
  destruct (speaks message); [reflexivity | exact IH].
Qed.

Lemma first_assistant_text_find listed :
  ChatGithubAgent.first_assistant_text listed None
  = Ok (option_map (fun message => hd "" (m_text_messages message))
                   (find speaks listed)).
Proof.
  induction listed as [|message rest IH]; cbn; [reflexivity|].
  unfold speaks.
  destruct (m_role message =? "assistant"); [|exact IH].
  destruct (m_text_messages message) as [|text texts] eqn:E; [exact IH|].
  cbn. rewrite E. reflexivity.
Qed.

Lemma find_app_first {A} (p : A -> bool) (l1 l2 : list A) :
  find p (l1 ++ l2)
  = match find p l1 with Some x => Some x | None => find p l2 end.
Proof.
  induction l1 as [|x l1 IH]; cbn; [reflexivity|].
  destruct (p x); [reflexivity | exact IH].
Qed.

(** X20.  Which answer the scripts read off a thread.  The test scripts,
    listing the thread oldest first, and [get_latest_response] of the
    GitHub chat script, listing it newest first, settle on the same
    message: the newest one of the assistant that has a text part.  The
    test scripts take its last text part, the chat script its first.  The
    thread is shared by all scenarios of a test run, so when a scenario
    adds no such message the test script reports the answer of an earlier
    scenario. *)
Theorem answer_is_newest_assistant_text :
  forall earlier later : list Message,
    let messages := earlier ++ later in
    TestGithubAgent.latest_assistant_text messages
    = option_map (fun message => last (m_text_messages message) "")
                 (newest_answer messages)
    /\ TestSqlAgent.latest_assistant_text messages
       = TestGithubAgent.latest_assistant_text messages
    /\ ChatGithubAgent.first_assistant_text (rev messages) None
       = Ok (option_map (fun message => hd "" (m_text_messages message))
                        (newest_answer messages))
    /\ newest_answer messages
       = match newest_answer later with
         | Some message => Some message
         | None => newest_answer earlier
         end
    /\ (forallb (fun message => negb (speaks message)) later = true ->
        TestGithubAgent.latest_assistant_text messages
        = TestGithubAgent.latest_assistant_text earlier).
Proof.
  intros earlier later messages. subst messages.
  assert (Hnewest :
    newest_answer (earlier ++ later)
    = match newest_answer later with
      | Some message => Some message
      | None => newest_answer earlier
      end).
  { unfold newest_answer. rewrite rev_app_distr. apply find_app_first. }
  split; [apply latest_assistant_text_newest|].
  split; [reflexivity|].
  split; [apply first_assistant_text_find|].
  split; [exact Hnewest|].
  intros Hsilent. rewrite !latest_assistant_text_newest, Hnewest.
  assert (Hnone : newest_answer later = None).
  { unfold newest_answer.
    destruct (find speaks (rev later)) as [message|] eqn:E; [|reflexivity].
    apply find_some in E. destruct E as [Hin Hsp].
    apply in_rev in Hin.
    rewrite forallb_forall in Hsilent. specialize (Hsilent message Hin).
    rewrite Hsp in Hsilent. discriminate. }
  rewrite Hnone. reflexivity.
Qed.

(** ** Commands of the chat loops *)

Lemma goodbye_is_something raw :
  says_goodbye raw = true -> truthy_str (strip raw) = true.
Proof.
  unfold says_goodbye. rewrite <- truthy_lower.
  destruct (lower (strip raw)); [discriminate | reflexivity].
Qed.

(** X21.  The commands of the chat loops.  A line that reads quit, exit or
    bye once surrounding white space is dropped and letters are lowered
    ends the chat at once: no call is issued and what the operator typed
    after it is not read.  A line that reads help in the same way issues no
    call and leaves thread and counters as they are: the chat goes on as if
    the line had not been typed. *)
Theorem chat_commands :
  forall (w : World) (agent_id : string) (mcp_tool : McpTool)
         (st : ChatGithubAgent.ChatState) (thread : Thread)
         (raw : string) (rest : list ConsoleEvent) (log : list Call),
    (says_goodbye raw = true ->
     ChatGithubAgent.chat_loop w agent_id mcp_tool (Line raw :: rest) st log
     = (Returned true, log)
     /\ ChatSqlAgent.chat_loop w agent_id mcp_tool (Line raw :: rest) thread log
        = (Returned true, log))
    /\ (lower (strip raw) = "help" ->
        ChatGithubAgent.chat_loop w agent_id mcp_tool (Line raw :: rest) st log
        = ChatGithubAgent.chat_loop w agent_id mcp_tool rest st log
        /\ ChatSqlAgent.chat_loop w agent_id mcp_tool (Line raw :: rest)
             thread log
           = ChatSqlAgent.chat_loop w agent_id mcp_tool rest thread log).
Proof.
  intros w agent_id mcp_tool st thread raw rest log. split.
  - intros Hbye. pose proof (goodbye_is_something raw Hbye) as Hsome.
    unfold says_goodbye in Hbye.
    cbn [ChatGithubAgent.chat_loop ChatSqlAgent.chat_loop].
    unfold ChatGithubAgent.chat_pass, ChatSqlAgent.chat_pass. cbv zeta.
    rewrite Hsome, Hbye. split; reflexivity.
  - intros Hhelp.
    assert (Hsome : truthy_str (strip raw) = true).
    { rewrite <- truthy_lower, Hhelp. reflexivity. }
    cbn [ChatGithubAgent.chat_loop ChatSqlAgent.chat_loop].
    unfold ChatGithubAgent.chat_pass, ChatSqlAgent.chat_pass. cbv zeta.
    rewrite Hsome, Hhelp. split; reflexivity.
Qed.

(** X22.  The wait of the GitHub chat script keeps to its run.  Whatever
    the service answers, [wait_for_run_completion] comes to an end, and
    every call it issues is a status fetch of the run it was given, on the
    thread it was given, or an approval of tool calls of that very run:
    the wait never cancels, and never touches another run or thread. *)
Theorem chat_github_wait_keeps_to_its_run :
  forall (w : World) (thread_id run_id : string),
    settles (own_run_call thread_id run_id) (fun _ => True)
      (ChatGithubAgent.wait_for_run_completion w thread_id run_id).
Proof.
  intros w thread_id run_id.
  eapply settles_of_yields;
    [apply chat_github_wait_polls; auto | apply chat_github_wait_costs].
Qed.

(** ** Start-up failures *)

(** X23.  The GitHub deployment script on a bad configuration.  Without
    [config.json] the script ends with exit code 1 after probing for the
    file, and reads nothing.  With a [config.json] that lacks the GitHub
    agent's section or the project's, it ends with exit code 1 after
    reading the file.  With those sections present but no endpoint in the
    project's, the [KeyError] arises outside every handler and escapes
    [main].  In none of these cases is the service contacted. *)
Theorem github_deploy_bad_config :
  forall (w : World) (console : list ConsoleEvent),
    let probe := CPathExists McpGithubAgent.CONFIG_FILE in
    let read := CReadJson McpGithubAgent.CONFIG_FILE in
    (path_exists w [probe] = false ->
     McpGithubAgent.main w console [] = (Returned (Exit 1), [probe]))
    /\ (forall fields e,
          path_exists w [probe] = true ->
          read_json w [probe; read] = Ok fields ->
          match getitem (JObj fields) "agents" with
          | Ok agents =>
              match getitem agents "github" with
              | Ok _ => getitem (JObj fields) "project"
              | Raise e' => Raise e'
              end
          | Raise e' => Raise e'
          end = Raise e ->
          McpGithubAgent.main w console [] = (Returned (Exit 1), [probe; read]))
    /\ (forall fields agents agent_config project_config e,
          path_exists w [probe] = true ->
          read_json w [probe; read] = Ok fields ->
          getitem (JObj fields) "agents" = Ok agents ->
          getitem agents "github" = Ok agent_config ->
          getitem (JObj fields) "project" = Ok project_config ->
          getitem project_config "endpoint" = Raise e ->
          McpGithubAgent.main w console [] = (Raised e, [probe; read])).
Proof.
  intros w console probe read. subst probe read.
  unfold McpGithubAgent.main, McpGithubAgent.load_config,
    try_except, try_except_when, bind, call, lift, ret, raise.
  cbn [app]. split; [|split].
  - intros ->. reflexivity.
  - intros fields e -> Hread. cbn [negb app]. rewrite Hread.
    destruct (getitem (JObj fields) "agents") as [agents|]; [|reflexivity].
    destruct (getitem agents "github") as [agent_config|]; [|reflexivity].
    intros ->. reflexivity.
  - intros fields agents agent_config project_config e -> Hread Hagents
           Hgithub Hproject Hendpoint.
    cbn [negb app]. rewrite Hread, Hagents, Hgithub, Hproject, Hendpoint.
    reflexivity.
Qed.

Lemma github_deploy_bad_config_witness :
  McpGithubAgent.main (config_file_only config_without_endpoint) [] []
  = (Raised (mkExn KeyError "endpoint"),
     [CPathExists "config/config.json"; CReadJson "config/config.json"]).
Proof.
  refine (proj2 (proj2 (github_deploy_bad_config
                          (config_file_only config_without_endpoint) []))
            config_without_endpoint
            (JObj [("github", github_agent_config)]) github_agent_config
            (JObj [("modelDeployment", JStr "gpt-4o")])
            (mkExn KeyError "endpoint")
            eq_refl eq_refl eq_refl eq_refl eq_refl eq_refl).
Defined.

(** X24.  A project endpoint without a "/" at the start of a chat.  Both
    chat scripts print [endpoint.split('/')[-2]], which raises an
    [IndexError] on such an endpoint.  The SQL chat script does so inside
    its first [try] block and ends with exit code 1; the GitHub chat script
    does so outside every handler, and the exception escapes [main].
    Neither has connected to the project. *)
Theorem chats_on_flat_endpoint :
  forall (w : World) (console : list ConsoleEvent)
         (project_config github_config sql_config : Json) (endpoint : string),
    get_project_config w [CGetProjectConfig] = Ok project_config ->
    getitem project_config "endpoint" = Ok (JStr endpoint) ->
    str_contains "/" endpoint = false ->
    get_agent_config w [CGetProjectConfig; CGetAgentConfig "github"]
    = Ok github_config ->
    get_agent_config w [CGetProjectConfig; CGetAgentConfig "sql"]
    = Ok sql_config ->
    ChatGithubAgent.main w console []
    = (Raised (mkExn OtherException "list index out of range"),
       [CGetProjectConfig; CGetAgentConfig "github"])
    /\ ChatSqlAgent.main w console []
       = (Returned (Exit 1), [CGetProjectConfig; CGetAgentConfig "sql"]).
Proof.
  intros w console project_config github_config sql_config endpoint
         Hproject Hendpoint Hflat Hgithub Hsql.
  assert (Hhost : ChatGithubAgent.endpoint_host project_config
                  = Raise (mkExn OtherException "list index out of range")).
  { unfold ChatGithubAgent.endpoint_host. rewrite Hendpoint.
    rewrite <- contains_char, Hflat. reflexivity. }
  split.
  - unfold ChatGithubAgent.main, try_except, try_except_when, bind, call,
      lift, ret.
    cbn [app]. rewrite Hproject. cbn [app]. rewrite Hgithub, Hhost.
    reflexivity.
  - unfold ChatSqlAgent.main, try_except, try_except_when, bind, call,
      lift, ret.
    cbn [app]. rewrite Hproject. cbn [app]. rewrite Hsql.
    change (ChatSqlAgent.endpoint_host project_config)
      with (ChatGithubAgent.endpoint_host project_config).
    rewrite Hhost. reflexivity.
Qed.

Lemma chats_on_flat_endpoint_witness :
  ChatGithubAgent.main flat_endpoint [] []
  = (Raised (mkExn OtherException "list index out of range"),
     [CGetProjectConfig; CGetAgentConfig "github"])
  /\ ChatSqlAgent.main flat_endpoint [] []
     = (Returned (Exit 1), [CGetProjectConfig; CGetAgentConfig "sql"]).
Proof.
  apply (chats_on_flat_endpoint flat_endpoint [] flat_project
           github_agent_config sql_agent_config "localhost");
    reflexivity.
Defined.

(** ** What a turn of a chat does to the chat *)

Lemma settled_result {A} (P : Call -> Prop) (Q : A -> Prop) (m : M A) :
  settles P Q m -> returns m ->
  forall log, exists a, fst (m log) = Returned a /\ Q a.
Proof.
  intros Hs Hr log. destruct (Hr log) as (a & E).
  destruct (Hs log) as (extra & _ & _ & Hres).
  rewrite E in Hres. eauto.
Qed.

Lemma chat_github_pass_turn w agent_id mcp_tool st ev :
  settles (fun _ => True) (chat_github_turn w st ev)
    (ChatGithubAgent.chat_pass w agent_id mcp_tool st ev).
Proof.
  unfold ChatGithubAgent.chat_pass.
  destruct ev as [raw|e|].
  - cbv zeta.
    destruct (negb (truthy_str (strip raw)));
      [apply settles_ret; cbn; auto|].
    destruct (str_in (lower (strip raw)) ["quit"; "exit"; "bye"]) eqn:Ebye;
      [apply settles_ret; cbn; right; exists raw; auto|].
    destruct (lower (strip raw) =? "help");
      [apply settles_ret; cbn; auto|].
    destruct (lower (strip raw) =? "clear") eqn:Eclear.
    + apply settles_try; [|intros; apply settles_ret; cbn; auto].
      eapply settles_bind
        with (Q1 := fun thread => exists history,
                        threads_create w history = Ok thread);
        [apply settles_call; [exact I | intros history a E; eauto]|].
      intros thread Hthread. apply settles_ret. cbn. right. auto.
    + apply settles_try; [|intros; apply settles_ret; cbn; auto].
      eapply settles_bind with (Q1 := fun _ => True);
        [apply settles_call; [exact I | auto]|].
      intros message _. cbv zeta.
      apply settles_try; [|intros; apply settles_ret; cbn; auto].
      eapply settles_bind with (Q1 := fun _ => True);
        [apply (chat_github_answer_settles w (fun _ => True)); auto|].
      intros _ _. apply settles_ret. cbn. auto.
  - apply settles_ret. cbn. auto.
  - apply settles_ret. cbn. auto.
Qed.

Lemma chat_sql_pass_turn w agent_id mcp_tool thread ev :
  settles (fun _ => True) (chat_sql_turn w thread ev)
    (ChatSqlAgent.chat_pass w agent_id mcp_tool thread ev).
Proof.
  unfold ChatSqlAgent.chat_pass.
  destruct ev as [raw|e|].
  - cbv zeta.
    destruct (negb (truthy_str (strip raw)));
      [apply settles_ret; cbn; auto|].
    destruct (str_in (lower (strip raw)) ["quit"; "exit"; "bye"]) eqn:Ebye;
      [apply settles_ret; cbn; right; exists raw; auto|].
    destruct (lower (strip raw) =? "help");
      [apply settles_ret; cbn; auto|].
    destruct (lower (strip raw) =? "clear") eqn:Eclear.
    + apply settles_try; [|intros; apply settles_ret; cbn; auto].
      eapply settles_bind
        with (Q1 := fun thread => exists history,
                        threads_create w history = Ok thread);
        [apply settles_call; [exact I | intros history a E; eauto]|].
      intros thread' Hthread. apply settles_ret. cbn. right. auto.
    + apply settles_try; [|intros; apply settles_ret; cbn; auto].
      eapply settles_bind with (Q1 := fun _ => True);
        [apply (chat_sql_answer_settles w (fun _ => True)); auto|].
      intros _ _. apply settles_ret. cbn. auto.
  - apply settles_ret. cbn. auto.
  - apply settles_ret. cbn. auto.
Qed.

(** X26.  What a turn of a chat does to the chat.  In both chat scripts a
    pass of the chat loop always returns: nothing that fails in a turn
    escapes it.  It ends the chat only on the operator's interrupt or on
    quit, exit or bye.  Otherwise the chat goes on in the same thread,
    unless the line was [clear] and the service answered the thread
    creation, in which case it goes on in the thread the service handed
    out: a failed turn or a failed [clear] leaves the thread as it was.
    The message count of the GitHub chat script stays, goes up by one, or
    is reset to 0 by a successful [clear]. *)
Theorem chat_turn_keeps_the_chat :
  forall (w : World) (agent_id : string) (mcp_tool : McpTool)
         (st : ChatGithubAgent.ChatState) (thread : Thread)
         (ev : ConsoleEvent) (log : list Call),
    (exists c,
        fst (ChatGithubAgent.chat_pass w agent_id mcp_tool st ev log)
        = Returned c
        /\ chat_github_turn w st ev c)
    /\ (exists c,
          fst (ChatSqlAgent.chat_pass w agent_id mcp_tool thread ev log)
          = Returned c
          /\ chat_sql_turn w thread ev c).
Proof.
  intros w agent_id mcp_tool st thread ev log. split.
  - apply (settled_result (fun _ => True));
      [apply chat_github_pass_turn
      | apply (chat_github_pass_returns w (fun _ => True)); auto].
  - apply (settled_result (fun _ => True));
      [apply chat_sql_pass_turn
      | apply (chat_sql_pass_returns w (fun _ => True)); auto].
Qed.

(** ** Giving up, approval requests included *)

Lemma waiting_not_terminal status :
  waiting_status status = true ->
  terminal_status status = false
  /\ status <> "completed" /\ status <> "failed".
Proof.
  intros H.
  assert (Hcases : status = "queued" \/ status = "in_progress"
                   \/ status = "requires_action").
  { unfold waiting_status, str_in in H. cbn [existsb] in H.
    destruct (String.eqb_spec status "queued"); [auto|].
    destruct (String.eqb_spec status "in_progress"); [auto|].
    destruct (String.eqb_spec status "requires_action"); [auto|].
    discriminate. }
  destruct Hcases as [E|[E|E]]; rewrite E;
    (split; [reflexivity | split; discriminate]).
Qed.

Lemma no_calls_is_empty_request run :
  TestGithubAgent.approval_calls run = Some []
  \/ TestSqlAgent.approval_calls run = Some []
  \/ ChatSqlAgent.approval_calls run = Some [] ->
  empty_approval_request run = true.
Proof.
  intros H. destruct (empty_approval_calls run H) as (Estatus & Eaction).
  unfold empty_approval_request. rewrite Estatus, Eaction. reflexivity.
Qed.

Lemma timed_out_while_waiting {R} (poll : M R) (attR : R -> nat)
    (runR : R -> Run) (bound : nat) (log : list Call) :
  (exists r log',
     poll log = (Returned r, log') /\ attR r = bound
     /\ fetches log' = fetches log + bound
     /\ terminal_status (r_status (runR r)) = false) ->
  timed_out poll attR runR bound log.
Proof.
  intros (r & log' & Hpoll & Hatt & Hlog & Hrun).
  unfold timed_out. rewrite Hpoll.
  destruct (not_terminal_not_done _ Hrun) as (H1 & H2 & H3).
  repeat split; assumption.
Qed.

Section KeepsWaiting.
Variable w : World.
Hypothesis waiting : keeps_waiting w.
Hypothesis accepted : approvals_accepted w.

Ltac go_on attempt bound Hr :=
  eexists; (split; [|unfold onward;
    destruct (Nat.leb_spec bound (attempt + 1));
    [right | left]; (split; [assumption|]); eexists;
    (split; [reflexivity|]); (split; [reflexivity|]); exact Hr]);
  count_fetches.

Lemma test_github_goes_on thread_id mcp_tool bound
    (s : TestGithubAgent.PollState) log :
  waiting_status (r_status (TestGithubAgent.run_of s)) = true ->
  exists log',
    fetches log' = fetches log + 1
    /\ ((TestGithubAgent.attempt_of s + 1 < bound
         /\ exists s', TestGithubAgent.poll_pass w thread_id mcp_tool bound s log
                       = (Returned (Next s'), log')
                       /\ TestGithubAgent.attempt_of s'
                          = TestGithubAgent.attempt_of s + 1
                       /\ waiting_status (r_status (TestGithubAgent.run_of s'))
                          = true)
        \/ (bound <= TestGithubAgent.attempt_of s + 1
            /\ exists r, TestGithubAgent.poll_pass w thread_id mcp_tool bound s log
                         = (Returned (Leave r), log')
                         /\ TestGithubAgent.attempt_of r
                            = TestGithubAgent.attempt_of s + 1
                         /\ waiting_status (r_status (TestGithubAgent.run_of r))
                            = true)).
Proof.
  destruct s as [[attempt run] made].
  unfold TestGithubAgent.run_of, TestGithubAgent.attempt_of. cbn [fst snd].
  intros Hrun. rewrite test_github_pass_eq.
  unfold waiting_status in Hrun. rewrite Hrun. cbv zeta.
  destruct (waiting (log ++ [CRunsGet thread_id (r_id run)]))
    as (r & Hget & Hr & Hsome).
  rewrite Hget.
  destruct (TestGithubAgent.approval_calls r) as [[|c calls]|] eqn:Ecalls.
  - rewrite no_calls_is_empty_request in Hsome by auto. discriminate.
  - destruct (filter is_mcp_call (c :: calls)) as [|m ms].
    + go_on attempt bound Hr.
    + rewrite (proj1 (accepted _)). go_on attempt bound Hr.
  - go_on attempt bound Hr.
Qed.

Lemma test_sql_goes_on thread_id mcp_tool bound
    (s : TestSqlAgent.PollState) log :
  waiting_status (r_status (TestSqlAgent.run_of s)) = true ->
  exists log',
    fetches log' = fetches log + 1
    /\ ((TestSqlAgent.attempt_of s + 1 < bound
         /\ exists s', TestSqlAgent.poll_pass w thread_id mcp_tool bound s log
                       = (Returned (Next s'), log')
                       /\ TestSqlAgent.attempt_of s'
                          = TestSqlAgent.attempt_of s + 1
                       /\ waiting_status (r_status (TestSqlAgent.run_of s'))
                          = true)
        \/ (bound <= TestSqlAgent.attempt_of s + 1
            /\ exists r, TestSqlAgent.poll_pass w thread_id mcp_tool bound s log
                         = (Returned (Leave r), log')
                         /\ TestSqlAgent.attempt_of r
                            = TestSqlAgent.attempt_of s + 1
                         /\ waiting_status (r_status (TestSqlAgent.run_of r))
                            = true)).
Proof.
  destruct s as [[attempt run] made].
  unfold TestSqlAgent.run_of, TestSqlAgent.attempt_of. cbn [fst snd].
  intros Hrun. rewrite test_sql_pass_eq.
  unfold waiting_status in Hrun. rewrite Hrun. cbv zeta.
  destruct (waiting (log ++ [CRunsGet thread_id (r_id run)]))
    as (r & Hget & Hr & Hsome).
  rewrite Hget.
  destruct (TestSqlAgent.approval_calls r) as [[|c calls]|] eqn:Ecalls.
  - rewrite no_calls_is_empty_request in Hsome by auto. discriminate.
  - destruct (filter is_mcp_call (c :: calls)) as [|m ms].
    + go_on attempt bound Hr.
    + rewrite (proj1 (accepted _)). go_on attempt bound Hr.
  - go_on attempt bound Hr.
Qed.

Lemma chat_sql_goes_on thread_id mcp_tool bound
    (s : ChatSqlAgent.PollState) log :
  waiting_status (r_status (ChatSqlAgent.run_of s)) = true ->
  exists log',
    fetches log' = fetches log + 1
    /\ ((ChatSqlAgent.attempt_of s + 1 < bound
         /\ exists s', ChatSqlAgent.poll_pass w thread_id mcp_tool bound s log
                       = (Returned (Next s'), log')
                       /\ ChatSqlAgent.attempt_of s'
                          = ChatSqlAgent.attempt_of s + 1
                       /\ waiting_status (r_status (ChatSqlAgent.run_of s'))
                          = true)
        \/ (bound <= ChatSqlAgent.attempt_of s + 1
            /\ exists r, ChatSqlAgent.poll_pass w thread_id mcp_tool bound s log
                         = (Returned (Leave r), log')
                         /\ ChatSqlAgent.attempt_of r
                            = ChatSqlAgent.attempt_of s + 1
                         /\ waiting_status (r_status (ChatSqlAgent.run_of r))
                            = true)).
Proof.
  destruct s as [[attempt run] made].
  unfold ChatSqlAgent.run_of, ChatSqlAgent.attempt_of. cbn [fst snd].
  intros Hrun. rewrite chat_sql_pass_eq.
  unfold waiting_status in Hrun. rewrite Hrun. cbv zeta.
  destruct (waiting (log ++ [CRunsGet thread_id (r_id run)]))
    as (r & Hget & Hr & Hsome).
  rewrite Hget.
  destruct (ChatSqlAgent.approval_calls r) as [[|c calls]|] eqn:Ecalls.
  - rewrite no_calls_is_empty_request in Hsome by auto. discriminate.
  - rewrite (proj1 (accepted _)). go_on attempt bound Hr.
  - go_on attempt bound Hr.
Qed.

End KeepsWaiting.

Section KeepsUnsettled.
Variable w : World.
Hypothesis unsettled : keeps_unsettled w.
Hypothesis accepted : approvals_accepted w.

Lemma chat_github_goes_on thread_id run_id bound (attempt : nat) log :
  True ->
  exists log',
    fetches log' = fetches log + 1
    /\ ((attempt + 1 < bound
         /\ exists attempt',
              ChatGithubAgent.wait_pass w thread_id run_id bound attempt log
              = (Returned (Next attempt'), log')
              /\ attempt' = attempt + 1 /\ True)
        \/ (bound <= attempt + 1
            /\ exists r : nat * Run,
                 ChatGithubAgent.wait_pass w thread_id run_id bound attempt log
                 = (Returned (Leave r), log')
                 /\ fst r = attempt + 1
                 /\ terminal_status (r_status (snd r)) = false)).
Proof.
  intros _. rewrite chat_github_pass_eq. cbv zeta.
  destruct (unsettled (log ++ [CRunsGet thread_id run_id])) as (r & Hget & Hr).
  rewrite Hget.
  assert (Hstatus : (r_status r =? "completed") = false
                    /\ (r_status r =? "failed") = false
                    /\ str_in (r_status r) ["cancelled"; "expired"] = false).
  { unfold terminal_status, str_in in Hr. cbn [existsb] in Hr.
    unfold str_in. cbn [existsb].
    destruct (r_status r =? "completed"); [discriminate|].
    destruct (r_status r =? "failed"); [discriminate|].
    cbn in Hr. rewrite Hr. auto. }
  destruct Hstatus as (-> & -> & Hended).
  assert (Hgo : forall log',
             fetches log' = fetches log + 1 ->
             exists log'',
               fetches log'' = fetches log + 1
               /\ ((attempt + 1 < bound
                    /\ exists attempt',
                         (Returned (if (bound <=? attempt + 1)%nat
                                    then Leave (attempt + 1, r)
                                    else Next (attempt + 1)), log')
                         = (Returned (Next attempt'), log'')
                         /\ attempt' = attempt + 1 /\ True)
                   \/ (bound <= attempt + 1
                       /\ exists r' : nat * Run,
                            (Returned (if (bound <=? attempt + 1)%nat
                                       then Leave (attempt + 1, r)
                                       else Next (attempt + 1)), log')
                            = (Returned (Leave r'), log'')
                            /\ fst r' = attempt + 1
                            /\ terminal_status (r_status (snd r')) = false))).
  { intros log' Hlog'. exists log'. split; [exact Hlog'|].
    destruct (Nat.leb_spec bound (attempt + 1)); [right | left];
      (split; [assumption|]); eexists; repeat split. exact Hr. }
  destruct (r_status r =? "requires_action").
  - destruct (r_required_action r) as [[c|c|c]|];
      try (apply Hgo; count_fetches).
    rewrite (proj2 (accepted _)). apply Hgo. count_fetches.
  - rewrite Hended. apply Hgo. count_fetches.
Qed.

End KeepsUnsettled.

(** *** Why a poll returns before [max_attempts] *)

Ltac leave_at_bound :=
  unfold onward;
  match goal with
  | |- context [(?b <=? ?a)%nat] =>
      destruct (Nat.leb_spec b a); cbn [fst snd]; [left; cbn; lia | cbn; lia]
  end.

Section EarlyCause.
Context {St R : Type}.
Variables (pass : St -> M (Ctl St R)) (att : St -> nat) (attR : R -> nat).
Variables (runR : R -> Run) (bound : nat) (cause : Run -> bool).

Hypothesis pass_cause :
  forall (s : St) (log : list Call),
    att s < bound ->
    match pass s log with
    | (Returned (Next s'), _) => att s' < bound
    | (Returned (Leave r), _) => attR r = bound \/ cause (runR r) = true
    | _ => True
    end.

Lemma loop_early_cause :
  forall (fuel : nat) (s : St) (log : list Call),
    att s < bound ->
    returns_at_bound_or cause (loop pass fuel s) attR runR bound log.
Proof.
  unfold returns_at_bound_or.
  induction fuel as [|fuel IH]; intros s log Hs; [exact I|].
  cbn [loop]. unfold bind. specialize (pass_cause s log Hs).
  destruct (pass s log) as [[[s'|r]|e|] log1]; try exact I.
  - apply IH. exact pass_cause.
  - exact pass_cause.
Qed.

End EarlyCause.

Lemma test_github_early_cause w thread_id mcp_tool fuel run log :
  returns_at_bound_or cancelled_or_not_waiting
    (TestGithubAgent.wait_for_completion w fuel thread_id mcp_tool run)
    TestGithubAgent.attempt_of TestGithubAgent.run_of
    TestGithubAgent.max_attempts log.
Proof.
  unfold TestGithubAgent.wait_for_completion.
  apply (loop_early_cause _ TestGithubAgent.attempt_of);
    [|unfold TestGithubAgent.attempt_of, TestGithubAgent.max_attempts;
      cbn; lia].
  intros [[attempt r] made] l Hlt.
  unfold TestGithubAgent.attempt_of in Hlt. cbn [fst snd] in Hlt.
  rewrite test_github_pass_eq.
  unfold cancelled_or_not_waiting, waiting_status,
    TestGithubAgent.attempt_of, TestGithubAgent.run_of.
  destruct (str_in (r_status r) _) eqn:Ewait;
    [|cbn [fst snd]; right; rewrite Ewait; apply orb_true_r].
  cbv zeta. destruct (runs_get w _) as [r'|e]; [|exact I].
  destruct (TestGithubAgent.approval_calls r') as [[|c calls]|] eqn:Ecalls.
  - destruct (runs_cancel w _); [|exact I]. cbn [fst snd]. right.
    rewrite no_calls_is_empty_request by auto. reflexivity.
  - destruct (filter is_mcp_call (c :: calls)) as [|m ms];
      [|destruct (runs_submit_tool_outputs w _); [|exact I]];
      leave_at_bound.
  - leave_at_bound.
Qed.

Lemma test_sql_early_cause w thread_id mcp_tool fuel run log :
  returns_at_bound_or cancelled_or_not_waiting
    (TestSqlAgent.wait_for_completion w fuel thread_id mcp_tool run)
    TestSqlAgent.attempt_of TestSqlAgent.run_of
    TestSqlAgent.max_attempts log.
Proof.
  unfold TestSqlAgent.wait_for_completion.
  apply (loop_early_cause _ TestSqlAgent.attempt_of);
    [|unfold TestSqlAgent.attempt_of, TestSqlAgent.max_attempts;
      cbn; lia].
  intros [[attempt r] made] l Hlt.
  unfold TestSqlAgent.attempt_of in Hlt. cbn [fst snd] in Hlt.
  rewrite test_sql_pass_eq.
  unfold cancelled_or_not_waiting, waiting_status,
    TestSqlAgent.attempt_of, TestSqlAgent.run_of.
  destruct (str_in (r_status r) _) eqn:Ewait;
    [|cbn [fst snd]; right; rewrite Ewait; apply orb_true_r].
  cbv zeta. destruct (runs_get w _) as [r'|e]; [|exact I].
  destruct (TestSqlAgent.approval_calls r') as [[|c calls]|] eqn:Ecalls.
  - destruct (runs_cancel w _); [|exact I]. cbn [fst snd]. right.
    rewrite no_calls_is_empty_request by auto. reflexivity.
  - destruct (filter is_mcp_call (c :: calls)) as [|m ms];
      [|destruct (runs_submit_tool_outputs w _); [|exact I]];
      leave_at_bound.
  - leave_at_bound.
Qed.

Lemma chat_sql_early_cause w thread_id mcp_tool fuel run log :
  returns_at_bound_or cancelled_or_not_waiting
    (ChatSqlAgent.wait_for_completion w fuel thread_id mcp_tool run)
    ChatSqlAgent.attempt_of ChatSqlAgent.run_of
    ChatSqlAgent.max_attempts log.
Proof.
  unfold ChatSqlAgent.wait_for_completion.
  apply (loop_early_cause _ ChatSqlAgent.attempt_of);
    [|unfold ChatSqlAgent.attempt_of, ChatSqlAgent.max_attempts;
      cbn; lia].
  intros [[attempt r] made] l Hlt.
  unfold ChatSqlAgent.attempt_of in Hlt. cbn [fst snd] in Hlt.
  rewrite chat_sql_pass_eq.
  unfold cancelled_or_not_waiting, waiting_status,
    ChatSqlAgent.attempt_of, ChatSqlAgent.run_of.
  destruct (str_in (r_status r) _) eqn:Ewait;
    [|cbn [fst snd]; right; rewrite Ewait; apply orb_true_r].
  cbv zeta. destruct (runs_get w _) as [r'|e]; [|exact I].
  destruct (ChatSqlAgent.approval_calls r') as [[|c calls]|] eqn:Ecalls.
  - destruct (runs_cancel w _); [|exact I]. cbn [fst snd]. right.
    rewrite no_calls_is_empty_request by auto. reflexivity.
  - destruct (runs_submit_tool_outputs w _); [|exact I]. leave_at_bound.
  - leave_at_bound.
Qed.

Lemma chat_github_early_cause w thread_id run_id fuel log :
  returns_at_bound_or settled
    (ChatGithubAgent.wait_loop w fuel thread_id run_id)
    fst snd ChatGithubAgent.max_attempts log.
Proof.
  unfold ChatGithubAgent.wait_loop.
  apply (loop_early_cause _ (fun attempt : nat => attempt));
    [|unfold ChatGithubAgent.max_attempts; lia].
  intros attempt l Hlt. rewrite chat_github_pass_eq. cbv zeta.
  unfold settled, terminal_status, str_in. cbn [existsb].
  destruct (runs_get w _) as [r|e]; [|exact I].
  destruct (r_status r =? "completed") eqn:E1;
    [right; cbn [snd]; rewrite E1; reflexivity|].
  destruct (r_status r =? "failed") eqn:E2;
    [right; cbn [snd]; rewrite E1, E2; reflexivity|].
  destruct (r_status r =? "requires_action").
  - destruct (r_required_action r) as [[c|c|c]|];
      [| destruct (runs_submit_tool_approval w _); [|exact I] | |];
      destruct (Nat.leb_spec ChatGithubAgent.max_attempts (attempt + 1));
      cbn [fst snd]; try lia; left; lia.
  - cbn [orb].
    destruct ((r_status r =? "cancelled") || ((r_status r =? "expired") || false))
      eqn:Eended; [right; cbn [snd]; rewrite E1, E2; exact Eended|].
    destruct (Nat.leb_spec ChatGithubAgent.max_attempts (attempt + 1));
      cbn [fst snd]; try lia; left; lia.
Qed.

Lemma approval_then_stuck_keeps_waiting : keeps_waiting approval_then_stuck.
Proof.
  intros history. cbn.
  destruct (fetches history =? 1)%nat; eexists; repeat split.
Defined.

Lemma accepting_accepts f :
  approvals_accepted (with_runs_get f (accepting offline)).
Proof. intros history. split; reflexivity. Defined.

Lemma stuck_in_progress_never_settles : never_settles stuck_in_progress.
Proof.
  intros history. exists in_progress_run. split; reflexivity.
Defined.

Lemma two_mcp_calls_keep_unsettled : keeps_unsettled two_mcp_calls_pending.
Proof.
  intros history. exists two_mcp_calls_episode. split; reflexivity.
Defined.

Lemma stuck_in_progress_never_terminal : never_terminal stuck_in_progress.
Proof.
  intros history run H. cbn in H. injection H as <-. reflexivity.
Defined.

(** C4, as the code has it.  No poll loop has a timeout value of its own:
    a loop that gives up returns the run it fetched last, and the caller
    tells the timeout from a service-reported outcome by the status of that
    run.  When every status fetch answers a run that is queued, in progress
    or requiring an action (a tool approval that names at least one call
    included) and the service accepts the approvals, the loops of the two
    test scripts and of the SQL chat script give up at attempt
    [max_attempts], after exactly [max_attempts] status fetches, and the run
    they return is in none of the service's terminal statuses: neither
    completed nor failed in particular.  The wait of the GitHub chat script
    does so whenever every fetch answers a run in no terminal status,
    whatever that status and whatever the approval asked for.  The same
    holds, with no condition on approvals, when no fetched run asks for
    one.  As long as no fetched run is in a terminal status, whatever a
    loop returns is a run in no terminal status.  And a loop that returns
    before attempt [max_attempts] hands on the reason with the run: an
    approval request that names no tool call (which the loop has cancelled)
    or a status its loop condition does not list in the three [while]
    loops, a terminal status in the wait of the GitHub chat script. *)
Theorem poll_loops_time_out :
  forall (w : World) (extra : nat) (thread_id : string) (mcp_tool : McpTool)
         (run : Run) (log : list Call),
    (keeps_waiting w -> approvals_accepted w ->
     waiting_status (r_status run) = true ->
     timed_out
       (TestGithubAgent.wait_for_completion
          w (TestGithubAgent.max_attempts + extra) thread_id mcp_tool run)
       TestGithubAgent.attempt_of TestGithubAgent.run_of
       TestGithubAgent.max_attempts log
     /\ timed_out
          (TestSqlAgent.wait_for_completion
             w (TestSqlAgent.max_attempts + extra) thread_id mcp_tool run)
          TestSqlAgent.attempt_of TestSqlAgent.run_of
          TestSqlAgent.max_attempts log
     /\ timed_out
          (ChatSqlAgent.wait_for_completion
             w (ChatSqlAgent.max_attempts + extra) thread_id mcp_tool run)
          ChatSqlAgent.attempt_of ChatSqlAgent.run_of
          ChatSqlAgent.max_attempts log)
    /\ (keeps_unsettled w -> approvals_accepted w ->
        timed_out
          (ChatGithubAgent.wait_loop
             w (ChatGithubAgent.max_attempts + extra) thread_id (r_id run))
          fst snd ChatGithubAgent.max_attempts log)
    /\ (never_settles w ->
        still_running run = true ->
        timed_out
          (TestGithubAgent.wait_for_completion
             w (TestGithubAgent.max_attempts + extra) thread_id mcp_tool run)
          TestGithubAgent.attempt_of TestGithubAgent.run_of
          TestGithubAgent.max_attempts log
        /\ timed_out
             (TestSqlAgent.wait_for_completion
                w (TestSqlAgent.max_attempts + extra) thread_id mcp_tool run)
             TestSqlAgent.attempt_of TestSqlAgent.run_of
             TestSqlAgent.max_attempts log
        /\ timed_out
             (ChatGithubAgent.wait_loop
                w (ChatGithubAgent.max_attempts + extra) thread_id (r_id run))
             fst snd ChatGithubAgent.max_attempts log
        /\ timed_out
             (ChatSqlAgent.wait_for_completion
                w (ChatSqlAgent.max_attempts + extra) thread_id mcp_tool run)
             ChatSqlAgent.attempt_of ChatSqlAgent.run_of
             ChatSqlAgent.max_attempts log)
    /\ (never_terminal w ->
        terminal_status (r_status run) = false ->
        hands_on_unsettled
          (TestGithubAgent.wait_for_completion
             w TestGithubAgent.max_attempts thread_id mcp_tool run)
          TestGithubAgent.run_of
        /\ hands_on_unsettled
             (TestSqlAgent.wait_for_completion
                w TestSqlAgent.max_attempts thread_id mcp_tool run)
             TestSqlAgent.run_of
        /\ hands_on_unsettled
             (ChatGithubAgent.wait_loop
                w ChatGithubAgent.max_attempts thread_id (r_id run))
             snd
        /\ hands_on_unsettled
             (ChatSqlAgent.wait_for_completion
                w ChatSqlAgent.max_attempts thread_id mcp_tool run)
             ChatSqlAgent.run_of)
    /\ returns_at_bound_or cancelled_or_not_waiting
         (TestGithubAgent.wait_for_completion
            w (TestGithubAgent.max_attempts + extra) thread_id mcp_tool run)
         TestGithubAgent.attempt_of TestGithubAgent.run_of
         TestGithubAgent.max_attempts log
    /\ returns_at_bound_or cancelled_or_not_waiting
         (TestSqlAgent.wait_for_completion
            w (TestSqlAgent.max_attempts + extra) thread_id mcp_tool run)
         TestSqlAgent.attempt_of TestSqlAgent.run_of
         TestSqlAgent.max_attempts log
    /\ returns_at_bound_or cancelled_or_not_waiting
         (ChatSqlAgent.wait_for_completion
            w (ChatSqlAgent.max_attempts + extra) thread_id mcp_tool run)
         ChatSqlAgent.attempt_of ChatSqlAgent.run_of
         ChatSqlAgent.max_attempts log
    /\ returns_at_bound_or settled
         (ChatGithubAgent.wait_loop
            w (ChatGithubAgent.max_attempts + extra) thread_id (r_id run))
         fst snd ChatGithubAgent.max_attempts log.
Proof.
  intros w extra thread_id mcp_tool run log.
  split; [|split; [|split; [|split; [|split; [|split; [|split]]]]]].
  - intros Hw Hacc Hrun.
    repeat split; apply timed_out_while_waiting.
    + unfold TestGithubAgent.wait_for_completion.
      destruct (loop_runs_out _ TestGithubAgent.attempt_of
                  TestGithubAgent.attempt_of TestGithubAgent.max_attempts
                  (fun s => waiting_status (r_status (TestGithubAgent.run_of s))
                            = true)
                  (fun r => waiting_status (r_status (TestGithubAgent.run_of r))
                            = true)
                  (test_github_goes_on w Hw Hacc thread_id mcp_tool _)
                  TestGithubAgent.max_attempts extra (0, run, []) log)
        as (r & log' & Hloop & Hatt & Hlog & Hr);
        [exact Hrun | reflexivity | unfold TestGithubAgent.max_attempts; lia|].
      exists r, log'. repeat split; try assumption.
      apply (waiting_not_terminal _ Hr).
    + unfold TestSqlAgent.wait_for_completion.
      destruct (loop_runs_out _ TestSqlAgent.attempt_of
                  TestSqlAgent.attempt_of TestSqlAgent.max_attempts
                  (fun s => waiting_status (r_status (TestSqlAgent.run_of s))
                            = true)
                  (fun r => waiting_status (r_status (TestSqlAgent.run_of r))
                            = true)
                  (test_sql_goes_on w Hw Hacc thread_id mcp_tool _)
                  TestSqlAgent.max_attempts extra (0, run, []) log)
        as (r & log' & Hloop & Hatt & Hlog & Hr);
        [exact Hrun | reflexivity | unfold TestSqlAgent.max_attempts; lia|].
      exists r, log'. repeat split; try assumption.
      apply (waiting_not_terminal _ Hr).
    + unfold ChatSqlAgent.wait_for_completion.
      destruct (loop_runs_out _ ChatSqlAgent.attempt_of
                  ChatSqlAgent.attempt_of ChatSqlAgent.max_attempts
                  (fun s => waiting_status (r_status (ChatSqlAgent.run_of s))
                            = true)
                  (fun r => waiting_status (r_status (ChatSqlAgent.run_of r))
                            = true)
                  (chat_sql_goes_on w Hw Hacc thread_id mcp_tool _)
                  ChatSqlAgent.max_attempts extra (0, run, []) log)
        as (r & log' & Hloop & Hatt & Hlog & Hr);
        [exact Hrun | reflexivity | unfold ChatSqlAgent.max_attempts; lia|].
      exists r, log'. repeat split; try assumption.
      apply (waiting_not_terminal _ Hr).
  - intros Hw Hacc. apply timed_out_while_waiting.
    unfold ChatGithubAgent.wait_loop.
    apply (loop_runs_out _ (fun attempt : nat => attempt) fst
             ChatGithubAgent.max_attempts
             (fun _ => True)
             (fun r : nat * Run => terminal_status (r_status (snd r)) = false)
             (chat_github_goes_on w Hw Hacc thread_id (r_id run) _));
      [exact I | reflexivity | unfold ChatGithubAgent.max_attempts; lia].
  - intros Hw Hrun.
    repeat split; apply timed_out_of_run.
    + unfold TestGithubAgent.wait_for_completion.
      apply (loop_runs_out _ TestGithubAgent.attempt_of TestGithubAgent.attempt_of
               TestGithubAgent.max_attempts
               (fun s => still_running (TestGithubAgent.run_of s) = true)
               (fun r => still_running (TestGithubAgent.run_of r) = true)
               (test_github_steady w Hw thread_id mcp_tool _));
        [exact Hrun | reflexivity | unfold TestGithubAgent.max_attempts; lia].
    + unfold TestSqlAgent.wait_for_completion.
      apply (loop_runs_out _ TestSqlAgent.attempt_of TestSqlAgent.attempt_of
               TestSqlAgent.max_attempts
               (fun s => still_running (TestSqlAgent.run_of s) = true)
               (fun r => still_running (TestSqlAgent.run_of r) = true)
               (test_sql_steady w Hw thread_id mcp_tool _));
        [exact Hrun | reflexivity | unfold TestSqlAgent.max_attempts; lia].
    + unfold ChatGithubAgent.wait_loop.
      apply (loop_runs_out _ (fun attempt : nat => attempt) fst
               ChatGithubAgent.max_attempts
               (fun _ => True)
               (fun r : nat * Run => still_running (snd r) = true)
               (chat_github_steady w Hw thread_id (r_id run) _));
        [exact I | reflexivity | unfold ChatGithubAgent.max_attempts; lia].
    + unfold ChatSqlAgent.wait_for_completion.
      apply (loop_runs_out _ ChatSqlAgent.attempt_of ChatSqlAgent.attempt_of
               ChatSqlAgent.max_attempts
               (fun s => still_running (ChatSqlAgent.run_of s) = true)
               (fun r => still_running (ChatSqlAgent.run_of r) = true)
               (chat_sql_steady w Hw thread_id mcp_tool _));
        [exact Hrun | reflexivity | unfold ChatSqlAgent.max_attempts; lia].
  - intros Hw Hrun. unfold hands_on_unsettled.
    split; [|split; [|split]].
    + eapply settles_weaken;
        [intros c Hc; exact Hc | intros st Hst; apply not_terminal_not_done; exact Hst
        | apply (test_github_wait_keeps w (fun _ => True) (fun _ _ => I)
                   (fun r => terminal_status (r_status r) = false));
          [exact Hrun | exact Hw]].
    + eapply settles_weaken;
        [intros c Hc; exact Hc | intros st Hst; apply not_terminal_not_done; exact Hst
        | apply (test_sql_wait_keeps w (fun _ => True) (fun _ _ => I)
                   (fun r => terminal_status (r_status r) = false));
          [exact Hrun | exact Hw]].
    + eapply settles_weaken;
        [intros c Hc; exact Hc | intros st Hst; apply not_terminal_not_done; exact Hst
        | apply (chat_github_wait_keeps w (fun _ => True) (fun _ _ => I)
                   (fun r => terminal_status (r_status r) = false));
          exact Hw].
    + eapply settles_weaken;
        [intros c Hc; exact Hc | intros st Hst; apply not_terminal_not_done; exact Hst
        | apply (chat_sql_wait_keeps w (fun _ => True) (fun _ _ => I)
                   (fun r => terminal_status (r_status r) = false));
          [exact Hrun | exact Hw]].
  - apply test_github_early_cause.
  - apply test_sql_early_cause.
  - apply chat_sql_early_cause.
  - apply chat_github_early_cause.
Qed.

(** One approval episode of two calls and then a run in progress for ever:
    the three [while] loops approve the calls and give up at attempt 60.
    Two MCP calls pending for ever in the shape the GitHub chat script
    looks for: its wait approves them at every attempt and gives up at
    attempt 120.  A run in progress for ever: the loops give up as well,
    and what they hand on is in no terminal status. *)
Lemma poll_loops_time_out_witness :
  (timed_out
     (TestGithubAgent.wait_for_completion
        approval_then_stuck (TestGithubAgent.max_attempts + 0) "thread_1"
        example_tool (mkRun "run_1" "queued" None None))
     TestGithubAgent.attempt_of TestGithubAgent.run_of
     TestGithubAgent.max_attempts []
   /\ timed_out
        (TestSqlAgent.wait_for_completion
           approval_then_stuck (TestSqlAgent.max_attempts + 0) "thread_1"
           example_tool (mkRun "run_1" "queued" None None))
        TestSqlAgent.attempt_of TestSqlAgent.run_of
        TestSqlAgent.max_attempts []
   /\ timed_out
        (ChatSqlAgent.wait_for_completion
           approval_then_stuck (ChatSqlAgent.max_attempts + 0) "thread_1"
           example_tool (mkRun "run_1" "queued" None None))
        ChatSqlAgent.attempt_of ChatSqlAgent.run_of
        ChatSqlAgent.max_attempts [])
  /\ timed_out
       (ChatGithubAgent.wait_loop
          two_mcp_calls_pending (ChatGithubAgent.max_attempts + 0) "thread_1"
          (r_id in_progress_run))
       fst snd ChatGithubAgent.max_attempts []
  /\ timed_out
       (TestGithubAgent.wait_for_completion
          stuck_in_progress (TestGithubAgent.max_attempts + 0) "thread_1"
          example_tool in_progress_run)
       TestGithubAgent.attempt_of TestGithubAgent.run_of
       TestGithubAgent.max_attempts []
  /\ hands_on_unsettled
       (ChatSqlAgent.wait_for_completion
          stuck_in_progress ChatSqlAgent.max_attempts "thread_1"
          example_tool in_progress_run)
       ChatSqlAgent.run_of.
Proof.
  split; [|split; [|split]].
  - apply (proj1 (poll_loops_time_out approval_then_stuck 0 "thread_1"
                    example_tool (mkRun "run_1" "queued" None None) [])).
    + exact approval_then_stuck_keeps_waiting.
    + apply accepting_accepts.
    + reflexivity.
  - apply (proj1 (proj2 (poll_loops_time_out two_mcp_calls_pending 0 "thread_1"
                           example_tool in_progress_run []))).
    + exact two_mcp_calls_keep_unsettled.
    + apply accepting_accepts.
  - apply (proj1 (proj2 (proj2 (poll_loops_time_out stuck_in_progress 0
                                  "thread_1" example_tool in_progress_run [])))).
    + exact stuck_in_progress_never_settles.
    + reflexivity.
  - apply (proj1 (proj2 (proj2 (proj2 (poll_loops_time_out stuck_in_progress 0
                                         "thread_1" example_tool
                                         in_progress_run []))))).
    + exact stuck_in_progress_never_terminal.
    + reflexivity.
Defined.

(** C4 as stated fails on an approval request that names no tool call.
    The service answers every status fetch with such a request, so that the
    status of the run stays [requires_action], which is no terminal status,
    for ever.  The loops of the test scripts and of the SQL chat script do
    not wait for [max_attempts]: they cancel the run after the first fetch
    and return at attempt 1, with the status a timeout would show. *)
Lemma poll_loops_time_out_counterexample :
  keeps_unsettled empty_approval_pending
  /\ approvals_accepted empty_approval_pending
  /\ TestGithubAgent.wait_for_completion
       empty_approval_pending TestGithubAgent.max_attempts "thread_1"
       example_tool empty_approval_episode []
     = (Returned (1, empty_approval_episode, []),
        [CRunsGet "thread_1" "run_1"; CRunsCancel "thread_1" "run_1"])
  /\ TestSqlAgent.wait_for_completion
       empty_approval_pending TestSqlAgent.max_attempts "thread_1"
       example_tool empty_approval_episode []
     = (Returned (1, empty_approval_episode, []),
        [CRunsGet "thread_1" "run_1"; CRunsCancel "thread_1" "run_1"])
  /\ ChatSqlAgent.wait_for_completion
       empty_approval_pending ChatSqlAgent.max_attempts "thread_1"
       example_tool empty_approval_episode []
     = (Returned (1, empty_approval_episode, []),
        [CRunsGet "thread_1" "run_1"; CRunsCancel "thread_1" "run_1"])
  /\ ~ timed_out
         (TestGithubAgent.wait_for_completion
            empty_approval_pending TestGithubAgent.max_attempts "thread_1"
            example_tool empty_approval_episode)
         TestGithubAgent.attempt_of TestGithubAgent.run_of
         TestGithubAgent.max_attempts [].
Proof.
  split; [intros history; exists empty_approval_episode; split; reflexivity|].
  split; [apply accepting_accepts|].
  split; [vm_compute; reflexivity|].
  split; [vm_compute; reflexivity|].
  split; [vm_compute; reflexivity|].
  unfold timed_out.
  replace (TestGithubAgent.wait_for_completion
             empty_approval_pending TestGithubAgent.max_attempts "thread_1"
             example_tool empty_approval_episode [])
    with (Returned (1, empty_approval_episode, ([] : list (string * string))),
          [CRunsGet "thread_1" "run_1"; CRunsCancel "thread_1" "run_1"])
    by (vm_compute; reflexivity).
  intros (Hatt & _). vm_compute in Hatt. discriminate.
Qed.

(** ** What decides the exit code once a script has started *)

(** Run a script through its start-up with the answers at hand. *)
Ltac start_up :=
  repeat (cbn [app negb];
          match goal with
          | H : _ = Ok _ |- _ => rewrite H
          | H : truthy_str _ = true |- _ => rewrite H
          end).

Lemma summary_code_github rs :
  TestGithubAgent.summary rs
  = Exit (if forallb TestGithubAgent.success rs then 0 else 1).
Proof.
  destruct (forallb TestGithubAgent.success rs) eqn:E.
  - apply summary_iff_github. exact E.
  - destruct (summary_exit_codes_github rs) as [H|H]; [|exact H].
    apply summary_iff_github in H. congruence.
Qed.

Lemma summary_code_sql rs :
  TestSqlAgent.summary rs
  = Exit (if forallb TestSqlAgent.success rs then 0 else 1).
Proof.
  destruct (forallb TestSqlAgent.success rs) eqn:E.
  - apply summary_iff_sql. exact E.
  - destruct (summary_exit_codes_sql rs) as [H|H]; [|exact H].
    apply summary_iff_sql in H. congruence.
Qed.

Lemma test_github_main_decided w agent_id mcp_tool thread startup :
  test_github_starts w agent_id mcp_tool thread startup ->
  decided_by_results TestGithubAgent.success
    (TestGithubAgent.run_scenarios w thread agent_id mcp_tool
       TestGithubAgent.TEST_SCENARIOS [])
    startup (TestGithubAgent.main w).
Proof.
  intros (project_config & agent_config & endpoint & name & mcpServer & label
          & url & agent & Hstartup & Hproject & Hagent & Hendpoint & Hname
          & Hserver & Hlabel & Hurl & Hhealth & Hclient & Hfind & Htruthy
          & Hget & Htool & Hthread).
  cbn [app] in *. subst startup mcp_tool.
  assert (Hmain :
    TestGithubAgent.main w []
    = match TestGithubAgent.run_scenarios w thread agent_id
              (new_McpTool label url (JArr []))
              TestGithubAgent.TEST_SCENARIOS []
              [CGetProjectConfig; CGetAgentConfig "github"; CHttpGet url;
               CProjectClient endpoint; CFindAgentByName name;
               CGetAgent agent_id; CThreadsCreate] with
      | (Returned rs, log) => (Returned (TestGithubAgent.summary rs), log)
      | (Raised _, log) => (Returned (Exit 1), log)
      | (Unfinished, log) => (Unfinished, log)
      end).
  { unfold TestGithubAgent.main, TestGithubAgent.session,
      TestGithubAgent.check_endpoint_health,
      try_except, try_except_when, bind, call, lift, ret.
    cbn [app]. rewrite Hproject. cbn [app]. rewrite Hagent.
    rewrite Hendpoint, Hname, Hserver, Hurl, Hlabel. cbn [app].
    destruct (http_get w _) as [code|e] eqn:Ehttp;
      [|rewrite (Hhealth e eq_refl); cbn [ExnClass_eqb]];
      cbn [app]; rewrite Hclient; cbn [app]; rewrite Hfind, Htruthy;
      cbn [negb app]; rewrite Hget; cbn [app]; rewrite Hthread;
      destruct (TestGithubAgent.run_scenarios _ _ _ _ _ _ _) as [[rs|e'|] log];
      reflexivity. }
  unfold decided_by_results, run_script. rewrite Hmain.
  pose proof (test_github_scenarios_settles w (fun _ => True) (fun _ _ => I)
                thread agent_id (new_McpTool label url (JArr []))
                TestGithubAgent.TEST_SCENARIOS [] (Forall_nil _)
                [CGetProjectConfig; CGetAgentConfig "github"; CHttpGet url;
                 CProjectClient endpoint; CFindAgentByName name;
                 CGetAgent agent_id; CThreadsCreate]) as (extra & _ & _ & Hres).
  destruct (TestGithubAgent.run_scenarios _ _ _ _ _ _ _) as [[rs|e|] log];
    cbn [fst] in Hres.
  - rewrite summary_code_github. reflexivity.
  - reflexivity.
  - exact Hres.
Qed.

Lemma test_sql_main_decided w agent_id mcp_tool thread startup :
  test_sql_starts w agent_id mcp_tool thread startup ->
  decided_by_results TestSqlAgent.success
    (TestSqlAgent.run_scenarios w thread agent_id mcp_tool
       TestSqlAgent.TEST_SCENARIOS [])
    startup (TestSqlAgent.main w).
Proof.
  intros (project_config & agent_config & endpoint & name & mcpServer & label
          & url & authType & tools & api_key & agent & Hstartup & Hproject
          & Hagent & Hendpoint & Hname & Hserver & Hlabel & Hurl & Hauth & Hkey
          & Hclient & Hfind & Htruthy & Hget & Htools & Htool & Hthread).
  cbv zeta in *.
  assert (Hmain :
    TestSqlAgent.main w []
    = match TestSqlAgent.run_scenarios w thread agent_id mcp_tool
              TestSqlAgent.TEST_SCENARIOS [] startup with
      | (Returned rs, log) => (Returned (TestSqlAgent.summary rs), log)
      | (Raised _, log) => (Returned (Exit 1), log)
      | (Unfinished, log) => (Unfinished, log)
      end).
  { unfold TestSqlAgent.main, TestSqlAgent.session,
      TestSqlAgent.get_api_key_if_required, TestSqlAgent.init_mcp_tool,
      try_except, try_except_when, bind, call, lift, ret.
    cbn [app]. rewrite Hproject. cbn [app]. rewrite Hagent.
    rewrite Hendpoint, Hname, Hserver, Hurl, Hlabel, Hauth.
    destruct (Json_eqb authType (JStr "apiKey"));
      cbn [app] in *; [rewrite Hkey | subst api_key];
      cbn [app]; rewrite Hclient; cbn [app]; rewrite Hfind, Htruthy;
      cbn [negb app]; rewrite Hget; rewrite Htools; cbn [app];
      rewrite <- Hstartup, Hthread, <- Htool;
      destruct (TestSqlAgent.run_scenarios _ _ _ _ _ _ _) as [[rs|e'|] log];
      reflexivity. }
  unfold decided_by_results, run_script. rewrite Hmain.
  pose proof (test_sql_scenarios_settles w (fun _ => True) (fun _ _ => I)
                thread agent_id mcp_tool
                TestSqlAgent.TEST_SCENARIOS [] (Forall_nil _) startup)
    as (extra & _ & _ & Hres).
  destruct (TestSqlAgent.run_scenarios _ _ _ _ _ _ _) as [[rs|e|] log];
    cbn [fst] in Hres.
  - rewrite summary_code_sql. reflexivity.
  - reflexivity.
  - exact Hres.
Qed.

(** *** The chat loops *)

Lemma chat_github_pass_ends w agent_id mcp_tool st ev log :
  ends_chat ev = true ->
  ChatGithubAgent.chat_pass w agent_id mcp_tool st ev log
  = (Returned (Leave tt), log).
Proof.
  destruct ev as [raw|e|]; cbn [ends_chat]; intros Hends;
    [|discriminate | reflexivity].
  pose proof (goodbye_is_something raw Hends) as Hsome.
  unfold says_goodbye in Hends.
  unfold ChatGithubAgent.chat_pass. cbv zeta. rewrite Hsome, Hends.
  reflexivity.
Qed.

Lemma chat_sql_pass_ends w agent_id mcp_tool thread ev log :
  ends_chat ev = true ->
  ChatSqlAgent.chat_pass w agent_id mcp_tool thread ev log
  = (Returned (Leave tt), log).
Proof.
  destruct ev as [raw|e|]; cbn [ends_chat]; intros Hends;
    [|discriminate | reflexivity].
  pose proof (goodbye_is_something raw Hends) as Hsome.
  unfold says_goodbye in Hends.
  unfold ChatSqlAgent.chat_pass. cbv zeta. rewrite Hsome, Hends.
  reflexivity.
Qed.

Lemma left_only_at_the_end ev :
  ev = Interrupt \/ (exists raw, ev = Line raw /\ says_goodbye raw = true) ->
  ends_chat ev = true.
Proof. intros [->|(raw & -> & H)]; [reflexivity | exact H]. Qed.

Lemma chat_github_loop_result w agent_id mcp_tool console :
  forall st log,
    fst (ChatGithubAgent.chat_loop w agent_id mcp_tool console st log)
    = Returned (existsb ends_chat console).
Proof.
  induction console as [|ev rest IH]; intros st log;
    cbn [ChatGithubAgent.chat_loop existsb]; [reflexivity|].
  unfold bind. destruct (ends_chat ev) eqn:Eev.
  - rewrite chat_github_pass_ends by exact Eev. reflexivity.
  - destruct (settled_result (fun _ => True) _ _
                (chat_github_pass_turn w agent_id mcp_tool st ev)
                (chat_github_pass_returns w (fun _ => True) (fun _ _ => I)
                   agent_id mcp_tool st ev) log) as (c & Hc & Hturn).
    destruct (ChatGithubAgent.chat_pass w agent_id mcp_tool st ev log)
      as [res log1].
    cbn [fst] in Hc. subst res. destruct c as [st'|u].
    + cbn [orb]. apply IH.
    + cbn [chat_github_turn] in Hturn.
      apply left_only_at_the_end in Hturn. congruence.
Qed.

Lemma chat_sql_loop_result w agent_id mcp_tool console :
  forall thread log,
    fst (ChatSqlAgent.chat_loop w agent_id mcp_tool console thread log)
    = Returned (existsb ends_chat console).
Proof.
  induction console as [|ev rest IH]; intros thread log;
    cbn [ChatSqlAgent.chat_loop existsb]; [reflexivity|].
  unfold bind. destruct (ends_chat ev) eqn:Eev.
  - rewrite chat_sql_pass_ends by exact Eev. reflexivity.
  - destruct (settled_result (fun _ => True) _ _
                (chat_sql_pass_turn w agent_id mcp_tool thread ev)
                (chat_sql_pass_returns w (fun _ => True) (fun _ _ => I)
                   agent_id mcp_tool thread ev) log) as (c & Hc & Hturn).
    destruct (ChatSqlAgent.chat_pass w agent_id mcp_tool thread ev log)
      as [res log1].
    cbn [fst] in Hc. subst res. destruct c as [thread'|u].
    + cbn [orb]. apply IH.
    + cbn [chat_sql_turn] in Hturn.
      apply left_only_at_the_end in Hturn. congruence.
Qed.

Lemma chat_github_main_outcome w agent_id mcp_tool thread startup console :
  chat_github_starts w agent_id mcp_tool thread startup ->
  run_script (ChatGithubAgent.main w console)
  = (Some (chat_outcome console),
     snd (ChatGithubAgent.chat_loop w agent_id mcp_tool console
            (ChatGithubAgent.mkChat thread 0) startup)).
Proof.
  intros (project_config & agent_config & endpoint & name & mcpServer & label
          & url & Hstartup & Hproject & Hagent & Hhost & Hendpoint & Hname
          & Hserver & Hlabel & Hurl & Hclient & Hfind & Htruthy & Htool
          & Hthread).
  cbv zeta in *. cbn [app] in *. subst startup mcp_tool.
  match goal with
  | |- _ = (_, snd (ChatGithubAgent.chat_loop ?w ?a ?t ?c ?st ?l)) =>
      pose proof (chat_github_loop_result w a t c st l) as Hloop
  end.
  unfold run_script, ChatGithubAgent.main, ChatGithubAgent.session,
    try_except, try_except_when, bind, call, lift, ret.
  start_up.
  match goal with
  | |- context [ChatGithubAgent.chat_loop ?w ?a ?t ?c ?st ?l] =>
      destruct (ChatGithubAgent.chat_loop w a t c st l) as [res log]
  end.
  cbn [fst snd] in *. subst res. unfold chat_outcome.
  destruct (existsb ends_chat console); reflexivity.
Qed.

Lemma chat_sql_main_outcome w agent_id mcp_tool thread startup console :
  chat_sql_starts w agent_id mcp_tool thread startup ->
  run_script (ChatSqlAgent.main w console)
  = (Some (chat_outcome console),
     snd (ChatSqlAgent.chat_loop w agent_id mcp_tool console thread startup)).
Proof.
  intros (project_config & agent_config & endpoint & name & mcpServer & label
          & url & config & infrastructure & mcp & keyVault & key_vault_name
          & secret_name & tools & api_key & Hstartup & Hproject & Hagent
          & Hhost & Hendpoint & Hname & Hserver & Hlabel & Hurl & Hclient
          & Hfind & Htruthy & Hload & Hinfra & Hmcp & Hvault & Hvname & Hsname
          & Hsecret & Htools & Htool & Hthread).
  cbv zeta in *. cbn [app] in *. subst startup mcp_tool.
  match goal with
  | |- _ = (_, snd (ChatSqlAgent.chat_loop ?w ?a ?t ?c ?st ?l)) =>
      pose proof (chat_sql_loop_result w a t c st l) as Hloop
  end.
  unfold run_script, ChatSqlAgent.main, ChatSqlAgent.session,
    ChatSqlAgent.init_mcp_tool,
    try_except, try_except_when, bind, call, lift, ret.
  start_up.
  match goal with
  | |- context [ChatSqlAgent.chat_loop ?w ?a ?t ?c ?st ?l] =>
      destruct (ChatSqlAgent.chat_loop w a t c st l) as [res log]
  end.
  cbn [fst snd] in *. subst res. unfold chat_outcome.
  destruct (existsb ends_chat console); reflexivity.
Qed.

Lemma helpful_test_github_starts :
  test_github_starts helpful "asst_1"
    (new_McpTool (JStr "github") (JStr "https://gh.example/mcp") (JArr []))
    (mkThread "thread_1")
    [CGetProjectConfig; CGetAgentConfig "github";
     CHttpGet (JStr "https://gh.example/mcp");
     CProjectClient
       (JStr "https://demo.services.ai.azure.com/api/projects/demo");
     CFindAgentByName (JStr "github-agent"); CGetAgent "asst_1";
     CThreadsCreate].
Proof.
  exists project_settings, github_agent_config,
    (JStr "https://demo.services.ai.azure.com/api/projects/demo"),
    (JStr "github-agent"),
    (JObj [("url", JStr "https://gh.example/mcp"); ("label", JStr "github");
           ("authType", JStr "none")]),
    (JStr "github"), (JStr "https://gh.example/mcp"),
    (mkAgent "asst_1" "github-agent" "gpt-4o" "t0").
  cbv zeta. repeat split; try reflexivity.
  intros e H. discriminate H.
Defined.

Lemma helpful_chat_sql_starts :
  chat_sql_starts helpful "asst_1"
    (update_headers "X-API-Key" "abc123"
       (new_McpTool (JStr "mssql") (JStr "https://sql.example/mcp") (JArr [])))
    (mkThread "thread_1")
    [CGetProjectConfig; CGetAgentConfig "sql";
     CProjectClient
       (JStr "https://demo.services.ai.azure.com/api/projects/demo");
     CFindAgentByName (JStr "sql-agent"); CLoadConfig;
     CGetSecret (JStr "kv-demo") (JStr "mcp-api-key"); CThreadsCreate].
Proof.
  exists project_settings, sql_agent_config,
    (JStr "https://demo.services.ai.azure.com/api/projects/demo"),
    (JStr "sql-agent"),
    (JObj [("url", JStr "https://sql.example/mcp"); ("label", JStr "mssql");
           ("authType", JStr "apiKey")]),
    (JStr "mssql"), (JStr "https://sql.example/mcp"),
    (JObj full_config),
    (JObj [("mcp", JObj [("keyVault",
                          JObj [("name", JStr "kv-demo");
                                ("apiKeySecretName", JStr "mcp-api-key")])])]),
    (JObj [("keyVault", JObj [("name", JStr "kv-demo");
                              ("apiKeySecretName", JStr "mcp-api-key")])]),
    (JObj [("name", JStr "kv-demo"); ("apiKeySecretName", JStr "mcp-api-key")]),
    (JStr "kv-demo"), (JStr "mcp-api-key"), (JArr []), (Some "abc123").
  cbv zeta. repeat split; reflexivity.
Defined.

Lemma helpful_test_sql_starts :
  test_sql_starts helpful "asst_1"
    (update_headers "X-API-Key" "abc123"
       (new_McpTool (JStr "mssql") (JStr "https://sql.example/mcp") (JArr [])))
    (mkThread "thread_1")
    [CGetProjectConfig; CGetAgentConfig "sql"; CGetMcpApiKey;
     CProjectClient
       (JStr "https://demo.services.ai.azure.com/api/projects/demo");
     CFindAgentByName (JStr "sql-agent"); CGetAgent "asst_1";
     CThreadsCreate].
Proof.
  exists project_settings, sql_agent_config,
    (JStr "https://demo.services.ai.azure.com/api/projects/demo"),
    (JStr "sql-agent"),
    (JObj [("url", JStr "https://sql.example/mcp"); ("label", JStr "mssql");
           ("authType", JStr "apiKey")]),
    (JStr "mssql"), (JStr "https://sql.example/mcp"), (JStr "apiKey"),
    (JArr []), (Some "abc123"),
    (mkAgent "asst_1" "github-agent" "gpt-4o" "t0").
  cbv zeta. repeat split; reflexivity.
Defined.

Lemma helpful_chat_github_starts :
  chat_github_starts helpful "asst_1"
    (set_approval_mode "never"
       (new_McpTool (JStr "github") (JStr "https://gh.example/mcp") (JArr [])))
    (mkThread "thread_1")
    [CGetProjectConfig; CGetAgentConfig "github";
     CProjectClient
       (JStr "https://demo.services.ai.azure.com/api/projects/demo");
     CFindAgentByName (JStr "github-agent"); CThreadsCreate].
Proof.
  exists project_settings, github_agent_config,
    (JStr "https://demo.services.ai.azure.com/api/projects/demo"),
    (JStr "github-agent"),
    (JObj [("url", JStr "https://gh.example/mcp"); ("label", JStr "github");
           ("authType", JStr "none")]),
    (JStr "github"), (JStr "https://gh.example/mcp").
  cbv zeta. repeat split; reflexivity.
Defined.

(** C6, as the code has it.  Every entry point ends its process with exit
    code 0 or 1; the interactive ones may instead still wait for console
    input, and a deployment script dies of an operator's interrupt at its
    prompt.  A code other than 1 needs the configuration to have been read
    and the project connection made and, in the test and chat scripts, the
    agent found by name; code 0 of a test script needs a run the service
    reported completed.  Once the start-up of a test script has gone
    through, its exit code is decided by its scenarios: 0 when they all
    return a result and every recorded result is a success, 1 when a
    recorded result is a failure or a scenario raises; the summary gives 0
    exactly when every result is a success.  Once the start-up of a chat
    script has gone through, its process ends with code 0 exactly when the
    console ends the chat (quit, exit, bye or an interrupt) and is otherwise
    still waiting for input, whatever the service answers inside the turns:
    the chat loop returns for every world, and whether it was left depends
    on the console alone. *)
Theorem exit_codes :
  forall (w : World) (console : list ConsoleEvent),
    exit_report [Exit 0; Interrupted; AwaitingInput]
      (McpGithubAgent.main w console) (file_read w /\ connected w) True
    /\ exit_report [Exit 0; Interrupted; AwaitingInput]
         (McpSqlAgent.main w console) (file_read w /\ connected w) True
    /\ exit_report [Exit 0] (TestGithubAgent.main w)
         (config_read w /\ connected w /\ agent_found w) (completed_seen w)
    /\ exit_report [Exit 0] (TestSqlAgent.main w)
         (config_read w /\ connected w /\ agent_found w) (completed_seen w)
    /\ exit_report [Exit 0; AwaitingInput] (ChatGithubAgent.main w console)
         (config_read w /\ connected w /\ agent_found w) True
    /\ exit_report [Exit 0; AwaitingInput] (ChatSqlAgent.main w console)
         (config_read w /\ connected w /\ agent_found w) True
    /\ (forall rs, TestGithubAgent.summary rs = Exit 0
                   <-> forallb TestGithubAgent.success rs = true)
    /\ (forall rs, TestSqlAgent.summary rs = Exit 0
                   <-> forallb TestSqlAgent.success rs = true)
    /\ (forall agent_id mcp_tool thread startup,
          test_github_starts w agent_id mcp_tool thread startup ->
          decided_by_results TestGithubAgent.success
            (TestGithubAgent.run_scenarios w thread agent_id mcp_tool
               TestGithubAgent.TEST_SCENARIOS [])
            startup (TestGithubAgent.main w))
    /\ (forall agent_id mcp_tool thread startup,
          test_sql_starts w agent_id mcp_tool thread startup ->
          decided_by_results TestSqlAgent.success
            (TestSqlAgent.run_scenarios w thread agent_id mcp_tool
               TestSqlAgent.TEST_SCENARIOS [])
            startup (TestSqlAgent.main w))
    /\ (forall agent_id mcp_tool st log,
          fst (ChatGithubAgent.chat_loop w agent_id mcp_tool console st log)
          = Returned (existsb ends_chat console))
    /\ (forall agent_id mcp_tool thread log,
          fst (ChatSqlAgent.chat_loop w agent_id mcp_tool console thread log)
          = Returned (existsb ends_chat console))
    /\ (forall agent_id mcp_tool thread startup,
          chat_github_starts w agent_id mcp_tool thread startup ->
          run_script (ChatGithubAgent.main w console)
          = (Some (chat_outcome console),
             snd (ChatGithubAgent.chat_loop w agent_id mcp_tool console
                    (ChatGithubAgent.mkChat thread 0) startup)))
    /\ (forall agent_id mcp_tool thread startup,
          chat_sql_starts w agent_id mcp_tool thread startup ->
          run_script (ChatSqlAgent.main w console)
          = (Some (chat_outcome console),
             snd (ChatSqlAgent.chat_loop w agent_id mcp_tool console
                    thread startup))).
Proof.
  intros w console.
  repeat match goal with |- _ /\ _ => split end.
  - apply (report_of_settles (fun _ => True)).
    eapply settles_weaken;
      [intros c Hc; exact Hc |
      | apply (github_deploy_main_settles w (fun _ => True) console);
        intros; exact I].
    intros o [E|([E|[E|E]] & Hf & Hc)]; [auto| | |]; right; subst o;
      cbn; auto 6.
  - apply (report_of_settles (fun _ => True)).
    eapply settles_weaken;
      [intros c Hc; exact Hc | | apply (sql_deploy_main_settles w console)].
    intros o [E|([E|[E|E]] & Hf & Hc)]; [auto| | |]; right; subst o;
      cbn; auto 6.
  - apply (report_of_settles (fun _ => True)).
    eapply settles_weaken;
      [intros c Hc; exact Hc |
      | apply (test_github_main_settles w (fun _ => True)); intros; exact I].
    intros o [E|(E & Hcfg & Hconn & Hf & Hdone)]; [auto|]. right. subst o.
    cbn. auto 6.
  - apply (report_of_settles (fun _ => True)).
    eapply settles_weaken;
      [intros c Hc; exact Hc |
      | apply (test_sql_main_settles w (fun _ => True)); intros; exact I].
    intros o [E|(E & Hcfg & Hconn & Hf & Hdone)]; [auto|]. right. subst o.
    cbn. auto 6.
  - apply (report_of_settles (fun _ => True)).
    eapply settles_weaken;
      [intros c Hc; exact Hc |
      | apply (chat_github_main_settles w (fun _ => True)); intros; exact I].
    intros o [E|([E|E] & Hcfg & Hconn & Hf)]; [auto| |]; right; subst o;
      cbn; auto 6.
  - apply (report_of_settles (fun _ => True)).
    eapply settles_weaken;
      [intros c Hc; exact Hc | | apply (chat_sql_main_settles w console)].
    intros o [E|([E|E] & Hcfg & Hconn & Hf)]; [auto| |]; right; subst o;
      cbn; auto 6.
  - apply summary_iff_github.
  - apply summary_iff_sql.
  - intros agent_id mcp_tool thread startup. apply test_github_main_decided.
  - intros agent_id mcp_tool thread startup. apply test_sql_main_decided.
  - intros agent_id mcp_tool st log. apply chat_github_loop_result.
  - intros agent_id mcp_tool thread log. apply chat_sql_loop_result.
  - intros agent_id mcp_tool thread startup. apply chat_github_main_outcome.
  - intros agent_id mcp_tool thread startup. apply chat_sql_main_outcome.
Qed.

(** C6 as stated fails on the chat scripts: the connection drops while a
    message is being created, the chat loop handles the failure, and the
    session still ends with exit code 0. *)
Lemma exit_codes_counterexample :
  run_script (ChatGithubAgent.main flaky [Line "hello"; Line "quit"])
  = (Some (Exit 0),
     [CGetProjectConfig; CGetAgentConfig "github";
      CProjectClient
        (JStr "https://demo.services.ai.azure.com/api/projects/demo");
      CFindAgentByName (JStr "github-agent"); CThreadsCreate;
      CMessagesCreate "thread_1" "user" "hello"])
  /\ messages_create flaky
       [CGetProjectConfig; CGetAgentConfig "github";
        CProjectClient
          (JStr "https://demo.services.ai.azure.com/api/projects/demo");
        CFindAgentByName (JStr "github-agent"); CThreadsCreate;
        CMessagesCreate "thread_1" "user" "hello"]
     = Raise connection_aborted
  /\ fst (run_script (ChatSqlAgent.main flaky [Line "hello"; Line "quit"]))
     = Some (Exit 0).
Proof. repeat split; vm_compute; reflexivity. Qed.

(** Full success is within reach of every entry point.  On a service in
    good order the start-up of the test and chat scripts goes through: the
    test scripts are decided by their scenarios, and the chat scripts end
    with code 0 on [quit]. *)
Lemma exit_codes_witness :
  (completed_seen helpful
   /\ config_read helpful /\ connected helpful /\ agent_found helpful)
  /\ decided_by_results TestGithubAgent.success
       (TestGithubAgent.run_scenarios helpful (mkThread "thread_1") "asst_1"
          (new_McpTool (JStr "github") (JStr "https://gh.example/mcp") (JArr []))
          TestGithubAgent.TEST_SCENARIOS [])
       [CGetProjectConfig; CGetAgentConfig "github";
        CHttpGet (JStr "https://gh.example/mcp");
        CProjectClient
          (JStr "https://demo.services.ai.azure.com/api/projects/demo");
        CFindAgentByName (JStr "github-agent"); CGetAgent "asst_1";
        CThreadsCreate]
       (TestGithubAgent.main helpful)
  /\ decided_by_results TestSqlAgent.success
       (TestSqlAgent.run_scenarios helpful (mkThread "thread_1") "asst_1"
          (update_headers "X-API-Key" "abc123"
             (new_McpTool (JStr "mssql") (JStr "https://sql.example/mcp")
                (JArr [])))
          TestSqlAgent.TEST_SCENARIOS [])
       [CGetProjectConfig; CGetAgentConfig "sql"; CGetMcpApiKey;
        CProjectClient
          (JStr "https://demo.services.ai.azure.com/api/projects/demo");
        CFindAgentByName (JStr "sql-agent"); CGetAgent "asst_1";
        CThreadsCreate]
       (TestSqlAgent.main helpful)
  /\ fst (run_script (ChatGithubAgent.main helpful [Line "hello"; Line "quit"]))
     = Some (chat_outcome [Line "hello"; Line "quit"])
  /\ fst (run_script (ChatSqlAgent.main helpful [Line "hello"; Line "quit"]))
     = Some (chat_outcome [Line "hello"; Line "quit"])
  /\ fst (run_script (TestGithubAgent.main helpful)) = Some (Exit 0)
  /\ fst (run_script (TestSqlAgent.main helpful)) = Some (Exit 0)
  /\ fst (run_script (ChatGithubAgent.main helpful [Line "hello"; Line "quit"]))
     = Some (Exit 0)
  /\ fst (run_script (ChatSqlAgent.main helpful [Line "hello"; Line "quit"]))
     = Some (Exit 0)
  /\ fst (run_script (McpGithubAgent.main helpful [Line "y"])) = Some (Exit 0)
  /\ fst (run_script (McpSqlAgent.main helpful [Line "n"])) = Some (Exit 0)
  /\ fst (run_script (McpSqlAgent.main helpful [])) = Some AwaitingInput.
Proof.
  split; [|split; [|split; [|split; [|split]]]].
  - destruct (exit_codes helpful []) as (_ & _ & (_ & Hneed & Hzero) & _).
    split; [apply Hzero; vm_compute; reflexivity|].
    apply Hneed. vm_compute. discriminate.
  - destruct (exit_codes helpful [])
      as (_ & _ & _ & _ & _ & _ & _ & _ & Hdecided & _).
    apply Hdecided. exact helpful_test_github_starts.
  - destruct (exit_codes helpful [])
      as (_ & _ & _ & _ & _ & _ & _ & _ & _ & Hdecided & _).
    apply Hdecided. exact helpful_test_sql_starts.
  - destruct (exit_codes helpful [Line "hello"; Line "quit"])
      as (_ & _ & _ & _ & _ & _ & _ & _ & _ & _ & _ & _ & Hchat & _).
    rewrite (Hchat _ _ _ _ helpful_chat_github_starts). reflexivity.
  - destruct (exit_codes helpful [Line "hello"; Line "quit"])
      as (_ & _ & _ & _ & _ & _ & _ & _ & _ & _ & _ & _ & _ & Hchat).
    rewrite (Hchat _ _ _ _ helpful_chat_sql_starts). reflexivity.
  - repeat split; vm_compute; reflexivity.
Defined.
